(* ===== verification/_CoqProject ===== *)
-Q . S2P
Prelude.v
JsValue.v
AppError.v
QueryJson.v
APIFeatures.v
Store.v
HandlerFactory.v
UserModel.v
Auth.v
ApiKey.v
Settings.v
Cabin.v
ErrorController.v
Routes.v
Booking.v
Users.v
Guest.v
BookingModel.v
CabinStore.v
Config.v
App.v
Email.v
Logger.v
Server.v
Startup.v
