(* ===== verification/Prelude.v ===== *)
(** * The Wild Oasis API server: a verification development

    The program ([src/src]) is an Express/Mongoose REST API.  A request
    runs through middleware ([checkApiKey], [protect], [restrictTo]) to a
    handler of a controller; handlers are [async] functions that read and
    write MongoDB collections through Mongoose models, and a rejection is
    turned by [catchAsync] into [next(err)] for the global error handler.

    ** Files, in dependency order
    - [Prelude] (this file): the result type [res], the state/exception
      monad [M] of handlers with its laws and setoid equivalence, the
      tactics [run_M] and [invc], hint databases, list and order lemmas
      shared by the components, invariants of a computation ([preserves],
      with [preserve_tac]), and the interleaving of threads ([tstep]):
      each thread is a request suspended at an [await], a step one store
      round trip.
    - [JsValue]: the ECMAScript values the code relies on: numbers
      ([jsnum], exact rationals with [NaN] and infinities) and [Number()]
      on strings, [||], the query-string values of Express ([qval]), the
      string methods [replace], [split], [join], [toLowerCase].
    - [AppError] ([utils/AppError.ts], [utils/catchAsync.ts]): the
      operational error, the error kinds a request can end with, handler
      outcomes, [catchAsync].
    - [QueryJson]: [JSON.stringify], the regex rewrite of
      [APIFeatures.filter] and [JSON.parse], executable with fuel; the
      parse/stringify round trip and the sufficiency of the rewrite's
      fuel, on which [APIFeatures.filter_spec] rests.
    - [APIFeatures] ([utils/APIFeatures.ts]): the query builder; the
      mongoose query is the record [Query] of what the builder sets, the
      [sort] and [select] strings read as mongoose reads them (split on
      [/\s+/], empty fields skipped); what
      [filter] does to a plain query string, string values included (C30).
    - [Store]: the Entity Store (MongoDB) as an interface class [Store]
      with order laws, and [find]/[countDocuments] as the server runs them
      (skip and limit checks, negative limits, mixed projections); a
      reference instance over integer fields.
    - [HandlerFactory] ([controllers/handlerFactory.ts]): the five
      generic handlers over a collection with an operation log, generic in
      a [Model] record with laws; the list-request theorems (C1-C4), the
      id invariant over any request sequence ([reachable_ids_distinct])
      and the generic invariant [reachable_inv].
    - [UserModel] ([models/userModel.ts]): the user schema, validators,
      the unique email index, both save hooks, the find hook, the instance
      methods; hashing through the interface class [Crypto].
    - [Auth] ([controllers/authController.ts]): every auth handler over
      the users, outgoing mail and the response cookie; JWTs through the
      interface class [Jwt] with the laws of [jsonwebtoken]; login
      uniformity (C8), the stale-token check (C9), signup and
      email verification (C11, C12).
    - [ApiKey] ([models/apiKeyModel.ts], [controllers/apiKeyController.ts]):
      both statics, the unused [deactivateApiKey] and both handlers, sequentially and as threads whose
      store round trips interleave ([cstep]); C14, C15, C18-C21.
    - [Settings] ([controllers/settingController.ts],
      [models/settingModel.ts]): the four handlers of the singleton
      setting, its validators, sequential service (the singleton kept,
      lifted to the whole server in [Server]) and the race of two
      [createSettings] that leaves two documents (C22); an update that
      stores [min > max] (C23).
    - [Cabin] ([controllers/cabinController.ts], [models/cabinModel.ts]):
      [createCabin], [updateCabin], [createDuplicateCabin] over the cabins
      and the image bucket, the schema's casts, validators, unique indexes
      and slug hook; creation (C32), the image left behind by a failed
      create (C33).
    - [ErrorController] ([controllers/errorController.ts]): the global
      error handler in both environments; in production it refines the
      error taxonomy of the specification (C37), the body parser's
      errors excepted.
    - [Routes] ([routes/v1/*.ts], [app.ts]): the route table with each
      middleware chain, dispatch, and the chain run over the user and key
      stores with [checkApiKey], [protect] and [restrictTo]; the handlers
      an anonymous request reaches (C39).
    - [Booking] ([controllers/bookingController.ts],
      [models/bookingModel.ts]): the two aggregation handlers and date-fns'
      [eachDayOfInterval] (its loop with fuel equal to the number of days,
      proved enough); the booked dates of a cabin (C24).
    - [Users] ([controllers/userController.ts]): [getMe] and [updateMe]
      over the users and the avatars bucket; [updateMe] changes no user's
      credentials (C10).
    - [Guest] ([models/guestModel.ts], [controllers/guestController.ts]):
      the guest document as a [Store] instance with its order laws and the
      Guest schema as a [Model] with its laws, so the guest controller is
      the generic handlers; the schema's types and the unique email index
      hold in every reachable collection (C26), by the generic
      [HandlerFactory.reachable_inv].
    - [BookingModel] ([models/bookingModel.ts], the five generic handlers
      of [controllers/bookingController.ts]): the booking as a [Store]
      (typed paths, the cast of filter values, the order of each type) and
      the schema as a [Model]: mongoose's cast of each JSON body value to
      its path's type, the required and enum validators, the defaults, the
      order of the error list, the update's cast error and update
      validators.  The spec's list example (C6); every stored booking can
      be checked out by one request (C34).
    - [CabinStore] (the generic handlers of
      [controllers/cabinController.ts]): the cabin document as a [Store]
      (typed paths, filter casts and value orders shared with
      [BookingModel]) and the Cabin model with an empty body type (the
      factory's create and update are never routed to it), so
      [getAllCabins], [getCabin] and [deleteCabin] are the factory's; the
      unique indexes as an invariant of all six cabin handlers (C31), a
      created cabin read back (C16), and a deleted cabin's image left in
      the bucket (C28).
    - [Config] ([lib/config/config.ts]): the Joi schema of the
      environment and its validation (presence, defaults, types, [min],
      [valid], the first error in key order), the [Error] thrown at
      start-up, the [config] object, and the bridge to the record
      [UserModel.Config] the handlers read; a start guarantees the
      required variables and the secret lengths (C7), and any optional
      key without default (the HMAC secret, the API-key lifetime, the
      mail transport) can be left out ([load_without_optional]).
    - [App] ([app.ts], [utils/xssSanitize.ts]): the stack of
      [createApp] over one state, the limiter's clients and the routers'
      state: [cors]'s answer to a preflight [OPTIONS] request (never
      counted by the limiter), the rate limiter ([express-rate-limit]'s memory store, a
      fixed window per client address), the 10kb JSON body parser and its
      [http-errors], [mongoSanitize], [xssSanitize] ([sanitizeInput],
      the [xss] library a parameter), [hpp] with the whitelist, the
      [/api/v1] mount on [Routes.dispatch], the catch-all 404 and
      [ErrorController.globalErrorHandler]; the work of the matched route
      is a parameter.  No operator but the four comparisons reaches
      MongoDB through the query string (C13); any 15 minutes let at most
      200 requests of a client through, a fixed window and not the
      spec's sliding one (C35); the body parser's errors answer 500 in
      production (C36); the limiter answers before any other stage
      (C38); the catch-all 404 (C40).
    - [Email] ([services/Email.ts]): the [Email] class over the mails
      [Auth] records: the first name, the sender, the subjects with the
      configured lifetimes, and [String.prototype.replace] with its
      replacement patterns filling the template; the mail a user gets
      carries the link [Auth] made (C27); [newTransport] and the sender
      read from [config], none of which a start requires (C29).
    - [Logger] ([lib/logger/morgan.ts]): morgan's compilation of the two
      log formats, its tokens and the [-] of an empty one, the skip by
      status; every response outside tests is logged once, at the level
      of its status, and an error line's message is always [-].
    - [Server] ([routes/v1/*.ts] with the controllers, [app.ts]): the
      product of a route's chain ([Routes.gate]) and its handler over one
      [World] (the users with the response cookie, mails and avatars, the
      API keys, the setting document; the cabin, guest and booking
      controllers are a parameter [rest_run] over their own state), what
      a handler reads from [req.body], [req.params] and [req.user], and
      [server]: one request through [App.app_handle] and the route
      ([server_cases]).  Only a manager or an administrator creates users,
      whatever the request (C17), or changes the setting document
      (C5; a staff session gets 403); the setting
      document stays a singleton under any sequence of requests to the
      whole server (C25), and whatever the cabin, guest and booking
      controllers keep of their state the whole server keeps
      ([server_rest_preserves]), both by [server_reachable_inv] over
      [App.app_handle_preserves].
    - [Startup] ([server.ts], [services/mongo.ts]): the configuration
      loaded at import, [startServer]'s log lines, the MongoDB connection,
      Node's port check of [listen] and the bind; when a server listens,
      and what a failed connection or a port Node refuses leave (a logged
      error and no server).

    ** Modelling choices
    - Time is milliseconds since the epoch ([Z]); JWT [iat]/[exp] are
      seconds, as [jsonwebtoken] sets them.  Randomness
      ([crypto.randomBytes], bcrypt salts), the clock and the success of a
      mail delivery are inputs of a request.
    - Hashes and JWTs are interfaces with the laws the code relies on;
      each file that uses them ends with a concrete instance on which the
      witnesses evaluate.
    - The limiter's store keeps one map of clients by address: the
      library's two maps, rotated every [windowMs], drop only clients
      whose window ended, which the next hit resets anyway.  A client is
      keyed by [req.ip] as given, the default key of express-rate-limit 7;
      version 8 keys an IPv6 address by its /56 subnet instead.  The
      repository pins no version (it has no [package.json]); with the
      subnet key, the bound of C35 holds per subnet and so per address.
    - Fuel: [json_parse] and [rewrite_ops] recurse with fuel equal to one
      more than the length of their input, which bounds the number of
      characters each call consumes, so they never run out on a complete
      input.
    - Concurrency is modelled where the code has a read-then-write window
      (the API-key statics, [createSettings]): a request is split at its
      [await]s and steps interleave, each store round trip atomic.
    - Multipart bodies carry strings; numbers reach the schema through
      mongoose's [Number] cast, modelled on [jsnum].  [slugify] and the
      storage's public URL are parameters of the cabin handlers.

    ** Not modelled
    Joi's conversion of a string to a number (a parameter of [Config]).
    The cabin, guest and booking handlers inside [Server]: their models
    keep separate stores ([Cabin.CState], the generic collections of
    [Guest] and [BookingModel], [Booking]'s aggregation state), so the
    server takes them as the parameter [rest_run] and its theorems hold
    for any of them.  A request body value that is not a string (or, for
    the setting paths, not a number) is read as absent by [Server], where
    mongoose would cast it.
    Paths are compared case-sensitively (Express's default is not).
    The [populate] of the booking find hook (the cabin and the guest
    documents embedded in a booking): a booking is shown with the ids it
    references.  An [_id] in a create body (the model assigns the id).
    The [timestamps] of the cabin schema ([createdAt], [updatedAt]): a
    list request that sorts or filters on them sees them missing.
    Parsing a date string and printing a number are parameters of the
    booking model.
    The content of uploaded files and the Supabase transport (the bucket
    is a list of object names; an upload's success is an input), the
    e-mail template files, html-to-text and SMTP,
    the winston logger ([lib/logger/logger.ts], absent from the
    repository), the header-only middleware of [app.ts]
    (helmet, the headers of CORS, cookie-parser's signature check,
    compression), the
    ESLint configuration, the Supabase client of [services/supabase.ts]
    (built from two configuration values) and what the MongoDB driver and
    the bind answer: they are I/O or library wiring; the values they
    provide are parameters.  Node's [ERR_SOCKET_BAD_PORT] is kept as its
    code, without its message text.  Joi
    compares string lengths in UTF-16 code units, [Config] in bytes: the
    same on the ASCII values of an environment. *)

From stdpp Require Export base list gmap strings.
From Stdlib Require Export ZArith Ascii.
From Stdlib Require String.
From Stdlib Require OrdersEx.

Declare Scope oasis_scope.
Delimit Scope oasis_scope with oasis.

(** ** Results of an asynchronous computation

    Every handler of the server is an [async] function: it either resolves
    with a value or rejects with an error (a [throw], or a rejected promise
    it awaited).  [res E A] is that settled state. *)
Inductive res (E A : Type) : Type :=
| Ok (a : A)
| Throw (e : E).
Arguments Ok {E A} a.
Arguments Throw {E A} e.

(** ** The handler monad

    A handler reads and writes the document store between its [await]s; we
    thread that store explicitly.  [M S E A] is a computation over a state
    [S] that resolves with an [A] or rejects with an [E]. A rejected
    computation keeps the writes it made before the rejection, as the
    database does. *)
Definition M (S E A : Type) : Type := S -> S * res E A.

#[export] Instance M_ret {S E} : MRet (M S E) := fun A a s => (s, Ok a).
#[export] Instance M_bind {S E} : MBind (M S E) := fun A B f m s =>
  match m s with
  | (s', Ok a) => f a s'
  | (s', Throw e) => (s', Throw e)
  end.

Definition throw {S E A} (e : E) : M S E A := fun s => (s, Throw e).
Definition get_st {S E} : M S E S := fun s => (s, Ok s).
Definition gets {S E A} (f : S -> A) : M S E A := fun s => (s, Ok (f s)).
Definition put_st {S E} (s : S) : M S E unit := fun _ => (s, Ok tt).
Definition modify {S E} (f : S -> S) : M S E unit := fun s => (f s, Ok tt).

(** [try { m } catch (e) { h e }]. *)
Definition catch {S E A} (m : M S E A) (h : E -> M S E A) : M S E A := fun s =>
  match m s with
  | (s', Ok a) => (s', Ok a)
  | (s', Throw e) => h e s'
  end.

(** The state and the settled result of a run. *)
(** A computed result, thrown or returned without touching the state
    ([await] on a value). *)
Definition lift {S E A} (r : res E A) : M S E A := fun s => (s, r).
Definition final {S E A} (m : M S E A) (s : S) : S := fst (m s).
Definition result {S E A} (m : M S E A) (s : S) : res E A := snd (m s).

(** ** Automation

    [oasis] collects the evaluation lemmas of the monad and of the
    components; [run_M] unfolds a handler run down to the matches on the
    store that it performs. *)
Create HintDb oasis.
Create Rewrite HintDb oasis_run.

(** Two computations are equivalent when they agree on every start state:
    the equality of the handler monad, coarser than [=] on functions. *)
#[export] Instance M_equiv {S E A} : Equiv (M S E A) := fun m1 m2 => forall s, m1 s = m2 s.

#[export] Instance M_equivalence {S E A} : Equivalence (≡@{M S E A}).
Proof. split; repeat intro; congruence. Qed.

#[export] Instance M_bind_proper {S E A B} :
  Proper (pointwise_relation A (≡) ==> (≡) ==> (≡)) (@mbind (M S E) _ A B).
Proof.
  intros f g Hfg m1 m2 Hm s. cbv [mbind M_bind]. rewrite Hm.
  destruct (m2 s) as [s' [a|e]]; [apply Hfg | reflexivity].
Qed.

#[export] Instance catch_proper {S E A} :
  Proper ((≡) ==> pointwise_relation E (≡) ==> (≡)) (@catch S E A).
Proof.
  intros m1 m2 Hm h1 h2 Hh s. unfold catch. rewrite Hm.
  destruct (m2 s) as [s' [a|e]]; [reflexivity | apply Hh].
Qed.

Section MonadLaws.
Context {S E : Type}.

Lemma bind_ret_l {A B} (a : A) (f : A -> M S E B) : (x ← mret a; f x) ≡ f a.
Proof. intros s. reflexivity. Qed.

Lemma bind_ret_r {A} (m : M S E A) : (x ← m; mret x) ≡ m.
Proof. intros s. cbv. destruct (m s) as [? [?|?]]; reflexivity. Qed.

Lemma bind_assoc {A B C} (m : M S E A) (f : A -> M S E B) (g : B -> M S E C) :
  (y ← (x ← m; f x); g y) ≡ (x ← m; y ← f x; g y).
Proof. intros s. cbv. destruct (m s) as [? [?|?]]; reflexivity. Qed.

Lemma bind_throw {A B} (e : E) (f : A -> M S E B) : (x ← throw e; f x) ≡ throw e.
Proof. intros s. reflexivity. Qed.

(** Running a bind: the first step's result decides what follows. *)
Lemma run_bind {A B} (m : M S E A) (f : A -> M S E B) s :
  (x ← m; f x) s = match m s with
                   | (s', Ok a) => f a s'
                   | (s', Throw e) => (s', Throw e)
                   end.
Proof. reflexivity. Qed.

Lemma run_bind_ok {A B} (m : M S E A) (f : A -> M S E B) s s' a :
  m s = (s', Ok a) -> (x ← m; f x) s = f a s'.
Proof. intros H. rewrite run_bind, H. reflexivity. Qed.

Lemma run_bind_throw {A B} (m : M S E A) (f : A -> M S E B) s s' e :
  m s = (s', Throw e) -> (x ← m; f x) s = (s', Throw e).
Proof. intros H. rewrite run_bind, H. reflexivity. Qed.
End MonadLaws.

#[export] Hint Rewrite @run_bind : oasis_run.

(** [run_M] evaluates the monad's plumbing in the goal and in the
    hypotheses, leaving the case analyses the handler's data decides. *)
Ltac run_M :=
  cbv [mbind mret M_bind M_ret throw lift get_st gets put_st modify catch final result] in *.

(** [invc H]: invert and clean up. *)
Ltac invc H := inversion H; subst; clear H.

(** ** Generic lemmas on lists and options shared by the components *)

Lemma filter_length_le {A} (P : A -> Prop) `{!forall x, Decision (P x)} (l : list A) :
  length (filter P l) <= length l.
Proof.
  induction l as [|x l IH]; simpl; [lia|].
  rewrite filter_cons. case_decide; simpl; lia.
Qed.

Lemma take_length_le {A} (n : nat) (l : list A) : length (take n l) <= n.
Proof. rewrite length_take. lia. Qed.

#[export] Hint Resolve filter_length_le take_length_le : oasis.

(** Replacing, in a list of records with distinct keys, the record of key
    [n] by [c] (an update by id) keeps a projection [g] duplicate-free when
    no other record shares [c]'s value of [g]. *)
Lemma NoDup_fmap_replace {A B} (key : A -> N) (g : A -> B) (n : N) (c : A) (l : list A) :
  NoDup (key <$> l) -> NoDup (g <$> l) ->
  (forall e, e ∈ l -> key e <> n -> g e <> g c) ->
  NoDup (g <$> ((fun e => if bool_decide (key e = n) then c else e) <$> l)).
Proof.
  induction l as [|e l IH]; intros Hk Hg Hc; csimpl; [constructor|].
  apply NoDup_cons in Hk as [Hk1 Hk2]. apply NoDup_cons in Hg as [Hg1 Hg2].
  apply NoDup_cons; split; [|apply IH; [done | done | intros; apply Hc; [by right | done]]].
  intros (e' & Heq & He')%list_elem_of_fmap_1. apply list_elem_of_fmap_1 in He' as (e'' & -> & He'').
  assert (key e'' ∈ key <$> l) by (by apply list_elem_of_fmap_2).
  case_bool_decide as E1; case_bool_decide as E2; subst.
  - apply Hk1. by rewrite <- E2.
  - apply (Hc e''); [by right | done | done].
  - apply (Hc e); [by left | done | done].
  - apply Hg1. rewrite Heq. by apply list_elem_of_fmap_2.
Qed.

(** In a list whose keys are distinct, the key determines the element. *)
Lemma NoDup_fmap_key_eq {A B} (key : A -> B) (l : list A) x y :
  NoDup (key <$> l) -> x ∈ l -> y ∈ l -> key x = key y -> x = y.
Proof.
  induction l as [|a l IH]; intros Hnd Hx Hy Hk; [by apply elem_of_nil in Hx|].
  csimpl in Hnd. apply NoDup_cons in Hnd as [Hn Hnd].
  apply elem_of_cons in Hx as [->|Hx]; apply elem_of_cons in Hy as [->|Hy]; auto;
    exfalso; apply Hn; [rewrite Hk | rewrite <- Hk]; by apply list_elem_of_fmap_2.
Qed.

(** Removing records keeps a projection duplicate-free. *)
Lemma NoDup_fmap_filter {A B} (g : A -> B) (p : A -> bool) (l : list A) :
  NoDup (g <$> l) -> NoDup (g <$> List.filter p l).
Proof.
  induction l as [|x l IH]; intros Hl; [constructor|]. csimpl in Hl.
  apply NoDup_cons in Hl as [Hx Hl]. cbn. destruct (p x); [|by apply IH].
  csimpl. apply NoDup_cons. split; [|by apply IH].
  intros (y & Hy & Hin)%list_elem_of_fmap_1. apply Hx. rewrite Hy.
  apply list_elem_of_fmap_2. apply list_elem_of_In in Hin. apply filter_In in Hin as [Hin _].
  by apply list_elem_of_In.
Qed.

(** Appending a record whose projection is new keeps the projection
    duplicate-free. *)
Lemma NoDup_fmap_snoc {A B} (g : A -> B) (l : list A) (c : A) :
  NoDup (g <$> l) -> (forall e, e ∈ l -> g e <> g c) -> NoDup (g <$> l ++ [c]).
Proof.
  intros Hl Hc. rewrite fmap_app. apply NoDup_app. split; [done|split; [|apply NoDup_singleton]].
  intros x (e & -> & He)%list_elem_of_fmap_1 Hx%list_elem_of_singleton. by apply (Hc e).
Qed.

(** [arr.includes(x)] on strings, as a membership test. *)
Lemma existsb_string_eqb (x : string) (l : list string) :
  existsb (String.eqb x) l = bool_decide (x ∈ l).
Proof.
  apply eq_bool_prop_intro. rewrite Is_true_true, bool_decide_spec, existsb_exists.
  rewrite list_elem_of_In. split.
  - intros (y & Hy & ->%String.eqb_eq). done.
  - intros Hx. exists x. split; [done|apply String.eqb_refl].
Qed.

(** ** Invariants of a computation

    [preserves P m]: every run of [m] from a state satisfying [P] ends in
    a state satisfying [P], whether it returns or throws. *)
Definition preserves {S E A} (P : S -> Prop) (m : M S E A) : Prop :=
  forall s, P s -> P (fst (m s)).

Section Preserves.
Context {S E : Type} (P : S -> Prop).

Lemma preserves_ret {A} (a : A) : preserves (E:=E) P (mret a).
Proof. intros s Hs. exact Hs. Qed.

Lemma preserves_throw {A} (e : E) : preserves (A:=A) P (throw e).
Proof. intros s Hs. exact Hs. Qed.

Lemma preserves_bind {A B} (m : M S E A) (f : A -> M S E B) :
  preserves P m -> (forall a, preserves P (f a)) -> preserves P (x ← m; f x).
Proof.
  intros Hm Hf s Hs. rewrite run_bind. specialize (Hm s Hs).
  destruct (m s) as [s' [a|e]]; [apply Hf|]; exact Hm.
Qed.

(** A step that reads the state may use what it read. *)
Lemma preserves_get {A} (k : S -> M S E A) :
  (forall s, P s -> P (fst (k s s))) -> preserves P (s ← get_st; k s).
Proof. intros Hk s Hs. exact (Hk s Hs). Qed.

Lemma preserves_get_st : preserves (E:=E) P get_st.
Proof. intros s Hs. exact Hs. Qed.

Lemma preserves_lift {A} (r : res E A) : preserves P (lift r).
Proof. intros s Hs. exact Hs. Qed.

Lemma preserves_put (s' : S) : P s' -> preserves (E:=E) P (put_st s').
Proof. intros H s _. exact H. Qed.

Lemma preserves_modify (f : S -> S) : (forall s, P s -> P (f s)) -> preserves (E:=E) P (modify f).
Proof. intros Hf s Hs. exact (Hf s Hs). Qed.

Lemma preserves_catch {A} (m : M S E A) (h : E -> M S E A) :
  preserves P m -> (forall e, preserves P (h e)) -> preserves P (catch m h).
Proof.
  intros Hm Hh s Hs. unfold catch. specialize (Hm s Hs).
  destruct (m s) as [s' [a|e]]; [exact Hm|exact (Hh e s' Hm)].
Qed.
End Preserves.

(** [preserve_tac]: split a handler into its binds and branches, leaving
    the invariant of each state-changing step to the hints of [oasis]. *)
Ltac preserve_tac :=
  cbn zeta;
  repeat match goal with
  | |- preserves _ (if ?b then _ else _) => destruct b
  | |- preserves _ (match ?x with _ => _ end) => destruct x
  | |- preserves _ (mbind _ _) => apply preserves_bind; [|intros]
  | |- preserves _ (catch _ _) => apply preserves_catch; [|intros]
  end;
  eauto with oasis.

#[export] Hint Resolve preserves_ret preserves_throw preserves_bind preserves_put preserves_lift preserves_get_st : oasis.

(** ** Comparisons that form a total preorder

    A comparison function that is antisymmetric ([cmp b a] is the opposite
    of [cmp a b]) and whose "not greater" relation is transitive; the
    store's field order and the lexicographic order of a sort are such. *)
Section TotalPreorder.
Context {A : Type} (cmp : A -> A -> comparison).
Hypothesis cmp_sym : forall a b, cmp b a = CompOpp (cmp a b).
Hypothesis cmp_le_trans : forall a b c, cmp a b <> Gt -> cmp b c <> Gt -> cmp a c <> Gt.

Lemma cmp_lt_le_lt a b c : cmp a b = Lt -> cmp b c <> Gt -> cmp a c = Lt.
Proof.
  intros Hab Hbc.
  assert (Hac : cmp a c <> Gt) by (apply (cmp_le_trans a b c); congruence).
  destruct (cmp a c) eqn:E; [|reflexivity|congruence].
  exfalso. assert (Hca : cmp c a <> Gt) by (rewrite cmp_sym, E; discriminate).
  pose proof (cmp_le_trans b c a Hbc Hca) as Hba.
  rewrite cmp_sym, Hab in Hba. apply Hba. reflexivity.
Qed.

Lemma cmp_le_lt_lt a b c : cmp a b <> Gt -> cmp b c = Lt -> cmp a c = Lt.
Proof.
  intros Hab Hbc.
  assert (Hac : cmp a c <> Gt) by (apply (cmp_le_trans a b c); congruence).
  destruct (cmp a c) eqn:E; [|reflexivity|congruence].
  exfalso. assert (Hca : cmp c a <> Gt) by (rewrite cmp_sym, E; discriminate).
  pose proof (cmp_le_trans c a b Hca Hab) as Hcb.
  rewrite cmp_sym, Hbc in Hcb. apply Hcb. reflexivity.
Qed.

Lemma cmp_eq_eq a b c : cmp a b = Eq -> cmp b c = Eq -> cmp a c = Eq.
Proof.
  intros Hab Hbc.
  assert (Hac : cmp a c <> Gt) by (apply (cmp_le_trans a b c); congruence).
  assert (Hca : cmp c a <> Gt).
  { apply (cmp_le_trans c b a); rewrite cmp_sym; [rewrite Hbc | rewrite Hab]; discriminate. }
  rewrite cmp_sym in Hca. destruct (cmp a c); simpl in *; congruence.
Qed.
End TotalPreorder.

(** The two laws as a class, with the instances of the base orders the
    stores use. *)
Class CmpLaws {A : Type} (cmp : A -> A -> comparison) := {
  cmp_laws_sym : forall a b, cmp b a = CompOpp (cmp a b);
  cmp_laws_trans : forall a b c, cmp a b <> Gt -> cmp b c <> Gt -> cmp a c <> Gt
}.

#[export] Instance Z_compare_laws : CmpLaws Z.compare.
Proof.
  split; [intros a b; apply Z.compare_antisym|].
  intros a b c. rewrite !Z.compare_le_iff. lia.
Qed.

#[export] Instance N_compare_laws : CmpLaws N.compare.
Proof.
  split; [intros a b; apply N.compare_antisym|].
  intros a b c. rewrite !N.compare_le_iff. lia.
Qed.

(** Refute a cycle of the strict order of strings. *)
Ltac string_order_cycle :=
  exfalso;
  match goal with
  | H : OrdersEx.String_as_OT.lt ?a ?a |- _ => exact (StrictOrder_Irreflexive a H)
  | H1 : OrdersEx.String_as_OT.lt ?a ?b, H2 : OrdersEx.String_as_OT.lt ?b ?a |- _ =>
      exact (StrictOrder_Irreflexive a (transitivity H1 H2))
  | H1 : OrdersEx.String_as_OT.lt ?a ?b, H2 : OrdersEx.String_as_OT.lt ?b ?c,
    H3 : OrdersEx.String_as_OT.lt ?c ?a |- _ =>
      exact (StrictOrder_Irreflexive a (transitivity H1 (transitivity H2 H3)))
  end.

(** MongoDB orders strings by their bytes: [String_as_OT.compare]. *)
#[export] Instance string_compare_laws : CmpLaws OrdersEx.String_as_OT.compare.
Proof.
  split.
  - intros x y.
    destruct (OrdersEx.String_as_OT.compare_spec x y) as [E|H|H],
      (OrdersEx.String_as_OT.compare_spec y x) as [E'|H'|H'];
      cbv [OrdersEx.String_as_OT.eq] in *; subst; try reflexivity; string_order_cycle.
  - intros x y z.
    destruct (OrdersEx.String_as_OT.compare_spec x y) as [E|H|H],
      (OrdersEx.String_as_OT.compare_spec y z) as [E'|H'|H'],
      (OrdersEx.String_as_OT.compare_spec x z) as [E''|H''|H''];
      cbv [OrdersEx.String_as_OT.eq] in *; subst; try congruence; string_order_cycle.
Qed.

(** ** Interleaved requests

    Requests run concurrently on one event loop: each runs until its next
    [await] of a store round trip, and another request may run before it
    resumes.  A thread of type [T] is a request at one of its suspension
    points; [step t s] runs its next round trip on the shared state [s]
    (atomically, as the store applies one operation at a time), or is
    [None] when the request has finished.  A configuration steps by
    running one thread of its pool. *)
Section Interleave.
Context {S T : Type} (step : T -> S -> option (S * T)).

Inductive tstep : S * list T -> S * list T -> Prop :=
| tstep_run s ts i t s' t' :
    ts !! i = Some t -> step t s = Some (s', t') -> tstep (s, ts) (s', <[i:=t']> ts).

Lemma tstep_then s ts i t s' t' c :
  ts !! i = Some t -> step t s = Some (s', t') -> rtc tstep (s', <[i:=t']> ts) c ->
  rtc tstep (s, ts) c.
Proof. intros Hi Ht Hr. eapply rtc_l; [eapply tstep_run; eassumption | exact Hr]. Qed.
End Interleave.

(** Run thread [i] one round trip, its step being proved by [tac]. *)
Ltac run_thread i tac :=
  eapply (tstep_then _ _ _ i); [reflexivity | tac | simpl].
