(* ===== verification/JsValue.v ===== *)
(** * JavaScript runtime values used by the server

    The handlers read [req.query] (a [qs.ParsedQs]: strings, arrays and
    nested objects), convert strings with [Number(...)], combine numbers
    with [||], and manipulate strings with [replace], [split], [join] and
    [startsWith].  This file gives those ECMAScript operations their
    meaning, over ASCII strings and exact rational arithmetic. *)

From S2P Require Import Prelude.
From Stdlib Require Import QArith Qround Lqa.

Local Open Scope Z_scope.

(** ** Numbers

    A JavaScript number that is [NaN], a finite value, or an infinity.
    Finite values are exact rationals: binary rounding is not modelled,
    which changes no comparison the server makes on decimal inputs of a
    few digits. *)
Inductive jsnum :=
| NaN
| Fin (q : Q)
| Inf (negative : bool).

Definition Qltb (a b : Q) : bool := negb (Qle_bool b a).

(** [x < y] on numbers; a comparison with [NaN] is false. *)
Definition num_lt (x y : jsnum) : bool :=
  match x, y with
  | Fin a, Fin b => Qltb a b
  | Fin _, Inf neg => negb neg
  | Inf neg, Fin _ => neg
  | Inf true, Inf false => true
  | _, _ => false
  end.

Definition num_neg (x : jsnum) : jsnum :=
  match x with NaN => NaN | Fin a => Fin (- a) | Inf b => Inf (negb b) end.

Definition num_add (x y : jsnum) : jsnum :=
  match x, y with
  | Fin a, Fin b => Fin (a + b)
  | Fin _, Inf b | Inf b, Fin _ => Inf b
  | Inf a, Inf b => if Bool.eqb a b then Inf a else NaN
  | _, _ => NaN
  end.

Definition num_sub (x y : jsnum) : jsnum := num_add x (num_neg y).

Definition num_sign_neg (a : Q) : bool := Qltb a 0.

Definition num_mul (x y : jsnum) : jsnum :=
  match x, y with
  | Fin a, Fin b => Fin (a * b)
  | Fin a, Inf b | Inf b, Fin a =>
      if Qeq_bool a 0 then NaN else Inf (xorb b (num_sign_neg a))
  | Inf a, Inf b => Inf (xorb a b)
  | _, _ => NaN
  end.

(** Truthiness of a number: [0], [-0] and [NaN] are falsy. *)
Definition num_truthy (x : jsnum) : bool :=
  match x with NaN => false | Fin a => negb (Qeq_bool a 0) | Inf _ => true end.

(** [x || d] with a number on the left. *)
Definition num_or (x d : jsnum) : jsnum := if num_truthy x then x else d.

Definition num_of_Z (z : Z) : jsnum := Fin (inject_Z z).

(** An integral finite number, as [Number.isInteger] decides it. *)
Definition num_int (x : jsnum) : option Z :=
  match x with
  | Fin a => if Qeq_bool (inject_Z (Qfloor a)) a then Some (Qfloor a) else None
  | _ => None
  end.

(** ** [Number(string)]: ECMAScript StringToNumber over ASCII *)

Definition ascii_code (c : ascii) : Z := Z.of_nat (nat_of_ascii c).

Definition is_js_space (c : ascii) : bool :=
  let n := ascii_code c in ((9 <=? n) && (n <=? 13)) || (n =? 32).

Definition digit_val (base : Z) (c : ascii) : option Z :=
  let n := ascii_code c in
  let v := if (48 <=? n) && (n <=? 57) then n - 48
           else if (97 <=? n) && (n <=? 122) then n - 87
           else if (65 <=? n) && (n <=? 90) then n - 55
           else 99 in
  if v <? base then Some v else None.

(** The longest prefix of digits in [base]: its value, its length, the rest. *)
Fixpoint take_digits (base : Z) (acc : Z) (n : nat) (l : list ascii)
  : Z * nat * list ascii :=
  match l with
  | c :: r => match digit_val base c with
              | Some d => take_digits base (acc * base + d) (S n) r
              | None => (acc, n, l)
              end
  | [] => (acc, n, l)
  end.

Fixpoint drop_space (l : list ascii) : list ascii :=
  match l with
  | c :: r => if is_js_space c then drop_space r else l
  | [] => []
  end.

(** [String.prototype.trim]'s white space, on both ends. *)
Definition trim_js (l : list ascii) : list ascii := rev (drop_space (rev (drop_space l))).

Definition pow10 (n : nat) : positive := Z.to_pos (10 ^ Z.of_nat n).

Definition is_char (c : ascii) (lower : ascii) : bool :=
  Ascii.eqb c lower || Ascii.eqb c (ascii_of_nat (nat_of_ascii lower - 32)).

(** StrUnsignedDecimalLiteral: [digits [. digits] [e [sign] digits]] or
    [. digits [e ...]], with nothing after it. *)
Definition parse_unsigned_decimal (l : list ascii) : option Q :=
  let '(ip, ni, r1) := take_digits 10 0 0 l in
  let '(fp, nf, r2) :=
    match r1 with
    | c :: r => if Ascii.eqb c "." then take_digits 10 0 0 r else (0, 0%nat, r1)
    | [] => (0, 0%nat, r1)
    end in
  if (ni + nf =? 0)%nat then None else
  let m : Q := Qmake (ip * Z.pos (pow10 nf) + fp) (pow10 nf) in
  match r2 with
  | [] => Some m
  | e :: r3 =>
      if is_char e "e" then
        let '(neg, r4) :=
          match r3 with
          | c :: r => if Ascii.eqb c "+" then (false, r)
                      else if Ascii.eqb c "-" then (true, r) else (false, r3)
          | [] => (false, r3)
          end in
        let '(ev, ne, r5) := take_digits 10 0 0 r4 in
        match ne, r5 with
        | O, _ => None
        | _, _ :: _ => None
        | _, [] => Some (m * (if neg then Qinv (inject_Z (10 ^ ev))
                                     else inject_Z (10 ^ ev)))%Q
        end
      else None
  end.

Definition parse_radix (base : Z) (l : list ascii) : jsnum :=
  match take_digits base 0 0 l with
  | (v, S _, []) => Fin (inject_Z v)
  | _ => NaN
  end.

Definition list_ascii_eqb (a b : list ascii) : bool :=
  bool_decide (a = b).

(** The [0x], [0o] and [0b] literals (no sign allowed). *)
Definition parse_non_decimal (l : list ascii) : option jsnum :=
  match l with
  | z :: x :: r =>
      if negb (Ascii.eqb z "0") then None
      else if is_char x "x" then Some (parse_radix 16 r)
      else if is_char x "o" then Some (parse_radix 8 r)
      else if is_char x "b" then Some (parse_radix 2 r)
      else None
  | _ => None
  end.

(** An optional sign, then [Infinity] or an unsigned decimal literal. *)
Definition parse_decimal (l : list ascii) : jsnum :=
  let '(neg, body) :=
    match l with
    | c :: r => if Ascii.eqb c "+" then (false, r)
                else if Ascii.eqb c "-" then (true, r) else (false, l)
    | [] => (false, l)
    end in
  if list_ascii_eqb body (String.list_ascii_of_string "Infinity") then Inf neg
  else match parse_unsigned_decimal body with
       | Some q => Fin (if neg then Qopp q else q)
       | None => NaN
       end.

(** [Number(s)] for a string [s]: white space is trimmed, the empty string
    is [0]. *)
Definition string_to_number (s : string) : jsnum :=
  match trim_js (String.list_ascii_of_string s) with
  | [] => Fin 0
  | l => match parse_non_decimal l with
         | Some n => n
         | None => parse_decimal l
         end
  end.

(** ** Query-string values ([qs.ParsedQs])

    [req.query] maps each parameter to a string, an array (a repeated
    parameter) or a nested object (bracket syntax [a[b]=c]).  An object is
    the list of its own properties in enumeration order. *)
#[warnings="-register-all"]
Inductive qval :=
| QStr (s : string)
| QArr (l : list qval)
| QObj (kvs : list (string * qval)).

(** [String(v)]: an array joins its elements with commas, an object is
    ["[object Object]"]. *)
Fixpoint qval_to_string (v : qval) : string :=
  match v with
  | QStr s => s
  | QArr l => String.concat "," (map qval_to_string l)
  | QObj _ => "[object Object]"
  end.

(** [obj[key]] on a query object; [None] is [undefined]. *)
Fixpoint qlookup (k : string) (kvs : list (string * qval)) : option qval :=
  match kvs with
  | [] => None
  | (k', v) :: r => if String.eqb k k' then Some v else qlookup k r
  end.

(** [Number(obj[key])]: [Number(undefined)] is [NaN]. *)
Definition qval_to_number (v : option qval) : jsnum :=
  match v with
  | None => NaN
  | Some x => string_to_number (qval_to_string x)
  end.

(** Truthiness of a query parameter: [undefined] and [""] are falsy. *)
Definition qval_truthy (v : option qval) : bool :=
  match v with
  | None => false
  | Some (QStr s) => negb (String.eqb s "")
  | Some _ => true
  end.

(** ** Strings *)

(** [s.replace(pat, rep)] with a string pattern: only the FIRST occurrence
    is replaced (a replacement without [$] patterns). *)
Fixpoint js_replace_first (pat rep s : string) : string :=
  if String.prefix pat s then (rep ++ String.substring (String.length pat)
                                 (String.length s) s)%string
  else match s with
       | EmptyString => EmptyString
       | String c r => String c (js_replace_first pat rep r)
       end.

(** ** [s.length] of a string Node decoded from UTF-8 bytes

    A value of [process.env] reaches JavaScript as the UTF-8 decoding of
    its bytes, and [s.length] counts UTF-16 code units.  The decoder is
    the WHATWG one, which V8 follows: an ill-formed sequence (a maximal
    subpart) becomes one U+FFFD, the byte that breaks a sequence is read
    again from the initial state, and a code point above U+FFFF (a
    four-byte sequence) takes two units. *)
Record utf8_state := { u_needed : nat; u_seen : nat; u_lower : Z; u_upper : Z }.

Definition utf8_init : utf8_state := {| u_needed := 0; u_seen := 0; u_lower := 128; u_upper := 191 |}.

(** A byte read in the initial state: the units it completes and the
    state after it. *)
Definition utf8_lead (b : Z) : nat * utf8_state :=
  if b <=? 127 then (1%nat, utf8_init)
  else if (194 <=? b) && (b <=? 223) then (0%nat, {| u_needed := 1; u_seen := 0; u_lower := 128; u_upper := 191 |})
  else if (224 <=? b) && (b <=? 239) then
    (0%nat, {| u_needed := 2; u_seen := 0; u_lower := if b =? 224 then 160 else 128;
               u_upper := if b =? 237 then 159 else 191 |})
  else if (240 <=? b) && (b <=? 244) then
    (0%nat, {| u_needed := 3; u_seen := 0; u_lower := if b =? 240 then 144 else 128;
               u_upper := if b =? 244 then 143 else 191 |})
  else (1%nat, utf8_init).

Definition utf8_step (st : utf8_state) (b : Z) : nat * utf8_state :=
  if (u_needed st =? 0)%nat then utf8_lead b
  else if negb ((u_lower st <=? b) && (b <=? u_upper st)) then
    let '(n, st') := utf8_lead b in (S n, st')
  else if (S (u_seen st) =? u_needed st)%nat then
    ((if (u_needed st =? 3)%nat then 2 else 1)%nat, utf8_init)
  else (0%nat, {| u_needed := u_needed st; u_seen := S (u_seen st); u_lower := 128; u_upper := 191 |}).

Fixpoint utf16_units (st : utf8_state) (l : list ascii) : nat :=
  match l with
  | [] => if (u_needed st =? 0)%nat then 0%nat else 1%nat
  | c :: r => let '(n, st') := utf8_step st (ascii_code c) in (n + utf16_units st' r)%nat
  end.

(** [s.length] of the string decoded from the bytes [s]. *)
Definition js_length (s : string) : nat := utf16_units utf8_init (String.list_ascii_of_string s).

(** [s.trim()], also the [trim: true] option of a schema path. *)
Definition js_trim (s : string) : string :=
  String.string_of_list_ascii (trim_js (String.list_ascii_of_string s)).

(** [s.split(sep)] with a one-character separator. *)
Fixpoint js_split (sep : ascii) (s : string) : list string :=
  match s with
  | EmptyString => [EmptyString]
  | String c r =>
      let parts := js_split sep r in
      if Ascii.eqb c sep then EmptyString :: parts
      else match parts with
           | p :: ps => String c p :: ps
           | [] => [String c EmptyString]
           end
  end.

(** [parts.join(sep)]. *)
Definition js_join (sep : string) (parts : list string) : string :=
  String.concat sep parts.

(** [s.startsWith(p)]. *)
Definition js_starts_with (p s : string) : bool := String.prefix p s.

(** [s.toLowerCase()] on ASCII. *)
Fixpoint js_to_lower (s : string) : string :=
  match s with
  | EmptyString => EmptyString
  | String c r =>
      let n := nat_of_ascii c in
      String (if (65 <=? n)%nat && (n <=? 90)%nat then ascii_of_nat (n + 32) else c)
             (js_to_lower r)
  end.

(** [s.includes(c)] for one character. *)
Fixpoint js_includes_char (c : ascii) (s : string) : bool :=
  match s with
  | EmptyString => false
  | String d r => Ascii.eqb c d || js_includes_char c r
  end.

(** ** [String(n)] of an integer *)

(** The decimal digits of [n] in front of [acc]; [fuel] bounds the number
    of digits, and the bit length of [n] is enough. *)
Fixpoint N_digits (fuel : nat) (n : N) (acc : string) : string :=
  match fuel with
  | O => acc
  | S f => let acc' := String (ascii_of_N (48 + n mod 10)) acc in
           if (n <? 10)%N then acc' else N_digits f (n / 10) acc'
  end.

Definition N_to_string (n : N) : string := N_digits (S (N.size_nat n)) n EmptyString.

Definition z_to_string (z : Z) : string :=
  match z with
  | Zneg p => String "-"%char (N_to_string (Npos p))
  | _ => N_to_string (Z.to_N z)
  end.

(** ** JSON response bodies

    What [res.json(...)] sends.  Numbers in responses are integers. *)
#[warnings="-register-all"]
Inductive json :=
| JNull
| JBool (b : bool)
| JNum (z : Z)
| JStr (s : string)
| JArr (l : list json)
| JObj (kvs : list (string * json)).

(** ** Numbers that are integers *)

Lemma num_mul_sub_of_Z (a b c : Z) :
  num_mul (num_of_Z a) (num_sub (num_of_Z b) (num_of_Z c)) = num_of_Z (a * (b - c)).
Proof.
  cbv [num_mul num_sub num_add num_neg num_of_Z]. f_equal.
  unfold inject_Z, Qmult, Qplus, Qopp. simpl. f_equal. lia.
Qed.

Lemma num_int_of_Z z : num_int (num_of_Z z) = Some z.
Proof. unfold num_int, num_of_Z. rewrite Qfloor_Z, Qeq_bool_refl. reflexivity. Qed.

Lemma num_lt_of_Z a b : num_lt (num_of_Z a) (num_of_Z b) = (a <? b).
Proof.
  unfold num_lt, num_of_Z, Qltb.
  destruct (Qle_bool (inject_Z b) (inject_Z a)) eqn:E.
  - apply Qle_bool_iff in E. rewrite <- Zle_Qle in E. symmetry. apply Z.ltb_ge. exact E.
  - simpl. symmetry. apply Z.ltb_lt. destruct (Z.lt_ge_cases a b) as [|H]; [done|].
    exfalso. rewrite Zle_Qle in H. apply Qle_bool_iff in H. congruence.
Qed.

Lemma num_lt_pos_zero (q : Q) : (0 < q)%Q -> num_lt (Fin q) (num_of_Z 0) = false.
Proof.
  intros Hq. unfold num_lt, Qltb. simpl. apply negb_false_iff, Qle_bool_iff.
  apply Qlt_le_weak. exact Hq.
Qed.

(** [limit * (page - 1)] is negative for a page strictly between 0 and 1. *)
Lemma skip_of_fraction_neg (l : Z) (q : Q) :
  1 <= l -> (0 < q)%Q -> (q < 1)%Q -> (inject_Z l * (q + - inject_Z 1) < 0)%Q.
Proof.
  intros Hl H0 H1. assert (Hl' : (inject_Z 0 < inject_Z l)%Q) by (rewrite <- Zlt_Qlt; lia).
  assert (Hn : (q + - inject_Z 1 < 0)%Q) by (change (inject_Z 1) with 1%Q; lra).
  apply (Qlt_le_trans _ (inject_Z l * 0)%Q); [apply Qmult_lt_l; assumption|].
  rewrite Qmult_0_r. apply Qle_refl.
Qed.

#[export] Hint Rewrite num_mul_sub_of_Z num_int_of_Z num_lt_of_Z : oasis_run.

(** ** Strings *)

(** stdpp makes [simpl] leave [String.append] alone; its equations. *)
Lemma string_app_nil (b : string) : ("" ++ b = b)%string.
Proof. reflexivity. Qed.

Lemma string_app_cons (c : ascii) (a b : string) : (String c a ++ b = String c (a ++ b))%string.
Proof. reflexivity. Qed.

Lemma string_app_assoc (a b c : string) : ((a ++ b) ++ c = a ++ (b ++ c))%string.
Proof. induction a as [|x a IH]; [done|]. rewrite !string_app_cons. by rewrite IH. Qed.

Lemma substring_all (s : string) (m : nat) :
  (String.length s <= m)%nat -> String.substring 0 m s = s.
Proof.
  revert m. induction s as [|x s IH]; intros [|m] Hm; simpl in *; [done..|lia|].
  f_equal. apply IH. lia.
Qed.

(** [x.replace(p, rep)] with a one-character pattern [p] on [x + p + y]
    where [x] has no [p]: the occurrence after [x] is replaced, [y] is
    kept as it is, occurrences of [p] included. *)
Lemma js_replace_first_char (p : ascii) (rep x y : string) :
  existsb (Ascii.eqb p) (String.list_ascii_of_string x) = false ->
  js_replace_first (String p EmptyString) rep (x ++ String p y) = (x ++ rep ++ y)%string.
Proof.
  induction x as [|c x IH]; intros Hx.
  - rewrite !string_app_nil. unfold js_replace_first.
    replace (String.prefix _ _) with true by (simpl; destruct (ascii_dec p p); [by destruct y | congruence]).
    simpl. rewrite substring_all; [done | lia].
  - simpl in Hx. apply orb_false_iff in Hx as [Hc Hx]. apply Ascii.eqb_neq in Hc.
    rewrite !string_app_cons. simpl. destruct (ascii_dec p c); [congruence|]. by rewrite IH.
Qed.
