(* ===== verification/AppError.v ===== *)
(** * Operational errors, async handlers and the Express outcome

    [src/src/utils/AppError.ts] (the operational error with its status),
    [src/src/utils/catchAsync.ts] (a rejected handler goes to [next(err)]),
    and the errors the libraries raise that reach the error middleware. *)

From S2P Require Import Prelude JsValue.

Local Open Scope Z_scope.

(** ** [class AppError] *)
Record AppError := {
  message : string;
  statusCode : Z;
  status : string;
  isOperational : bool
}.

(** [Math.floor((statusCode / 100) % 10) === 4]: for an integral code,
    [%] truncates toward zero, so [(c / 100) % 10] is [(c rem 1000) / 100]
    exactly, and its floor is [Z.div (Z.rem c 1000) 100]. *)
Definition status_of_code (statusCode : Z) : string :=
  if Z.div (Z.rem statusCode 1000) 100 =? 4 then "fail" else "error".

(** [new AppError(message, statusCode)]. *)
Definition mkAppError (msg : string) (code : Z) : AppError :=
  {| message := msg; statusCode := code; status := status_of_code code;
     isOperational := true |}.

(** ** Errors that reach [next(err)]

    The error middleware tells errors apart by their [name] and [code]
    (duck typing); each kind it distinguishes is a constructor here. *)
Inductive js_error :=
| EApp (e : AppError)                       (** an [AppError] *)
| ECast (path value : string)               (** mongoose [CastError] *)
| EValidation (errors : list (string * string))
                                            (** mongoose [ValidationError]: path, message *)
| EDuplicateKey (keyValue : list (string * string))
                                            (** MongoServerError, [code === 11000] *)
| EJsonWebToken                             (** jsonwebtoken [JsonWebTokenError] *)
| ETokenExpired                             (** jsonwebtoken [TokenExpiredError] *)
| EMulter (field : string)                  (** multer [MulterError] *)
| EHttp (statusCode : Z) (msg : string)     (** an [http-errors] error of body-parser: it
                                                carries [statusCode] and a numeric [status] *)
| EOther (name msg : string).               (** anything else: a programming or driver error *)

(** [next(new AppError(msg, code))] and [throw new AppError(msg, code)]. *)
Definition app_error (msg : string) (code : Z) : js_error := EApp (mkAppError msg code).

(** ** What a handler does with the request

    It sends a response, passes control on with [next()], or passes an
    error with [next(err)]. *)
Inductive outcome :=
| Respond (statusCode : Z) (body : json)
| Next
| NextErr (e : js_error).

(** [catchAsync(fn)]: run the async handler; a rejection becomes
    [next(err)].  The store keeps the writes made before the rejection. *)
Definition catchAsync {S} (fn : M S js_error outcome) (s : S) : S * outcome :=
  match fn s with
  | (s', Ok o) => (s', o)
  | (s', Throw e) => (s', NextErr e)
  end.

(** The failure an async handler produces with [return next(new AppError(..))]. *)
Definition fail_with {S} (msg : string) (code : Z) : M S js_error outcome :=
  mret (NextErr (app_error msg code)).

(** The status code an outcome carries to the client once the error
    middleware has run, when it is an operational error. *)
Definition outcome_code (o : outcome) : option Z :=
  match o with
  | Respond c _ => Some c
  | NextErr (EApp e) => Some (statusCode e)
  | _ => None
  end.

(** [catchAsync] keeps the store its handler leaves. *)
Lemma catchAsync_fst {S} (fn : M S js_error outcome) s : fst (catchAsync fn s) = fst (fn s).
Proof. unfold catchAsync. by destruct (fn s) as [? [?|?]]. Qed.

Lemma catchAsync_throw {S} (fn : M S js_error outcome) s s' e :
  fn s = (s', Throw e) -> catchAsync fn s = (s', NextErr e).
Proof. intros H. unfold catchAsync. rewrite H. reflexivity. Qed.

Lemma catchAsync_ok {S} (fn : M S js_error outcome) s s' o :
  fn s = (s', Ok o) -> catchAsync fn s = (s', o).
Proof. intros H. unfold catchAsync. rewrite H. reflexivity. Qed.

#[export] Hint Resolve catchAsync_throw catchAsync_ok : oasis.

(** Every status code from 400 to 499 is reported as ["fail"], every code
    from 500 to 599 as ["error"]. *)
Lemma status_of_code_4xx c : 400 <= c < 500 -> status_of_code c = "fail"%string.
Proof.
  intros H. unfold status_of_code.
  rewrite Z.rem_small by lia.
  replace (c / 100) with 4 by (apply Z.div_unique with (c - 400); lia).
  reflexivity.
Qed.

Lemma status_of_code_5xx c : 500 <= c < 600 -> status_of_code c = "error"%string.
Proof.
  intros H. unfold status_of_code.
  rewrite Z.rem_small by lia.
  replace (c / 100) with 5 by (apply Z.div_unique with (c - 500); lia).
  reflexivity.
Qed.
