(* ===== verification/QueryJson.v ===== *)
(** * The filter's string round trip

    [APIFeatures.filter] (src/src/utils/APIFeatures.ts, lines 10-25) turns
    the query object into a JSON string, rewrites the words [gte], [gt],
    [lte] and [lt] into [$gte], ... with a regular expression, and parses
    the string back.  This file gives the three steps: [JSON.stringify]
    on query values, the global replace of [/\b(gte|gt|lte|lt)\b/g], and
    [JSON.parse] (with fuel, on the values [JSON.stringify] produces).
    Its theorems are the round trip [JSON.parse (JSON.stringify v) = v]
    and the equivalence of the string rewrite with a rewrite of the keys
    and string values of the object. *)

From S2P Require Import Prelude JsValue.

Local Open Scope list_scope.

Definition chr (n : nat) : ascii := ascii_of_nat n.
Definition code (c : ascii) : nat := nat_of_ascii c.

(** The double quote, code 34. *)
Definition dquote : ascii := chr 34.

(** ** [JSON.stringify] on query values *)

(** The items separated by [sep], as [Array.prototype.join] lays them out. *)
Fixpoint sep_by {A} (sep : A) (l : list (list A)) : list A :=
  match l with
  | [] => []
  | [x] => x
  | x :: r => x ++ sep :: sep_by sep r
  end.

Definition hex_digit (n : nat) : ascii :=
  if n <? 10 then chr (48 + n) else chr (87 + n).

(** QuoteJSONString's escape of one code unit. *)
Definition escape_char (c : ascii) : list ascii :=
  let n := code c in
  if n =? 8 then ["\"%char; "b"%char]
  else if n =? 9 then ["\"%char; "t"%char]
  else if n =? 10 then ["\"%char; "n"%char]
  else if n =? 12 then ["\"%char; "f"%char]
  else if n =? 13 then ["\"%char; "r"%char]
  else if n =? 34 then ["\"%char; dquote]
  else if n =? 92 then ["\"%char; "\"%char]
  else if n <? 32 then ["\"%char; "u"%char; "0"%char; "0"%char; hex_digit (n / 16); hex_digit (n mod 16)]
  else [c].

Definition quote (s : list ascii) : list ascii :=
  dquote :: flat_map escape_char s ++ [dquote].

Fixpoint stringify (v : qval) : list ascii :=
  match v with
  | QStr s => quote (String.list_ascii_of_string s)
  | QArr l => "["%char :: sep_by ","%char (map stringify l) ++ ["]"%char]
  | QObj kvs =>
      "{"%char :: sep_by ","%char
               (map (fun kv => quote (String.list_ascii_of_string kv.1) ++ ":"%char :: stringify kv.2) kvs)
        ++ ["}"%char]
  end.

(** ** [queryStr.replace(/\b(gte|gt|lte|lt)\b/g, m => `$${m}`)] *)

(** A word character of [\b]: [A-Za-z0-9_]. *)
Definition is_word (c : ascii) : bool :=
  let n := code c in
  ((48 <=? n) && (n <=? 57)) || ((65 <=? n) && (n <=? 90)) ||
  ((97 <=? n) && (n <=? 122)) || (n =? 95).

(** The alternatives, in the order the regular expression tries them. *)
Definition ops : list (list ascii) :=
  [["g"%char; "t"%char; "e"%char]; ["g"%char; "t"%char]; ["l"%char; "t"%char; "e"%char]; ["l"%char; "t"%char]].

Fixpoint strip_prefix (p l : list ascii) : option (list ascii) :=
  match p, l with
  | [], _ => Some l
  | a :: p', b :: l' => if Ascii.eqb a b then strip_prefix p' l' else None
  | _ :: _, [] => None
  end.

(** A word boundary after a match: the end of input or a non-word character. *)
Definition boundary_after (l : list ascii) : bool :=
  match l with [] => true | c :: _ => negb (is_word c) end.

(** The first alternative that matches at the head of [l] with [\b] after. *)
Fixpoint match_alt (alts : list (list ascii)) (l : list ascii)
  : option (list ascii * list ascii) :=
  match alts with
  | [] => None
  | a :: more =>
      match strip_prefix a l with
      | Some rest => if boundary_after rest then Some (a, rest) else match_alt more l
      | None => match_alt more l
      end
  end.

(** The global replace.  [prev_word] tells whether the character before
    the current position is a word character; a [\b] before the match
    needs it to be false, since every alternative begins with a word
    character.  After a match the scan resumes at its end. *)
Fixpoint rewrite_ops_aux (fuel : nat) (prev_word : bool) (l : list ascii) : list ascii :=
  match fuel with
  | O => l
  | S f =>
    match l with
    | [] => []
    | c :: r =>
        match (if prev_word then None else match_alt ops l) with
        | Some (m, rest) => "$"%char :: m ++ rewrite_ops_aux f true rest
        | None => c :: rewrite_ops_aux f (is_word c) r
        end
    end
  end.

(** Each step consumes at least one character, so [length l] steps are
    enough: the scan reaches the end of the string. *)
Definition rewrite_ops (l : list ascii) : list ascii := rewrite_ops_aux (length l) false l.

(** ** [JSON.parse] on the strings above *)

Definition is_json_space (c : ascii) : bool :=
  let n := code c in (n =? 32) || (n =? 9) || (n =? 10) || (n =? 13).

Fixpoint skip_ws (l : list ascii) : list ascii :=
  match l with
  | c :: r => if is_json_space c then skip_ws r else l
  | [] => []
  end.

Definition hex_val (c : ascii) : option nat :=
  let n := code c in
  if (48 <=? n) && (n <=? 57) then Some (n - 48)
  else if (97 <=? n) && (n <=? 102) then Some (n - 87)
  else if (65 <=? n) && (n <=? 70) then Some (n - 55)
  else None.

(** The body of a JSON string up to its closing quote: the decoded
    characters and what follows the quote.  A [\u] escape beyond one byte
    is outside the ASCII model and is refused. *)
Fixpoint parse_chars (l : list ascii) : option (list ascii * list ascii) :=
  match l with
  | [] => None
  | c :: r =>
    if Ascii.eqb c dquote then Some ([], r)
    else if code c <? 32 then None
    else if Ascii.eqb c "\"%char then
      match r with
      | e :: r' =>
        let unescaped k :=
          match parse_chars r' with Some (s, rest) => Some (chr k :: s, rest) | None => None end in
        if Ascii.eqb e "b"%char then unescaped 8
        else if Ascii.eqb e "t"%char then unescaped 9
        else if Ascii.eqb e "n"%char then unescaped 10
        else if Ascii.eqb e "f"%char then unescaped 12
        else if Ascii.eqb e "r"%char then unescaped 13
        else if Ascii.eqb e dquote then unescaped 34
        else if Ascii.eqb e "\"%char then unescaped 92
        else if Ascii.eqb e "/"%char then unescaped 47
        else if Ascii.eqb e "u"%char then
          match r' with
          | h1 :: h2 :: h3 :: h4 :: r'' =>
            match hex_val h1, hex_val h2, hex_val h3, hex_val h4 with
            | Some a, Some b, Some c3, Some d =>
                (* the code unit is [a b c3 d] in hexadecimal; it is below 256
                   exactly when [a] and [b] are zero *)
                if (a =? 0) && (b =? 0) then
                  match parse_chars r'' with
                  | Some (s, rest) => Some (chr (c3 * 16 + d) :: s, rest)
                  | None => None
                  end
                else None
            | _, _, _, _ => None
            end
          | _ => None
          end
        else None
      | [] => None
      end
    else match parse_chars r with Some (s, rest) => Some (c :: s, rest) | None => None end
  end.

(** A property assignment of JSON.parse: a repeated key keeps its first
    position and takes the last value. *)
Fixpoint obj_set (k : string) (v : qval) (kvs : list (string * qval)) : list (string * qval) :=
  match kvs with
  | [] => [(k, v)]
  | (k', v') :: r => if String.eqb k k' then (k, v) :: r else (k', v') :: obj_set k v r
  end.

Fixpoint parse_value (fuel : nat) (l : list ascii) : option (qval * list ascii) :=
  match fuel with
  | O => None
  | S f =>
    match skip_ws l with
    | c :: r =>
      if Ascii.eqb c dquote then
        match parse_chars r with
        | Some (s, rest) => Some (QStr (String.string_of_list_ascii s), rest)
        | None => None
        end
      else if Ascii.eqb c "["%char then
        match skip_ws r with
        | c' :: r' => if Ascii.eqb c' "]"%char then Some (QArr [], r') else parse_elems f [] r
        | [] => None
        end
      else if Ascii.eqb c "{"%char then
        match skip_ws r with
        | c' :: r' => if Ascii.eqb c' "}"%char then Some (QObj [], r') else parse_members f [] r
        | [] => None
        end
      else None
    | [] => None
    end
  end
(** Array elements after [[] (or after a comma): [acc] holds the elements
    read so far, in reverse. *)
with parse_elems (fuel : nat) (acc : list qval) (l : list ascii) : option (qval * list ascii) :=
  match fuel with
  | O => None
  | S f =>
    match parse_value f l with
    | Some (v, r) =>
      match skip_ws r with
      | c :: r' =>
          if Ascii.eqb c ","%char then parse_elems f (v :: acc) r'
          else if Ascii.eqb c "]"%char then Some (QArr (rev (v :: acc)), r')
          else None
      | [] => None
      end
    | None => None
    end
  end
(** Object members after [{] (or after a comma). *)
with parse_members (fuel : nat) (acc : list (string * qval)) (l : list ascii)
  : option (qval * list ascii) :=
  match fuel with
  | O => None
  | S f =>
    match skip_ws l with
    | q :: r =>
      if Ascii.eqb q dquote then
        match parse_chars r with
        | Some (k, r1) =>
          match skip_ws r1 with
          | col :: r2 =>
            if Ascii.eqb col ":"%char then
              match parse_value f r2 with
              | Some (v, r3) =>
                let acc' := obj_set (String.string_of_list_ascii k) v acc in
                match skip_ws r3 with
                | c :: r4 =>
                    if Ascii.eqb c ","%char then parse_members f acc' r4
                    else if Ascii.eqb c "}"%char then Some (QObj acc', r4)
                    else None
                | [] => None
                end
              | None => None
              end
            else None
          | [] => None
          end
        | None => None
        end
      else None
    | [] => None
    end
  end.

(** [JSON.parse(text)]: a value and nothing but white space after it;
    [None] is a [SyntaxError].  The fuel [length l + 1] bounds the nesting
    and the number of elements, each of which takes at least one character. *)
Definition json_parse (l : list ascii) : option qval :=
  match parse_value (S (length l)) l with
  | Some (v, rest) => if bool_decide (skip_ws rest = []) then Some v else None
  | None => None
  end.

(** ** [JSON.parse] inverts [JSON.stringify] *)

Lemma chr_code c : chr (code c) = c.
Proof. apply ascii_nat_embedding. Qed.

Lemma hex_val_digit d : d < 16 -> hex_val (hex_digit d) = Some d.
Proof. intros Hd. do 16 (destruct d as [|d]; [reflexivity|]). lia. Qed.

(** Decoding the escape of one character. *)
Lemma parse_chars_escape c rest :
  parse_chars (escape_char c ++ rest) =
    match parse_chars rest with Some (s, r) => Some (c :: s, r) | None => None end.
Proof.
  pose proof (chr_code c) as Hc. unfold escape_char. remember (code c) as n eqn:En.
  assert (Hn : n < 256) by (subst n; apply nat_ascii_bounded).
  rewrite <- Hc.
  destruct (Nat.eqb_spec n 8) as [->|]; [reflexivity|].
  destruct (Nat.eqb_spec n 9) as [->|]; [reflexivity|].
  destruct (Nat.eqb_spec n 10) as [->|]; [reflexivity|].
  destruct (Nat.eqb_spec n 12) as [->|]; [reflexivity|].
  destruct (Nat.eqb_spec n 13) as [->|]; [reflexivity|].
  destruct (Nat.eqb_spec n 34) as [->|]; [reflexivity|].
  destruct (Nat.eqb_spec n 92) as [->|]; [reflexivity|].
  destruct (Nat.ltb_spec n 32) as [Hlt|Hge].
  - assert (Hd1 : n / 16 < 16) by (apply Nat.Div0.div_lt_upper_bound; lia).
    assert (Hd2 : n mod 16 < 16) by (apply Nat.mod_upper_bound; lia).
    cbn [app parse_chars]. rewrite !hex_val_digit by assumption.
    change (hex_val "0"%char) with (Some 0). cbn iota beta.
    replace (n / 16 * 16 + n mod 16) with n by (pose proof (Nat.div_mod_eq n 16); lia).
    reflexivity.
  - cbn [app parse_chars].
    replace (Ascii.eqb (chr n) dquote) with false
      by (symmetry; apply Ascii.eqb_neq; intros E; apply (f_equal code) in E;
          unfold code, chr in E; rewrite nat_ascii_embedding in E by lia; vm_compute in E; lia).
    replace (code (chr n) <? 32) with false
      by (unfold code, chr; rewrite nat_ascii_embedding by lia; symmetry; apply Nat.ltb_ge; lia).
    replace (Ascii.eqb (chr n) "\"%char) with false
      by (symmetry; apply Ascii.eqb_neq; intros E; apply (f_equal code) in E;
          unfold code, chr in E; rewrite nat_ascii_embedding in E by lia; vm_compute in E; lia).
    reflexivity.
Qed.

Lemma parse_chars_quote s rest :
  parse_chars (flat_map escape_char s ++ dquote :: rest) = Some (s, rest).
Proof.
  induction s as [|c s IH]; [reflexivity|]. simpl. rewrite <- app_assoc, parse_chars_escape, IH.
  reflexivity.
Qed.

(** Query values nest lists; this is their induction principle. *)
Lemma qval_ind' (P : qval -> Prop) :
  (forall s, P (QStr s)) ->
  (forall l, Forall P l -> P (QArr l)) ->
  (forall kvs, Forall (fun kv => P kv.2) kvs -> P (QObj kvs)) ->
  forall v, P v.
Proof.
  intros Hs Ha Ho. fix IH 1. intros [s|l|kvs].
  - apply Hs.
  - apply Ha. induction l as [|v l IHl]; constructor; [apply IH | exact IHl].
  - apply Ho. induction kvs as [|[k v] kvs IHk]; constructor; [apply IH | exact IHk].
Qed.

(** The values [JSON.parse] gives back unchanged: no object repeats a key. *)
Fixpoint canon (v : qval) : bool :=
  match v with
  | QStr _ => true
  | QArr l => forallb canon l
  | QObj kvs => bool_decide (NoDup (map fst kvs)) && forallb (fun kv => canon kv.2) kvs
  end.

(** The first character [JSON.stringify] writes. *)
Definition first_char (v : qval) : ascii :=
  match v with QStr _ => dquote | QArr _ => "["%char | QObj _ => "{"%char end.

Lemma stringify_first v : exists t, stringify v = first_char v :: t.
Proof. destruct v; eexists; reflexivity. Qed.

Lemma skip_ws_stringify v r : skip_ws (stringify v ++ r) = stringify v ++ r.
Proof. destruct (stringify_first v) as [t ->]. by destruct v. Qed.

Lemma length_sep_by_cons {A} (sep : A) x l :
  length (sep_by sep (x :: l)) = length x + match l with [] => 0 | _ => S (length (sep_by sep l)) end.
Proof. destruct l; simpl; [done|]. rewrite length_app. reflexivity. Qed.

(** [JSON.parse] reads [v] back from its text, with any fuel above the
    length of the text. *)
Definition parses (v : qval) : Prop :=
  forall f rest, length (stringify v) < f -> parse_value f (stringify v ++ rest) = Some (v, rest).

Definition member (kv : string * qval) : list ascii :=
  quote (String.list_ascii_of_string kv.1) ++ ":"%char :: stringify kv.2.

Lemma obj_set_fresh k v acc : k ∉ map fst acc -> obj_set k v acc = acc ++ [(k, v)].
Proof.
  induction acc as [|[k' v'] acc IH]; intros Hk; [reflexivity|]. simpl in *.
  rewrite (proj2 (String.eqb_neq k k')) by (intros ->; apply Hk; left).
  rewrite IH by (intros H0; apply Hk; right; exact H0). reflexivity.
Qed.

Lemma skip_ws_nonspace c r : is_json_space c = false -> skip_ws (c :: r) = c :: r.
Proof. intros Hc. simpl. rewrite Hc. reflexivity. Qed.

Lemma parse_elems_ok l acc g rest :
  l <> [] -> Forall parses l -> length (sep_by ","%char (map stringify l)) + 1 < g ->
  parse_elems g acc (sep_by ","%char (map stringify l) ++ "]"%char :: rest) =
    Some (QArr (rev acc ++ l), rest).
Proof.
  revert acc g. induction l as [|v l IH]; intros acc g Hne Hl Hg; [done|].
  apply Forall_cons in Hl as [Hv Hl]. destruct g as [|g]; [lia|].
  cbn [map] in Hg. rewrite length_sep_by_cons in Hg. destruct l as [|v' l].
  - cbn [map sep_by parse_elems]. rewrite Hv by lia. reflexivity.
  - change (sep_by ","%char (map stringify (v :: v' :: l)))
      with (stringify v ++ ","%char :: sep_by ","%char (map stringify (v' :: l))).
    rewrite <- app_assoc. cbn [parse_elems app]. rewrite Hv by lia.
    rewrite skip_ws_nonspace by reflexivity. cbn iota beta.
    replace (Ascii.eqb ","%char ","%char) with true by reflexivity.
    rewrite (IH (v :: acc) g) by (done || (cbn [map] in *; lia)). simpl. rewrite <- app_assoc. reflexivity.
Qed.

Lemma member_app k v X :
  member (k, v) ++ X =
    dquote :: (flat_map escape_char (String.list_ascii_of_string k) ++
               dquote :: ":"%char :: stringify v ++ X).
Proof. unfold member, quote. simpl. rewrite <- !app_assoc. reflexivity. Qed.

Lemma length_member k v : length (member (k, v)) = length (quote (String.list_ascii_of_string k)) + S (length (stringify v)).
Proof. unfold member. rewrite length_app. reflexivity. Qed.

(** Decide the comparisons of two literal characters in the goal. *)
Ltac eqb_lits :=
  repeat match goal with
  | |- context [Ascii.eqb ?a ?b] =>
      let r := eval vm_compute in (Ascii.eqb a b) in
      match r with
      | true => change (Ascii.eqb a b) with true
      | false => change (Ascii.eqb a b) with false
      end
  end; cbn iota beta.

Lemma parse_members_ok kvs acc g rest :
  kvs <> [] -> Forall (fun kv => parses kv.2) kvs -> NoDup (map fst (acc ++ kvs)) ->
  length (sep_by ","%char (map member kvs)) + 1 < g ->
  parse_members g acc (sep_by ","%char (map member kvs) ++ "}"%char :: rest) =
    Some (QObj (acc ++ kvs), rest).
Proof.
  revert acc g. induction kvs as [|[k v] kvs IH]; intros acc g Hne Hl Hnd Hg; [done|].
  apply Forall_cons in Hl as [Hv Hl]. destruct g as [|g]; [lia|].
  cbn [map] in Hg. rewrite length_sep_by_cons, length_member in Hg. cbn [snd] in Hv.
  assert (Hk : k ∉ map fst acc).
  { rewrite map_app in Hnd. apply NoDup_app in Hnd as (_ & Hd & _). intros Hin. apply (Hd k Hin). left. }
  destruct kvs as [|kv' kvs].
  - cbn [map sep_by parse_members]. rewrite member_app, skip_ws_nonspace by reflexivity. eqb_lits.
    rewrite parse_chars_quote, skip_ws_nonspace by reflexivity. eqb_lits.
    rewrite Hv by (simpl in Hg; lia). rewrite skip_ws_nonspace by reflexivity. eqb_lits.
    rewrite String.string_of_list_ascii_of_string, obj_set_fresh by exact Hk. reflexivity.
  - change (sep_by ","%char (map member ((k, v) :: kv' :: kvs)))
      with (member (k, v) ++ ","%char :: sep_by ","%char (map member (kv' :: kvs))).
    rewrite <- app_assoc. cbn [parse_members]. rewrite member_app, skip_ws_nonspace by reflexivity.
    eqb_lits. rewrite parse_chars_quote, skip_ws_nonspace by reflexivity. eqb_lits.
    rewrite Hv by lia. cbn [app]. rewrite skip_ws_nonspace by reflexivity. eqb_lits.
    rewrite String.string_of_list_ascii_of_string, obj_set_fresh by exact Hk.
    rewrite (IH (acc ++ [(k, v)]) g); [rewrite <- app_assoc; reflexivity|done|exact Hl| |].
    + rewrite <- app_assoc. exact Hnd.
    + cbn [map] in *. lia.
Qed.

Lemma skip_ws_value v r :
  exists c t, skip_ws (stringify v ++ r) = c :: t /\ c :: t = stringify v ++ r /\
              Ascii.eqb c "]"%char = false /\ Ascii.eqb c "}"%char = false.
Proof.
  rewrite skip_ws_stringify. destruct (stringify_first v) as [t ->].
  exists (first_char v), (t ++ r). by destruct v.
Qed.

Lemma sep_by_head {A} (sep : A) x l : exists t, sep_by sep (x :: l) = x ++ t.
Proof. destruct l; simpl; [exists []; by rewrite app_nil_r | eexists; reflexivity]. Qed.

Lemma forallb_Forall_impl {A} (f : A -> bool) (P : A -> Prop) l :
  Forall (fun x => f x = true -> P x) l -> forallb f l = true -> Forall P l.
Proof.
  intros Hl Hf. rewrite List.forallb_forall in Hf. rewrite Forall_forall in *. intros x Hx.
  apply Hl; [exact Hx|]. apply Hf. by apply list_elem_of_In.
Qed.

(** Every value without repeated keys is read back from its text. *)
Lemma canon_parses v : canon v = true -> parses v.
Proof.
  induction v as [s|l IH|kvs IH] using qval_ind'; intros Hc f rest Hf;
    (destruct f as [|f]; [lia|]).
  - cbn [stringify parse_value]. unfold quote. cbn [app].
    rewrite skip_ws_nonspace by reflexivity. eqb_lits. rewrite <- app_assoc. cbn [app].
    rewrite parse_chars_quote, String.string_of_list_ascii_of_string. reflexivity.
  - simpl in Hc. pose proof (forallb_Forall_impl _ _ _ IH Hc) as Hl.
    destruct l as [|v l]; [reflexivity|].
    cbn [stringify parse_value app]. rewrite skip_ws_nonspace by reflexivity. eqb_lits.
    destruct (sep_by_head ","%char (stringify v) (map stringify l)) as [t Ht].
    change (map stringify (v :: l)) with (stringify v :: map stringify l).
    rewrite Ht, <- !app_assoc. cbn [app].
    destruct (skip_ws_value v (t ++ "]"%char :: rest)) as (c & t' & E1 & E2 & E3 & _).
    rewrite E1. cbn iota. rewrite E3, app_assoc, <- Ht.
    change (stringify v :: map stringify l) with (map stringify (v :: l)).
    apply (parse_elems_ok (v :: l) [] f rest); [done|exact Hl|].
    change (length (stringify (QArr (v :: l)))) with
      (length ("["%char :: sep_by ","%char (map stringify (v :: l)) ++ ["]"%char])) in Hf.
    rewrite length_cons, length_app in Hf. cbn [length] in Hf. lia.
  - simpl in Hc. apply andb_prop in Hc as [Hnd Hc]. apply bool_decide_eq_true in Hnd.
    pose proof (forallb_Forall_impl _ _ _ IH Hc) as Hl.
    destruct kvs as [|[k v] kvs]; [reflexivity|].
    cbn [stringify parse_value app]. rewrite skip_ws_nonspace by reflexivity. eqb_lits.
    change (map (fun kv => quote (String.list_ascii_of_string kv.1) ++ ":"%char :: stringify kv.2)
                ((k, v) :: kvs)) with (map member ((k, v) :: kvs)).
    destruct (sep_by_head ","%char (member (k, v)) (map member kvs)) as [t Ht].
    change (map member ((k, v) :: kvs)) with (member (k, v) :: map member kvs).
    rewrite Ht, <- !app_assoc. cbn [app].
    rewrite (member_app k v), skip_ws_nonspace by reflexivity. eqb_lits.
    rewrite <- (member_app k v), app_assoc, <- Ht.
    change (member (k, v) :: map member kvs) with (map member ((k, v) :: kvs)).
    apply (parse_members_ok ((k, v) :: kvs) [] f rest); [done|exact Hl|exact Hnd|].
    change (length (stringify (QObj ((k, v) :: kvs)))) with
      (length ("{"%char :: sep_by ","%char (map member ((k, v) :: kvs)) ++ ["}"%char])) in Hf.
    rewrite length_cons, length_app in Hf. cbn [length] in Hf. lia.
Qed.

(** [JSON.parse] inverts [JSON.stringify] on the query objects the
    filter handles: every value in which no object repeats a key is read
    back unchanged from its text (the fuel [length + 1] suffices). *)
Theorem json_parse_stringify v : canon v = true -> json_parse (stringify v) = Some v.
Proof.
  intros Hc. unfold json_parse.
  pose proof (canon_parses v Hc (S (length (stringify v))) [] ltac:(lia)) as Hp.
  rewrite app_nil_r in Hp. rewrite Hp. reflexivity.
Qed.

(** ** The global replace *)

Lemma strip_prefix_some p l rest : strip_prefix p l = Some rest -> l = p ++ rest.
Proof.
  revert l. induction p as [|a p IH]; intros l H; simpl in H; [by injection H as ->|].
  destruct l as [|b l]; [discriminate|]. destruct (Ascii.eqb_spec a b) as [->|]; [|discriminate].
  rewrite (IH l H). reflexivity.
Qed.

Lemma strip_prefix_app p x : strip_prefix p (p ++ x) = Some x.
Proof. induction p as [|a p IH]; simpl; [done|]. rewrite Ascii.eqb_refl. exact IH. Qed.

Lemma match_alt_some alts l m rest :
  match_alt alts l = Some (m, rest) -> In m alts /\ l = m ++ rest.
Proof.
  induction alts as [|a alts IH]; simpl; [discriminate|].
  destruct (strip_prefix a l) as [r|] eqn:E.
  - destruct (boundary_after r).
    + intros H. injection H as <- <-. split; [left; done|]. exact (strip_prefix_some _ _ _ E).
    + intros H. destruct (IH H). split; [right|]; done.
  - intros H. destruct (IH H). split; [right|]; done.
Qed.

(** A match consumes at least two characters. *)
Lemma match_ops_length l m rest : match_alt ops l = Some (m, rest) -> (length rest + 2 <= length l)%nat.
Proof.
  intros H. destruct (match_alt_some _ _ _ _ H) as [Hm ->]. rewrite length_app.
  simpl in Hm. destruct Hm as [<-|[<-|[<-|[<-|[]]]]]; simpl; lia.
Qed.

Lemma rewrite_fuel f1 f2 pw l :
  (length l <= f1)%nat -> (length l <= f2)%nat -> rewrite_ops_aux f1 pw l = rewrite_ops_aux f2 pw l.
Proof.
  revert f2 pw l. induction f1 as [|f1 IH]; intros f2 pw l H1 H2.
  - destruct l; [|simpl in H1; lia]. destruct f2; reflexivity.
  - destruct f2 as [|f2]; [destruct l; [reflexivity|simpl in H2; lia]|].
    destruct l as [|c r]; [reflexivity|]. cbn [rewrite_ops_aux].
    destruct (if pw then None else match_alt ops (c :: r)) as [[m rest]|] eqn:E.
    + assert (Hl : (length rest + 2 <= length (c :: r))%nat).
      { destruct pw; [discriminate|]. exact (match_ops_length _ _ _ E). }
      f_equal. f_equal. apply IH; lia.
    + f_equal. apply IH; simpl in *; lia.
Qed.

(** The replace from a position, [prev_word] telling about the character
    before it, with the fuel it needs. *)
Definition rw (pw : bool) (l : list ascii) : list ascii := rewrite_ops_aux (length l) pw l.

Lemma rw_nil pw : rw pw [] = [].
Proof. reflexivity. Qed.

Lemma rw_cons pw c r :
  rw pw (c :: r) =
    match (if pw then None else match_alt ops (c :: r)) with
    | Some (m, rest) => "$"%char :: m ++ rw true rest
    | None => c :: rw (is_word c) r
    end.
Proof.
  unfold rw at 1. cbn [length rewrite_ops_aux].
  destruct (if pw then None else match_alt ops (c :: r)) as [[m rest]|] eqn:E.
  - assert (Hl : (length rest + 2 <= length (c :: r))%nat).
    { destruct pw; [discriminate|]. exact (match_ops_length _ _ _ E). }
    unfold rw. do 2 f_equal. apply rewrite_fuel; simpl in *; lia.
  - reflexivity.
Qed.

Lemma rewrite_ops_rw l : rewrite_ops l = rw false l.
Proof. reflexivity. Qed.

(** Every alternative is made of word characters. *)
Lemma ops_word p : In p ops -> Forall (fun a => is_word a = true) p.
Proof. simpl. intros [<-|[<-|[<-|[<-|[]]]]]; repeat constructor. Qed.

Lemma strip_prefix_app_nonword p Y c R :
  Forall (fun a => is_word a = true) p -> is_word c = false ->
  strip_prefix p (Y ++ c :: R) =
    match strip_prefix p Y with Some rest => Some (rest ++ c :: R) | None => None end.
Proof.
  intros Hp Hc. revert Y. induction Hp as [|a p Ha Hp IH]; intros Y; [reflexivity|].
  destruct Y as [|y Y]; simpl.
  - destruct (Ascii.eqb_spec a c) as [->|]; [congruence|reflexivity].
  - destruct (Ascii.eqb a y); [apply IH|reflexivity].
Qed.

Lemma boundary_after_app_nonword rest c R :
  is_word c = false -> boundary_after (rest ++ c :: R) = boundary_after rest.
Proof. intros Hc. destruct rest; simpl; [rewrite Hc|]; reflexivity. Qed.

Lemma match_alt_app_nonword Y c R :
  is_word c = false ->
  match_alt ops (Y ++ c :: R) =
    match match_alt ops Y with Some (m, rest) => Some (m, rest ++ c :: R) | None => None end.
Proof.
  intros Hc. assert (Hops : forall p, In p ops -> Forall (fun a => is_word a = true) p) by exact ops_word.
  generalize ops Hops. intros alts Halts. induction alts as [|a alts IH]; [reflexivity|]. simpl.
  rewrite strip_prefix_app_nonword by (auto with datatypes || exact Hc).
  destruct (strip_prefix a Y) as [rest|].
  - rewrite boundary_after_app_nonword by exact Hc. destruct (boundary_after rest); [reflexivity|].
    apply IH. intros p Hp. apply Halts. right. exact Hp.
  - apply IH. intros p Hp. apply Halts. right. exact Hp.
Qed.

Lemma match_alt_nonword c R : is_word c = false -> match_alt ops (c :: R) = None.
Proof.
  intros Hc. exact (match_alt_app_nonword [] c R Hc).
Qed.

(** A character that is not a word character separates the scan: the
    replace of [X ++ c :: R] is the replace of [X], then [c], then the
    replace of [R] from a boundary. *)
Lemma rw_split pw X c R :
  is_word c = false -> rw pw (X ++ c :: R) = rw pw X ++ c :: rw false R.
Proof.
  intros Hc. remember (length X) as n eqn:En. revert pw X En.
  induction n as [n IH] using lt_wf_ind. intros pw X En.
  destruct X as [|x X].
  - cbn [app]. rewrite rw_cons, rw_nil. cbn [app]. destruct pw; [rewrite Hc; reflexivity|].
    rewrite match_alt_nonword, Hc by exact Hc. reflexivity.
  - cbn [app]. rewrite !rw_cons. change (x :: X ++ c :: R) with ((x :: X) ++ c :: R).
    destruct pw.
    + rewrite (IH (length X)) by (simpl in En; lia). reflexivity.
    + rewrite match_alt_app_nonword by exact Hc.
      destruct (match_alt ops (x :: X)) as [[m rest]|] eqn:E.
      * destruct (match_alt_some _ _ _ _ E) as [Hm HX].
        assert (Hlen : (length rest + 2 <= length (x :: X))%nat) by exact (match_ops_length _ _ _ E).
        rewrite (IH (length rest)) by (simpl in *; lia). rewrite app_comm_cons, app_assoc. reflexivity.
      * rewrite (IH (length X)) by (simpl in En; lia). reflexivity.
Qed.

(** ** The replace on the text of a query object

    A character is plain when [JSON.stringify] writes it as itself. *)
Definition plain (c : ascii) : bool :=
  (32 <=? code c) && negb (Ascii.eqb c dquote) && negb (Ascii.eqb c "\"%char).

Lemma escape_plain c : plain c = true -> escape_char c = [c].
Proof.
  unfold plain, escape_char. intros H.
  apply andb_prop in H as [H H2]. apply andb_prop in H as [H1 H3].
  apply Nat.leb_le in H1. apply negb_true_iff, Ascii.eqb_neq in H2, H3.
  assert (Hq : code c <> 34) by (intros E; apply H3; rewrite <- (chr_code c), E; reflexivity).
  assert (Hb : code c <> 92) by (intros E; apply H2; rewrite <- (chr_code c), E; reflexivity).
  destruct (Nat.eqb_spec (code c) 8); [lia|]. destruct (Nat.eqb_spec (code c) 9); [lia|].
  destruct (Nat.eqb_spec (code c) 10); [lia|]. destruct (Nat.eqb_spec (code c) 12); [lia|].
  destruct (Nat.eqb_spec (code c) 13); [lia|]. destruct (Nat.eqb_spec (code c) 34); [lia|].
  destruct (Nat.eqb_spec (code c) 92); [lia|].
  destruct (Nat.ltb_spec (code c) 32); [lia|reflexivity].
Qed.

Lemma flat_map_plain s : forallb plain s = true -> flat_map escape_char s = s.
Proof.
  induction s as [|c s IH]; [reflexivity|]. simpl. intros H. apply andb_prop in H as [Hc Hs].
  rewrite escape_plain, IH by assumption. reflexivity.
Qed.

(** The replace only writes characters of its input, [$] and the letters
    of the alternatives. *)
Lemma rw_forall (P : ascii -> Prop) pw l :
  P "$"%char -> (forall p a, In p ops -> In a p -> P a) -> Forall P l -> Forall P (rw pw l).
Proof.
  intros Hd Hops. remember (length l) as n eqn:En. revert pw l En.
  induction n as [n IH] using lt_wf_ind. intros pw l En Hl.
  destruct l as [|c r]; [constructor|]. rewrite rw_cons.
  destruct (if pw then None else match_alt ops (c :: r)) as [[m rest]|] eqn:E.
  - destruct pw; [discriminate|]. destruct (match_alt_some _ _ _ _ E) as [Hm Hcr].
    pose proof (match_ops_length _ _ _ E) as Hlen.
    constructor; [exact Hd|]. apply Forall_app. split.
    + apply Forall_forall. intros a Ha. apply (Hops m); [exact Hm|]. by apply list_elem_of_In.
    + apply (IH (length rest)); [simpl in *; lia|done|]. rewrite Hcr in Hl.
      apply Forall_app in Hl as [_ Hl]. exact Hl.
  - apply Forall_cons in Hl as [Hc Hr]. constructor; [exact Hc|].
    apply (IH (length r)); [simpl in *; lia|done|exact Hr].
Qed.

Lemma rw_plain pw s : forallb plain s = true -> forallb plain (rw pw s) = true.
Proof.
  intros Hs. apply forallb_forall. apply List.Forall_forall.
  apply (rw_forall (fun a => plain a = true)); [reflexivity| |].
  - simpl. intros p a [<-|[<-|[<-|[<-|[]]]]] Ha; simpl in Ha; intuition subst; reflexivity.
  - apply List.Forall_forall. apply forallb_forall. exact Hs.
Qed.

(** The keys and string values of a query value, each passed through [f]. *)
Fixpoint qmap (f : string -> string) (v : qval) : qval :=
  match v with
  | QStr s => QStr (f s)
  | QArr l => QArr (map (qmap f) l)
  | QObj kvs => QObj (map (fun kv => (f kv.1, qmap f kv.2)) kvs)
  end.

Definition plain_string (s : string) : bool := forallb plain (String.list_ascii_of_string s).

(** Every key and string of [v] is plain. *)
Fixpoint all_plain (v : qval) : bool :=
  match v with
  | QStr s => plain_string s
  | QArr l => forallb all_plain l
  | QObj kvs => forallb (fun kv => plain_string kv.1 && all_plain kv.2) kvs
  end.

(** The replace on one key or string value, the quote before it being a
    boundary. *)
Definition rw_string (s : string) : string :=
  String.string_of_list_ascii (rw false (String.list_ascii_of_string s)).

Lemma rw_nonword_cons c R : is_word c = false -> rw false (c :: R) = c :: rw false R.
Proof. intros Hc. rewrite rw_cons, match_alt_nonword, Hc by exact Hc. reflexivity. Qed.

Lemma rw_quoted s R :
  plain_string s = true ->
  rw false (quote (String.list_ascii_of_string s) ++ R) =
    quote (String.list_ascii_of_string (rw_string s)) ++ rw false R.
Proof.
  intros Hs. unfold quote, rw_string. rewrite String.list_ascii_of_string_of_list_ascii.
  rewrite !flat_map_plain by (exact Hs || exact (rw_plain false _ Hs)).
  cbn [app]. rewrite <- !app_assoc. cbn [app].
  rewrite rw_nonword_cons, rw_split by reflexivity. reflexivity.
Qed.

Lemma rw_sep_by {A} (g g' : A -> list ascii) (l : list A) c R :
  Forall (fun x => forall R', rw false (g x ++ R') = g' x ++ rw false R') l -> is_word c = false ->
  rw false (sep_by ","%char (map g l) ++ c :: R) = sep_by ","%char (map g' l) ++ c :: rw false R.
Proof.
  intros Hl Hc. induction Hl as [|x l Hx Hl IH]; [exact (rw_nonword_cons c R Hc)|].
  destruct l as [|y l].
  - cbn [map sep_by]. rewrite Hx, rw_nonword_cons by exact Hc. reflexivity.
  - change (sep_by ","%char (map g (x :: y :: l))) with (g x ++ ","%char :: sep_by ","%char (map g (y :: l))).
    change (sep_by ","%char (map g' (x :: y :: l))) with (g' x ++ ","%char :: sep_by ","%char (map g' (y :: l))).
    rewrite <- !app_assoc. cbn [app]. rewrite Hx, rw_nonword_cons, IH by reflexivity. reflexivity.
Qed.

(** The replace on the text of a plain query value is the text of the
    value whose keys and strings were each replaced. *)
Lemma rw_stringify v R :
  all_plain v = true -> rw false (stringify v ++ R) = stringify (qmap rw_string v) ++ rw false R.
Proof.
  revert R. induction v as [s|l IH|kvs IH] using qval_ind'; intros R Hp.
  - exact (rw_quoted s R Hp).
  - simpl in Hp. pose proof (forallb_Forall_impl _ _ _
      (Forall_impl _ _ _ IH (fun v Hv Hpv R' => Hv R' Hpv)) Hp) as Hl.
    cbn [stringify qmap app]. rewrite rw_nonword_cons by reflexivity. rewrite <- app_assoc. cbn [app].
    rewrite map_map. rewrite (rw_sep_by stringify (fun v => stringify (qmap rw_string v))) by (exact Hl || reflexivity).
    rewrite <- app_assoc. reflexivity.
  - simpl in Hp.
    assert (Hl : Forall (fun kv => forall R', rw false (member kv ++ R') =
                   member (rw_string kv.1, qmap rw_string kv.2) ++ rw false R') kvs).
    { apply Forall_forall. intros [k v] Hkv R'. rewrite Forall_forall in IH.
      apply list_elem_of_In in Hkv as Hin.
      rewrite List.forallb_forall in Hp. specialize (Hp _ Hin). apply andb_prop in Hp as [Hk Hv].
      unfold member. cbn [fst snd] in *. rewrite <- app_assoc, rw_quoted by exact Hk.
      cbn [app]. rewrite rw_nonword_cons by reflexivity.
      pose proof (IH _ Hkv R' Hv) as Hr. cbn [snd] in Hr. rewrite Hr.
      rewrite <- app_assoc. reflexivity. }
    cbn [stringify qmap app]. rewrite rw_nonword_cons by reflexivity. rewrite <- app_assoc. cbn [app].
    change (map (fun kv => quote (String.list_ascii_of_string kv.1) ++ ":"%char :: stringify kv.2) kvs)
      with (map member kvs).
    rewrite (rw_sep_by member (fun kv => member (rw_string kv.1, qmap rw_string kv.2)))
      by (exact Hl || reflexivity).
    rewrite map_map, <- app_assoc. reflexivity.
Qed.

(** The whole text: [rewrite_ops] on [JSON.stringify] of a plain value. *)
Lemma rewrite_ops_stringify v :
  all_plain v = true -> rewrite_ops (stringify v) = stringify (qmap rw_string v).
Proof.
  intros Hp. rewrite rewrite_ops_rw, <- (app_nil_r (stringify v)), rw_stringify by exact Hp.
  rewrite rw_nil, app_nil_r. reflexivity.
Qed.

(** The three steps of [filter] on a plain query object: the parsed object
    is the object with each key and string value replaced. *)
Lemma json_parse_rewrite v :
  all_plain v = true -> canon (qmap rw_string v) = true ->
  json_parse (rewrite_ops (stringify v)) = Some (qmap rw_string v).
Proof.
  intros Hp Hc. rewrite rewrite_ops_stringify by exact Hp. by apply json_parse_stringify.
Qed.
