(* ===== verification/APIFeatures.v ===== *)
(** * Query Feature Builder ([src/src/utils/APIFeatures.ts])

    [class APIFeatures] holds a mongoose query and the request's query
    string; [filter], [sort], [limitFields] and [paginate] each set one part
    of the query and return the builder.  The mongoose query is the record
    [Query] of what those calls set; [sort] and [select] strings are parsed
    the way mongoose parses them (fields separated by white space, a
    leading [-] for descending order or exclusion). *)

From S2P Require Import Prelude JsValue AppError QueryJson.
From Stdlib Require Import QArith.

Local Open Scope Z_scope.

(** ** The mongoose query *)

(** A field of a projection: [name], [-name] or [+name]. *)
Inductive proj := PInclude | PExclude | PForce.

Record Query := {
  conditions : list (string * qval);    (** [query.find(conditions)] *)
  sortKeys : list (string * bool);      (** [query.sort(..)]: field, descending? *)
  projection : list (string * proj);    (** [query.select(..)] *)
  skipN : option jsnum;                 (** [query.skip(n)] *)
  limitN : option jsnum                 (** [query.limit(n)] *)
}.

(** [Model.find()]: no condition, no option. *)
Definition empty_query : Query :=
  {| conditions := []; sortKeys := []; projection := []; skipN := None; limitN := None |}.

(** [query.find(obj)] merges the object's properties into the conditions. *)
Definition merge_conditions (old new : list (string * qval)) : list (string * qval) :=
  fold_left (fun acc kv => obj_set kv.1 kv.2 acc) new old.

(** [s.split(/\s/)] on ASCII text: the pieces between white-space
    characters ([is_js_space], the class [\s] of a regular expression). *)
Fixpoint split_ws (s : string) : list string :=
  match s with
  | EmptyString => [EmptyString]
  | String c r =>
      let parts := split_ws r in
      if is_js_space c then EmptyString :: parts
      else match parts with
           | p :: ps => String c p :: ps
           | [] => [String c EmptyString]
           end
  end.

(** Mongoose's reading of a path list in [sort] and [select]: the string
    split on [/\s+/], empty words skipped.  The non-empty pieces of a split
    on [/\s+/] are those of a split on [/\s/]. *)
Definition words (s : string) : list string :=
  List.filter (fun w => negb (String.eqb w "")) (split_ws s).

Definition strip_first (s : string) : string :=
  match s with EmptyString => EmptyString | String _ r => r end.

(** [query.sort("a -b")]: [-] marks a descending key; a repeated key keeps
    its first position and takes the last direction. *)
Fixpoint assoc_set {A} (k : string) (v : A) (l : list (string * A)) : list (string * A) :=
  match l with
  | [] => [(k, v)]
  | (k', v') :: r => if String.eqb k k' then (k, v) :: r else (k', v') :: assoc_set k v r
  end.

Definition mongoose_sort (s : string) : list (string * bool) :=
  fold_left (fun acc w =>
               if js_starts_with "-" w then assoc_set (strip_first w) true acc
               else assoc_set w false acc) (words s) [].

Definition mongoose_select (s : string) : list (string * proj) :=
  fold_left (fun acc w =>
               if js_starts_with "-" w then assoc_set (strip_first w) PExclude acc
               else if js_starts_with "+" w then assoc_set (strip_first w) PForce acc
               else assoc_set w PInclude acc) (words s) [].

(** ** [class APIFeatures] *)
Record APIFeatures := {
  query : Query;
  queryString : list (string * qval)
}.

Definition set_query (f : APIFeatures) (q : Query) : APIFeatures :=
  {| query := q; queryString := queryString f |}.

Definition excludedFields : list string := ["page"; "sort"; "limit"; "fields"].

(** The error a method call on a value without that method raises. *)
Definition type_error (what : string) : js_error := EOther "TypeError" what.

(** [filter()]: copy the query string, delete the reserved keys, stringify,
    prefix [gte|gt|lte|lt] with [$], parse, [find]. *)
Definition filter (f : APIFeatures) : res js_error APIFeatures :=
  let queryObj := List.filter (fun kv => negb (bool_decide (kv.1 ∈ excludedFields)))
                    (queryString f) in
  let queryStr := rewrite_ops (stringify (QObj queryObj)) in
  match json_parse queryStr with
  | Some (QObj kvs) =>
      let q := query f in
      Ok (set_query f {| conditions := merge_conditions (conditions q) kvs;
                         sortKeys := sortKeys q; projection := projection q;
                         skipN := skipN q; limitN := limitN q |})
  | _ => Throw (EOther "SyntaxError" "JSON.parse")
  end.

(** [(this.queryString.x as string).split(',').join(' ')]: a parameter that
    is not a string has no [split] method. *)
Definition comma_list (v : qval) : res js_error string :=
  match v with
  | QStr s => Ok (js_join " " (js_split ","%char s))
  | _ => Throw (type_error "split is not a function")
  end.

(** [sort()]: the requested keys, or newest first by default. *)
Definition sort (f : APIFeatures) : res js_error APIFeatures :=
  let q := query f in
  let with_sort s := set_query f {| conditions := conditions q; sortKeys := mongoose_sort s;
                                    projection := projection q; skipN := skipN q;
                                    limitN := limitN q |} in
  match qlookup "sort" (queryString f) with
  | Some v as o => if qval_truthy o then
                     match comma_list v with
                     | Ok sortBy => Ok (with_sort sortBy)
                     | Throw e => Throw e
                     end
                   else Ok (with_sort "-createdAt")
  | None => Ok (with_sort "-createdAt")
  end.

(** [limitFields()]: the requested projection, or everything but [__v]. *)
Definition limitFields (f : APIFeatures) : res js_error APIFeatures :=
  let q := query f in
  let with_select s := set_query f {| conditions := conditions q; sortKeys := sortKeys q;
                                      projection := mongoose_select s; skipN := skipN q;
                                      limitN := limitN q |} in
  match qlookup "fields" (queryString f) with
  | Some v as o => if qval_truthy o then
                     match comma_list v with
                     | Ok fields => Ok (with_select fields)
                     | Throw e => Throw e
                     end
                   else Ok (with_select "-__v")
  | None => Ok (with_select "-__v")
  end.

(** [Number(this.queryString.page) || 1] and the limit likewise. *)
Definition page_of (qs : list (string * qval)) : jsnum :=
  num_or (qval_to_number (qlookup "page" qs)) (num_of_Z 1).

Definition limit_of (qs : list (string * qval)) : jsnum :=
  num_or (qval_to_number (qlookup "limit" qs)) (num_of_Z 100).

(** [paginate()]: [skip = limit * (page - 1)], computed before the check
    that rejects a negative page. *)
Definition paginate (f : APIFeatures) : res js_error APIFeatures :=
  let page := page_of (queryString f) in
  let limit := limit_of (queryString f) in
  let skip := num_mul limit (num_sub page (num_of_Z 1)) in
  if num_lt page (num_of_Z 0) then
    Throw (app_error "page number should be positive integer" 400)
  else
    let q := query f in
    Ok (set_query f {| conditions := conditions q; sortKeys := sortKeys q;
                       projection := projection q; skipN := Some skip; limitN := Some limit |}).

(** [new APIFeatures(Model.find(), req.query).filter().sort().limitFields()]. *)
Definition build_features (qs : list (string * qval)) : res js_error APIFeatures :=
  match filter {| query := empty_query; queryString := qs |} with
  | Ok f1 => match sort f1 with
             | Ok f2 => limitFields f2
             | Throw e => Throw e
             end
  | Throw e => Throw e
  end.

(** ** What the builder methods set *)

(** Each method changes the query and keeps the query string. *)
Ltac keeps_queryString :=
  intros H; repeat case_match; try discriminate; injection H as <-; reflexivity.

Lemma filter_queryString f f' : filter f = Ok f' -> queryString f' = queryString f.
Proof. unfold filter. keeps_queryString. Qed.

Lemma sort_queryString f f' : sort f = Ok f' -> queryString f' = queryString f.
Proof. unfold sort. keeps_queryString. Qed.

Lemma limitFields_queryString f f' : limitFields f = Ok f' -> queryString f' = queryString f.
Proof. unfold limitFields. keeps_queryString. Qed.

Lemma build_features_queryString qs f :
  build_features qs = Ok f -> queryString f = qs.
Proof.
  unfold build_features.
  destruct (filter _) as [f1|] eqn:E1; [|discriminate].
  destruct (sort f1) as [f2|] eqn:E2; [|discriminate]. intros E3.
  rewrite (limitFields_queryString _ _ E3), (sort_queryString _ _ E2), (filter_queryString _ _ E1).
  reflexivity.
Qed.

(** C30. What [filter] does to a plain query string: the reserved keys
    are dropped, and every key and every string value of what remains is
    passed through the replace of [gte], [gt], [lte], [lt] by [$gte], ...
    at word boundaries (values included), then merged into the
    conditions; the rest of the query is kept. *)
Theorem filter_spec f :
  let queryObj := List.filter (fun kv => negb (bool_decide (kv.1 ∈ excludedFields)))
                    (queryString f) in
  all_plain (QObj queryObj) = true -> canon (qmap rw_string (QObj queryObj)) = true ->
  filter f = Ok (set_query f {| conditions := merge_conditions (conditions (query f))
                                   (map (fun kv => (rw_string kv.1, qmap rw_string kv.2)) queryObj);
                                 sortKeys := sortKeys (query f); projection := projection (query f);
                                 skipN := skipN (query f); limitN := limitN (query f) |}).
Proof.
  intros queryObj Hp Hc. unfold filter. fold queryObj.
  rewrite (json_parse_rewrite (QObj queryObj) Hp Hc). reflexivity.
Qed.

(** A page and a limit that are integers, the page not negative:
    [skip = limit * (page - 1)] and the limit as given; the conditions,
    order and projection are kept. *)
Lemma paginate_int f (p l : Z) :
  page_of (queryString f) = num_of_Z p -> limit_of (queryString f) = num_of_Z l -> 0 <= p ->
  paginate f = Ok (set_query f {| conditions := conditions (query f);
                                   sortKeys := sortKeys (query f);
                                   projection := projection (query f);
                                   skipN := Some (num_of_Z (l * (p - 1)));
                                   limitN := Some (num_of_Z l) |}).
Proof.
  intros Hp Hl Hp0. unfold paginate. rewrite Hp, Hl.
  autorewrite with oasis_run. destruct (Z.ltb_spec p 0); [lia|]. reflexivity.
Qed.

(** A page that is not negative: [skip] and [limit] set from page and limit. *)
Lemma paginate_nonneg f :
  num_lt (page_of (queryString f)) (num_of_Z 0) = false ->
  paginate f = Ok (set_query f {| conditions := conditions (query f);
                                   sortKeys := sortKeys (query f);
                                   projection := projection (query f);
                                   skipN := Some (num_mul (limit_of (queryString f))
                                                    (num_sub (page_of (queryString f)) (num_of_Z 1)));
                                   limitN := Some (limit_of (queryString f)) |}).
Proof. intros H. unfold paginate. rewrite H. reflexivity. Qed.

(** A negative page is refused with a 400, whatever the limit. *)
Lemma paginate_negative f :
  num_lt (page_of (queryString f)) (num_of_Z 0) = true ->
  paginate f = Throw (app_error "page number should be positive integer" 400).
Proof. intros Hneg. unfold paginate. rewrite Hneg. reflexivity. Qed.

(** ** A list request's filter *)
Module FilterFixture.

(** [?name=gt lodge&price[gte]=100&page=2] *)
Definition lodge_features : APIFeatures :=
  {| query := empty_query;
     queryString := [("name", QStr "gt lodge"); ("price", QObj [("gte", QStr "100")]);
                     ("page", QStr "2")] |}.

Lemma filter_spec_witness :
  filter lodge_features =
    Ok (set_query lodge_features
          {| conditions := merge_conditions (conditions (query lodge_features))
               (map (fun kv => (rw_string kv.1, qmap rw_string kv.2))
                  (List.filter (fun kv => negb (bool_decide (kv.1 ∈ excludedFields)))
                     (queryString lodge_features)));
             sortKeys := sortKeys (query lodge_features);
             projection := projection (query lodge_features);
             skipN := skipN (query lodge_features); limitN := limitN (query lodge_features) |}).
Proof. apply filter_spec; vm_compute; reflexivity. Defined.

(** The value [gt lodge] becomes the condition [$gt lodge]. *)
Example filter_rewrites_values :
  option_map (fun f => conditions (query f)) (match filter lodge_features with Ok f => Some f | Throw _ => None end) =
    Some [("name", QStr "$gt lodge"); ("price", QObj [("$gte", QStr "100")])].
Proof. vm_compute. reflexivity. Qed.

End FilterFixture.
