(* ===== verification/Store.v ===== *)
(** * The entity store (mongoose over MongoDB), an external collaborator

    The handlers call the document store through mongoose; the store itself
    is not code of this repository.  This file states what the handlers
    rely on: [Store] is the interface (which documents a filter matches,
    how one field orders two documents, what a projection keeps, which
    filters fail to cast), [StoreLaws] the laws of the order, and
    [find_exec] / [count_exec] run a [Query] the way MongoDB runs a find
    and a count: filter, sort, skip, limit, project.  Skip and limit follow
    the server and the Node driver: a skip must be a non-negative integer,
    a limit an integer, a negative limit returns at most its absolute value
    in a single batch. *)

From S2P Require Import Prelude JsValue AppError QueryJson APIFeatures.
From Stdlib Require Import QArith Qround Sorted.

Local Open Scope Z_scope.

(** ** ObjectIds

    An id in a URL is cast to an ObjectId: 24 hexadecimal digits, or a
    string of 12 characters taken as its 12 bytes.  Anything else is a
    [CastError] on [_id]. *)
Definition hex_digit_val (c : ascii) : option Z :=
  let n := ascii_code c in
  if (48 <=? n) && (n <=? 57) then Some (n - 48)
  else if (97 <=? n) && (n <=? 102) then Some (n - 87)
  else if (65 <=? n) && (n <=? 70) then Some (n - 55)
  else None.

Fixpoint digits_value (base : Z) (digit : ascii -> option Z) (acc : Z) (l : list ascii) : option Z :=
  match l with
  | [] => Some acc
  | c :: r => match digit c with
              | Some d => digits_value base digit (acc * base + d) r
              | None => None
              end
  end.

Definition parse_oid (s : string) : option N :=
  let l := String.list_ascii_of_string s in
  if (length l =? 24)%nat then Z.to_N <$> digits_value 16 hex_digit_val 0 l
  else if (length l =? 12)%nat then Z.to_N <$> digits_value 256 (fun c => Some (ascii_code c)) 0 l
  else None.

Class Store (D : Type) := {
  doc_id : D -> N;
  doc_to_json : D -> json;
  doc_matches : list (string * qval) -> D -> bool;
  doc_cmp : string -> D -> D -> comparison;
  doc_project : list (string * proj) -> D -> D;
  (** A filter value that cannot be cast to its path's schema type. *)
  cast_filter : list (string * qval) -> option js_error
}.

(** The order of one field is a total preorder. *)
Class StoreLaws (D : Type) `{Store D} := {
  doc_cmp_sym : forall k a b, doc_cmp k b a = CompOpp (doc_cmp k a b);
  doc_cmp_trans : forall k a b c,
      doc_cmp k a b <> Gt -> doc_cmp k b c <> Gt -> doc_cmp k a c <> Gt
}.

Section Exec.
Context {D : Type} `{Store D}.

(** The order of a sort specification: the first key on which two
    documents differ decides, a descending key reversed. *)
Fixpoint lex_cmp (keys : list (string * bool)) (a b : D) : comparison :=
  match keys with
  | [] => Eq
  | (k, desc) :: more =>
      match (if desc then CompOpp (doc_cmp k a b) else doc_cmp k a b) with
      | Eq => lex_cmp more a b
      | c => c
      end
  end.

(** Insertion sort: [x] goes before the first document it is not greater
    than.  The input's earlier documents are inserted last, so documents
    that tie keep their input (natural) order. *)
Fixpoint insert_doc (keys : list (string * bool)) (x : D) (l : list D) : list D :=
  match l with
  | [] => [x]
  | y :: r => if bool_decide (lex_cmp keys x y = Gt) then y :: insert_doc keys x r
              else x :: y :: r
  end.

Fixpoint sort_docs (keys : list (string * bool)) (l : list D) : list D :=
  match l with
  | [] => []
  | x :: r => insert_doc keys x (sort_docs keys r)
  end.

(** The skip a find accepts: absent is 0, otherwise a non-negative integer. *)
Definition skip_value (n : option jsnum) : option nat :=
  match n with
  | None => Some 0%nat
  | Some x => match num_int x with
              | Some z => if 0 <=? z then Some (Z.to_nat z) else None
              | None => None
              end
  end.

(** The limit a find accepts: absent or 0 is no limit, a negative limit
    is its absolute value; a non-integer is refused. *)
Definition limit_value (n : option jsnum) : option (option nat) :=
  match n with
  | None => Some None
  | Some x => match num_int x with
              | Some 0 => Some None
              | Some z => Some (Some (Z.to_nat (Z.abs z)))
              | None => None
              end
  end.

Definition take_opt (lim : option nat) (l : list D) : list D :=
  match lim with None => l | Some n => take n l end.

(** A projection that includes some fields and excludes others (other
    than [_id]) is refused by the server. *)
Definition mixed_projection (p : list (string * proj)) : bool :=
  existsb (fun kv => match kv.2 with PInclude => true | _ => false end) p &&
  existsb (fun kv => match kv.2 with
                     | PExclude => negb (String.eqb kv.1 "_id")
                     | _ => false end) p.

Definition server_error (what : string) : js_error := EOther "MongoServerError" what.

Definition matching (q : Query) (docs : list D) : list D :=
  List.filter (doc_matches (conditions q)) docs.

(** [await query]: the documents of the page, projected. *)
Definition find_exec (q : Query) (docs : list D) : res js_error (list D) :=
  match cast_filter (conditions q) with
  | Some e => Throw e
  | None =>
    match skip_value (skipN q), limit_value (limitN q) with
    | Some sk, Some lim =>
        if mixed_projection (projection q) then Throw (server_error "projection")
        else Ok (map (doc_project (projection q))
                     (take_opt lim (drop sk (sort_docs (sortKeys q) (matching q docs)))))
    | None, _ => Throw (server_error "skip")
    | _, None => Throw (server_error "limit")
    end
  end.

(** [await query.clone().lean().countDocuments()]: sort, projection, skip
    and limit are not part of a count. *)
Definition count_exec (q : Query) (docs : list D) : res js_error nat :=
  match cast_filter (conditions q) with
  | Some e => Throw e
  | None => Ok (length (matching q docs))
  end.
End Exec.

(** ** The order of a sort specification *)
Section Order.
Context {D : Type} `{StoreLaws D}.

Definition lex_le (keys : list (string * bool)) (a b : D) : Prop := lex_cmp keys a b <> Gt.

Lemma dir_cmp_sym (desc : bool) k (a b : D) :
  (if desc then CompOpp (doc_cmp k b a) else doc_cmp k b a) =
  CompOpp (if desc then CompOpp (doc_cmp k a b) else doc_cmp k a b).
Proof. rewrite doc_cmp_sym. destruct desc, (doc_cmp k a b); reflexivity. Qed.

Lemma dir_cmp_trans (desc : bool) k (a b c : D) :
  (if desc then CompOpp (doc_cmp k a b) else doc_cmp k a b) <> Gt ->
  (if desc then CompOpp (doc_cmp k b c) else doc_cmp k b c) <> Gt ->
  (if desc then CompOpp (doc_cmp k a c) else doc_cmp k a c) <> Gt.
Proof.
  destruct desc; [|apply doc_cmp_trans].
  rewrite <- !doc_cmp_sym. intros Hab Hbc. exact (doc_cmp_trans k c b a Hbc Hab).
Qed.

Lemma lex_cmp_sym keys (a b : D) : lex_cmp keys b a = CompOpp (lex_cmp keys a b).
Proof.
  induction keys as [|[k desc] keys IH]; [reflexivity|]. simpl.
  rewrite dir_cmp_sym. destruct (if desc then _ else _); simpl; auto.
Qed.

Lemma lex_cmp_trans keys (a b c : D) : lex_le keys a b -> lex_le keys b c -> lex_le keys a c.
Proof.
  unfold lex_le. induction keys as [|[k desc] keys IH]; simpl; [congruence|].
  pose proof (dir_cmp_sym desc k) as Hs. pose proof (dir_cmp_trans desc k) as Ht.
  destruct (if desc then CompOpp (doc_cmp k a b) else doc_cmp k a b) eqn:Eab;
  destruct (if desc then CompOpp (doc_cmp k b c) else doc_cmp k b c) eqn:Ebc;
    intros Hab Hbc; try congruence.
  - rewrite (cmp_eq_eq _ Hs Ht a b c Eab Ebc). auto.
  - rewrite (cmp_le_lt_lt _ Hs Ht a b c); [discriminate | cbn; rewrite Eab; discriminate | exact Ebc].
  - rewrite (cmp_lt_le_lt _ Hs Ht a b c); [discriminate | exact Eab | cbn; rewrite Ebc; discriminate].
  - rewrite (cmp_lt_le_lt _ Hs Ht a b c); [discriminate | exact Eab | cbn; rewrite Ebc; discriminate].
Qed.

Lemma lex_le_flip keys (a b : D) : lex_cmp keys a b = Gt -> lex_le keys b a.
Proof. unfold lex_le. rewrite (lex_cmp_sym keys a b). intros ->. discriminate. Qed.

Lemma insert_doc_perm keys (x : D) l : insert_doc keys x l ≡ₚ x :: l.
Proof.
  induction l as [|y l IH]; simpl; [done|].
  case_bool_decide; [|done]. rewrite IH. apply perm_swap.
Qed.

Lemma sort_docs_perm keys (l : list D) : sort_docs keys l ≡ₚ l.
Proof.
  induction l as [|x l IH]; simpl; [done|]. rewrite insert_doc_perm, IH. done.
Qed.

Lemma insert_doc_hd keys (x y : D) l :
  HdRel (lex_le keys) y l -> lex_le keys y x -> HdRel (lex_le keys) y (insert_doc keys x l).
Proof.
  intros Hl Hyx. destruct l as [|z l]; simpl; [by constructor|].
  case_bool_decide; constructor; [by inversion Hl | done].
Qed.

Lemma insert_doc_sorted keys (x : D) l :
  Sorted (lex_le keys) l -> Sorted (lex_le keys) (insert_doc keys x l).
Proof.
  induction l as [|y l IH]; simpl; intros Hs; [by repeat constructor|].
  apply Sorted_inv in Hs as [Hl Hhd].
  case_bool_decide as Hgt.
  - constructor; [by apply IH|]. apply insert_doc_hd; [done|]. by apply lex_le_flip.
  - constructor; [by constructor|]. constructor. unfold lex_le. done.
Qed.

Lemma sort_docs_sorted keys (l : list D) : Sorted (lex_le keys) (sort_docs keys l).
Proof. induction l; simpl; [constructor | by apply insert_doc_sorted]. Qed.
End Order.

#[export] Hint Resolve sort_docs_sorted sort_docs_perm : oasis.

(** ** A reference instance: documents with integer fields

    Documents whose fields are integers, filtered by equality and by the
    [$gt], [$gte], [$lt], [$lte] operators on [Number] casts of the query
    strings, ordered with a missing field first, as MongoDB orders [null].
    It instantiates the interface on concrete collections. *)
Record rdoc := { rid : N; rfields : list (string * Z) }.

Fixpoint zlookup (k : string) (l : list (string * Z)) : option Z :=
  match l with
  | [] => None
  | (k', v) :: r => if String.eqb k k' then Some v else zlookup k r
  end.

Definition opt_cmp (a b : option Z) : comparison :=
  match a, b with
  | None, None => Eq
  | None, Some _ => Lt
  | Some _, None => Gt
  | Some x, Some y => Z.compare x y
  end.

Definition op_holds (v : Z) (op : string) (a : qval) : bool :=
  match qval_to_number (Some a) with
  | Fin q =>
      let x := inject_Z v in
      if String.eqb op "$gte" then Qle_bool q x
      else if String.eqb op "$gt" then Qltb q x
      else if String.eqb op "$lte" then Qle_bool x q
      else if String.eqb op "$lt" then Qltb x q
      else false
  | _ => false
  end.

Definition cond_holds (v : option Z) (c : qval) : bool :=
  match v, c with
  | Some z, QStr s => match string_to_number s with
                      | Fin q => Qeq_bool (inject_Z z) q
                      | _ => false
                      end
  | Some z, QObj kvs => forallb (fun kv => op_holds z kv.1 kv.2) kvs
  | _, _ => false
  end.

Definition rdoc_project (p : list (string * proj)) (d : rdoc) : rdoc :=
  let keep k := if existsb (fun kv => match kv.2 with PInclude => true | _ => false end) p
                then existsb (fun kv => String.eqb kv.1 k &&
                                        match kv.2 with PExclude => false | _ => true end) p
                else negb (existsb (fun kv => String.eqb kv.1 k &&
                                              match kv.2 with PExclude => true | _ => false end) p) in
  {| rid := rid d; rfields := List.filter (fun kv => keep kv.1) (rfields d) |}.

#[export] Instance rdoc_store : Store rdoc := {|
  doc_id := rid;
  doc_to_json d := JObj (("_id", JNum (Z.of_N (rid d))) ::
                         map (fun kv => (kv.1, JNum kv.2)) (rfields d));
  doc_matches conds d := forallb (fun kv => cond_holds (zlookup kv.1 (rfields d)) kv.2) conds;
  doc_cmp k a b := opt_cmp (zlookup k (rfields a)) (zlookup k (rfields b));
  doc_project := rdoc_project;
  cast_filter _ := None
|}.

#[export] Instance rdoc_laws : StoreLaws rdoc.
Proof.
  split; simpl.
  - intros k a b. destruct (zlookup k (rfields a)), (zlookup k (rfields b)); simpl;
      [apply Z.compare_antisym | reflexivity..].
  - intros k a b c. destruct (zlookup k (rfields a)) as [x|], (zlookup k (rfields b)) as [y|],
      (zlookup k (rfields c)) as [z|]; simpl; try congruence;
      destruct (Z.compare_spec x y); destruct (Z.compare_spec y z);
      destruct (Z.compare_spec x z); congruence || lia.
Qed.

Lemma skip_value_of_Z z : 0 <= z -> skip_value (Some (num_of_Z z)) = Some (Z.to_nat z).
Proof.
  intros Hz. unfold skip_value. rewrite num_int_of_Z.
  destruct (Z.leb_spec 0 z); [reflexivity | lia].
Qed.

Lemma skip_value_neg (r : Q) : (r < 0)%Q -> skip_value (Some (Fin r)) = None.
Proof.
  intros Hr. unfold skip_value, num_int.
  destruct (Qeq_bool (inject_Z (Qfloor r)) r) eqn:E; [|reflexivity].
  apply Qeq_bool_iff in E. assert (Qfloor r < 0) by (rewrite Zlt_Qlt, E; exact Hr).
  destruct (Z.leb_spec 0 (Qfloor r)); [lia | reflexivity].
Qed.

Lemma limit_value_pos z : 0 < z -> limit_value (Some (num_of_Z z)) = Some (Some (Z.to_nat z)).
Proof. intros Hz. unfold limit_value. rewrite num_int_of_Z. destruct z; [lia | reflexivity | lia]. Qed.

(** A negative limit is taken by its absolute value. *)
Lemma limit_value_neg z : z < 0 -> limit_value (Some (num_of_Z z)) = Some (Some (Z.to_nat (- z))).
Proof. intros Hz. unfold limit_value. rewrite num_int_of_Z. destruct z; [lia | lia | reflexivity]. Qed.

Lemma take_opt_length {D} (n : nat) (l : list D) : (length (take_opt (Some n) l) <= n)%nat.
Proof. apply take_length_le. Qed.
