(* ===== verification/HandlerFactory.v ===== *)
(** * Generic Resource Handler ([src/src/controllers/handlerFactory.ts])

    [getAll], [getOne], [createOne], [updateOne] and [deleteOne] take a
    mongoose [Model] and return an Express handler wrapped in
    [catchAsync].  The handler state is one collection: its documents in
    natural order, the log of the store operations the handlers issued,
    and the supply of fresh ObjectIds.  A [Model] carries what the schema
    does on a write (casts, defaults, validators, pre-save hooks, unique
    indexes); [ModelLaws] are the two facts about ids the handlers rely on. *)

From S2P Require Import Prelude JsValue AppError QueryJson APIFeatures Store.
From Stdlib Require Import QArith Sorted.

Local Open Scope Z_scope.

(** The store operations a handler issues, in order. *)
Inductive dbop := OpCount | OpFind | OpFindById | OpCreate | OpUpdate | OpDelete.

Record Coll (D : Type) := mkColl {
  docs : list D;
  ops : list dbop;
  fresh : N
}.
Arguments mkColl {D} docs ops fresh.
Arguments docs {D} c.
Arguments ops {D} c.
Arguments fresh {D} c.

(** A mongoose model of documents [D] written from request bodies [B]. *)
Record Model (D B : Type) := {
  modelName : string;
  (** [Model.create(body)] with the new document's ObjectId. *)
  create_doc : N -> B -> list D -> res js_error D;
  (** The update validators of [findByIdAndUpdate(.., {runValidators: true})]. *)
  validate_update : B -> option js_error;
  (** The update applied to a found document. *)
  apply_update : B -> D -> list D -> res js_error D
}.
Arguments modelName {D B} m.
Arguments create_doc {D B} m id body others.
Arguments validate_update {D B} m body.
Arguments apply_update {D B} m body d others.

Record ModelLaws {D B} `{Store D} (m : Model D B) := {
  create_doc_id : forall id b ds d, create_doc m id b ds = Ok d -> doc_id d = id;
  apply_update_id : forall b d ds d', apply_update m b d ds = Ok d' -> doc_id d' = doc_id d
}.

Section Handlers.
Context {D B : Type} `{Store D} (m : Model D B).

Local Abbreviation DB := (M (Coll D) js_error).


Definition log (o : dbop) : DB unit :=
  modify (fun c => mkColl (docs c) (ops c ++ [o]) (fresh c)).

Definition set_docs (l : list D) : DB unit :=
  modify (fun c => mkColl l (ops c) (fresh c)).

Definition lookup_id (n : N) (l : list D) : option D :=
  List.find (fun d => bool_decide (doc_id d = n)) l.

Definition replace_id (n : N) (d' : D) (l : list D) : list D :=
  map (fun d => if bool_decide (doc_id d = n) then d' else d) l.

Definition remove_id (n : N) (l : list D) : list D :=
  List.filter (fun d => negb (bool_decide (doc_id d = n))) l.

Definition cast_id (id : string) : res js_error N :=
  match parse_oid id with Some n => Ok n | None => Throw (ECast "_id" id) end.

(** [features.query.clone().lean().countDocuments()] *)
Definition db_count (q : Query) : DB nat :=
  _ ← log OpCount; c ← get_st; lift (count_exec q (docs c)).

(** [await features.query] *)
Definition db_find (q : Query) : DB (list D) :=
  _ ← log OpFind; c ← get_st; lift (find_exec q (docs c)).

(** [Model.findById(id, projection)] *)
Definition db_findById (id : string) (p : list (string * proj)) : DB (option D) :=
  _ ← log OpFindById; n ← lift (cast_id id); c ← get_st;
  mret (doc_project p <$> lookup_id n (docs c)).

(** [Model.create(body)] *)
Definition db_create (body : B) : DB D :=
  _ ← log OpCreate; c ← get_st;
  d ← lift (create_doc m (fresh c) body (docs c));
  _ ← put_st (mkColl (docs c ++ [d]) (ops c) (N.succ (fresh c)));
  mret d.

(** [Model.findByIdAndUpdate(id, body, {new: true, runValidators: true})] *)
Definition db_update (id : string) (body : B) : DB (option D) :=
  _ ← log OpUpdate; n ← lift (cast_id id);
  _ ← (match validate_update m body with Some e => throw e | None => mret tt end);
  c ← get_st;
  match lookup_id n (docs c) with
  | None => mret None
  | Some d => d' ← lift (apply_update m body d (docs c));
              _ ← set_docs (replace_id n d' (docs c));
              mret (Some d')
  end.

(** [Model.findByIdAndDelete(id)] *)
Definition db_delete (id : string) : DB (option D) :=
  _ ← log OpDelete; n ← lift (cast_id id); c ← get_st;
  match lookup_id n (docs c) with
  | None => mret None
  | Some d => _ ← set_docs (remove_id n (docs c)); mret (Some d)
  end.

Definition name_lc : string := js_to_lower (modelName m).

Definition not_found_msg : string := ("No " ++ name_lc ++ " found with that ID")%string.

Definition list_body (total : nat) (l : list D) : json :=
  JObj [("status", JStr "success"); ("results", JNum (Z.of_nat (length l)));
        ("totalDocuments", JNum (Z.of_nat total));
        ("data", JObj [((name_lc ++ "s")%string, JArr (map doc_to_json l))])].

Definition doc_body (d : D) : json :=
  JObj [("status", JStr "success"); ("data", JObj [(name_lc, doc_to_json d)])].

(** [getAll(Model)]: build, count, paginate, find. *)
Definition getAll (qs : list (string * qval)) : DB outcome :=
  features ← lift (build_features qs);
  totalDocuments ← db_count (query features);
  paged ← lift (paginate features);
  found ← db_find (query paged);
  mret (Respond 200 (list_body totalDocuments found)).

(** [getOne(Model)] *)
Definition getOne (id : string) : DB outcome :=
  doc ← db_findById id [("__v", PExclude)];
  match doc with
  | None => fail_with not_found_msg 404
  | Some d => mret (Respond 200 (doc_body d))
  end.

(** [createOne(Model)] *)
Definition createOne (body : B) : DB outcome :=
  doc ← db_create body;
  mret (Respond 201 (doc_body doc)).

(** [updateOne(Model)] *)
Definition updateOne (id : string) (body : B) : DB outcome :=
  doc ← db_update id body;
  match doc with
  | None => fail_with not_found_msg 404
  | Some d => mret (Respond 200 (doc_body d))
  end.

(** [deleteOne(Model)] *)
Definition deleteOne (id : string) : DB outcome :=
  doc ← db_delete id;
  match doc with
  | None => fail_with not_found_msg 404
  | Some _ => mret (Respond 204 (JObj [("status", JStr "success"); ("data", JNull)]))
  end.
End Handlers.

(** ** Properties of the generic handlers *)
Section Properties.
Context {D B : Type} `{StoreLaws D} (m : Model D B).

(** The collection after the handler logged [os] and wrote nothing. *)
Definition with_ops (c : Coll D) (os : list dbop) : Coll D :=
  mkColl (docs c) (ops c ++ os) (fresh c).

Lemma with_ops_app (c : Coll D) os1 os2 :
  with_ops (with_ops c os1) os2 = with_ops c (os1 ++ os2).
Proof. unfold with_ops. simpl. rewrite app_assoc. reflexivity. Qed.

(** The builder and the count of a list request, up to [paginate]. *)
Lemma getAll_counted qs (c : Coll D) f n :
  build_features qs = Ok f ->
  count_exec (query f) (docs c) = Ok n ->
  catchAsync (getAll m qs) c =
    match paginate f with
    | Throw e => (with_ops c [OpCount], NextErr e)
    | Ok paged =>
        match find_exec (query paged) (docs c) with
        | Throw e => (with_ops c [OpCount; OpFind], NextErr e)
        | Ok found => (with_ops c [OpCount; OpFind], Respond 200 (list_body m n found))
        end
    end.
Proof.
  intros Hb Hn. unfold catchAsync, getAll, db_count, db_find, lift, log, with_ops.
  run_M. rewrite Hb. simpl. rewrite Hn.
  destruct (paginate f) as [paged|e]; [|reflexivity].
  destruct (find_exec (query paged) (docs c)); simpl; rewrite <- app_assoc; reflexivity.
Qed.

Lemma count_exec_ok q (docs : list D) :
  cast_filter (conditions q) = None -> count_exec q docs = Ok (length (matching q docs)).
Proof. intros Hc. unfold count_exec. rewrite Hc. reflexivity. Qed.

(** The contract of a list request (the spec's Query Feature Builder
    guarantee): the documents returned are, projected, the window
    [[skip, skip + limit)] of the matching documents in an order sorted
    by the sort keys. *)
Definition page_contract (keys : list (string * bool)) (pr : list (string * proj))
           (sk lim : nat) (all out : list D) : Prop :=
  exists P, P ≡ₚ all /\ Sorted (lex_le keys) P /\
            out = map (doc_project pr) (take lim (drop sk P)).

(** A list request with an integer page [p >= 1] and limit [l >= 1]:
    the count and the page of documents, from the store's two reads. *)
Lemma getAll_page qs (c : Coll D) f (p l : Z) :
  build_features qs = Ok f ->
  cast_filter (conditions (query f)) = None ->
  mixed_projection (projection (query f)) = false ->
  page_of qs = num_of_Z p -> limit_of qs = num_of_Z l -> 1 <= p -> 1 <= l ->
  catchAsync (getAll m qs) c =
    (with_ops c [OpCount; OpFind],
     Respond 200 (list_body m (length (matching (query f) (docs c)))
                    (map (doc_project (projection (query f)))
                         (take (Z.to_nat l) (drop (Z.to_nat (l * (p - 1)))
                            (sort_docs (sortKeys (query f)) (matching (query f) (docs c)))))))).
Proof.
  intros Hb Hc Hm Hp Hl Hp1 Hl1.
  rewrite (getAll_counted qs c f _ Hb (count_exec_ok _ _ Hc)).
  pose proof (build_features_queryString _ _ Hb) as Hqs.
  rewrite (paginate_int f p l) by (try rewrite Hqs; first [assumption | lia]).
  unfold find_exec. cbn [query conditions projection skipN limitN sortKeys set_query]. rewrite Hc, Hm.
  rewrite skip_value_of_Z, limit_value_pos by nia. reflexivity.
Qed.

(** C1. A list request whose page and limit are integers [p >= 1] and
    [l >= 1] responds 200 with [totalDocuments] equal to the number of
    documents matching the filter, ignoring pagination, and with at most
    [l] documents: the projected window [[l * (p - 1), l * p)] of the
    matching documents sorted by the requested keys. *)
Theorem getAll_refines qs (c : Coll D) f (p l : Z) :
  build_features qs = Ok f ->
  cast_filter (conditions (query f)) = None ->
  mixed_projection (projection (query f)) = false ->
  page_of qs = num_of_Z p -> limit_of qs = num_of_Z l -> 1 <= p -> 1 <= l ->
  exists out,
    catchAsync (getAll m qs) c =
      (with_ops c [OpCount; OpFind],
       Respond 200 (list_body m (length (matching (query f) (docs c))) out)) /\
    page_contract (sortKeys (query f)) (projection (query f))
                  (Z.to_nat (l * (p - 1))) (Z.to_nat l) (matching (query f) (docs c)) out /\
    (length out <= Z.to_nat l)%nat.
Proof.
  intros Hb Hc Hm Hp Hl Hp1 Hl1.
  eexists. split; [exact (getAll_page qs c f p l Hb Hc Hm Hp Hl Hp1 Hl1)|]. split.
  - exists (sort_docs (sortKeys (query f)) (matching (query f) (docs c))).
    split; [apply sort_docs_perm|]. split; [apply sort_docs_sorted|]. reflexivity.
  - rewrite length_map. apply take_length_le.
Qed.

(** C2. A negative page is refused with the operational error 400, but
    only after the count of matching documents has been sent to the
    store: the store is read before the page is checked. *)
Theorem getAll_negative_page qs (c : Coll D) f :
  build_features qs = Ok f ->
  cast_filter (conditions (query f)) = None ->
  num_lt (page_of qs) (num_of_Z 0) = true ->
  catchAsync (getAll m qs) c =
    (with_ops c [OpCount], NextErr (app_error "page number should be positive integer" 400)).
Proof.
  intros Hb Hc Hneg.
  rewrite (getAll_counted qs c f _ Hb (count_exec_ok _ _ Hc)).
  rewrite paginate_negative; [reflexivity|].
  rewrite (build_features_queryString _ _ Hb). exact Hneg.
Qed.

(** C3. A page strictly between 0 and 1 (such as [page=0.5]) passes the
    check for a negative page, and the skip [limit * (page - 1)] it
    computes is negative: the find fails in the store with an error that
    is not operational. *)
Theorem getAll_fractional_page qs (c : Coll D) f (q : Q) (l : Z) :
  build_features qs = Ok f ->
  cast_filter (conditions (query f)) = None ->
  page_of qs = Fin q -> (0 < q)%Q -> (q < 1)%Q ->
  limit_of qs = num_of_Z l -> 1 <= l ->
  catchAsync (getAll m qs) c = (with_ops c [OpCount; OpFind], NextErr (server_error "skip")).
Proof.
  intros Hb Hc Hp Hq0 Hq1 Hl Hl1.
  rewrite (getAll_counted qs c f _ Hb (count_exec_ok _ _ Hc)).
  pose proof (build_features_queryString _ _ Hb) as Hqs.
  rewrite paginate_nonneg by (rewrite Hqs, Hp; apply num_lt_pos_zero; exact Hq0).
  unfold find_exec. cbn [query conditions skipN limitN set_query]. rewrite Hc, Hqs, Hp, Hl.
  change (num_mul (num_of_Z l) (num_sub (Fin q) (num_of_Z 1)))
    with (Fin (inject_Z l * (q + - inject_Z 1))).
  rewrite skip_value_neg; [reflexivity|]. apply skip_of_fraction_neg; assumption.
Qed.

(** C4. A negative limit [l] on the first page does not bound the page
    by [l]: the store answers with up to [-l] documents, the first [-l]
    matching ones in sort order. *)
Theorem getAll_negative_limit qs (c : Coll D) f (l : Z) :
  build_features qs = Ok f ->
  cast_filter (conditions (query f)) = None ->
  mixed_projection (projection (query f)) = false ->
  page_of qs = num_of_Z 1 -> limit_of qs = num_of_Z l -> l < 0 ->
  catchAsync (getAll m qs) c =
    (with_ops c [OpCount; OpFind],
     Respond 200 (list_body m (length (matching (query f) (docs c)))
                    (map (doc_project (projection (query f)))
                         (take (Z.to_nat (- l))
                            (sort_docs (sortKeys (query f)) (matching (query f) (docs c))))))).
Proof.
  intros Hb Hc Hm Hp Hl Hneg.
  rewrite (getAll_counted qs c f _ Hb (count_exec_ok _ _ Hc)).
  pose proof (build_features_queryString _ _ Hb) as Hqs.
  rewrite paginate_nonneg by (rewrite Hqs, Hp; reflexivity).
  unfold find_exec. cbn [query conditions projection skipN limitN sortKeys set_query].
  rewrite Hc, Hm, Hqs, Hp, Hl, num_mul_sub_of_Z, Z.sub_diag, Z.mul_0_r.
  rewrite skip_value_of_Z, limit_value_neg by lia. reflexivity.
Qed.
End Properties.

(** ** Documents by id, and the uniqueness of ids *)
Section Ids.
Context {D B : Type} `{Store D} (m : Model D B).

(** The ids of the collection are distinct and all below the next fresh id. *)
Definition ids_ok' (l : list D) (n : N) : Prop :=
  NoDup (map doc_id l) /\ Forall (fun d => (doc_id d < n)%N) l.

Definition ids_ok (c : Coll D) : Prop := ids_ok' (docs c) (fresh c).

Lemma lookup_id_Some n l d : lookup_id n l = Some d -> doc_id d = n /\ In d l.
Proof.
  unfold lookup_id. intros Hf. apply find_some in Hf as [Hin Hn].
  apply bool_decide_eq_true in Hn. auto.
Qed.

(** With distinct ids, a stored document is the one its id finds. *)
Lemma lookup_id_elem l d : NoDup (map doc_id l) -> In d l -> lookup_id (doc_id d) l = Some d.
Proof.
  intros Hnd Hin. destruct (lookup_id (doc_id d) l) as [d'|] eqn:E.
  - apply lookup_id_Some in E as [Hid Hin']. f_equal.
    change (map doc_id l) with (doc_id <$> l) in Hnd.
    eapply NoDup_fmap_key_eq; [exact Hnd | by apply list_elem_of_In | by apply list_elem_of_In | done].
  - unfold lookup_id in E. eapply find_none in E; [|exact Hin].
    by rewrite bool_decide_eq_true_2 in E.
Qed.

Lemma ids_ok_append l n d : ids_ok' l n -> doc_id d = n -> ids_ok' (l ++ [d]) (N.succ n).
Proof.
  intros [Hnd Hlt] Hd. split.
  - rewrite map_app. apply NoDup_app. split; [done|]. split; [|apply NoDup_singleton].
    intros x Hx Hy. apply list_elem_of_singleton in Hy. subst x.
    apply list_elem_of_fmap in Hx as (y & Hy & Hin).
    rewrite Forall_forall in Hlt. specialize (Hlt y Hin). simpl in Hlt. lia.
  - apply Forall_app. split; [|constructor; [simpl; lia | constructor]].
    eapply Forall_impl; [exact Hlt|]. simpl. intros x Hx. lia.
Qed.

Lemma map_id_replace k d' l : doc_id d' = k -> map doc_id (replace_id k d' l) = map doc_id l.
Proof.
  intros Hd. induction l as [|x l IH]; simpl; [done|].
  case_bool_decide; simpl; congruence.
Qed.

Lemma ids_ok_replace l n k d d' :
  ids_ok' l n -> lookup_id k l = Some d -> doc_id d' = doc_id d -> ids_ok' (replace_id k d' l) n.
Proof.
  intros [Hnd Hlt] Hk Hd. apply lookup_id_Some in Hk as [Hdk Hin]. split.
  - rewrite map_id_replace by congruence. exact Hnd.
  - rewrite Forall_forall in Hlt |- *. unfold replace_id. intros x Hx.
    apply list_elem_of_In, in_map_iff in Hx as (y & Hy & Hyin).
    case_bool_decide; subst x; [rewrite Hd|]; apply Hlt, list_elem_of_In; assumption.
Qed.

Lemma ids_ok_remove l n k : ids_ok' l n -> ids_ok' (remove_id k l) n.
Proof.
  intros [Hnd Hlt]. unfold remove_id. induction l as [|x l IH]; simpl; [split; constructor|].
  inversion Hnd as [|? ? Hx Hnd']. inversion Hlt. subst.
  destruct (IH Hnd' ltac:(assumption)) as [IH1 IH2].
  destruct (negb _); simpl; [|split; assumption]. split; [|constructor; assumption].
  constructor; [|exact IH1]. intros Hin. apply Hx.
  apply list_elem_of_In in Hin. apply list_elem_of_In.
  apply in_map_iff in Hin as (y & Hy & Hyin). apply filter_In in Hyin as [Hyin _].
  rewrite <- Hy. apply in_map. exact Hyin.
Qed.

Lemma lookup_id_remove k l : lookup_id k (remove_id k l) = None.
Proof.
  unfold lookup_id, remove_id. induction l as [|x l IH]; simpl; [done|].
  case_bool_decide; simpl; [exact IH|]. case_bool_decide; [contradiction | exact IH].
Qed.

Lemma remove_id_absent k l : (forall z, In z l -> doc_id z <> k) -> remove_id k l = l.
Proof.
  unfold remove_id. induction l as [|x l IH]; intros Hall; simpl; [done|].
  case_bool_decide as Hx; [exfalso; apply (Hall x); [left; done | done]|].
  simpl. f_equal. apply IH. intros z Hz. apply Hall. right. exact Hz.
Qed.

(** With distinct ids, removing an id present removes one document. *)
Lemma remove_id_length l n k d :
  ids_ok' l n -> lookup_id k l = Some d -> length (remove_id k l) = pred (length l).
Proof.
  intros [Hnd _] Hk. revert Hnd Hk. unfold lookup_id.
  induction l as [|x l IH]; simpl; intros Hnd Hk; [discriminate|].
  inversion Hnd as [|? ? Hx Hnd']; subst.
  unfold remove_id; simpl. case_bool_decide as Hxk; simpl.
  - subst k. fold (remove_id (doc_id x) l). rewrite remove_id_absent; [reflexivity|].
    intros z Hz Heq. apply Hx, list_elem_of_In. rewrite <- Heq. apply in_map. exact Hz.
  - fold (remove_id k l). rewrite (IH Hnd' Hk).
    destruct l; simpl in *; [discriminate | reflexivity].
Qed.
End Ids.

(** ** The collection as a state machine

    Each request to one of the five routes is a step; a collection is
    reachable when some sequence of requests leads to it from the empty
    collection. *)
Inductive call (B : Type) :=
| CGetAll (qs : list (string * qval))
| CGetOne (id : string)
| CCreate (body : B)
| CUpdate (id : string) (body : B)
| CDelete (id : string).
Arguments CGetAll {B} qs.
Arguments CGetOne {B} id.
Arguments CCreate {B} body.
Arguments CUpdate {B} id body.
Arguments CDelete {B} id.

Section Calls.
Context {D B : Type} `{Store D} (m : Model D B).

Definition run_call (h : call B) : M (Coll D) js_error outcome :=
  match h with
  | CGetAll qs => getAll m qs
  | CGetOne id => getOne m id
  | CCreate b => createOne m b
  | CUpdate id b => updateOne m id b
  | CDelete id => deleteOne m id
  end.

Definition coll_step (c c' : Coll D) : Prop := exists h, fst (catchAsync (run_call h) c) = c'.

Definition empty_coll : Coll D := mkColl [] [] 0%N.

(** Unfold a handler run down to the store's answers. *)
Ltac run_handler :=
  unfold catchAsync, run_call, getAll, getOne, createOne, updateOne, deleteOne,
    db_count, db_find, db_findById, db_create, db_update, db_delete,
    lift, log, set_docs, fail_with in *;
  run_M; repeat (case_match; simplify_eq/=).

Lemma call_keeps_ids (Hm : ModelLaws m) h (c : Coll D) :
  ids_ok c -> ids_ok (fst (catchAsync (run_call h) c)).
Proof.
  unfold ids_ok. destruct c as [l o n]. simpl. intros Hok.
  destruct h; run_handler;
    repeat match goal with
    | H : create_doc m _ _ _ = Ok _ |- _ => apply (create_doc_id m Hm) in H
    | H : apply_update m _ _ _ = Ok _ |- _ => apply (apply_update_id m Hm) in H
    end;
    solve [ exact Hok
          | apply ids_ok_append; assumption
          | eapply ids_ok_replace; eassumption
          | apply ids_ok_remove; exact Hok ].
Qed.

(** Every collection that a sequence of requests to the five generic
    handlers reaches from the empty collection has pairwise distinct
    document ids, whichever requests fail. *)
Theorem reachable_ids_distinct (Hm : ModelLaws m) (c : Coll D) :
  rtc coll_step empty_coll c -> NoDup (map doc_id (docs c)).
Proof.
  intros Hr. enough (Hok : ids_ok c) by exact (proj1 Hok).
  assert (Hinv : forall x y, rtc coll_step x y -> ids_ok x -> ids_ok y).
  { induction 1 as [|x y z [h <-] _ IH]; [done|]. intros Hx. apply IH, call_keeps_ids; done. }
  apply (Hinv _ _ Hr). split; constructor.
Qed.

(** ** Invariants of the stored documents

    A property of the document list that creation, update and removal
    keep holds in every collection the generic handlers reach; the
    model's own invariants (the schema's types, unique indexes) are proved
    this way. *)
Section DocInvariant.
Context (Hm : ModelLaws m) (P : list D -> Prop).
Hypothesis P_create : forall id b l d,
  ids_ok' l id -> P l -> create_doc m id b l = Ok d -> P (l ++ [d]).
Hypothesis P_update : forall b k n l d d',
  ids_ok' l n -> P l -> validate_update m b = None -> lookup_id k l = Some d ->
  apply_update m b d l = Ok d' ->
  P (replace_id k d' l).
Hypothesis P_remove : forall k l, P l -> P (remove_id k l).

Lemma call_keeps_inv h (c : Coll D) :
  ids_ok c -> P (docs c) -> P (docs (fst (catchAsync (run_call h) c))).
Proof.
  destruct c as [l o n]. unfold ids_ok. simpl. intros Hok HP.
  destruct h; run_handler; eauto.
Qed.

Lemma reachable_inv (c : Coll D) : P [] -> rtc coll_step empty_coll c -> P (docs c).
Proof.
  intros H0 Hr. enough (ids_ok c /\ P (docs c)) by tauto.
  assert (Hinv : forall x y, rtc coll_step x y -> ids_ok x /\ P (docs x) -> ids_ok y /\ P (docs y)).
  { induction 1 as [|x y z [h <-] _ IH]; [done|]. intros [Hx Px]. apply IH.
    split; [apply call_keeps_ids | apply call_keeps_inv]; done. }
  apply (Hinv _ _ Hr). split; [split; constructor | exact H0].
Qed.
End DocInvariant.

(** [createOne] appends the created document, under the next fresh
    id, and responds 201 with it; when the schema refuses the body, the
    collection is unchanged and the error goes to [next]. *)
Theorem createOne_spec b (c : Coll D) :
  catchAsync (createOne m b) c =
    match create_doc m (fresh c) b (docs c) with
    | Ok d => (mkColl (docs c ++ [d]) (ops c ++ [OpCreate]) (N.succ (fresh c)),
               Respond 201 (doc_body m d))
    | Throw e => (with_ops c [OpCreate], NextErr e)
    end.
Proof. destruct c as [l o n]. run_handler; reflexivity. Qed.

(** [deleteOne] with the id of a stored document removes that
    document and no other, and responds 204; afterwards no document has
    that id. *)
Theorem deleteOne_removes id n d (c : Coll D) :
  ids_ok c -> parse_oid id = Some n -> lookup_id n (docs c) = Some d ->
  catchAsync (deleteOne m id) c =
    (mkColl (remove_id n (docs c)) (ops c ++ [OpDelete]) (fresh c),
     Respond 204 (JObj [("status", JStr "success"); ("data", JNull)])) /\
  length (remove_id n (docs c)) = pred (length (docs c)) /\
  lookup_id n (remove_id n (docs c)) = None.
Proof.
  intros Hok Hid Hlk. split; [|split].
  - destruct c as [l o k]. simpl in *. unfold catchAsync, deleteOne, db_delete, lift, log,
      set_docs, cast_id. run_M. rewrite Hid. simpl. rewrite Hlk. reflexivity.
  - eapply remove_id_length; eassumption.
  - apply lookup_id_remove.
Qed.

(** [updateOne] with the id of a stored document whose update the
    validators and the schema accept replaces it and responds 200. *)
Lemma updateOne_found id n b d d' (c : Coll D) :
  parse_oid id = Some n -> validate_update m b = None -> lookup_id n (docs c) = Some d ->
  apply_update m b d (docs c) = Ok d' ->
  catchAsync (updateOne m id b) c =
    (mkColl (replace_id n d' (docs c)) (ops c ++ [OpUpdate]) (fresh c), Respond 200 (doc_body m d')).
Proof.
  intros Hid Hv Hlk Ha. destruct c as [l o k]. simpl in *. unfold catchAsync, updateOne, db_update,
    lift, log, set_docs, cast_id. run_M. rewrite Hid. simpl. rewrite Hv. simpl. rewrite Hlk, Ha.
  reflexivity.
Qed.

(** A request for a missing id answers 404 and writes nothing. *)
Lemma deleteOne_missing id n (c : Coll D) :
  parse_oid id = Some n -> lookup_id n (docs c) = None ->
  catchAsync (deleteOne m id) c = (with_ops c [OpDelete], NextErr (app_error (not_found_msg m) 404)).
Proof.
  intros Hid Hlk. destruct c as [l o k]. simpl in *. unfold catchAsync, deleteOne, db_delete,
    lift, log, cast_id, fail_with. run_M. rewrite Hid. simpl. rewrite Hlk. reflexivity.
Qed.
End Calls.

(** ** A concrete collection

    A model over the reference store of integer-field documents, three
    cabins, and the features a query string builds. *)
Definition rmodel : Model rdoc (list (string * Z)) := {|
  modelName := "Cabin";
  create_doc id b _ := Ok {| rid := id; rfields := b |};
  validate_update _ := None;
  apply_update b d _ := Ok {| rid := rid d; rfields := b |}
|}.

Lemma rmodel_laws : ModelLaws rmodel.
Proof. split; cbn; intros ???? H; injection H as <-; reflexivity. Qed.

Definition cabins3 : Coll rdoc :=
  mkColl [ {| rid := 0; rfields := [("regularPrice", 250); ("maxCapacity", 2)] |};
           {| rid := 1; rfields := [("regularPrice", 350); ("maxCapacity", 4)] |};
           {| rid := 2; rfields := [("regularPrice", 500); ("maxCapacity", 6)] |} ] [] 3.

Definition features_of (qs : list (string * qval)) : APIFeatures :=
  match build_features qs with
  | Ok f => f
  | Throw _ => {| query := empty_query; queryString := qs |}
  end.

(** [?regularPrice[gte]=300&sort=-regularPrice&page=2&limit=1] *)
Definition qs_price : list (string * qval) :=
  [("regularPrice", QObj [("gte", QStr "300")]); ("sort", QStr "-regularPrice");
   ("page", QStr "2"); ("limit", QStr "1")].

Lemma getAll_refines_witness :
  exists out,
    catchAsync (getAll rmodel qs_price) cabins3 =
      (with_ops cabins3 [OpCount; OpFind],
       Respond 200 (list_body rmodel (length (matching (query (features_of qs_price)) (docs cabins3))) out)) /\
    page_contract (sortKeys (query (features_of qs_price))) (projection (query (features_of qs_price)))
                  (Z.to_nat (1 * (2 - 1))) (Z.to_nat 1)
                  (matching (query (features_of qs_price)) (docs cabins3)) out /\
    (length out <= Z.to_nat 1)%nat.
Proof.
  apply (getAll_refines rmodel qs_price cabins3 (features_of qs_price) 2 1);
    first [vm_compute; reflexivity | lia].
Defined.

Lemma getAll_negative_page_witness :
  catchAsync (getAll rmodel [("page", QStr "-1")]) cabins3 =
    (with_ops cabins3 [OpCount], NextErr (app_error "page number should be positive integer" 400)).
Proof.
  apply (getAll_negative_page rmodel _ cabins3 (features_of [("page", QStr "-1")]));
    vm_compute; reflexivity.
Defined.

Lemma getAll_fractional_page_witness :
  catchAsync (getAll rmodel [("page", QStr "0.5")]) cabins3 =
    (with_ops cabins3 [OpCount; OpFind], NextErr (server_error "skip")).
Proof.
  apply (getAll_fractional_page rmodel _ cabins3 (features_of [("page", QStr "0.5")])
           (Qmake 5 10) 100);
    first [vm_compute; reflexivity | lia].
Defined.

Lemma getAll_negative_limit_witness :
  catchAsync (getAll rmodel [("limit", QStr "-2")]) cabins3 =
    (with_ops cabins3 [OpCount; OpFind],
     Respond 200 (list_body rmodel
        (length (matching (query (features_of [("limit", QStr "-2")])) (docs cabins3)))
        (map (doc_project (projection (query (features_of [("limit", QStr "-2")]))))
             (take (Z.to_nat (- (-2)))
                (sort_docs (sortKeys (query (features_of [("limit", QStr "-2")])))
                   (matching (query (features_of [("limit", QStr "-2")])) (docs cabins3))))))).
Proof.
  apply (getAll_negative_limit rmodel _ cabins3 (features_of [("limit", QStr "-2")]) (-2));
    first [vm_compute; reflexivity | lia].
Defined.


Lemma deleteOne_removes_witness :
  catchAsync (deleteOne rmodel "000000000000000000000001") cabins3 =
    (mkColl (remove_id 1 (docs cabins3)) (ops cabins3 ++ [OpDelete]) (fresh cabins3),
     Respond 204 (JObj [("status", JStr "success"); ("data", JNull)])) /\
  length (remove_id 1 (docs cabins3)) = pred (length (docs cabins3)) /\
  lookup_id 1 (remove_id 1 (docs cabins3)) = None.
Proof.
  apply (deleteOne_removes rmodel _ 1 {| rid := 1; rfields := [("regularPrice", 350); ("maxCapacity", 4)] |}).
  - split; [repeat constructor; set_solver | repeat constructor; simpl; lia].
  - vm_compute. reflexivity.
  - vm_compute. reflexivity.
Defined.
