(* ===== verification/UserModel.v ===== *)
(** * The User model ([src/src/models/userModel.ts])

    The stored user, its schema (casts, defaults, validators, the unique
    email index), its two [pre('save')] hooks (hash a modified password;
    back-date [passwordChangedAt] by one second when a stored user's
    password changes), its [pre(/^find/)] hook (inactive users are hidden
    unless [skipInactiveCheck]), and its instance methods.  Hashing is the
    interface [Crypto]; [CryptoLaws] are the two facts about bcrypt the
    controllers rely on.  Times are milliseconds since the epoch. *)

From S2P Require Import Prelude JsValue AppError.

Local Open Scope Z_scope.

(** ** Roles: [type TUserRole = 'demo' | 'staff' | 'manager' | 'admin'] *)
Inductive Role := Demo | Staff | Manager | Admin.

#[export] Instance Role_eq_dec : EqDecision Role.
Proof. solve_decision. Defined.

(** ** Hashing ([node:crypto] and [bcryptjs]) *)
Class Crypto := {
  (** [crypto.createHash('sha256').update(x).digest('hex')] *)
  sha256_hex : string -> string;
  (** [crypto.createHmac('sha256', key).update(x).digest('hex')] *)
  hmac_sha256_hex : string -> string -> string;
  (** [bcrypt.hash(password, 12)] with the salt it draws *)
  bcrypt_hash : string -> string -> string;
  (** [bcrypt.compare(candidate, hash)] *)
  bcrypt_compare : string -> string -> bool
}.

Class CryptoLaws `{Crypto} := {
  bcrypt_compare_hash : forall p salt, bcrypt_compare p (bcrypt_hash p salt) = true;
  bcrypt_compare_sound : forall p q salt, bcrypt_compare q (bcrypt_hash p salt) = true -> q = p
}.

(** ** The configuration the model and the controllers read
    ([src/src/lib/config/config.ts]) *)
Record Config := {
  jwtExpiresInSecs : Z;      (** [JWT_EXPIRES_IN], in seconds *)
  cookieExpiresDays : Z;     (** [JWT_COOKIE_EXPIRES_IN] *)
  resetExpiresMins : Z;      (** [RESET_PASSWORD_TOKEN_EXPIRES_IN_MINS] *)
  verifyExpiresHrs : Z;      (** [EMAIL_VERIFICATION_TOKEN_EXPIRES_IN_HRS] *)
  staffAppUrl : string;      (** [CLIENT_STAFF_APP_URL] *)
  apiKeyExpiresDays : Z;     (** [APIKEY_EXPIRES_IN_DAYS] *)
  hmacSecret : string        (** [HMAC_SECRET] *)
}.

(** ** The stored user *)
Record User := {
  u_id : N;
  fullName : string;
  email : string;
  avatar : string;
  role : Role;
  password : string;                       (** the bcrypt hash *)
  passwordChangedAt : option Z;
  isEmailVerified : bool;
  isActive : bool;
  passwordResetToken : option string;      (** sha256 of the raw token *)
  passwordResetExpires : option Z;
  emailVerificationToken : option string;  (** sha256 of the raw token *)
  emailVerificationExpires : option Z;
  lastSignIn : option Z
}.

Definition default_avatar : string :=
  "https://kmftbtarceppupbiwldj.supabase.co/storage/v1/object/public/avatars/default-user.jpg".

(** Field updates, as the controllers assign them before a [save]. *)
Definition set_password_fields (u : User) (hash : string) (changedAt : option Z) : User :=
  {| u_id := u_id u; fullName := fullName u; email := email u; avatar := avatar u;
     role := role u; password := hash; passwordChangedAt := changedAt;
     isEmailVerified := isEmailVerified u; isActive := isActive u;
     passwordResetToken := passwordResetToken u; passwordResetExpires := passwordResetExpires u;
     emailVerificationToken := emailVerificationToken u;
     emailVerificationExpires := emailVerificationExpires u; lastSignIn := lastSignIn u |}.

Definition set_reset_token (u : User) (tok : option string) (exp : option Z) : User :=
  {| u_id := u_id u; fullName := fullName u; email := email u; avatar := avatar u;
     role := role u; password := password u; passwordChangedAt := passwordChangedAt u;
     isEmailVerified := isEmailVerified u; isActive := isActive u;
     passwordResetToken := tok; passwordResetExpires := exp;
     emailVerificationToken := emailVerificationToken u;
     emailVerificationExpires := emailVerificationExpires u; lastSignIn := lastSignIn u |}.

Definition set_verification (u : User) (tok : option string) (exp : option Z)
           (verified active : bool) : User :=
  {| u_id := u_id u; fullName := fullName u; email := email u; avatar := avatar u;
     role := role u; password := password u; passwordChangedAt := passwordChangedAt u;
     isEmailVerified := verified; isActive := active;
     passwordResetToken := passwordResetToken u; passwordResetExpires := passwordResetExpires u;
     emailVerificationToken := tok; emailVerificationExpires := exp;
     lastSignIn := lastSignIn u |}.

Definition set_lastSignIn (u : User) (t : Z) : User :=
  {| u_id := u_id u; fullName := fullName u; email := email u; avatar := avatar u;
     role := role u; password := password u; passwordChangedAt := passwordChangedAt u;
     isEmailVerified := isEmailVerified u; isActive := isActive u;
     passwordResetToken := passwordResetToken u; passwordResetExpires := passwordResetExpires u;
     emailVerificationToken := emailVerificationToken u;
     emailVerificationExpires := emailVerificationExpires u; lastSignIn := Some t |}.

Section Schema.
Context `{Crypto}.

(** ** Setters and validators of the schema *)

(** [trim: true, lowercase: true] on the email path, also applied to the
    email of a query. *)
Definition norm_email (s : string) : string := js_to_lower (js_trim s).

(** [validator.isEmail], reduced to its shape: one [@], a non-empty local
    part, a domain with a dot, no white space. *)
Definition is_email (s : string) : bool :=
  match js_split "@"%char s with
  | [local; domain] => negb (String.eqb local "") && js_includes_char "."%char domain &&
                       negb (js_includes_char " "%char s)
  | _ => false
  end.

Definition minlength_msg (value : string) : string :=
  ("Path `password` (`" ++ value ++ "`) is shorter than the minimum allowed length (8).")%string.

(** The validation errors of a new password and its confirmation: [required]
    stops the other validators of its path; [minlength: 8]; the
    [passwordConfirm] validator compares with the (plain) password. *)
Definition password_errors (pw confirm : option string) : list (string * string) :=
  match pw with
  | None => [("password", "Please provide a password")]
  | Some p => if String.eqb p "" then [("password", "Please provide a password")]
              else if (js_length p <? 8)%nat then [("password", minlength_msg p)] else []
  end ++
  match confirm with
  | None => [("passwordConfirm", "Please confirm your password")]
  | Some c => if String.eqb c "" then [("passwordConfirm", "Please confirm your password")]
              else if bool_decide (Some c = pw) then []
              else [("passwordConfirm", "password and confirm password are not the same!")]
  end.

Definition name_errors (name : option string) : list (string * string) :=
  match name with
  | Some n => if String.eqb (js_trim n) "" then [("fullName", "Please tell us your full name!")] else []
  | None => [("fullName", "Please tell us your full name!")]
  end.

Definition email_errors (mail : option string) : list (string * string) :=
  match mail with
  | Some e => if String.eqb (norm_email e) "" then [("email", "Please provide your email")]
              else if is_email (norm_email e) then []
              else [("email", "Please provide a valid email")]
  | None => [("email", "Please provide your email")]
  end.

(** ** The [pre('save')] hooks, in their order

    A modified password is hashed; when the document is not new, the same
    save sets [passwordChangedAt] to one second before now. *)
Definition pre_save (isNew : bool) (newPassword : option string) (salt : string) (now : Z)
           (u : User) : User :=
  match newPassword with
  | None => u
  | Some pw => set_password_fields u (bcrypt_hash pw salt)
                 (if isNew then passwordChangedAt u else Some (now - 1000))
  end.

(** [User.create({fullName, email, password, passwordConfirm})]: validate,
    check the unique email index, apply the defaults and the hooks. *)
Definition create_user (id : N) (name mail pw confirm : option string) (salt : string) (now : Z)
           (others : list User) : res js_error User :=
  match name_errors name ++ email_errors mail ++ password_errors pw confirm with
  | (_ :: _) as errs => Throw (EValidation errs)
  | [] =>
    let e := norm_email (default "" mail) in
    if existsb (fun u => String.eqb (email u) e) others
    then Throw (EDuplicateKey [("email", e)])
    else Ok (pre_save true pw salt now
               {| u_id := id; fullName := js_trim (default "" name); email := e;
                  avatar := default_avatar; role := Staff; password := "";
                  passwordChangedAt := None; isEmailVerified := false; isActive := false;
                  passwordResetToken := None; passwordResetExpires := None;
                  emailVerificationToken := None; emailVerificationExpires := None;
                  lastSignIn := None |})
  end.

(** ** The [pre(/^find/)] hook: [{isActive: {$ne: false}}] unless
    [skipInactiveCheck] *)
Definition visible (skipInactiveCheck : bool) (u : User) : bool :=
  skipInactiveCheck || isActive u.

(** ** Instance methods *)

(** [createEmailVerificationToken()]: the raw token is the 32 random bytes
    [rnd] in hex; the user keeps its hash and an expiry. *)
Definition createEmailVerificationToken (cfg : Config) (rnd : string) (now : Z) (u : User)
  : string * User :=
  (rnd, set_verification u (Some (sha256_hex rnd))
          (Some (now + verifyExpiresHrs cfg * 60 * 60 * 1000))
          (isEmailVerified u) (isActive u)).

(** [createPasswordResetToken()] *)
Definition createPasswordResetToken (cfg : Config) (rnd : string) (now : Z) (u : User)
  : string * User :=
  (rnd, set_reset_token u (Some (sha256_hex rnd)) (Some (now + resetExpiresMins cfg * 60 * 1000))).

(** [correctPassword(candidate, hash)] *)
Definition correctPassword (candidate hashed : string) : bool := bcrypt_compare candidate hashed.

(** [changePasswordAfter(JWTTimestamp)]:
    [this.passwordChangedAt.getTime() / 1000 > JWTTimestamp].  The division
    is exact, so for an integral [iat] the test is [1000 * iat < t]. *)
Definition changePasswordAfter (u : User) (iat : Z) : bool :=
  match passwordChangedAt u with
  | Some t => 1000 * iat <? t
  | None => false
  end.
End Schema.
