(* ===== verification/Auth.v ===== *)
(** * Authentication & Session Manager ([src/src/controllers/authController.ts])

    The session token is a JSON Web Token: [Jwt] is its interface (sign a
    payload, verify a token at a time), [JwtLaws] what [jsonwebtoken]
    guarantees of a token it signed.  The handler state holds the users in
    natural order, the next ObjectId, the mail handed to the mail
    transport, and the cookie the response sets.  Randomness
    ([crypto.randomBytes], the bcrypt salt), the clock ([Date.now()]) and
    the outcome of a mail delivery are inputs of a request. *)

From S2P Require Import Prelude JsValue AppError UserModel.

Local Open Scope Z_scope.

(** ** JSON Web Tokens ([jsonwebtoken]) *)
Record JwtPayload := { jwt_id : N; iat : Z; exp : Z }.   (** seconds *)

Class Jwt := {
  jwt_token : Type;
  (** [jwt.sign(payload, config.jwt.secret)] *)
  jwt_sign : JwtPayload -> jwt_token;
  (** [jwt.verify(token, config.jwt.secret)] at a time in seconds *)
  jwt_verify : jwt_token -> Z -> res js_error JwtPayload
}.

Class JwtLaws `{Jwt} := {
  jwt_verify_live : forall p now, now < exp p -> jwt_verify (jwt_sign p) now = Ok p;
  jwt_verify_expired : forall p now, exp p <= now -> jwt_verify (jwt_sign p) now = Throw ETokenExpired
}.

(** ** Mail handed to the transport *)
Inductive MailKind := Welcome | PasswordReset.

Record Mail := { mail_to : string; mail_kind : MailKind; mail_link : string }.

Section Auth.
Context `{Crypto} `{Jwt} (cfg : Config).

(** [res.cookie('accessToken', value, {expires})]: [None] is the empty value
    of [logout]. *)
Record SetCookie := { ck_value : option jwt_token; ck_expires : Z }.

Record AuthState := mkAuth {
  users : list User;
  next_uid : N;
  outbox : list Mail;
  cookie : option SetCookie
}.

Local Abbreviation AM := (M AuthState js_error).


(** [User.findOne(filter)]: the first user in natural order that the
    filter and the [pre(/^find/)] hook accept. *)
Definition find_user (skipInactive : bool) (p : User -> bool) (l : list User) : option User :=
  List.find (fun u => visible skipInactive u && p u) l.

Definition replace_user (u : User) (l : list User) : list User :=
  map (fun v => if bool_decide (u_id v = u_id u) then u else v) l.

(** [user.save()] of a stored user. *)
Definition save_user (u : User) : AM unit :=
  modify (fun s => mkAuth (replace_user u (users s)) (next_uid s) (outbox s) (cookie s)).

(** [User.create(..)] stores the new user under the next ObjectId. *)
Definition insert_user (u : User) : AM unit :=
  modify (fun s => mkAuth (users s ++ [u]) (N.succ (next_uid s)) (outbox s) (cookie s)).

(** [User.findByIdAndDelete(id).setOptions({skipInactiveCheck: true})] *)
Definition delete_user (id : N) : AM unit :=
  modify (fun s => mkAuth (List.filter (fun v => negb (bool_decide (u_id v = id))) (users s))
                          (next_uid s) (outbox s) (cookie s)).

Definition set_cookie (c : SetCookie) : AM unit :=
  modify (fun s => mkAuth (users s) (next_uid s) (outbox s) (Some c)).

(** [await email.sendWelcome()] / [sendPasswordReset()]: the transport
    accepts the mail or rejects. *)
Definition send_mail (delivered : bool) (m : Mail) : AM unit :=
  if delivered then modify (fun s => mkAuth (users s) (next_uid s) (outbox s ++ [m]) (cookie s))
  else throw (EOther "Error" "mail transport").

Definition user_json (u : User) : json :=
  JObj [("_id", JNum (Z.of_N (u_id u))); ("fullName", JStr (fullName u));
        ("email", JStr (email u)); ("avatar", JStr (avatar u))].

(** [signToken(id)]: issued now, expiring [JWT_EXPIRES_IN] later. *)
Definition signToken (id : N) (now : Z) : jwt_token :=
  jwt_sign {| jwt_id := id; iat := now / 1000; exp := now / 1000 + jwtExpiresInSecs cfg |}.

(** [createSendToken(user, statusCode, res)] *)
Definition createSendToken (u : User) (code : Z) (now : Z) : AM outcome :=
  let accessToken := signToken (u_id u) now in
  let u' := set_lastSignIn u now in
  _ ← save_user u';
  _ ← set_cookie {| ck_value := Some accessToken;
                    ck_expires := now + cookieExpiresDays cfg * 24 * 60 * 60 * 1000 |};
  mret (Respond code (JObj [("status", JStr "success"); ("data", JObj [("user", user_json u')])])).

(** [signup], after [protect] and [restrictTo('manager', 'admin')]. *)
Definition signup (name mail pw confirm : option string) (rnd salt : string)
           (delivered : bool) (now : Z) : AM outcome :=
  s ← get_st;
  newUser ← lift (create_user (next_uid s) name mail pw confirm salt now (users s));
  _ ← insert_user newUser;
  let '(verificationToken, u1) := createEmailVerificationToken cfg rnd now newUser in
  _ ← save_user u1;
  let link := (staffAppUrl cfg ++ "/verify-email/?emailVerificationToken=" ++ verificationToken)%string in
  catch (_ ← send_mail delivered {| mail_to := email u1; mail_kind := Welcome; mail_link := link |};
         mret (Respond 201 (JObj [("status", JStr "success");
                                  ("message", JStr "Email verification link sent to user's email");
                                  ("data", JObj [("user", user_json u1)])])))
        (fun _ => _ ← delete_user (u_id u1);
                  fail_with "There was an issue while sending email on user's email address. Please, try to create the account later" 500).

(** The filter [{token: hashedToken, expires: {$gt: Date.now()}}]. *)
Definition token_live (tok : option string) (expires : option Z) (hashed : string) (now : Z)
  : bool :=
  bool_decide (tok = Some hashed) && match expires with Some t => now <? t | None => false end.

(** [verifyEmail]: the user holding the token's hash, unexpired, inactive
    users included. *)
Definition verifyEmail (verificationToken : string) (now : Z) : AM outcome :=
  let hashedToken := sha256_hex verificationToken in
  s ← get_st;
  match find_user true (fun u => token_live (emailVerificationToken u) (emailVerificationExpires u)
                                            hashedToken now) (users s) with
  | None => fail_with "Either email verification link is invalid or has expired" 400
  | Some u =>
      let updatedUser := set_verification u None None true true in
      _ ← save_user updatedUser;
      createSendToken updatedUser 200 now
  end.

(** [!x] on a body field: [undefined] and [""] are falsy. *)
Definition present (x : option string) : option string :=
  match x with Some v => if String.eqb v "" then None else Some v | None => None end.

(** [login] *)
Definition login (mail pw : option string) (now : Z) : AM outcome :=
  match present mail, present pw with
  | Some e, Some p =>
      s ← get_st;
      match find_user false (fun u => String.eqb (email u) (norm_email e)) (users s) with
      | Some u => if correctPassword p (password u) then createSendToken u 200 now
                  else fail_with "Incorrect email or password" 401
      | None => fail_with "Incorrect email or password" 401
      end
  | _, _ => fail_with "Please provide email and password!" 400
  end.

(** [logout]: the cookie is emptied and expires at the epoch. *)
Definition logout : AM outcome :=
  _ ← set_cookie {| ck_value := None; ck_expires := 0 |};
  mret (Respond 200 (JObj [("status", JStr "success")])).

(** [verifyToken]: [jwt.verify] with the session secret, wrapped in a
    promise that rejects with the library's error; [jsonwebtoken] reads
    the clock in seconds. *)
Definition verifyToken (accesToken : jwt_token) (now : Z) : res js_error JwtPayload :=
  jwt_verify accesToken (now / 1000).

(** [protect]: the outcome, and the user it puts on [req.user]. *)
Definition protect (apiKeyValid : bool) (accessToken : option jwt_token) (now : Z)
  : AM (outcome * option User) :=
  if apiKeyValid then mret (Next, None) else
  match accessToken with
  | None => mret (NextErr (app_error "You are not logged in! Please log in to get access." 401), None)
  | Some tok =>
      decoded ← lift (verifyToken tok now);
      s ← get_st;
      match find_user false (fun u => bool_decide (u_id u = jwt_id decoded)) (users s) with
      | None => mret (NextErr (app_error "The user belonging to this token no longer exist." 401), None)
      | Some currentUser =>
          if changePasswordAfter currentUser (iat decoded)
          then mret (NextErr (app_error "User recently changed password! Please login again." 401), None)
          else mret (Next, Some currentUser)
      end
  end.

(** [catchAsync(protect)] *)
Definition protect_mw (apiKeyValid : bool) (accessToken : option jwt_token) (now : Z)
           (s : AuthState) : AuthState * (outcome * option User) :=
  match protect apiKeyValid accessToken now s with
  | (s', Ok r) => (s', r)
  | (s', Throw e) => (s', (NextErr e, None))
  end.

(** [restrictTo(...roles)]: a synchronous middleware. *)
Definition restrictTo (roles : list Role) (apiKeyValid : bool) (user : option User) : outcome :=
  if apiKeyValid then Next else
  match user with
  | Some u => if bool_decide (role u ∈ roles) then Next
              else NextErr (app_error "You do not have permission to perform this action" 403)
  | None => NextErr (EOther "TypeError" "Cannot read properties of undefined (reading 'role')")
  end.

(** [forgotPassword] *)
Definition forgotPassword (mail : option string) (rnd : string) (delivered : bool) (now : Z)
  : AM outcome :=
  s ← get_st;
  match find_user false (fun u => match mail with
                                  | Some e => String.eqb (email u) (norm_email e)
                                  | None => false end) (users s) with
  | None => fail_with "There is no active user with provided email address" 404
  | Some u =>
      let '(resetToken, u1) := createPasswordResetToken cfg rnd now u in
      _ ← save_user u1;
      let link := (staffAppUrl cfg ++ "/reset-password/?resetToken=" ++ resetToken)%string in
      catch (_ ← send_mail delivered {| mail_to := email u1; mail_kind := PasswordReset;
                                        mail_link := link |};
             mret (Respond 200 (JObj [("status", JStr "success");
                                      ("message", JStr "Password reset link sent to your email!")])))
            (fun _ => _ ← save_user (set_reset_token u1 None None);
                      fail_with "There was an error while sending the email. Please, try again later!" 500)
  end.

(** [user.save({validateBeforeSave: true})] / [user.save()] after a new
    password was assigned: validation, then the hooks. *)
Definition save_new_password (u : User) (pw confirm : option string) (salt : string) (now : Z)
  : AM User :=
  match password_errors pw confirm with
  | (_ :: _) as errs => throw (EValidation errs)
  | [] => let u' := pre_save false pw salt now u in _ ← save_user u'; mret u'
  end.

(** [resetPassword]: only an active user's token is found. *)
Definition resetPassword (resetToken : string) (pw confirm : option string) (salt : string) (now : Z)
  : AM outcome :=
  let hashedToken := sha256_hex resetToken in
  s ← get_st;
  match find_user false (fun u => token_live (passwordResetToken u) (passwordResetExpires u)
                                             hashedToken now) (users s) with
  | None => fail_with "Token is invalid or has expired" 400
  | Some u =>
      updatedUser ← save_new_password (set_reset_token u None None) pw confirm salt now;
      createSendToken updatedUser 200 now
  end.

(** [updatePassword], after [protect]: [req.user] is the caller. *)
Definition updatePassword (caller : User) (currentPassword pw confirm : option string)
           (salt : string) (now : Z) : AM outcome :=
  s ← get_st;
  match find_user false (fun u => bool_decide (u_id u = u_id caller)) (users s) with
  | None => throw (EOther "TypeError" "Cannot read properties of null (reading 'correctPassword')")
  | Some u =>
      match currentPassword with
      | None => throw (EOther "Error" "Illegal arguments: undefined, string")
      | Some cur =>
          if correctPassword cur (password u) then
            u' ← save_new_password u pw confirm salt now;
            createSendToken u' 200 now
          else fail_with "Your current password is incorrect" 401
      end
  end.
End Auth.

(** ** Properties of the session manager *)
Section AuthProperties.
Context `{CryptoLaws} `{JwtLaws} (cfg : Config).

Ltac run_auth :=
  unfold catchAsync, protect_mw, login, logout, protect, verifyToken, createSendToken, signup, verifyEmail,
    forgotPassword, resetPassword, updatePassword, save_new_password, lift, save_user,
    insert_user, delete_user, set_cookie, send_mail, fail_with in *;
  run_M.

(** The state after [createSendToken u _ now]. *)
Definition signed_in (s : AuthState) (u : User) (now : Z) : AuthState :=
  mkAuth (replace_user (set_lastSignIn u now) (users s)) (next_uid s) (outbox s)
         (Some {| ck_value := Some (signToken cfg (u_id u) now);
                  ck_expires := now + cookieExpiresDays cfg * 24 * 60 * 60 * 1000 |}).

Lemma createSendToken_run u code now (s : AuthState) :
  createSendToken cfg u code now s =
    (signed_in s u now,
     Ok (Respond code (JObj [("status", JStr "success");
                             ("data", JObj [("user", user_json (set_lastSignIn u now))])]))).
Proof. reflexivity. Qed.

(** C8. A login with an email no active user has, and a login with a
    wrong password for that email, end the same way: the operational
    error 401 "Incorrect email or password", nothing written. *)
Theorem login_failure_uniform e p now (s : AuthState) :
  e <> ""%string -> p <> ""%string ->
  (forall u, find_user false (fun u => String.eqb (email u) (norm_email e)) (users s) = Some u ->
             bcrypt_compare p (password u) = false) ->
  catchAsync (login cfg (Some e) (Some p) now) s =
    (s, NextErr (app_error "Incorrect email or password" 401)).
Proof.
  intros He Hp Hwrong. unfold login, present.
  rewrite (proj2 (String.eqb_neq e "") He), (proj2 (String.eqb_neq p "") Hp).
  run_auth. destruct (find_user _ _ _) as [u|] eqn:Hf; [|reflexivity].
  unfold correctPassword. rewrite (Hwrong u eq_refl). reflexivity.
Qed.

(** A correct login signs the user in. *)
Lemma login_success e p now (s : AuthState) u :
  e <> ""%string -> p <> ""%string ->
  find_user false (fun u => String.eqb (email u) (norm_email e)) (users s) = Some u ->
  bcrypt_compare p (password u) = true ->
  fst (catchAsync (login cfg (Some e) (Some p) now) s) = signed_in s u now.
Proof.
  intros He Hp Hf Hc. unfold login, present.
  rewrite (proj2 (String.eqb_neq e "") He), (proj2 (String.eqb_neq p "") Hp).
  unfold catchAsync. run_M. rewrite Hf. unfold correctPassword. rewrite Hc.
  rewrite createSendToken_run. reflexivity.
Qed.

(** [protect] on a token [signToken] issued at [ts], for a user that still
    exists, before the token expires. *)
Lemma protect_signed_token (s : AuthState) u ts now :
  find_user false (fun v => bool_decide (u_id v = u_id u)) (users s) = Some u ->
  now / 1000 < ts / 1000 + jwtExpiresInSecs cfg ->
  protect_mw false (Some (signToken cfg (u_id u) ts)) now s =
    (s, if changePasswordAfter u (ts / 1000)
        then (NextErr (app_error "User recently changed password! Please login again." 401), None)
        else (Next, Some u)).
Proof.
  intros Hf Hexp. unfold protect_mw, protect, verifyToken, signToken, lift. run_M.
  rewrite jwt_verify_live by (simpl; lia). simpl. rewrite Hf.
  destruct (changePasswordAfter u (ts / 1000)); reflexivity.
Qed.

(** C9. After a password change at time [tc] (the [pre('save')] hook sets
    [passwordChangedAt] to [tc - 1000]), [protect] accepts an unexpired
    session token issued at [ts] exactly when
    [tc <= 1000 * floor(ts / 1000) + 1000]; otherwise it answers 401. *)
Theorem protect_after_password_change (s : AuthState) u0 pw salt tc ts now :
  let u := pre_save false (Some pw) salt tc u0 in
  find_user false (fun v => bool_decide (u_id v = u_id u)) (users s) = Some u ->
  now / 1000 < ts / 1000 + jwtExpiresInSecs cfg ->
  protect_mw false (Some (signToken cfg (u_id u) ts)) now s =
    (s, if tc <=? 1000 * (ts / 1000) + 1000 then (Next, Some u)
        else (NextErr (app_error "User recently changed password! Please login again." 401), None)).
Proof.
  intros u Hf Hexp. rewrite (protect_signed_token s u ts now Hf Hexp).
  unfold changePasswordAfter, u, pre_save. simpl.
  destruct (Z.ltb_spec (1000 * (ts / 1000)) (tc - 1000));
    destruct (Z.leb_spec tc (1000 * (ts / 1000) + 1000)); reflexivity || lia.
Qed.

(** A session token issued at or after the password change is
    accepted; one issued more than a second before it is refused. *)
Theorem protect_password_change_window (s : AuthState) u0 pw salt tc ts now :
  let u := pre_save false (Some pw) salt tc u0 in
  find_user false (fun v => bool_decide (u_id v = u_id u)) (users s) = Some u ->
  now / 1000 < ts / 1000 + jwtExpiresInSecs cfg ->
  (tc <= ts -> protect_mw false (Some (signToken cfg (u_id u) ts)) now s = (s, (Next, Some u))) /\
  (ts + 1000 < tc ->
   protect_mw false (Some (signToken cfg (u_id u) ts)) now s =
     (s, (NextErr (app_error "User recently changed password! Please login again." 401), None))).
Proof.
  intros u Hf Hexp. rewrite (protect_signed_token s u ts now Hf Hexp).
  unfold changePasswordAfter, u, pre_save. simpl.
  pose proof (Z.mod_pos_bound ts 1000 ltac:(lia)). pose proof (Z.div_mod ts 1000 ltac:(lia)).
  split; intros Hts; destruct (Z.ltb_spec (1000 * (ts / 1000)) (tc - 1000)); reflexivity || lia.
Qed.
(** ** Signup and email verification *)

(** Every stored user has an id below the next ObjectId. *)
Definition uids_fresh (s : AuthState) : Prop := Forall (fun v => (u_id v < next_uid s)%N) (users s).

Lemma create_user_ok id name mail pw confirm salt now others u :
  create_user id name mail pw confirm salt now others = Ok u ->
  u_id u = id /\ passwordChangedAt u = None.
Proof.
  unfold create_user. repeat case_match; try discriminate. intros Hu. injection Hu as <-.
  unfold pre_save. destruct pw; simpl; auto.
Qed.

Lemma replace_user_fresh_app (l : list User) n u0 u1 :
  Forall (fun v => (u_id v < n)%N) l -> u_id u0 = n -> u_id u1 = n ->
  replace_user u1 (l ++ [u0]) = l ++ [u1].
Proof.
  intros Hl Hu0 Hu1. unfold replace_user. rewrite map_app. simpl.
  rewrite bool_decide_true by congruence. f_equal.
  induction Hl as [|v l Hv Hl IH]; simpl; [done|].
  rewrite bool_decide_false by lia. f_equal. exact IH.
Qed.

Lemma delete_fresh_app (l : list User) n u1 :
  Forall (fun v => (u_id v < n)%N) l -> u_id u1 = n ->
  List.filter (fun v => negb (bool_decide (u_id v = n))) (l ++ [u1]) = l.
Proof.
  intros Hl Hu1. rewrite List.filter_app. simpl. rewrite bool_decide_true by done. simpl.
  rewrite app_nil_r. induction Hl as [|v l Hv Hl IH]; simpl; [done|].
  rewrite bool_decide_false by lia. simpl. f_equal. exact IH.
Qed.

Lemma find_user_app_skip b p (l : list User) x :
  (forall v, In v l -> p v = false) ->
  find_user b p (l ++ [x]) = if visible b x && p x then Some x else None.
Proof.
  intros Hl. unfold find_user. induction l as [|v l IH]; simpl; [by destruct (_ && _)|].
  rewrite Hl by (left; done). rewrite andb_false_r. apply IH. intros w Hw. apply Hl. right. done.
Qed.

(** C11. Signup has no-account-left-behind semantics: when the welcome
    mail cannot be sent, the created user is deleted again, the users are
    those before the request, and the request ends in an error. *)
Theorem signup_mail_failure_no_user name mail pw confirm rnd salt now (s : AuthState) :
  uids_fresh s ->
  users (fst (catchAsync (signup cfg name mail pw confirm rnd salt false now) s)) = users s /\
  exists e, snd (catchAsync (signup cfg name mail pw confirm rnd salt false now) s) = NextErr e.
Proof.
  intros Hfresh. destruct s as [l n o c]. unfold uids_fresh in Hfresh. simpl in Hfresh.
  run_auth. destruct (create_user _ _ _ _ _ _ _ _) as [u|e] eqn:Hc in |- *; simpl; [|eauto].
  destruct (create_user_ok _ _ _ _ _ _ _ _ _ Hc) as [Hid _].
  rewrite (replace_user_fresh_app l n u _) by (simpl; auto).
  rewrite Hid, delete_fresh_app by (simpl; auto). eauto.
Qed.
Lemma signup_delivered_run name mail pw confirm rnd salt now (s : AuthState) u :
  uids_fresh s ->
  create_user (next_uid s) name mail pw confirm salt now (users s) = Ok u ->
  let u1 := snd (createEmailVerificationToken cfg rnd now u) in
  catchAsync (signup cfg name mail pw confirm rnd salt true now) s =
    (mkAuth (users s ++ [u1]) (N.succ (next_uid s))
       (outbox s ++ [{| mail_to := email u1; mail_kind := Welcome;
                        mail_link := (staffAppUrl cfg ++ "/verify-email/?emailVerificationToken="
                                      ++ rnd)%string |}])
       (cookie s),
     Respond 201 (JObj [("status", JStr "success");
                        ("message", JStr "Email verification link sent to user's email");
                        ("data", JObj [("user", user_json u1)])])).
Proof.
  intros Hfresh Hc u1. destruct s as [l n o c]. unfold uids_fresh in Hfresh. simpl in *.
  destruct (create_user_ok _ _ _ _ _ _ _ _ _ Hc) as [Hid _].
  run_auth. cbn [users next_uid outbox cookie]. rewrite Hc. simpl.
  rewrite (replace_user_fresh_app l n u _) by (simpl; auto). reflexivity.
Qed.

(** [verifyEmail] with the token of a stored user: the user is verified
    and activated, then signed in. *)
Lemma verifyEmail_found tok t (s : AuthState) u :
  find_user true (fun v => token_live (emailVerificationToken v) (emailVerificationExpires v)
                             (sha256_hex tok) t) (users s) = Some u ->
  let u2 := set_verification u None None true true in
  catchAsync (verifyEmail cfg tok t) s =
    (signed_in (mkAuth (replace_user u2 (users s)) (next_uid s) (outbox s) (cookie s)) u2 t,
     Respond 200 (JObj [("status", JStr "success");
                        ("data", JObj [("user", user_json (set_lastSignIn u2 t))])])).
Proof. intros Hf u2. unfold catchAsync, verifyEmail. run_M. rewrite Hf. reflexivity. Qed.

Lemma verifyEmail_none tok t (s : AuthState) :
  find_user true (fun v => token_live (emailVerificationToken v) (emailVerificationExpires v)
                             (sha256_hex tok) t) (users s) = None ->
  catchAsync (verifyEmail cfg tok t) s =
    (s, NextErr (app_error "Either email verification link is invalid or has expired" 400)).
Proof. intros Hf. unfold catchAsync, verifyEmail, fail_with. run_M. rewrite Hf. reflexivity. Qed.

Lemma fresh_id_miss (l : list User) n :
  Forall (fun v => (u_id v < n)%N) l -> forall v, In v l -> bool_decide (u_id v = n) = false.
Proof.
  intros Hl v Hv. rewrite Forall_forall in Hl. apply bool_decide_false.
  specialize (Hl v (proj2 (list_elem_of_In _ _) Hv)). lia.
Qed.
(** C12. Email verification round trip: a signup whose welcome mail is
    delivered answers 201 and mails the link carrying the raw token; a
    [verifyEmail] with that token before it expires answers 200, leaves
    the user active and verified with the same email and password hash,
    and sets a session cookie that [protect] accepts until the token
    expires; a second [verifyEmail] with the same token answers 400. *)
Theorem signup_verify_roundtrip name mail pw confirm rnd salt now t (s : AuthState) u :
  uids_fresh s ->
  Forall (fun v => emailVerificationToken v <> Some (sha256_hex rnd)) (users s) ->
  create_user (next_uid s) name mail pw confirm salt now (users s) = Ok u ->
  t < now + verifyExpiresHrs cfg * 60 * 60 * 1000 ->
  let '(s1, o1) := catchAsync (signup cfg name mail pw confirm rnd salt true now) s in
  let '(s2, o2) := catchAsync (verifyEmail cfg rnd t) s1 in
  (exists b, o1 = Respond 201 b) /\
  outbox s1 = outbox s ++ [{| mail_to := email u; mail_kind := Welcome;
                              mail_link := (staffAppUrl cfg ++ "/verify-email/?emailVerificationToken="
                                            ++ rnd)%string |}] /\
  (exists b, o2 = Respond 200 b) /\
  (exists u', find_user false (fun v => bool_decide (u_id v = u_id u)) (users s2) = Some u' /\
              isActive u' = true /\ isEmailVerified u' = true /\
              email u' = email u /\ password u' = password u /\
              option_map ck_value (cookie s2) = Some (Some (signToken cfg (u_id u) t)) /\
              (forall t', t' / 1000 < t / 1000 + jwtExpiresInSecs cfg ->
                 protect_mw false (Some (signToken cfg (u_id u) t)) t' s2 = (s2, (Next, Some u')))) /\
  snd (catchAsync (verifyEmail cfg rnd t) s2) =
    NextErr (app_error "Either email verification link is invalid or has expired" 400).
Proof.
  intros Hfresh Htok Hc Ht.
  destruct (create_user_ok _ _ _ _ _ _ _ _ _ Hc) as [Hid Hpca].
  rewrite (signup_delivered_run _ _ _ _ _ _ _ _ _ Hfresh Hc).
  destruct s as [l n o c]. unfold uids_fresh in Hfresh. simpl in *.
  set (u1 := set_verification u (Some (sha256_hex rnd))
                (Some (now + verifyExpiresHrs cfg * 60 * 60 * 1000)) (isEmailVerified u) (isActive u)).
  set (p := fun v => token_live (emailVerificationToken v) (emailVerificationExpires v)
                       (sha256_hex rnd) t).
  assert (Hskip : forall v, In v l -> p v = false).
  { intros v Hv. rewrite Forall_forall in Htok.
    specialize (Htok v (proj2 (list_elem_of_In _ _) Hv)).
    unfold p, token_live. rewrite bool_decide_false by done. reflexivity. }
  assert (Hf1 : find_user true p (l ++ [u1]) = Some u1).
  { rewrite (find_user_app_skip _ _ _ _ Hskip). unfold p, token_live. simpl.
    rewrite bool_decide_true by done. destruct (Z.ltb_spec t (now + verifyExpiresHrs cfg * 60 * 60 * 1000));
      [reflexivity | lia]. }
  erewrite verifyEmail_found; [simpl|exact Hf1].
  set (u2 := set_verification u1 None None true true).
  set (u3 := set_lastSignIn u2 t).
  assert (Hl3 : replace_user u3 (replace_user u2 (l ++ [u1])) = l ++ [u3]).
  { rewrite (replace_user_fresh_app l n u1 u2) by (simpl; auto).
    apply (replace_user_fresh_app l n); simpl; auto. }
  rewrite Hl3. split; [eauto|]. split; [reflexivity|]. split; [eauto|]. split.
  - assert (Hf3 : find_user false (fun v => bool_decide (u_id v = u_id u)) (l ++ [u3]) = Some u3).
    { rewrite Hid, (find_user_app_skip _ _ _ _ (fresh_id_miss l n Hfresh)). simpl.
      rewrite bool_decide_true by done. reflexivity. }
    exists u3. split; [exact Hf3|]. repeat split; try reflexivity. intros t' Ht'.
    rewrite (protect_signed_token _ u3 t t');
      [|unfold signed_in; cbn [users]; fold u3; rewrite Hl3; exact Hf3|exact Ht'].
    unfold changePasswordAfter. simpl. rewrite Hpca. reflexivity.
  - rewrite verifyEmail_none; [reflexivity|]. unfold signed_in. cbn [users]. fold u3.
    rewrite Hl3. transitivity (find_user true p (l ++ [u3])); [reflexivity|].
    rewrite (find_user_app_skip _ _ _ _ Hskip). reflexivity.
Qed.
(** A password change does not revoke a session token issued before
    it within the same second window: for every issue time [ts], a change
    at [1000 * floor(ts / 1000) + 1000], which is strictly later than
    [ts], still lets [protect] accept the token. *)
Theorem protect_accepts_stale_token (s : AuthState) u0 pw salt ts now :
  let u := pre_save false (Some pw) salt (1000 * (ts / 1000) + 1000) u0 in
  find_user false (fun v => bool_decide (u_id v = u_id u)) (users s) = Some u ->
  now / 1000 < ts / 1000 + jwtExpiresInSecs cfg ->
  ts < 1000 * (ts / 1000) + 1000 /\
  protect_mw false (Some (signToken cfg (u_id u) ts)) now s = (s, (Next, Some u)).
Proof.
  intros u Hf Hexp. pose proof (Z.mod_pos_bound ts 1000 ltac:(lia)).
  pose proof (Z.div_mod ts 1000 ltac:(lia)). split; [lia|].
  rewrite (protect_signed_token s u ts now Hf Hexp). unfold changePasswordAfter, u, pre_save. simpl.
  destruct (Z.ltb_spec (1000 * (ts / 1000)) (1000 * (ts / 1000) + 1000 - 1000)); [lia|reflexivity].
Qed.
End AuthProperties.

(** ** A reference instance and concrete requests

    [toy_crypto] is an injective stand-in for the hashes ([bcrypt_hash]
    ignores its salt, which [bcrypt.compare] does not need);
    [toy_jwt] signs the payload itself and refuses it from [exp] on, as
    [jsonwebtoken] does ([clockTimestamp >= payload.exp]). *)
Module AuthFixture.

#[local] Instance toy_crypto : Crypto := {|
  sha256_hex x := ("sha256:" ++ x)%string;
  hmac_sha256_hex k x := ("hmac:" ++ k ++ ":" ++ x)%string;
  bcrypt_hash p _ := ("$2a$12$" ++ p)%string;
  bcrypt_compare q h := String.eqb h ("$2a$12$" ++ q)
|}.

#[local] Instance toy_crypto_laws : CryptoLaws.
Proof.
  split.
  - intros p salt. apply String.eqb_refl.
  - intros p q salt Hc. apply String.eqb_eq in Hc. simpl in Hc. injection Hc as Hc. exact (eq_sym Hc).
Qed.

#[local] Instance toy_jwt : Jwt := {|
  jwt_token := JwtPayload;
  jwt_sign p := p;
  jwt_verify tok now := if now <? exp tok then Ok tok else Throw ETokenExpired
|}.

#[local] Instance toy_jwt_laws : JwtLaws.
Proof.
  split; intros p now Hp; cbn; destruct (Z.ltb_spec now (exp p)); reflexivity || lia.
Qed.

Definition cfg0 : Config := {|
  jwtExpiresInSecs := 7776000; cookieExpiresDays := 90; resetExpiresMins := 10;
  verifyExpiresHrs := 24; staffAppUrl := "https://staff.oasis.test"; apiKeyExpiresDays := 30;
  hmacSecret := "hmac-secret"
|}.

Definition alice : User := {|
  u_id := 0; fullName := "Alice Oasis"; email := "alice@oasis.test"; avatar := default_avatar;
  role := Manager; password := "$2a$12$correct-horse"; passwordChangedAt := None;
  isEmailVerified := true; isActive := true; passwordResetToken := None;
  passwordResetExpires := None; emailVerificationToken := None;
  emailVerificationExpires := None; lastSignIn := None
|}.

Definition st0 : AuthState := mkAuth [alice] 1 [] None.

(** Alice after changing her password at [1700000001000]. *)
Definition alice_changed : User := pre_save false (Some "new-password-1") "salt" 1700000001000 alice.

Definition st1 : AuthState := mkAuth [alice_changed] 1 [] None.

(** The user [signup] creates for Bob. *)
Definition bob_created : User := {|
  u_id := 1; fullName := "Bob Stone"; email := "bob@oasis.test"; avatar := default_avatar;
  role := Staff; password := "$2a$12$password-123"; passwordChangedAt := None;
  isEmailVerified := false; isActive := false; passwordResetToken := None;
  passwordResetExpires := None; emailVerificationToken := None;
  emailVerificationExpires := None; lastSignIn := None
|}.

Lemma login_failure_uniform_witness :
  catchAsync (login cfg0 (Some "alice@oasis.test") (Some "wrong-password") 1700000000000) st0 =
    (st0, NextErr (app_error "Incorrect email or password" 401)).
Proof.
  apply login_failure_uniform; [discriminate | discriminate |].
  intros u Hu. vm_compute in Hu. injection Hu as <-. reflexivity.
Defined.

Lemma protect_after_password_change_witness :
  protect_mw false (Some (signToken cfg0 (u_id alice_changed) 1700000000000)) 1700000005000 st1 =
    (st1, if 1700000001000 <=? 1000 * (1700000000000 / 1000) + 1000 then (Next, Some alice_changed)
          else (NextErr (app_error "User recently changed password! Please login again." 401), None)).
Proof. apply (protect_after_password_change cfg0 st1 alice); vm_compute; reflexivity. Defined.

Lemma protect_password_change_window_witness :
  protect_mw false (Some (signToken cfg0 (u_id alice_changed) 1700000002000)) 1700000005000 st1 =
    (st1, (Next, Some alice_changed)) /\
  protect_mw false (Some (signToken cfg0 (u_id alice_changed) 1699999999000)) 1700000005000 st1 =
    (st1, (NextErr (app_error "User recently changed password! Please login again." 401), None)).
Proof.
  split; [apply (proj1 (protect_password_change_window cfg0 st1 alice "new-password-1" "salt"
                          1700000001000 1700000002000 1700000005000 eq_refl eq_refl))
         |apply (proj2 (protect_password_change_window cfg0 st1 alice "new-password-1" "salt"
                          1700000001000 1699999999000 1700000005000 eq_refl eq_refl))];
    lia.
Defined.

Lemma protect_accepts_stale_token_witness :
  1700000000000 < 1000 * (1700000000000 / 1000) + 1000 /\
  protect_mw false (Some (signToken cfg0 (u_id alice_changed) 1700000000000)) 1700000005000 st1 =
    (st1, (Next, Some alice_changed)).
Proof. apply (protect_accepts_stale_token cfg0 st1 alice); vm_compute; reflexivity. Defined.

Lemma signup_mail_failure_no_user_witness :
  users (fst (catchAsync (signup cfg0 (Some "Bob Stone") (Some "bob@oasis.test") (Some "password-123")
                            (Some "password-123") "rnd" "salt" false 1700000000000) st0)) = users st0 /\
  exists e, snd (catchAsync (signup cfg0 (Some "Bob Stone") (Some "bob@oasis.test") (Some "password-123")
                               (Some "password-123") "rnd" "salt" false 1700000000000) st0) = NextErr e.
Proof. apply signup_mail_failure_no_user. unfold uids_fresh. vm_compute. repeat constructor. Defined.

Lemma signup_verify_roundtrip_witness :
  let '(s1, o1) := catchAsync (signup cfg0 (Some "Bob Stone") (Some "bob@oasis.test")
                                 (Some "password-123") (Some "password-123") "rnd" "salt" true
                                 1700000000000) st0 in
  let '(s2, o2) := catchAsync (verifyEmail cfg0 "rnd" 1700003600000) s1 in
  (exists b, o1 = Respond 201 b) /\
  outbox s1 = outbox st0 ++ [{| mail_to := email bob_created; mail_kind := Welcome;
                                mail_link := (staffAppUrl cfg0 ++ "/verify-email/?emailVerificationToken="
                                              ++ "rnd")%string |}] /\
  (exists b, o2 = Respond 200 b) /\
  (exists u', find_user false (fun v => bool_decide (u_id v = u_id bob_created)) (users s2) = Some u' /\
              isActive u' = true /\ isEmailVerified u' = true /\
              email u' = email bob_created /\ password u' = password bob_created /\
              option_map ck_value (cookie s2) = Some (Some (signToken cfg0 (u_id bob_created) 1700003600000)) /\
              (forall t', t' / 1000 < 1700003600000 / 1000 + jwtExpiresInSecs cfg0 ->
                 protect_mw false (Some (signToken cfg0 (u_id bob_created) 1700003600000)) t' s2 =
                   (s2, (Next, Some u')))) /\
  snd (catchAsync (verifyEmail cfg0 "rnd" 1700003600000) s2) =
    NextErr (app_error "Either email verification link is invalid or has expired" 400).
Proof.
  apply signup_verify_roundtrip.
  - unfold uids_fresh. vm_compute. repeat constructor.
  - repeat constructor. discriminate.
  - vm_compute. reflexivity.
  - vm_compute. reflexivity.
Defined.

End AuthFixture.
