(* ===== verification/ApiKey.v ===== *)
(** * API-Key Credential Path ([src/src/models/apiKeyModel.ts],
      [src/src/controllers/apiKeyController.ts])

    The [apikeys] collection, the two statics [generateApiKey] and
    [verifyApiKey], and the two handlers that call them.  Each static is
    written twice: as the sequential handler, and as the two store round
    trips it makes (a read, then a write computed from what was read), so
    that requests can be interleaved at the suspension point between them.
    The hash is [hmac_sha256_hex] of [Crypto]; times are milliseconds. *)

From S2P Require Import Prelude JsValue AppError UserModel.

Local Open Scope Z_scope.

(** ** The stored key ([IApiKey]) *)
Record ApiKeyDoc := {
  k_id : N;
  apiKeyHash : string;
  forWhom : string;
  apiExpires : Z;
  numberOfTimesUsed : Z;
  lastUsed : option Z;
  k_isActive : bool
}.

Record KState := mkK { keys : list ApiKeyDoc; next_kid : N }.

(** [apiKeyDoc.lastUsed = now; apiKeyDoc.numberOfTimesUsed = n]: the two
    paths [save()] sends in its [$set]. *)
Definition set_usage (d : ApiKeyDoc) (n : Z) (now : Z) : ApiKeyDoc :=
  {| k_id := k_id d; apiKeyHash := apiKeyHash d; forWhom := forWhom d;
     apiExpires := apiExpires d; numberOfTimesUsed := n; lastUsed := Some now;
     k_isActive := k_isActive d |}.

(** The filter [{apiExpires: {$gt: new Date()}, isActive: true}]. *)
Definition live (now : Z) (d : ApiKeyDoc) : bool := (now <? apiExpires d) && k_isActive d.

Section ApiKeys.
Context `{Crypto} (cfg : Config).

Local Abbreviation KM := (M KState js_error).

(** [crypto.createHmac('sha256', config.apiKey.hmacSecret).update(apiKey).digest('hex')] *)
Definition key_hash (apiKey : string) : string := hmac_sha256_hex (hmacSecret cfg) apiKey.

Definition forWhom_required : js_error :=
  EValidation [("forWhom", "API key must be assigned to an entity.")].

(** [this.create({apiKeyHash, forWhom})]: [required] refuses a missing or
    empty owner, the unique index an owner that has a key; the defaults set
    the expiry, a zero count and the active flag. *)
Definition create_key (hash : string) (fw : option string) (now : Z) : KM ApiKeyDoc :=
  s ← get_st;
  match fw with
  | None => throw forWhom_required
  | Some w =>
      if String.eqb w "" then throw forWhom_required
      else if existsb (fun d => String.eqb (forWhom d) w) (keys s)
      then throw (EDuplicateKey [("forWhom", w)])
      else let d := {| k_id := next_kid s; apiKeyHash := hash; forWhom := w;
                       apiExpires := now + apiKeyExpiresDays cfg * 24 * 60 * 60 * 1000;
                       numberOfTimesUsed := 0; lastUsed := None; k_isActive := true |} in
           _ ← put_st (mkK (keys s ++ [d]) (N.succ (next_kid s)));
           mret d
  end.

(** The first round trip of [generateApiKey]: is there a live key? *)
Definition gen_check (now : Z) : KM bool :=
  s ← get_st; mret (existsb (live now) (keys s)).

(** The second: hash the 32 random bytes [rnd] and create the key. *)
Definition gen_create (fw : option string) (rnd : string) (now : Z) : KM (option string) :=
  _ ← create_key (key_hash rnd) fw now; mret (Some rnd).

(** [ApiKey.generateApiKey(forWhom)]: [None] is its [null]. *)
Definition generateApiKey (fw : option string) (rnd : string) (now : Z) : KM (option string) :=
  existing ← gen_check now;
  if (existing : bool) then mret None else gen_create fw rnd now.

(** The filter [{apiKeyHash, apiExpires: {$gt: new Date()}, isActive: true}]. *)
Definition key_matches (apiKey : string) (now : Z) (d : ApiKeyDoc) : bool :=
  String.eqb (apiKeyHash d) (key_hash apiKey) && live now d.

(** The first round trip of [verifyApiKey]: the live key with that hash. *)
Definition verify_read (apiKey : string) (now : Z) : KM (option ApiKeyDoc) :=
  s ← get_st; mret (List.find (key_matches apiKey now) (keys s)).

(** The second: [save()] of the document read, whose count was
    incremented in memory, writes that count over the stored one. *)
Definition verify_write (d : ApiKeyDoc) (now : Z) : KM unit :=
  modify (fun s => mkK (map (fun e => if bool_decide (k_id e = k_id d)
                                      then set_usage e (numberOfTimesUsed d + 1) now else e)
                            (keys s))
                       (next_kid s)).

(** [ApiKey.verifyApiKey(apiKey)] *)
Definition verifyApiKey (apiKey : string) (now : Z) : KM bool :=
  found ← verify_read apiKey now;
  match found with
  | None => mret false
  | Some d => _ ← verify_write d now; mret true
  end.

(** [isActive = false]: the one path [deactivateApiKey]'s [save()] sends. *)
Definition set_inactive (d : ApiKeyDoc) : ApiKeyDoc :=
  {| k_id := k_id d; apiKeyHash := apiKeyHash d; forWhom := forWhom d;
     apiExpires := apiExpires d; numberOfTimesUsed := numberOfTimesUsed d;
     lastUsed := lastUsed d; k_isActive := false |}.

(** [apiKeyDoc.deactivateApiKey()]: no handler or route calls it. *)
Definition deactivateApiKey (d : ApiKeyDoc) : KM unit :=
  modify (fun s => mkK (map (fun e => if bool_decide (k_id e = k_id d) then set_inactive e else e)
                            (keys s))
                       (next_kid s)).

(** [createApiKey] *)
Definition createApiKey (fw : option string) (rnd : string) (now : Z) : KM outcome :=
  api ← generateApiKey fw rnd now;
  match api with
  | None => fail_with "Only one active API key is allowed" 400
  | Some k => mret (Respond 201 (JObj [("status", JStr "success");
                                       ("data", JObj [("apiKey", JObj [("apiKey", JStr k)])])]))
  end.

(** [checkApiKey]: the outcome and [req.apiKeyValid]. *)
Definition checkApiKey (header : option string) (now : Z) : KM (outcome * bool) :=
  match header with
  | None => mret (Next, false)
  | Some k =>
      if String.eqb k "" then mret (Next, false) else
      valid ← verifyApiKey k now;
      if (valid : bool) then mret (Next, true)
      else mret (Respond 401 (JObj [("status", JStr "fail");
                                    ("message", JStr "Invalid or expired API key")]), false)
  end.

(** [catchAsync(checkApiKey)] *)
Definition checkApiKey_mw (header : option string) (now : Z) (s : KState)
  : KState * (outcome * bool) :=
  match checkApiKey header now s with
  | (s', Ok r) => (s', r)
  | (s', Throw e) => (s', (NextErr e, false))
  end.
End ApiKeys.

(** ** The handlers, one request at a time *)
Section Sequential.
Context `{Crypto} (cfg : Config).

(** The stored keys are [l1 ++ d :: l2]: [d] is the first key the
    filter of [verifyApiKey key] accepts, and no other key has its id. *)
Definition key_at (s : KState) (l1 : list ApiKeyDoc) (d : ApiKeyDoc) (l2 : list ApiKeyDoc)
           (key : string) (now : Z) : Prop :=
  keys s = l1 ++ d :: l2 /\ Forall (fun e => k_id e <> k_id d) (l1 ++ l2) /\
  Forall (fun e => key_matches cfg key now e = false) l1 /\ key_matches cfg key now d = true.

(** The number of keys the filter [{apiExpires: {$gt: t}, isActive: true}] accepts. *)
Definition count_live (t : Z) (l : list ApiKeyDoc) : nat := length (List.filter (live t) l).

Lemma find_key_at s l1 d l2 key now :
  key_at s l1 d l2 key now -> List.find (key_matches cfg key now) (keys s) = Some d.
Proof.
  intros (Hk & _ & Hl1 & Hd). rewrite Hk. clear Hk. induction Hl1 as [|e l1 He _ IH]; simpl.
  - rewrite Hd. reflexivity.
  - rewrite He. exact IH.
Qed.

Lemma map_usage_at (l1 l2 : list ApiKeyDoc) d n now :
  Forall (fun e => k_id e <> k_id d) (l1 ++ l2) ->
  map (fun e => if bool_decide (k_id e = k_id d) then set_usage e n now else e) (l1 ++ d :: l2) =
    l1 ++ set_usage d n now :: l2.
Proof.
  intros Hl. rewrite Forall_app in Hl. destruct Hl as [Hl1 Hl2].
  rewrite map_app. simpl. rewrite bool_decide_true by done. f_equal. f_equal.
  - induction Hl1 as [|e l1 He _ IH]; simpl; [done|]. rewrite bool_decide_false by done. f_equal. exact IH.
  - f_equal. induction Hl2 as [|e l2 He _ IH]; simpl; [done|].
    rewrite bool_decide_false by done. f_equal. exact IH.
Qed.

Lemma key_matches_usage key now d n t :
  key_matches cfg key now (set_usage d n t) = key_matches cfg key now d.
Proof. reflexivity. Qed.

Lemma live_usage t d n now : live t (set_usage d n now) = live t d.
Proof. reflexivity. Qed.
Lemma verifyApiKey_at s l1 d l2 key now :
  key_at s l1 d l2 key now ->
  verifyApiKey cfg key now s =
    (mkK (l1 ++ set_usage d (numberOfTimesUsed d + 1) now :: l2) (next_kid s), Ok true).
Proof.
  intros Hat. unfold verifyApiKey, verify_read, verify_write. run_M.
  rewrite (find_key_at _ _ _ _ _ _ Hat). destruct Hat as (Hk & Hid & _).
  rewrite Hk, map_usage_at by exact Hid. reflexivity.
Qed.

Lemma verifyApiKey_miss s key now :
  List.find (key_matches cfg key now) (keys s) = None -> verifyApiKey cfg key now s = (s, Ok false).
Proof. intros Hf. unfold verifyApiKey, verify_read. run_M. rewrite Hf. reflexivity. Qed.

Lemma key_at_usage s l1 d l2 key now n t k :
  key_at s l1 d l2 key now ->
  key_at (mkK (l1 ++ set_usage d n t :: l2) k) l1 (set_usage d n t) l2 key now.
Proof. intros (_ & Hid & Hl1 & Hd). repeat split; assumption. Qed.

(** [verifyApiKey key] at each time of [ts] in turn: the results. *)
Fixpoint verify_times (key : string) (ts : list Z) (s : KState) : KState * list (res js_error bool) :=
  match ts with
  | [] => (s, [])
  | t :: r => let '(s1, b) := verifyApiKey cfg key t s in
              let '(s2, bs) := verify_times key r s1 in (s2, b :: bs)
  end.

(** The key after [length ts] successful verifications at the times [ts]. *)
Definition usage_after (d : ApiKeyDoc) (ts : list Z) : ApiKeyDoc :=
  match last ts with
  | None => d
  | Some t => set_usage d (numberOfTimesUsed d + Z.of_nat (length ts)) t
  end.

Lemma usage_after_cons d t ts :
  usage_after (set_usage d (numberOfTimesUsed d + 1) t) ts = usage_after d (t :: ts).
Proof.
  unfold usage_after. destruct ts as [|t' ts]; [reflexivity|].
  cbn [last length]. destruct (last (t' :: ts)) eqn:E; [|by apply last_None in E].
  unfold set_usage. cbn. f_equal. lia.
Qed.
(** Each successful verification increments the usage counter by
    exactly one and records its time: after verifications of a live key at
    the times [ts], all of which succeed, the counter has grown by
    [length ts], [lastUsed] is the last time, and no other key changed. *)
Theorem verify_counts s l1 d l2 key ts :
  keys s = l1 ++ d :: l2 ->
  Forall (fun t => key_at s l1 d l2 key t) ts ->
  let '(s', bs) := verify_times key ts s in
  keys s' = l1 ++ usage_after d ts :: l2 /\ next_kid s' = next_kid s /\
  bs = map (fun _ => Ok true) ts.
Proof.
  revert s d. induction ts as [|t ts IH]; intros s d Hk Hts; simpl; [done|].
  apply Forall_cons in Hts as [Ht Hts].
  rewrite (verifyApiKey_at _ _ _ _ _ _ Ht).
  set (s1 := mkK (l1 ++ set_usage d (numberOfTimesUsed d + 1) t :: l2) (next_kid s)).
  assert (Hts1 : Forall (fun t' => key_at s1 l1 (set_usage d (numberOfTimesUsed d + 1) t) l2 key t') ts).
  { eapply Forall_impl; [exact Hts|]. intros t' Ht'. exact (key_at_usage s _ _ _ _ _ _ _ _ Ht'). }
  specialize (IH s1 _ eq_refl Hts1). destruct (verify_times key ts s1) as [s2 bs].
  destruct IH as (Hk2 & Hn2 & Hbs). rewrite Hk2, usage_after_cons, Hn2, Hbs. done.
Qed.
(** The key [generateApiKey (Some w) rnd now] creates. *)
Definition new_key (s : KState) (w rnd : string) (now : Z) : ApiKeyDoc :=
  {| k_id := next_kid s; apiKeyHash := key_hash cfg rnd; forWhom := w;
     apiExpires := now + apiKeyExpiresDays cfg * 24 * 60 * 60 * 1000;
     numberOfTimesUsed := 0; lastUsed := None; k_isActive := true |}.

Lemma live_mono t t' d : t <= t' -> live t d = false -> live t' d = false.
Proof.
  unfold live. intros Ht. destruct (k_isActive d); [|by rewrite !andb_false_r].
  rewrite !andb_true_r. intros H1. apply Z.ltb_ge in H1. apply Z.ltb_ge. lia.
Qed.

Lemma none_live_later t t' l :
  t <= t' -> existsb (live t) l = false -> Forall (fun e => live t' e = false) l.
Proof.
  intros Ht Hl. apply Forall_forall. intros e He.
  apply (live_mono t); [exact Ht|]. destruct (live t e) eqn:E; [|done].
  rewrite <- Hl. symmetry. apply existsb_exists. exists e. split; [|done].
  by apply list_elem_of_In.
Qed.

Lemma generate_live s fw rnd now :
  existsb (live now) (keys s) = true -> generateApiKey cfg fw rnd now s = (s, Ok None).
Proof. intros Hl. unfold generateApiKey, gen_check. run_M. rewrite Hl. reflexivity. Qed.

Lemma generate_fresh s w rnd now :
  existsb (live now) (keys s) = false -> w <> ""%string ->
  existsb (fun d => String.eqb (forWhom d) w) (keys s) = false ->
  generateApiKey cfg (Some w) rnd now s =
    (mkK (keys s ++ [new_key s w rnd now]) (N.succ (next_kid s)), Ok (Some rnd)).
Proof.
  intros Hl Hw Hu. unfold generateApiKey, gen_check, gen_create, create_key. run_M.
  rewrite Hl, (proj2 (String.eqb_neq w "") Hw), Hu. reflexivity.
Qed.

Lemma map_ext_Forall {A B} (f g : A -> B) l : Forall (fun e => f e = g e) l -> map f l = map g l.
Proof. induction 1 as [|e l He _ IH]; [done|]. simpl. by rewrite He, IH. Qed.

(** Deactivating the only live key is what would let a new owner get a
    key before it expires; nothing in the server calls [deactivateApiKey],
    so the key stays live until [apiExpires]. *)
Theorem deactivate_reopens s l1 d l2 w rnd now :
  keys s = l1 ++ d :: l2 -> Forall (fun e => k_id e <> k_id d /\ live now e = false) (l1 ++ l2) ->
  w <> ""%string -> existsb (fun e => String.eqb (forWhom e) w) (keys s) = false ->
  let s' := fst (deactivateApiKey d s) in
  keys s' = l1 ++ set_inactive d :: l2 /\
  generateApiKey cfg (Some w) rnd now s' =
    (mkK (keys s' ++ [new_key s' w rnd now]) (N.succ (next_kid s')), Ok (Some rnd)).
Proof.
  intros Hk Hl Hw Hu s'.
  assert (Hs' : keys s' = l1 ++ set_inactive d :: l2).
  { unfold s', deactivateApiKey. run_M. cbn [keys]. rewrite Hk, map_app. cbn [map].
    rewrite bool_decide_eq_true_2 by reflexivity. apply Forall_app in Hl as [H1 H2].
    rewrite (map_ext_Forall _ id l1), (map_ext_Forall _ id l2), !map_id; [done| |];
      eapply Forall_impl; try eassumption; cbn; intros e [He _]; by rewrite bool_decide_eq_false_2. }
  split; [exact Hs'|]. apply generate_fresh; [|exact Hw|].
  - rewrite Hs'. apply Forall_app in Hl as [H1 H2]. rewrite existsb_app. cbn [existsb].
    unfold live at 2. cbn [k_isActive]. rewrite andb_false_r.
    assert (Hn : forall l, Forall (fun e => k_id e <> k_id d /\ live now e = false) l -> existsb (live now) l = false).
    { induction 1 as [|e l [_ He] _ IH]; [done|]. simpl. by rewrite He, IH. }
    by rewrite Hn, Hn.
  - rewrite Hs'. rewrite Hk in Hu. rewrite !existsb_app in *. exact Hu.
Qed.

(** C14. [createApiKey] refuses every owner while any key is live: a live
    key of one owner makes [generateApiKey] return [null] for all owners,
    and the request fails with 400, nothing written. *)
Theorem createApiKey_any_live_key s fw rnd now :
  existsb (live now) (keys s) = true ->
  generateApiKey cfg fw rnd now s = (s, Ok None) /\
  catchAsync (createApiKey cfg fw rnd now) s =
    (s, NextErr (app_error "Only one active API key is allowed" 400)).
Proof.
  intros Hl. split; [exact (generate_live _ _ _ _ Hl)|].
  unfold catchAsync, createApiKey, fail_with. run_M.
  rewrite (generate_live _ _ _ _ Hl). reflexivity.
Qed.

(** C15. An owner whose key has expired or was deactivated can never be
    given a new one: with no live key, [createApiKey] for that owner fails
    with the duplicate-key error of the unique [forWhom] index. *)
Theorem createApiKey_reissue_blocked s d w rnd now :
  existsb (live now) (keys s) = false -> In d (keys s) -> forWhom d = w -> w <> ""%string ->
  catchAsync (createApiKey cfg (Some w) rnd now) s = (s, NextErr (EDuplicateKey [("forWhom", w)])).
Proof.
  intros Hl Hd Hw Hne. unfold catchAsync, createApiKey, generateApiKey, gen_check, gen_create, create_key.
  run_M. rewrite Hl, (proj2 (String.eqb_neq w "") Hne).
  replace (existsb _ (keys s)) with true; [reflexivity|].
  symmetry. apply existsb_exists. exists d. split; [exact Hd|]. rewrite Hw. apply String.eqb_refl.
Qed.

(** Generate/verify round trip: a key generated with the random
    secret [rnd] is returned raw; verifying that raw secret before the key
    expires succeeds, and leaves the new key with one use at that time. *)
Theorem generate_verify_roundtrip s w rnd now now' :
  Forall (fun e => (k_id e < next_kid s)%N) (keys s) ->
  existsb (live now) (keys s) = false -> w <> ""%string ->
  existsb (fun d => String.eqb (forWhom d) w) (keys s) = false ->
  now <= now' < now + apiKeyExpiresDays cfg * 24 * 60 * 60 * 1000 ->
  let '(s1, r) := generateApiKey cfg (Some w) rnd now s in
  r = Ok (Some rnd) /\
  verifyApiKey cfg rnd now' s1 =
    (mkK (keys s ++ [set_usage (new_key s w rnd now) 1 now']) (N.succ (next_kid s)), Ok true).
Proof.
  intros Hids Hl Hw Hu Ht. rewrite (generate_fresh _ _ _ _ Hl Hw Hu). split; [done|].
  rewrite (verifyApiKey_at _ (keys s) (new_key s w rnd now) [] rnd now'); [reflexivity|].
  repeat split.
  - simpl. rewrite app_nil_r. eapply Forall_impl; [exact Hids|]. simpl. intros e He. lia.
  - eapply Forall_impl; [exact (none_live_later now now' _ (proj1 Ht) Hl)|].
    intros e He. unfold key_matches. rewrite He. apply andb_false_r.
  - unfold key_matches, live. simpl. rewrite String.eqb_refl.
    destruct (Z.ltb_spec now' (now + apiKeyExpiresDays cfg * 24 * 60 * 60 * 1000)); [done|lia].
Qed.
(** C18. An [x-api-key] header that matches no live key ends the request
    with 401 "Invalid or expired API key": [checkApiKey] responds itself
    and does not fall back to the session cookie, and writes nothing. *)
Theorem checkApiKey_invalid s k now :
  k <> ""%string -> List.find (key_matches cfg k now) (keys s) = None ->
  checkApiKey_mw cfg (Some k) now s =
    (s, (Respond 401 (JObj [("status", JStr "fail"); ("message", JStr "Invalid or expired API key")]),
         false)).
Proof.
  intros Hk Hf. unfold checkApiKey_mw, checkApiKey. rewrite (proj2 (String.eqb_neq k "") Hk).
  run_M. rewrite (verifyApiKey_miss _ _ _ Hf). reflexivity.
Qed.

(** A valid key sets [req.apiKeyValid] and counts the use. *)
Lemma checkApiKey_valid s l1 d l2 k now :
  k <> ""%string -> key_at s l1 d l2 k now ->
  checkApiKey_mw cfg (Some k) now s =
    (mkK (l1 ++ set_usage d (numberOfTimesUsed d + 1) now :: l2) (next_kid s), (Next, true)).
Proof.
  intros Hk Hat. unfold checkApiKey_mw, checkApiKey. rewrite (proj2 (String.eqb_neq k "") Hk).
  run_M. rewrite (verifyApiKey_at _ _ _ _ _ _ Hat). reflexivity.
Qed.

(** *** The single-live-key invariant, one request at a time *)

Lemma count_live_mono t t' l : t <= t' -> (count_live t' l <= count_live t l)%nat.
Proof.
  intros Ht. unfold count_live. induction l as [|e l IH]; simpl; [lia|].
  destruct (live t e) eqn:E; simpl.
  - destruct (live t' e); simpl; lia.
  - rewrite (live_mono t t' e Ht E). exact IH.
Qed.

Lemma count_live_none t l : existsb (live t) l = false -> count_live t l = 0%nat.
Proof.
  unfold count_live. induction l as [|e l IH]; simpl; [done|].
  intros H0. apply orb_false_iff in H0 as [-> Hl]. exact (IH Hl).
Qed.

Lemma count_live_snoc t l d : (count_live t (l ++ [d]) <= count_live t l + 1)%nat.
Proof.
  unfold count_live. rewrite List.filter_app, length_app. simpl. destruct (live t d); simpl; lia.
Qed.

Lemma count_live_usage t l f :
  (forall e, live t (f e) = live t e) -> count_live t (map f l) = count_live t l.
Proof.
  intros Hf. unfold count_live. induction l as [|e l IH]; simpl; [done|].
  rewrite Hf. destruct (live t e); simpl; lia.
Qed.

Lemma createApiKey_keys s fw rnd now :
  keys (fst (catchAsync (createApiKey cfg fw rnd now) s)) = keys s \/
  (existsb (live now) (keys s) = false /\
   exists d, keys (fst (catchAsync (createApiKey cfg fw rnd now) s)) = keys s ++ [d]).
Proof.
  unfold catchAsync, createApiKey, generateApiKey, gen_check, gen_create, create_key, fail_with.
  run_M. destruct (existsb (live now) (keys s)) eqn:El; [left; reflexivity|].
  destruct fw as [w|]; [|left; reflexivity].
  destruct (String.eqb w ""); [left; reflexivity|].
  destruct (existsb (fun d => String.eqb (forWhom d) w) (keys s)); [left; reflexivity|]. right. split; [done|]. eexists. reflexivity.
Qed.

Lemma checkApiKey_count_live s h now t :
  count_live t (keys (fst (checkApiKey_mw cfg h now s))) = count_live t (keys s).
Proof.
  unfold checkApiKey_mw, checkApiKey, verifyApiKey, verify_read, verify_write.
  destruct h as [k|]; [|reflexivity]. destruct (String.eqb k ""); [reflexivity|]. run_M.
  destruct (List.find _ (keys s)) as [d|]; [|reflexivity]. simpl.
  apply count_live_usage. intros e. by case_bool_decide.
Qed.
(** A request of the API-key path, served at its arrival time. *)
Inductive kreq :=
| KCreate (fw : option string) (rnd : string)   (** [POST /api-management/generate-api-key] *)
| KCheck (header : option string).             (** [checkApiKey] in front of a route *)

Definition serve (r : kreq) (now : Z) (s : KState) : KState :=
  match r with
  | KCreate fw rnd => fst (catchAsync (createApiKey cfg fw rnd now) s)
  | KCheck h => fst (checkApiKey_mw cfg h now s)
  end.

(** Requests served one after the other, the clock never going back. *)
Inductive kstep : KState * Z -> KState * Z -> Prop :=
| kstep_serve s t t' r : t <= t' -> kstep (s, t) (serve r t' s, t').

Definition single_live (c : KState * Z) : Prop := (count_live c.2 (keys c.1) <= 1)%nat.

Lemma serve_single_live s t r t' :
  t <= t' -> single_live (s, t) -> single_live (serve r t' s, t').
Proof.
  unfold single_live. simpl. intros Ht Hs.
  pose proof (count_live_mono t t' (keys s) Ht) as Hm.
  destruct r as [fw rnd|h]; simpl.
  - destruct (createApiKey_keys s fw rnd t') as [-> | [Hl [d ->]]]; [lia|].
    pose proof (count_live_snoc t' (keys s) d). rewrite (count_live_none _ _ Hl) in *. lia.
  - rewrite checkApiKey_count_live. lia.
Qed.

(** C19. When requests are served one at a time, at most one key is live
    at any moment: every state reached from one with at most one live key
    (the empty collection, say) keeps at most one live key at its time. *)
Theorem single_live_key_sequential c c' :
  single_live c -> rtc kstep c c' -> single_live c'.
Proof.
  intros Hc Hr. induction Hr as [c|c1 c2 c3 Hstep _ IH]; [exact Hc|].
  apply IH. destruct Hstep as [s t t' r Ht]. exact (serve_single_live s t r t' Ht Hc).
Qed.
End Sequential.

(** ** Interleaved requests

    Each static suspends between its two store round trips; other requests
    run in between.  A thread is a request at one of its suspension
    points; a configuration is the collection and the threads; a step runs
    one round trip of one unfinished thread, atomically (the store's
    per-document atomicity). *)
Section Interleaving.
Context `{Crypto} (cfg : Config).

Inductive thread :=
| VerifyStart (key : string) (now : Z)
| VerifyFound (d : ApiKeyDoc) (now : Z)
| GenStart (fw : option string) (rnd : string) (now : Z)
| GenChecked (fw : option string) (rnd : string) (now : Z)
| Finished (r : res js_error bool).

Definition thread_step (t : thread) (s : KState) : option (KState * thread) :=
  match t with
  | VerifyStart k now =>
      let '(s', r) := verify_read cfg k now s in
      Some (s', match r with
                | Ok (Some d) => VerifyFound d now
                | Ok None => Finished (Ok false)
                | Throw e => Finished (Throw e) end)
  | VerifyFound d now =>
      let '(s', r) := verify_write d now s in
      Some (s', match r with Ok _ => Finished (Ok true) | Throw e => Finished (Throw e) end)
  | GenStart fw rnd now =>
      let '(s', r) := gen_check now s in
      Some (s', match r with
                | Ok true => Finished (Ok false)
                | Ok false => GenChecked fw rnd now
                | Throw e => Finished (Throw e) end)
  | GenChecked fw rnd now =>
      let '(s', r) := gen_create cfg fw rnd now s in
      Some (s', match r with Ok _ => Finished (Ok true) | Throw e => Finished (Throw e) end)
  | Finished _ => None
  end.

(** Interleavings of key requests. *)
Definition cstep : KState * list thread -> KState * list thread -> Prop := tstep thread_step.

(** What [generateApiKey] resolves to, as a thread reports it. *)
Definition gen_result (r : res js_error (option string)) : res js_error bool :=
  match r with Ok (Some _) => Ok true | Ok None => Ok false | Throw e => Throw e end.

Lemma step_verify_start k now s :
  thread_step (VerifyStart k now) s =
    Some (s, match List.find (key_matches cfg k now) (keys s) with
             | Some d => VerifyFound d now
             | None => Finished (Ok false) end).
Proof. unfold thread_step, verify_read. run_M. by destruct (List.find _ _). Qed.

Lemma step_verify_found d now s :
  thread_step (VerifyFound d now) s =
    Some (mkK (map (fun e => if bool_decide (k_id e = k_id d)
                             then set_usage e (numberOfTimesUsed d + 1) now else e) (keys s))
              (next_kid s), Finished (Ok true)).
Proof. reflexivity. Qed.

Lemma step_gen_start fw rnd now s :
  thread_step (GenStart fw rnd now) s =
    Some (s, if existsb (live now) (keys s) then Finished (Ok false) else GenChecked fw rnd now).
Proof. unfold thread_step, gen_check. run_M. by destruct (existsb _ _). Qed.

Lemma step_gen_checked fw rnd now s :
  thread_step (GenChecked fw rnd now) s =
    Some (fst (gen_create cfg fw rnd now s), Finished (gen_result (snd (gen_create cfg fw rnd now s)))).
Proof.
  unfold thread_step, gen_create, gen_result. run_M.
  destruct (create_key cfg _ fw now s) as [s' [d|e]]; reflexivity.
Qed.


(** C20. Concurrent verifications lose updates: two verifications of the
    same live key whose reads both happen before either write both
    succeed, yet the counter grows by one; served one after the other they
    grow it by two. *)
Theorem verify_lost_update s l1 d l2 key now :
  key_at cfg s l1 d l2 key now ->
  rtc cstep (s, [VerifyStart key now; VerifyStart key now])
            (mkK (l1 ++ set_usage d (numberOfTimesUsed d + 1) now :: l2) (next_kid s),
             [Finished (Ok true); Finished (Ok true)]) /\
  fst (verifyApiKey cfg key now (fst (verifyApiKey cfg key now s))) =
    mkK (l1 ++ set_usage d (numberOfTimesUsed d + 2) now :: l2) (next_kid s).
Proof.
  intros Hat. pose proof (find_key_at _ _ _ _ _ _ _ Hat) as Hf.
  destruct Hat as (Hk & Hid & Hl1 & Hd). split.
  - run_thread 0%nat ltac:(rewrite step_verify_start, Hf; reflexivity).
    run_thread 1%nat ltac:(rewrite step_verify_start, Hf; reflexivity).
    run_thread 0%nat ltac:(apply step_verify_found). rewrite Hk, map_usage_at by exact Hid.
    run_thread 1%nat ltac:(apply step_verify_found).
    replace (map _ (l1 ++ set_usage d (numberOfTimesUsed d + 1) now :: l2))
      with (l1 ++ set_usage d (numberOfTimesUsed d + 1) now :: l2); [apply rtc_refl|].
    symmetry. exact (map_usage_at l1 l2 (set_usage d (numberOfTimesUsed d + 1) now) _ _ Hid).
  - rewrite (verifyApiKey_at _ s l1 d l2 key now) by (repeat split; assumption). simpl.
    rewrite (verifyApiKey_at _ _ l1 (set_usage d (numberOfTimesUsed d + 1) now) l2 key now)
      by (repeat split; assumption).
    simpl. do 4 f_equal. lia.
Qed.

Lemma gen_create_fresh s w rnd now :
  w <> ""%string -> existsb (fun d => String.eqb (forWhom d) w) (keys s) = false ->
  gen_create cfg (Some w) rnd now s =
    (mkK (keys s ++ [new_key cfg s w rnd now]) (N.succ (next_kid s)), Ok (Some rnd)).
Proof.
  intros Hw Hu. unfold gen_create, create_key. run_M.
  rewrite (proj2 (String.eqb_neq w "") Hw), Hu. reflexivity.
Qed.

(** C21. Concurrent key generation breaks the single-live-key invariant:
    two [generateApiKey] requests for different new owners whose checks
    both run before either creation both succeed, leaving two live keys;
    served one after the other, the second is refused. *)
Theorem generate_race_two_live s w1 w2 r1 r2 now :
  existsb (live now) (keys s) = false -> w1 <> ""%string -> w2 <> ""%string -> w1 <> w2 ->
  existsb (fun d => String.eqb (forWhom d) w1) (keys s) = false ->
  existsb (fun d => String.eqb (forWhom d) w2) (keys s) = false ->
  0 < apiKeyExpiresDays cfg ->
  (exists s', rtc cstep (s, [GenStart (Some w1) r1 now; GenStart (Some w2) r2 now])
                        (s', [Finished (Ok true); Finished (Ok true)]) /\
              count_live now (keys s') = 2%nat) /\
  snd (generateApiKey cfg (Some w2) r2 now (fst (generateApiKey cfg (Some w1) r1 now s))) = Ok None.
Proof.
  intros Hl Hw1 Hw2 Hne Hu1 Hu2 Hdays.
  assert (Hlive : forall w r s0, live now (new_key cfg s0 w r now) = true).
  { intros. unfold live, new_key. simpl. rewrite andb_true_r. apply Z.ltb_lt. nia. }
  set (k1 := new_key cfg s w1 r1 now).
  set (s1 := mkK (keys s ++ [k1]) (N.succ (next_kid s))).
  assert (Hu2' : existsb (fun d => String.eqb (forWhom d) w2) (keys s1) = false).
  { simpl. rewrite existsb_app, Hu2. simpl. rewrite (proj2 (String.eqb_neq w1 w2) Hne). done. }
  split.
  - eexists. split.
    + run_thread 0%nat ltac:(rewrite step_gen_start, Hl; reflexivity).
      run_thread 1%nat ltac:(rewrite step_gen_start, Hl; reflexivity).
      run_thread 0%nat ltac:(rewrite step_gen_checked, (gen_create_fresh s w1 r1 now Hw1 Hu1);
                             reflexivity).
      run_thread 1%nat ltac:(rewrite step_gen_checked;
                             change (gen_create cfg (Some w2) r2 now _)
                               with (gen_create cfg (Some w2) r2 now s1);
                             rewrite (gen_create_fresh s1 w2 r2 now Hw2 Hu2'); reflexivity).
      apply rtc_refl.
    + simpl. rewrite <- app_assoc. unfold count_live. rewrite List.filter_app, length_app.
      fold (count_live now (keys s)). rewrite (count_live_none _ _ Hl). simpl.
      unfold k1. rewrite !Hlive. reflexivity.
  - rewrite (generate_fresh cfg s w1 r1 now Hl Hw1 Hu1). simpl.
    rewrite (generate_live cfg); [reflexivity|]. simpl. rewrite existsb_app. simpl.
    rewrite Hlive. apply orb_true_r.
Qed.
End Interleaving.

(** ** Concrete keys *)
Module ApiKeyFixture.

#[local] Instance kcrypto : Crypto := {|
  sha256_hex x := ("sha256:" ++ x)%string;
  hmac_sha256_hex k x := ("hmac:" ++ k ++ ":" ++ x)%string;
  bcrypt_hash p _ := ("$2a$12$" ++ p)%string;
  bcrypt_compare q h := String.eqb h ("$2a$12$" ++ q)
|}.

Definition kcfg : Config := {|
  jwtExpiresInSecs := 7776000; cookieExpiresDays := 90; resetExpiresMins := 10;
  verifyExpiresHrs := 24; staffAppUrl := "https://staff.oasis.test"; apiKeyExpiresDays := 365;
  hmacSecret := "hmac-secret"
|}.

Definition now0 : Z := 1700000000000.

(** The live key of the booking site, used five times. *)
Definition key_site : ApiKeyDoc := {|
  k_id := 0; apiKeyHash := key_hash kcfg "secret-site"; forWhom := "booking-site";
  apiExpires := 1720000000000; numberOfTimesUsed := 5; lastUsed := None; k_isActive := true
|}.

(** An expired key of a retired client. *)
Definition key_legacy : ApiKeyDoc := {|
  k_id := 1; apiKeyHash := key_hash kcfg "secret-legacy"; forWhom := "legacy";
  apiExpires := 1600000000000; numberOfTimesUsed := 40; lastUsed := None; k_isActive := true
|}.

Definition ks_live : KState := mkK [key_site] 1.
Definition ks_expired : KState := mkK [key_legacy] 2.

Lemma createApiKey_any_live_key_witness :
  generateApiKey kcfg (Some "mobile-app") "rnd" now0 ks_live = (ks_live, Ok None) /\
  catchAsync (createApiKey kcfg (Some "mobile-app") "rnd" now0) ks_live =
    (ks_live, NextErr (app_error "Only one active API key is allowed" 400)).
Proof. apply createApiKey_any_live_key. reflexivity. Defined.

Lemma createApiKey_reissue_blocked_witness :
  catchAsync (createApiKey kcfg (Some "legacy") "rnd" now0) ks_expired =
    (ks_expired, NextErr (EDuplicateKey [("forWhom", "legacy")])).
Proof.
  apply (createApiKey_reissue_blocked kcfg ks_expired key_legacy);
    [reflexivity | left; reflexivity | reflexivity | discriminate].
Defined.

Lemma verify_counts_witness :
  let '(s', bs) := verify_times kcfg "secret-site" [now0; now0 + 1000; now0 + 2000] ks_live in
  keys s' = [] ++ usage_after key_site [now0; now0 + 1000; now0 + 2000] :: [] /\
  next_kid s' = next_kid ks_live /\
  bs = map (fun _ => Ok true) [now0; now0 + 1000; now0 + 2000].
Proof.
  apply verify_counts; [reflexivity|].
  repeat constructor; vm_compute; reflexivity.
Defined.

Lemma generate_verify_roundtrip_witness :
  let '(s1, r) := generateApiKey kcfg (Some "mobile-app") "secret-mobile" now0 ks_expired in
  r = Ok (Some "secret-mobile") /\
  verifyApiKey kcfg "secret-mobile" (now0 + 60000) s1 =
    (mkK (keys ks_expired ++ [set_usage (new_key kcfg ks_expired "mobile-app" "secret-mobile" now0) 1
                                        (now0 + 60000)])
         (N.succ (next_kid ks_expired)), Ok true).
Proof.
  apply generate_verify_roundtrip.
  - repeat constructor.
  - reflexivity.
  - discriminate.
  - reflexivity.
  - vm_compute. split; [discriminate | reflexivity].
Defined.

Lemma checkApiKey_invalid_witness :
  checkApiKey_mw kcfg (Some "not-a-key") now0 ks_live =
    (ks_live, (Respond 401 (JObj [("status", JStr "fail");
                                  ("message", JStr "Invalid or expired API key")]), false)).
Proof. apply checkApiKey_invalid; [discriminate | vm_compute; reflexivity]. Defined.

Lemma single_live_key_sequential_witness :
  single_live (serve kcfg (KCreate (Some "kiosk") "r2") (now0 + 1000)
                     (serve kcfg (KCreate (Some "mobile-app") "r1") now0 (mkK [] 0)), now0 + 1000).
Proof.
  apply (single_live_key_sequential kcfg (mkK [] 0, 0)).
  - unfold single_live, count_live. simpl. lia.
  - apply (rtc_l _ _ (serve kcfg (KCreate (Some "mobile-app") "r1") now0 (mkK [] 0), now0));
      [apply kstep_serve; unfold now0; lia|].
    eapply rtc_l; [|apply rtc_refl]. apply kstep_serve. unfold now0. lia.
Defined.

Lemma verify_lost_update_witness :
  rtc (cstep kcfg) (ks_live, [VerifyStart "secret-site" now0; VerifyStart "secret-site" now0])
      (mkK ([] ++ set_usage key_site (numberOfTimesUsed key_site + 1) now0 :: []) (next_kid ks_live),
       [Finished (Ok true); Finished (Ok true)]) /\
  fst (verifyApiKey kcfg "secret-site" now0 (fst (verifyApiKey kcfg "secret-site" now0 ks_live))) =
    mkK ([] ++ set_usage key_site (numberOfTimesUsed key_site + 2) now0 :: []) (next_kid ks_live).
Proof.
  apply verify_lost_update. repeat split; try reflexivity; repeat constructor.
Defined.

Lemma generate_race_two_live_witness :
  (exists s', rtc (cstep kcfg) (ks_expired, [GenStart (Some "mobile-app") "r1" now0;
                                             GenStart (Some "kiosk") "r2" now0])
                        (s', [Finished (Ok true); Finished (Ok true)]) /\
              count_live now0 (keys s') = 2%nat) /\
  snd (generateApiKey kcfg (Some "kiosk") "r2" now0
         (fst (generateApiKey kcfg (Some "mobile-app") "r1" now0 ks_expired))) = Ok None.
Proof.
  apply generate_race_two_live; try reflexivity; try discriminate.
Defined.

End ApiKeyFixture.
