(* ===== verification/Settings.v ===== *)
(** * The singleton Setting ([src/src/models/settingModel.ts],
      [src/src/controllers/settingController.ts])

    The [settings] collection is meant to hold at most one document.  The
    four handlers are modelled over the collection; [createSettings] is
    also split at its [await] into its check and its creation, so that two
    requests can interleave.  The schema's four paths are [Number]s; the
    model takes them as integers (request bodies are cast by mongoose
    before this code sees them). *)

From S2P Require Import Prelude JsValue AppError.

Local Open Scope Z_scope.

(** ** The stored document ([ISettingBase]) *)
Record Setting := {
  st_id : N;
  minBookingLength : Z;
  maxBookingLength : Z;
  maxGuestsPerBooking : Z;
  breakfastPrice : Z
}.

(** A request body: the paths of the schema it sets (other keys are
    dropped by mongoose's strict mode). *)
Record SettingBody := {
  b_min : option Z;
  b_max : option Z;
  b_guests : option Z;
  b_price : option Z
}.

Record SState := mkS { settings : list Setting; next_sid : N }.

Local Abbreviation SM := (M SState js_error).

(** ** Validation of [Setting.create(body)]

    A missing path fails its [required] validator only; a present path
    runs its custom validator, which compares with the other path
    ([val <= undefined] is false). *)
Definition required_error (path msg : string) (v : option Z) : list (string * string) :=
  match v with None => [(path, msg)] | Some _ => [] end.

Definition min_errors (b : SettingBody) : list (string * string) :=
  match b_min b with
  | None => [("minBookingLength", "Setting must have minBookingLength")]
  | Some v => if match b_max b with Some m => v <=? m | None => false end then []
              else [("minBookingLength", "minBookingLength (" ++ z_to_string v ++
                                         ") should be lesser or equal to maxBookingLength")%string]
  end.

Definition max_errors (b : SettingBody) : list (string * string) :=
  match b_max b with
  | None => [("maxBookingLength", "Setting must have a maxBookingLength")]
  | Some v => if match b_min b with Some m => m <=? v | None => false end then []
              else [("maxBookingLength", "maxBookingLength (" ++ z_to_string v ++
                                         ") should be greater or equal to minBookingLength")%string]
  end.

Definition setting_errors (b : SettingBody) : list (string * string) :=
  min_errors b ++ max_errors b ++
  required_error "maxGuestsPerBooking" "Setting must have a maxGuestsPerBooking" (b_guests b) ++
  required_error "breakfastPrice" "Setting must have a breakfastPrice" (b_price b).

Definition setting_json (d : Setting) : json :=
  JObj [("_id", JNum (Z.of_N (st_id d))); ("minBookingLength", JNum (minBookingLength d));
        ("maxBookingLength", JNum (maxBookingLength d));
        ("maxGuestsPerBooking", JNum (maxGuestsPerBooking d));
        ("breakfastPrice", JNum (breakfastPrice d))].

Definition setting_body (d : Setting) (code : Z) : outcome :=
  Respond code (JObj [("status", JStr "success"); ("data", JObj [("setting", setting_json d)])]).

(** [findOneAndUpdate({}, body, {new: true})]: the paths the body sets are
    written as given; no validator runs. *)
Definition apply_body (d : Setting) (b : SettingBody) : Setting :=
  {| st_id := st_id d;
     minBookingLength := default (minBookingLength d) (b_min b);
     maxBookingLength := default (maxBookingLength d) (b_max b);
     maxGuestsPerBooking := default (maxGuestsPerBooking d) (b_guests b);
     breakfastPrice := default (breakfastPrice d) (b_price b) |}.

Definition not_found : SM outcome := fail_with "Setting document not found." 404.

(** [getSettings] *)
Definition getSettings : SM outcome :=
  s ← get_st;
  match settings s with
  | [] => not_found
  | d :: _ => mret (setting_body d 200)
  end.

(** [updateSettings] *)
Definition updateSettings (b : SettingBody) : SM outcome :=
  s ← get_st;
  match settings s with
  | [] => not_found
  | d :: rest => let d' := apply_body d b in
                 _ ← put_st (mkS (d' :: rest) (next_sid s));
                 mret (setting_body d' 200)
  end.

Definition exists_msg : string :=
  "There can be only one setting document and it already exists so you can't create a new one. Only modification of that setting document is possible".

(** The first round trip of [createSettings]: [Setting.findOne()]. *)
Definition create_check : SM bool :=
  s ← get_st; mret (bool_decide (settings s <> [])).

(** The second: [Setting.create(req.body)]. *)
Definition create_setting (b : SettingBody) : SM Setting :=
  match setting_errors b with
  | (_ :: _) as errs => throw (EValidation errs)
  | [] =>
      s ← get_st;
      let d := {| st_id := next_sid s; minBookingLength := default 0 (b_min b);
                  maxBookingLength := default 0 (b_max b);
                  maxGuestsPerBooking := default 0 (b_guests b);
                  breakfastPrice := default 0 (b_price b) |} in
      _ ← put_st (mkS (settings s ++ [d]) (N.succ (next_sid s)));
      mret d
  end.

(** [createSettings] *)
Definition createSettings (b : SettingBody) : SM outcome :=
  existing ← create_check;
  if (existing : bool) then fail_with exists_msg 404
  else d ← create_setting b; mret (setting_body d 201).

(** [deleteSettings]: [Setting.deleteMany()]. *)
Definition deleteSettings : SM outcome :=
  _ ← modify (fun s => mkS [] (next_sid s));
  mret (Respond 204 (JObj [("status", JStr "success"); ("data", JNull)])).

(** ** Properties *)

(** A document satisfying the schema's cross-field validators. *)
Definition valid_setting (d : Setting) : Prop := minBookingLength d <= maxBookingLength d.

Lemma setting_errors_nil b :
  setting_errors b = [] ->
  exists mn mx g p, b_min b = Some mn /\ b_max b = Some mx /\ mn <= mx /\
                    b_guests b = Some g /\ b_price b = Some p.
Proof.
  unfold setting_errors, min_errors, max_errors, required_error. intros He.
  destruct (b_min b) as [mn|], (b_max b) as [mx|], (b_guests b) as [g|], (b_price b) as [p|];
    simpl in He; try (destruct (Z.leb_spec mn mx)); simpl in He; try discriminate He.
  exists mn, mx, g, p. auto.
Qed.

Lemma createSettings_cases b s :
  (fst (catchAsync (createSettings b) s) = s) \/
  (settings s = [] /\
   exists d, fst (catchAsync (createSettings b) s) = mkS [d] (N.succ (next_sid s)) /\
             valid_setting d /\ snd (catchAsync (createSettings b) s) = setting_body d 201).
Proof.
  unfold catchAsync, createSettings, create_check, create_setting, fail_with. run_M.
  case_bool_decide as Hne; [left; reflexivity|].
  destruct (setting_errors b) as [|e errs] eqn:He; [|left; reflexivity]. right.
  destruct (setting_errors_nil b He) as (mn & mx & g & p & Hmn & Hmx & Hle & _).
  destruct s as [[|d0 l] n]; simpl in *; [|discriminate Hne]. split; [done|].
  eexists. split; [reflexivity|]. split; [|reflexivity].
  unfold valid_setting. simpl. rewrite Hmn, Hmx. exact Hle.
Qed.

(** [createSettings] refuses when a setting document exists, with
    status 404 (not a conflict status), and writes nothing. *)
Theorem createSettings_exists b s :
  settings s <> [] ->
  catchAsync (createSettings b) s = (s, NextErr (app_error exists_msg 404)).
Proof.
  intros Hne. unfold catchAsync, createSettings, create_check, fail_with. run_M.
  rewrite bool_decide_true by exact Hne. reflexivity.
Qed.

(** [createSettings] stores only documents whose minimum booking
    length is at most the maximum: a request either writes nothing, or,
    on an empty collection, stores one valid document and answers 201. *)
Theorem createSettings_valid b s :
  fst (catchAsync (createSettings b) s) = s \/
  (settings s = [] /\
   exists d, settings (fst (catchAsync (createSettings b) s)) = [d] /\ valid_setting d /\
             snd (catchAsync (createSettings b) s) = setting_body d 201).
Proof.
  destruct (createSettings_cases b s) as [H|[Hs [d (Hst & Hv & Ho)]]]; [left; exact H|].
  right. split; [exact Hs|]. exists d. rewrite Hst. auto.
Qed.

(** C23. [updateSettings] skips the validators: from a valid singleton, an
    update setting [minBookingLength] above [maxBookingLength] answers
    200 and stores a document with [min > max]. *)
Theorem updateSettings_breaks_validity d n v :
  valid_setting d -> maxBookingLength d < v ->
  let b := {| b_min := Some v; b_max := None; b_guests := None; b_price := None |} in
  catchAsync (updateSettings b) (mkS [d] n) =
    (mkS [apply_body d b] n, setting_body (apply_body d b) 200) /\
  ~ valid_setting (apply_body d b).
Proof.
  intros _ Hv b. split; [reflexivity|]. unfold valid_setting, apply_body. simpl. lia.
Qed.

(** *** At most one document, one request at a time *)

(** A request to [/settings]. *)
Inductive sreq := SGet | SUpdate (b : SettingBody) | SCreate (b : SettingBody) | SDelete.

Definition handle (r : sreq) : SM outcome :=
  match r with
  | SGet => getSettings
  | SUpdate b => updateSettings b
  | SCreate b => createSettings b
  | SDelete => deleteSettings
  end.

Inductive sstep : SState -> SState -> Prop :=
| sstep_req s r : sstep s (fst (catchAsync (handle r) s)).

(** [getSettings] only reads. *)
Lemma getSettings_state s : fst (catchAsync getSettings s) = s.
Proof. unfold catchAsync, getSettings, not_found, fail_with. run_M. by destruct (settings s). Qed.

Lemma handle_singleton r s :
  (length (settings s) <= 1)%nat -> (length (settings (fst (catchAsync (handle r) s))) <= 1)%nat.
Proof.
  intros Hs. destruct r as [|b|b|]; simpl.
  - by rewrite getSettings_state.
  - unfold catchAsync, updateSettings, not_found, fail_with. run_M.
    destruct s as [[|d l] n]; simpl in *; lia.
  - destruct (createSettings_cases b s) as [-> | [_ [d [-> _]]]]; simpl; lia.
  - simpl. lia.
Qed.

(** Served one at a time, the four handlers keep at most one
    setting document: every state reached from one with at most one
    document has at most one. *)
Theorem settings_singleton_sequential s s' :
  (length (settings s) <= 1)%nat -> rtc sstep s s' -> (length (settings s') <= 1)%nat.
Proof.
  intros Hs Hr. induction Hr as [s|s1 s2 s3 Hstep _ IH]; [exact Hs|].
  apply IH. destruct Hstep as [s r]. exact (handle_singleton r s Hs).
Qed.

(** *** Two [createSettings] in flight *)

Inductive cthread :=
| CreateStart (b : SettingBody)
| CreateChecked (b : SettingBody)
| CreateDone (o : outcome).

Definition cthread_step (t : cthread) (s : SState) : option (SState * cthread) :=
  match t with
  | CreateStart b =>
      let '(s', r) := create_check s in
      Some (s', match r with
                | Ok true => CreateDone (NextErr (app_error exists_msg 404))
                | Ok false => CreateChecked b
                | Throw e => CreateDone (NextErr e) end)
  | CreateChecked b =>
      let '(s', r) := create_setting b s in
      Some (s', match r with Ok d => CreateDone (setting_body d 201) | Throw e => CreateDone (NextErr e) end)
  | CreateDone _ => None
  end.

Lemma create_setting_ok b s :
  setting_errors b = [] ->
  exists d, create_setting b s = (mkS (settings s ++ [d]) (N.succ (next_sid s)), Ok d) /\
            valid_setting d /\ st_id d = next_sid s.
Proof.
  intros He. destruct (setting_errors_nil b He) as (mn & mx & g & p & Hmn & Hmx & Hle & _).
  unfold create_setting. rewrite He. run_M. eexists. split; [reflexivity|].
  unfold valid_setting. simpl. rewrite Hmn, Hmx. auto.
Qed.

(** C22. [createSettings] races: from an empty collection, two requests
    with valid bodies whose checks both run before either creation both
    answer 201 and leave two setting documents. *)
Theorem createSettings_race b1 b2 n :
  setting_errors b1 = [] -> setting_errors b2 = [] ->
  exists s' o1 o2,
    rtc (tstep cthread_step) (mkS [] n, [CreateStart b1; CreateStart b2])
        (s', [CreateDone (Respond 201 o1); CreateDone (Respond 201 o2)]) /\
    length (settings s') = 2%nat.
Proof.
  intros H1 H2.
  destruct (create_setting_ok b1 (mkS [] n) H1) as (d1 & E1 & _).
  destruct (create_setting_ok b2 (mkS [d1] (N.succ n)) H2) as (d2 & E2 & _).
  do 3 eexists. split.
  - run_thread 0%nat ltac:(reflexivity). run_thread 1%nat ltac:(reflexivity).
    run_thread 0%nat ltac:(simpl; rewrite E1; reflexivity).
    run_thread 1%nat ltac:(simpl; rewrite E2; reflexivity). apply rtc_refl.
  - reflexivity.
Qed.

(** ** Concrete settings *)
Module SettingsFixture.

Definition std_setting : Setting := {|
  st_id := 0; minBookingLength := 3; maxBookingLength := 90; maxGuestsPerBooking := 8;
  breakfastPrice := 15
|}.

Definition full_body : SettingBody := {|
  b_min := Some 3; b_max := Some 90; b_guests := Some 8; b_price := Some 15
|}.

Lemma updateSettings_breaks_validity_witness :
  catchAsync (updateSettings {| b_min := Some 120; b_max := None; b_guests := None; b_price := None |})
             (mkS [std_setting] 1) =
    (mkS [apply_body std_setting {| b_min := Some 120; b_max := None; b_guests := None;
                                     b_price := None |}] 1,
     setting_body (apply_body std_setting {| b_min := Some 120; b_max := None; b_guests := None;
                                              b_price := None |}) 200) /\
  ~ valid_setting (apply_body std_setting {| b_min := Some 120; b_max := None; b_guests := None;
                                              b_price := None |}).
Proof.
  apply (updateSettings_breaks_validity std_setting 1 120); unfold valid_setting; simpl; lia.
Defined.

Lemma createSettings_exists_witness :
  catchAsync (createSettings full_body) (mkS [std_setting] 1) =
    (mkS [std_setting] 1, NextErr (app_error exists_msg 404)).
Proof. apply createSettings_exists. discriminate. Defined.

Lemma settings_singleton_sequential_witness :
  (length (settings (fst (catchAsync (handle (SCreate full_body))
                           (fst (catchAsync (handle (SCreate full_body)) (mkS [] 0)))))) <= 1)%nat.
Proof.
  apply (settings_singleton_sequential (mkS [] 0)); [simpl; lia|].
  eapply rtc_l; [apply sstep_req|]. eapply rtc_l; [apply sstep_req|]. apply rtc_refl.
Defined.

Lemma createSettings_race_witness :
  exists s' o1 o2,
    rtc (tstep cthread_step) (mkS [] 0, [CreateStart full_body; CreateStart full_body])
        (s', [CreateDone (Respond 201 o1); CreateDone (Respond 201 o2)]) /\
    length (settings s') = 2%nat.
Proof. apply createSettings_race; reflexivity. Defined.

End SettingsFixture.
