(* ===== verification/Cabin.v ===== *)
(** * Cabins ([src/src/models/cabinModel.ts],
      [src/src/controllers/cabinController.ts])

    The cabins collection with its two unique indexes (name, slug), the
    object-storage bucket [cabin-images], and the three handlers of the
    cabin controller that are not the generic ones: [createCabin],
    [updateCabin] and [createDuplicateCabin].  [slugify] (the library) and
    the public URL of a stored object are parameters.  Multipart bodies
    carry strings; the schema casts them with [Number()]. *)

From S2P Require Import Prelude JsValue AppError Store.

Local Open Scope Z_scope.

(** ** The stored cabin ([ICabinBase]) *)
Record CabinDoc := {
  cab_id : N;
  cab_name : string;
  slug : string;
  description : string;
  maxCapacity : jsnum;
  regularPrice : jsnum;
  discount : option jsnum;     (** [None] is [null] *)
  image : string
}.

(** [req.file] as multer gives it (the content is not modelled). *)
Record Upload := { mimetype : string }.

(** The fields of a multipart body the handlers read. *)
Record CabinBody := {
  b_name : option string;
  b_description : option string;
  b_maxCapacity : option string;
  b_regularPrice : option string;
  b_discount : option string;
  b_slug : option string;      (** read by [updateCabin] only, through [{...req.body}] *)
  b_image : option string
}.

Record CState := mkCab {
  cabins : list CabinDoc;
  next_cab : N;
  bucket : list string      (** the paths stored in [cabin-images] *)
}.

Local Abbreviation CM := (M CState js_error).

(** The requests the cabin controller's own handlers serve. *)
Inductive cab_req :=
| CCreate (b : CabinBody) (file : option Upload) (now : Z) (uploadOk : bool)
| CUpdate (id : string) (b : CabinBody) (file : option Upload) (now : Z) (uploadOk : bool)
| CDuplicate (id : string).

Section Cabins.
Context (slugify : string -> string) (publicUrl : string -> string).

(** [!x] on a body field. *)
Definition field_present (x : option string) : bool :=
  match x with Some v => negb (String.eqb v "") | None => false end.

(** [file.mimetype.split('/').at(1)] *)
Definition extension (m : string) : string :=
  match js_split "/"%char m with _ :: e :: _ => e | _ => "undefined" end.

(** The object name: [`${name.replace('/', '-')}-${Date.now()}.${ext}`]. *)
Definition upload_name (name : string) (m : string) (now : Z) : string :=
  (js_replace_first "/" "-" name ++ "-" ++ z_to_string now ++ "." ++ extension m)%string.

(** [supabase.storage.from('cabin-images').upload(path, ...)]: refused
    when the transport fails or the path exists (no [upsert]); the error
    is thrown. *)
Definition storage_upload (path : string) (ok : bool) : CM unit :=
  s ← get_st;
  if ok && negb (bool_decide (path ∈ bucket s))
  then put_st (mkCab (cabins s) (next_cab s) (bucket s ++ [path]))
  else throw (EOther "StorageError" "upload").

(** A value given to a [Number] path: a body string, a number read from a
    stored document, or [null]. *)
Inductive raw := RStr (v : string) | RNum (n : jsnum) | RNull.

(** Mongoose's cast of a [Number] path: [""] and [null] are [null];
    [NaN] is a cast error. *)
Definition cast_number (path : string) (v : raw) : res (string * string) (option jsnum) :=
  match v with
  | RNull => Ok None
  | RStr x => if String.eqb x "" then Ok None else
              match string_to_number x with
              | NaN => Throw (path, ("Cast to Number failed for value " ++ x ++ " at path " ++ path)%string)
              | n => Ok (Some n)
              end
  | RNum NaN => Throw (path, ("Cast to Number failed for value NaN at path " ++ path)%string)
  | RNum n => Ok (Some n)
  end.

Definition raw_of_num (n : option jsnum) : raw := match n with Some x => RNum x | None => RNull end.

(** A unique index on the string path [key]: is [v] held by a document
    other than [except]? *)
Definition index_taken (key : CabinDoc -> string) (v : string) (except : option N)
  (l : list CabinDoc) : bool :=
  existsb (fun c => String.eqb (key c) v && negb (bool_decide (Some (cab_id c) = except))) l.

(** The values [Cabin.create({...})] receives. *)
Record CabinFields := {
  f_name : option string; f_description : option string; f_maxCapacity : option raw;
  f_regularPrice : option raw; f_discount : option raw; f_image : option string
}.

(** A required [String] path with [trim: true]. *)
Definition required_string (path msg : string) (v : option string) : list (string * string) :=
  match v with
  | Some x => if String.eqb (js_trim x) "" then [(path, msg)] else []
  | None => [(path, msg)]
  end.

(** A [Number] path: its cast, then [required] on the cast value. *)
Definition number_errors (path msg : string) (req : bool) (v : option raw) : list (string * string) :=
  match v with
  | None => if req then [(path, msg)] else []
  | Some x => match cast_number path x with
              | Throw e => [e]
              | Ok None => if req then [(path, msg)] else []
              | Ok (Some _) => []
              end
  end.

Definition cabin_errors (fs : CabinFields) : list (string * string) :=
  required_string "name" "A cabin must have a name." (f_name fs) ++
  required_string "description" "A cabin must have a description." (f_description fs) ++
  number_errors "maxCapacity" "A cabin must have a maxCapactiy." true (f_maxCapacity fs) ++
  number_errors "regularPrice" "A cabin must have a regular Price." true (f_regularPrice fs) ++
  number_errors "discount" "" false (f_discount fs) ++
  required_string "image" "A cabin must have a image." (f_image fs).

(** The value a cast path stores (the casts succeeded). *)
Definition cast_value (v : option raw) : option jsnum :=
  match v with
  | Some x => match cast_number "" x with Ok n => n | Throw _ => None end
  | None => None
  end.

(** The document [Cabin.create(fields)] saves under id [n]: the casts,
    [trim], the default of [discount], and the [pre('save')] hook's slug
    of the trimmed name. *)
Definition cabin_doc (n : N) (fs : CabinFields) : CabinDoc :=
  let name := js_trim (default "" (f_name fs)) in
  {| cab_id := n; cab_name := name; slug := slugify name;
     description := js_trim (default "" (f_description fs));
     maxCapacity := default NaN (cast_value (f_maxCapacity fs));
     regularPrice := default NaN (cast_value (f_regularPrice fs));
     discount := match f_discount fs with
                 | None => Some (num_of_Z 0)
                 | Some _ => cast_value (f_discount fs)
                 end;
     image := js_trim (default "" (f_image fs)) |}.

(** [Cabin.create(fields)]: casts and validators, then the document with
    its slug, then the unique indexes on [name] and [slug]. *)
Definition cabin_create (fs : CabinFields) : CM CabinDoc :=
  s ← get_st;
  match cabin_errors fs with
  | (_ :: _) as errs => throw (EValidation errs)
  | [] =>
      let c := cabin_doc (next_cab s) fs in
      if index_taken cab_name (cab_name c) None (cabins s) then throw (EDuplicateKey [("name", cab_name c)])
      else if index_taken slug (slug c) None (cabins s) then throw (EDuplicateKey [("slug", slug c)])
      else _ ← put_st (mkCab (cabins s ++ [c]) (N.succ (next_cab s)) (bucket s));
           mret c
  end.

Definition num_json (n : jsnum) : json :=
  match num_int n with Some z => JNum z | None => JNull end.

Definition cabin_json (c : CabinDoc) : json :=
  JObj [("_id", JNum (Z.of_N (cab_id c))); ("name", JStr (cab_name c)); ("slug", JStr (slug c));
        ("description", JStr (description c)); ("maxCapacity", num_json (maxCapacity c));
        ("regularPrice", num_json (regularPrice c));
        ("discount", match discount c with Some d => num_json d | None => JNull end);
        ("image", JStr (image c))].

Definition cabin_body (code : Z) (c : CabinDoc) : outcome :=
  Respond code (JObj [("status", JStr "success"); ("data", JObj [("cabin", cabin_json c)])]).


Definition find_cabin (n : N) (l : list CabinDoc) : option CabinDoc :=
  List.find (fun c => bool_decide (cab_id c = n)) l.

Definition is_image (f : Upload) : bool := js_starts_with "image/" (mimetype f).

(** The values [createCabin] passes to [Cabin.create]: the body's fields
    and the public URL of the uploaded image. *)
Definition body_fields (b : CabinBody) (url : string) : CabinFields :=
  {| f_name := b_name b; f_description := b_description b;
     f_maxCapacity := RStr <$> b_maxCapacity b; f_regularPrice := RStr <$> b_regularPrice b;
     f_discount := RStr <$> b_discount b; f_image := Some url |}.

(** [createCabin] *)
Definition createCabin (b : CabinBody) (file : option Upload) (now : Z) (uploadOk : bool) : CM outcome :=
  if negb (field_present (b_name b) && field_present (b_description b) &&
           field_present (b_maxCapacity b) && field_present (b_regularPrice b))
  then fail_with "Some required fields are missing." 400
  else match file with
       | None => fail_with "Please upload an image file." 400
       | Some f =>
           if negb (is_image f) then fail_with "Please upload an image file." 415
           else let path := upload_name (default "" (b_name b)) (mimetype f) now in
                _ ← storage_upload path uploadOk;
                c ← cabin_create (body_fields b (publicUrl path));
                mret (cabin_body 201 c)
       end.

(** [Cabin.findByIdAndUpdate(id, data, {new: true, runValidators: true})]:
    the validators of the paths the update sets, the unique indexes; the
    [pre('save')] hook does not run, so [slug] changes only when [data]
    sets it. *)
Definition cabin_update (n : N) (b : CabinBody) (img : option string) : CM (option CabinDoc) :=
  s ← get_st;
  match find_cabin n (cabins s) with
  | None => mret None
  | Some old =>
      let image' := match img with Some i => if String.eqb i "" then b_image b else Some i
                                 | None => b_image b end in
      let errs := (match b_name b with Some _ => required_string "name" "A cabin must have a name." (b_name b) | None => [] end) ++
                  (match b_description b with
                   | Some _ => required_string "description" "A cabin must have a description." (b_description b)
                   | None => [] end) ++
                  (match b_maxCapacity b with
                   | Some x => number_errors "maxCapacity" "A cabin must have a maxCapactiy." true (Some (RStr x))
                   | None => [] end) ++
                  (match b_regularPrice b with
                   | Some x => number_errors "regularPrice" "A cabin must have a regular Price." true (Some (RStr x))
                   | None => [] end) ++
                  number_errors "discount" "" false (RStr <$> b_discount b) ++
                  (match image' with Some _ => required_string "image" "A cabin must have a image." image' | None => [] end) in
      match errs with
      | _ :: _ => throw (EValidation errs)
      | [] =>
          let c := {| cab_id := cab_id old;
                      cab_name := default (cab_name old) (js_trim <$> b_name b);
                      slug := default (slug old) (b_slug b);
                      description := default (description old) (js_trim <$> b_description b);
                      maxCapacity := default (maxCapacity old) (cast_value (RStr <$> b_maxCapacity b));
                      regularPrice := default (regularPrice old) (cast_value (RStr <$> b_regularPrice b));
                      discount := match b_discount b with
                                  | Some _ => cast_value (RStr <$> b_discount b)
                                  | None => discount old end;
                      image := default (image old) (js_trim <$> image') |} in
          if index_taken cab_name (cab_name c) (Some n) (cabins s) then throw (EDuplicateKey [("name", cab_name c)])
          else if index_taken slug (slug c) (Some n) (cabins s) then throw (EDuplicateKey [("slug", slug c)])
          else _ ← put_st (mkCab ((fun e => if bool_decide (cab_id e = n) then c else e) <$> cabins s)
                                 (next_cab s) (bucket s));
               mret (Some c)
      end
  end.

(** [Cabin.findById(id)] casts the id first. *)
Definition cast_cabin_id (id : string) : res js_error N :=
  match parse_oid id with Some n => Ok n | None => Throw (ECast "_id" id) end.

(** [updateCabin] *)
Definition updateCabin (id : string) (b : CabinBody) (file : option Upload) (now : Z) (uploadOk : bool)
  : CM outcome :=
  n ← lift (cast_cabin_id id);
  s ← get_st;
  match find_cabin n (cabins s) with
  | None => fail_with "No Cabin found with that ID" 404
  | Some old =>
      let finish img := (c ← cabin_update n b img;
                         mret (match c with
                               | Some c => cabin_body 200 c
                               | None => Respond 200 (JObj [("status", JStr "success");
                                                            ("data", JObj [("cabin", JNull)])])
                               end)) in
      match file with
      | None => finish None
      | Some f =>
          if negb (is_image f) then fail_with "Please upload an image file." 415
          else let path := upload_name (cab_name old) (mimetype f) now in
               _ ← storage_upload path uploadOk;
               finish (Some (publicUrl path))
      end
  end.

(** [createDuplicateCabin] *)
Definition createDuplicateCabin (id : string) : CM outcome :=
  n ← lift (cast_cabin_id id);
  s ← get_st;
  match find_cabin n (cabins s) with
  | None => fail_with "No cabin found with that ID" 404
  | Some orig =>
      c ← cabin_create {| f_name := Some ("Copy of " ++ cab_name orig)%string;
                          f_description := Some (description orig);
                          f_maxCapacity := Some (RNum (maxCapacity orig));
                          f_regularPrice := Some (RNum (regularPrice orig));
                          f_discount := Some (raw_of_num (discount orig));
                          f_image := Some (image orig) |};
      mret (cabin_body 201 c)
  end.

Definition handle_cab (r : cab_req) : CM outcome :=
  match r with
  | CCreate b f now ok => createCabin b f now ok
  | CUpdate id b f now ok => updateCabin id b f now ok
  | CDuplicate id => createDuplicateCabin id
  end.
End Cabins.

(** ** The unique indexes

    Distinct ids below the id counter, and the unique indexes of the
    schema: no two cabins share a name or a slug. *)
Definition cabins_wf (s : CState) : Prop :=
  NoDup (cab_id <$> cabins s) /\ Forall (fun c => (cab_id c < next_cab s)%N) (cabins s) /\
  NoDup (cab_name <$> cabins s) /\ NoDup (slug <$> cabins s).

Lemma index_taken_false key v ex l :
  index_taken key v ex l = false -> forall e, e ∈ l -> Some (cab_id e) <> ex -> key e <> v.
Proof.
  intros H e He Hne Hv.
  assert (index_taken key v ex l = true) as Ht; [|congruence].
  apply existsb_exists. exists e. split; [by apply list_elem_of_In|].
  rewrite Hv, String.eqb_refl. by case_bool_decide.
Qed.

Lemma find_cabin_some n l c : find_cabin n l = Some c -> c ∈ l /\ cab_id c = n.
Proof.
  intros (Hin & Hc)%find_some. split; [by apply list_elem_of_In|]. by apply bool_decide_eq_true in Hc.
Qed.

(** Case on the next unique-index lookup of the goal. *)
Ltac case_taken :=
  match goal with
  | |- context [index_taken ?k ?v ?e ?l] =>
      let E := fresh "E" in destruct (index_taken k v e l) eqn:E
  end.

Ltac case_taken_in H :=
  match type of H with
  | context [index_taken ?k ?v ?e ?l] =>
      let E := fresh "E" in destruct (index_taken k v e l) eqn:E
  end.

(** The update by id replaces the found cabin: a lookup by the id finds
    the new document. *)
Lemma find_cabin_replace n c old l :
  cab_id c = n -> find_cabin n l = Some old ->
  find_cabin n ((fun e => if bool_decide (cab_id e = n) then c else e) <$> l) = Some c.
Proof.
  intros Hc. induction l as [|e l IH]; [done|]. cbn.
  case_bool_decide; cbn; [by rewrite bool_decide_eq_true_2 | by rewrite bool_decide_eq_false_2].
Qed.

(** A returned [findByIdAndUpdate] of a cabin that exists gives the new
    document: its name is the trimmed new name or the old one, its slug the
    [slug] of the body or the old one. *)
Lemma cabin_update_result n b img s s' r old :
  cabin_update n b img s = (s', Ok r) -> find_cabin n (cabins s) = Some old ->
  exists c, r = Some c /\ find_cabin n (cabins s') = Some c /\
            slug c = default (slug old) (b_slug b) /\
            cab_name c = default (cab_name old) (js_trim <$> b_name b).
Proof.
  intros H Hf. unfold cabin_update in H. run_M. rewrite Hf in H. cbn zeta in H.
  match type of H with context [match ?e with [] => _ | _ :: _ => _ end] => destruct e end;
    [|discriminate].
  case_taken_in H; [discriminate|]. case_taken_in H; [discriminate|]. invc H.
  eexists. split_and!; [done | | done | done]. cbn.
  apply find_cabin_some in Hf as Hf'. destruct Hf' as [_ Hid].
  by apply (find_cabin_replace _ _ old).
Qed.

(** [name.replace('/', '-')] replaces the first slash only: for a
    name [x/y] whose part [x] has no slash, the object name keeps every
    slash of [y], and the storage creates a folder for it. *)
Theorem upload_name_keeps_later_slashes x y m now :
  existsb (Ascii.eqb "/") (String.list_ascii_of_string x) = false ->
  upload_name (x ++ "/" ++ y) m now =
    (x ++ "-" ++ y ++ "-" ++ z_to_string now ++ "." ++ extension m)%string.
Proof.
  intros Hx. unfold upload_name. rewrite (string_app_cons "/" "" y), string_app_nil.
  by rewrite js_replace_first_char, !string_app_assoc.
Qed.

Section CabinProofs.
Context (slugify publicUrl : string -> string).

Lemma storage_upload_wf path ok : preserves cabins_wf (storage_upload path ok).
Proof. apply preserves_get. intros s Hs. by destruct (_ && _). Qed.

Lemma cabin_create_wf fs : preserves cabins_wf (cabin_create slugify fs).
Proof.
  apply preserves_get. intros s (Hid & Hlt & Hn & Hsl).
  destruct (cabin_errors fs); [|done].
  cbn zeta. case_taken; [done|]. case_taken; [done|].
  run_M; cbn. pose proof (index_taken_false _ _ _ _ E) as N1. pose proof (index_taken_false _ _ _ _ E0) as N2.
  rewrite Forall_forall in Hlt.
  split_and!; cbn.
  - apply NoDup_fmap_snoc; [done|]. intros e He%Hlt. cbn. lia.
  - apply Forall_app. split; [apply Forall_forall; intros e He%Hlt; lia | apply Forall_singleton; cbn; lia].
  - apply NoDup_fmap_snoc; [done|]. intros e He. apply N1; [done | discriminate].
  - apply NoDup_fmap_snoc; [done|]. intros e He. apply N2; [done | discriminate].
Qed.

Lemma cabin_update_wf n b img : preserves cabins_wf (cabin_update n b img).
Proof.
  apply preserves_get. intros s (Hid & Hlt & Hn & Hsl).
  destruct (find_cabin n (cabins s)) as [old|] eqn:Hf; [|done].
  apply find_cabin_some in Hf as [Hold <-].
  cbn zeta. match goal with |- context [match ?e with [] => _ | _ :: _ => _ end] => destruct e end; [|done].
  cbn zeta. case_taken; [done|]. case_taken; [done|].
  run_M; cbn. pose proof (index_taken_false _ _ _ _ E) as N1. pose proof (index_taken_false _ _ _ _ E0) as N2.
  rewrite Forall_forall in Hlt.
  split_and!; cbn.
  - apply NoDup_fmap_replace; [done..|]. intros e _ He. done.
  - apply Forall_fmap, Forall_forall. intros e He. cbn. case_bool_decide; [cbn; apply Hlt, Hold | by apply Hlt].
  - apply NoDup_fmap_replace; [done..|]. intros e He Hne. apply N1; [done | congruence].
  - apply NoDup_fmap_replace; [done..|]. intros e He Hne. apply N2; [done | congruence].
Qed.

(** The upload of a fresh path stores it; a failed transport stores
    nothing and throws. *)
Lemma storage_upload_fresh path s :
  path ∉ bucket s ->
  storage_upload path true s = (mkCab (cabins s) (next_cab s) (bucket s ++ [path]), Ok tt).
Proof. intros Hp. unfold storage_upload. run_M. by rewrite bool_decide_eq_false_2. Qed.

Lemma storage_upload_down path s :
  storage_upload path false s = (s, Throw (EOther "StorageError" "upload")).
Proof. reflexivity. Qed.

(** The run of [cabin_create] on valid fields with a free name and slug. *)
Lemma cabin_create_ok fs s :
  cabin_errors fs = [] ->
  index_taken cab_name (cab_name (cabin_doc slugify (next_cab s) fs)) None (cabins s) = false ->
  index_taken slug (slug (cabin_doc slugify (next_cab s) fs)) None (cabins s) = false ->
  cabin_create slugify fs s =
    (mkCab (cabins s ++ [cabin_doc slugify (next_cab s) fs]) (N.succ (next_cab s)) (bucket s),
     Ok (cabin_doc slugify (next_cab s) fs)).
Proof. intros He E1 E2. unfold cabin_create. run_M. by rewrite He, E1, E2. Qed.

Lemma cabin_create_name_taken fs s :
  cabin_errors fs = [] ->
  index_taken cab_name (cab_name (cabin_doc slugify (next_cab s) fs)) None (cabins s) = true ->
  cabin_create slugify fs s =
    (s, Throw (EDuplicateKey [("name", cab_name (cabin_doc slugify (next_cab s) fs))])).
Proof. intros He E1. unfold cabin_create. run_M. by rewrite He, E1. Qed.

(** [createCabin] past its guards: the upload, then [Cabin.create] in the
    state that holds the uploaded image. *)
Lemma createCabin_upload b f now s :
  field_present (b_name b) && field_present (b_description b) &&
  field_present (b_maxCapacity b) && field_present (b_regularPrice b) = true ->
  is_image f = true ->
  let path := upload_name (default "" (b_name b)) (mimetype f) now in
  path ∉ bucket s ->
  createCabin slugify publicUrl b (Some f) now true s =
    match cabin_create slugify (body_fields b (publicUrl path))
            (mkCab (cabins s) (next_cab s) (bucket s ++ [path])) with
    | (s', Ok c) => (s', Ok (cabin_body 201 c))
    | (s', Throw e) => (s', Throw e)
    end.
Proof.
  intros Hp Hi path Hfresh. unfold createCabin. rewrite Hp, Hi. cbn [negb].
  rewrite run_bind, storage_upload_fresh by exact Hfresh. rewrite run_bind.
  by destruct (cabin_create _ _ _) as [? [|]].
Qed.

Lemma fail_with_wf msg code : preserves cabins_wf (fail_with msg code).
Proof. apply preserves_ret. Qed.
#[local] Hint Resolve fail_with_wf : oasis.

(** The unique indexes hold across the cabin handlers: from a state
    whose cabins have distinct ids below the counter, distinct names and
    distinct slugs, every request of [createCabin], [updateCabin] and
    [createDuplicateCabin] ends, returned or thrown, in such a state. *)
Theorem handle_cab_wf r : preserves cabins_wf (handle_cab slugify publicUrl r).
Proof.
  destruct r; unfold handle_cab, createCabin, updateCabin, createDuplicateCabin; preserve_tac;
    eauto using storage_upload_wf, cabin_create_wf, cabin_update_wf.
Qed.

(** C32: [createCabin] with the four required fields, an image file, an
    upload that succeeds and fields that pass the schema under a free name
    and slug stores the image, appends the cabin whose slug is the slug of
    its trimmed name and whose image is the upload's public URL, and
    answers 201 with it. *)
Theorem createCabin_ok b f now s :
  field_present (b_name b) && field_present (b_description b) &&
  field_present (b_maxCapacity b) && field_present (b_regularPrice b) = true ->
  is_image f = true ->
  let path := upload_name (default "" (b_name b)) (mimetype f) now in
  let c := cabin_doc slugify (next_cab s) (body_fields b (publicUrl path)) in
  path ∉ bucket s ->
  cabin_errors (body_fields b (publicUrl path)) = [] ->
  index_taken cab_name (cab_name c) None (cabins s) = false ->
  index_taken slug (slug c) None (cabins s) = false ->
  createCabin slugify publicUrl b (Some f) now true s =
    (mkCab (cabins s ++ [c]) (N.succ (next_cab s)) (bucket s ++ [path]), Ok (cabin_body 201 c)) /\
  slug c = slugify (js_trim (default "" (b_name b))) /\ image c = js_trim (publicUrl path).
Proof.
  intros Hp Hi path c Hfresh He E1 E2. split; [|done].
  rewrite createCabin_upload by done. by rewrite cabin_create_ok.
Qed.

(** C33: the image is uploaded before [Cabin.create] runs and nothing
    removes it when the create fails: a [createCabin] whose trimmed name
    is already taken answers the duplicate-key error, adds no cabin, and
    leaves the uploaded object in the bucket. *)
Theorem createCabin_orphan_upload b f now s :
  field_present (b_name b) && field_present (b_description b) &&
  field_present (b_maxCapacity b) && field_present (b_regularPrice b) = true ->
  is_image f = true ->
  let path := upload_name (default "" (b_name b)) (mimetype f) now in
  let c := cabin_doc slugify (next_cab s) (body_fields b (publicUrl path)) in
  path ∉ bucket s ->
  cabin_errors (body_fields b (publicUrl path)) = [] ->
  index_taken cab_name (cab_name c) None (cabins s) = true ->
  createCabin slugify publicUrl b (Some f) now true s =
    (mkCab (cabins s) (next_cab s) (bucket s ++ [path]), Throw (EDuplicateKey [("name", cab_name c)])).
Proof.
  intros Hp Hi path c Hfresh He E1.
  rewrite createCabin_upload by done. by rewrite cabin_create_name_taken.
Qed.

(** When the storage layer fails, the error propagates and no entity
    is mutated: [createCabin] leaves the state unchanged whatever its body
    and file, and so does [updateCabin] with a file. *)
Theorem upload_failure_no_mutation b file now s :
  fst (createCabin slugify publicUrl b file now false s) = s /\
  forall id f, fst (updateCabin publicUrl id b (Some f) now false s) = s.
Proof.
  split.
  - unfold createCabin. destruct (negb _); [done|]. destruct file as [f|]; [|done].
    destruct (negb (is_image f)); [done|]. by rewrite run_bind, storage_upload_down.
  - intros id f. unfold updateCabin. rewrite run_bind. destruct (cast_cabin_id id) as [n|]; [|done].
    cbn. rewrite run_bind. cbn [get_st]. destruct (find_cabin n (cabins s)); [|done].
    destruct (negb (is_image f)); [done|]. by rewrite run_bind, storage_upload_down.
Qed.

(** [findByIdAndUpdate] does not run the [pre('save')] hook: an
    [updateCabin] without a new image that succeeds on an existing cabin
    answers 200 with the stored document, whose name is the trimmed new
    name and whose slug is the old slug (or one the body sets), never the
    slug of the new name. *)
Theorem updateCabin_keeps_slug id n old b now ok s s' o :
  cast_cabin_id id = Ok n -> find_cabin n (cabins s) = Some old ->
  updateCabin publicUrl id b None now ok s = (s', Ok o) ->
  exists c, o = cabin_body 200 c /\ find_cabin n (cabins s') = Some c /\
            slug c = default (slug old) (b_slug b) /\
            cab_name c = default (cab_name old) (js_trim <$> b_name b).
Proof.
  intros Hn Hf H. unfold updateCabin in H. rewrite run_bind, Hn in H. cbn in H.
  rewrite run_bind in H. cbn [get_st] in H. rewrite Hf in H. cbn zeta in H. rewrite run_bind in H.
  destruct (cabin_update n b None s) as [s1 [r|e]] eqn:Hu; [|discriminate].
  destruct (cabin_update_result _ _ _ _ _ _ _ Hu Hf) as (c & -> & Hc). invc H. eauto.
Qed.

End CabinProofs.

(** ** A concrete run: the cabin of the specification's example *)
Module CabinFixture.

(** [slugify(name, {lower: true})] on names of letters, digits and spaces. *)
Fixpoint kebab (s : string) : string :=
  match s with
  | EmptyString => EmptyString
  | String c r => String (if Ascii.eqb c " " then "-"%char else c) (kebab r)
  end.
Definition slugify0 (s : string) : string := js_to_lower (kebab s).
Definition url0 (p : string) : string := ("https://cdn.example/cabin-images/" ++ p)%string.

Definition s0 : CState := mkCab [] 0 [].
Definition png : Upload := {| mimetype := "image/png" |}.
Definition now0 : Z := 1700000000000.
Definition forest : CabinBody :=
  {| b_name := Some "Forest Lodge"; b_description := Some "Quiet"; b_maxCapacity := Some "4";
     b_regularPrice := Some "150"; b_discount := None; b_slug := None; b_image := None |}.
Definition path0 : string := upload_name "Forest Lodge" "image/png" now0.
Definition c0 : CabinDoc := cabin_doc slugify0 0 (body_fields forest (url0 path0)).
Definition s1 : CState := mkCab [c0] 1 [path0].
Definition oid0 : string := "000000000000000000000000".

Lemma createCabin_ok_witness :
  createCabin slugify0 url0 forest (Some png) now0 true s0 =
    (mkCab ([] ++ [c0]) (N.succ 0) ([] ++ [path0]), Ok (cabin_body 201 c0)) /\
  slug c0 = slugify0 (js_trim "Forest Lodge") /\ image c0 = js_trim (url0 path0).
Proof.
  apply (createCabin_ok slugify0 url0 forest png now0 s0);
    [reflexivity | reflexivity | apply not_elem_of_nil | vm_compute; reflexivity..].
Defined.

(** The created cabin is the specification's: slug [forest-lodge]. *)
Example forest_slug : slug c0 = "forest-lodge" /\ cab_name c0 = "Forest Lodge".
Proof. vm_compute. split; reflexivity. Qed.

Lemma createCabin_orphan_upload_witness :
  createCabin slugify0 url0 forest (Some png) (now0 + 1) true s1 =
    (mkCab [c0] 1 ([path0] ++ [upload_name "Forest Lodge" "image/png" (now0 + 1)]),
     Throw (EDuplicateKey [("name", cab_name (cabin_doc slugify0 1
              (body_fields forest (url0 (upload_name "Forest Lodge" "image/png" (now0 + 1))))))])).
Proof.
  apply (createCabin_orphan_upload slugify0 url0 forest png (now0 + 1) s1);
    [reflexivity | reflexivity | intros H%list_elem_of_singleton; vm_compute in H; discriminate
    | vm_compute; reflexivity..].
Defined.

Lemma handle_cab_wf_witness :
  cabins_wf s0 /\ cabins_wf (fst (handle_cab slugify0 url0 (CCreate forest (Some png) now0 true) s0)).
Proof.
  assert (cabins_wf s0) as H0 by (split_and!; constructor).
  split; [exact H0 | apply (handle_cab_wf slugify0 url0 _ s0 H0)].
Defined.

Lemma upload_name_keeps_later_slashes_witness :
  upload_name ("Lodge 1" ++ "/" ++ "2/3") "image/png" 7 = "Lodge 1-2/3-7.png"%string.
Proof. exact (upload_name_keeps_later_slashes "Lodge 1" "2/3" "image/png" 7 eq_refl). Defined.

(** Renaming cabin 0 to "Lakeside" keeps the slug [forest-lodge]. *)
Definition rename : CabinBody :=
  {| b_name := Some " Lakeside "; b_description := None; b_maxCapacity := None;
     b_regularPrice := None; b_discount := None; b_slug := None; b_image := None |}.

Lemma updateCabin_keeps_slug_witness :
  exists c,
    find_cabin 0 (cabins (fst (updateCabin url0 oid0 rename None now0 true s1))) = Some c /\
    slug c = default (slug c0) (b_slug rename) /\
    cab_name c = default (cab_name c0) (js_trim <$> b_name rename).
Proof.
  destruct (updateCabin_keeps_slug url0 oid0 0 c0 rename now0 true s1
              (fst (updateCabin url0 oid0 rename None now0 true s1))
              (match snd (updateCabin url0 oid0 rename None now0 true s1) with
               | Ok o => o | Throw _ => Next end)) as (c & Ho & Hc);
    [vm_compute; reflexivity | vm_compute; reflexivity | vm_compute; reflexivity |].
  exists c. exact Hc.
Defined.

(** The renamed cabin: name [Lakeside], slug still [forest-lodge]. *)
Example rename_stale_slug :
  option_map (fun c => (cab_name c, slug c))
    (find_cabin 0 (cabins (fst (updateCabin url0 oid0 rename None now0 true s1)))) =
  Some ("Lakeside", "forest-lodge")%string.
Proof. vm_compute. reflexivity. Qed.

(** The body of the specification's example has no [description]: the
    handler's guard answers 400 and nothing is uploaded or created. *)
Definition spec_body : CabinBody :=
  {| b_name := Some "Forest Lodge"; b_description := None; b_maxCapacity := Some "4";
     b_regularPrice := Some "150"; b_discount := None; b_slug := None; b_image := None |}.

Example spec_example_missing_description :
  createCabin slugify0 url0 spec_body (Some png) now0 true s0 =
    (s0, Ok (NextErr (app_error "Some required fields are missing." 400))).
Proof. reflexivity. Qed.

(** Duplicating a cabin works once: the second copy's name
    [Copy of Forest Lodge] is taken by the first copy. *)
Example duplicate_twice :
  snd (createDuplicateCabin slugify0 oid0 (fst (createDuplicateCabin slugify0 oid0 s1))) =
    Throw (EDuplicateKey [("name", "Copy of Forest Lodge")%string]).
Proof. vm_compute. reflexivity. Qed.

End CabinFixture.
