(* ===== verification/ErrorController.v ===== *)
(** * The global error handler ([src/src/controllers/errorController.ts])

    Every [next(err)] of a handler or middleware ends here.  In the
    development environment the error is sent as it is, with the status
    code it carries or 500; otherwise the errors of the libraries are
    translated to operational errors by their [name] and [code] (the
    [handle...] functions), and only operational errors show their
    message.  The messages the libraries put on their own errors and the
    serialisation of an error object are parameters. *)

From S2P Require Import Prelude JsValue AppError Store.

Local Open Scope Z_scope.

(** [config.env]: only ['development'] is told apart. *)
Inductive env := Development | Production.

(** The error taxonomy of the specification (section 7), as the status a
    client is to receive: input errors (validation, cast, duplicate key,
    wrong upload field) 400, authentication errors 401, operational errors
    their own status, anything else 500. *)
Definition spec_status (e : js_error) : Z :=
  match e with
  | EApp a => statusCode a
  | ECast _ _ | EValidation _ | EDuplicateKey _ | EMulter _ => 400
  | EJsonWebToken | ETokenExpired => 401
  | EHttp c _ => c
  | EOther _ _ => 500
  end.

Section ErrorHandler.
Context (lib_message : js_error -> string) (internals : js_error -> json).

(** [err.message] *)
Definition err_message (e : js_error) : string :=
  match e with
  | EApp a => message a
  | EOther _ m | EHttp _ m => m
  | _ => lib_message e
  end.

(** [err.statusCode ?? 500] and [err.status ?? 'error']: an [AppError]
    carries both, an [http-errors] error both with a numeric [status]. *)
Definition err_statusCode (e : js_error) : Z :=
  match e with EApp a => statusCode a | EHttp c _ => c | _ => 500 end.

Definition err_status (e : js_error) : json :=
  match e with EApp a => JStr (status a) | EHttp c _ => JNum c | _ => JStr "error" end.

(** [handleMulterError] *)
Definition handleMulterError (field : string) : js_error :=
  app_error ("Incorrect field name '" ++ field ++ "'.") 400.

(** [handleCastErrorDB] *)
Definition handleCastErrorDB (path value : string) : js_error :=
  app_error ("Invalid " ++ path ++ ": " ++ value ++ ".") 400.

(** [handleDuplicateFieldsDB]: the special wording when the first
    duplicated value is a valid ObjectId; [${array}] joins with commas. *)
Definition handleDuplicateFieldsDB (keyValue : list (string * string)) : js_error :=
  let values := map snd keyValue in
  match values with
  | v :: _ => if bool_decide (is_Some (parse_oid v))
              then app_error "Duplicate entry not allowed." 400
              else app_error ("Duplicate field value: " ++ js_join "," values ++
                              ". Please use another value!") 400
  | [] => app_error ("Duplicate field value: " ++ js_join "," values ++ ". Please use another value!") 400
  end.

(** [handleValidationErrorDB] *)
Definition handleValidationErrorDB (errors : list (string * string)) : js_error :=
  app_error ("Invalid input data. " ++
             js_join ". " (map (fun '(p, m) => (p ++ ": " ++ m)%string) errors)) 400.

(** [handleJWTError], [handleJWTExpiredError] *)
Definition handleJWTError : js_error := app_error "Invalid token. Please log in again!" 401.
Definition handleJWTExpiredError : js_error :=
  app_error "You token has expired! Please log in again." 401.

(** The chain of [if]s of the production branch.  A translated error is
    an [AppError], whose [name] is ['Error'] and which has no [code], so
    at most one translation applies. *)
Definition translate (e : js_error) : js_error :=
  match e with
  | ECast path value => handleCastErrorDB path value
  | EDuplicateKey kv => handleDuplicateFieldsDB kv
  | EValidation errs => handleValidationErrorDB errs
  | EMulter field => handleMulterError field
  | EJsonWebToken => handleJWTError
  | ETokenExpired => handleJWTExpiredError
  | e => e
  end.

(** [err.isOperational] *)
Definition is_operational (e : js_error) : bool :=
  match e with EApp a => isOperational a | _ => false end.

(** [sendErrorProd] *)
Definition sendErrorProd (e : js_error) (code : Z) (st : json) : outcome :=
  if is_operational e
  then Respond code (JObj [("status", st); ("message", JStr (err_message e))])
  else Respond 500 (JObj [("status", JStr "error"); ("message", JStr "Something went wrong!")]).

(** [sendErrorDev] *)
Definition sendErrorDev (e : js_error) (code : Z) (st : json) : outcome :=
  Respond code (JObj [("status", st); ("message", JStr (err_message e));
                      ("error", internals e); ("stack", internals e)]).

(** [globalErrorHandler] *)
Definition globalErrorHandler (en : env) (e : js_error) : outcome :=
  match en with
  | Development => sendErrorDev e (err_statusCode e) (err_status e)
  | Production => let e' := translate e in sendErrorProd e' (err_statusCode e') (err_status e')
  end.
End ErrorHandler.

(** The errors the libraries raise and the handlers translate. *)
Definition is_library_error (e : js_error) : bool :=
  match e with EApp _ | EOther _ _ | EHttp _ _ => false | _ => true end.

(** An [AppError] is operational: its class sets [isOperational = true]. *)
Definition operational_app (e : js_error) : Prop :=
  forall a, e = EApp a -> isOperational a = true.

(** A library error is translated to an operational error with the
    status of the taxonomy. *)
Lemma translate_library e :
  is_library_error e = true ->
  exists a, translate e = EApp a /\ isOperational a = true /\ statusCode a = spec_status e.
Proof.
  destruct e as [| | |kv| | | | |]; try discriminate; intros _; cbn;
    try (eexists; split_and!; reflexivity).
  unfold handleDuplicateFieldsDB. destruct (map snd kv) as [|v vs]; [|case_bool_decide];
    eexists; split_and!; reflexivity.
Qed.

Lemma translate_other e : is_library_error e = false -> translate e = e.
Proof. destruct e; done. Qed.

Section ErrorProofs.
Context (lib_message : js_error -> string) (internals : js_error -> json).

(** C37: in production the global handler refines the error taxonomy of
    the specification: the response status is the one the taxonomy gives
    the error (400 for validation, cast, duplicate-key and upload-field
    errors, 401 for token errors, an operational error's own status, 500
    for anything else), and the response depends neither on the messages
    the libraries put on their errors nor on the error's internals.  The
    [http-errors] of the body parser are the exception (see
    [App.json_body_error_prod]). *)
Theorem globalErrorHandler_prod e :
  operational_app e -> (forall c m, e <> EHttp c m) ->
  outcome_code (globalErrorHandler lib_message internals Production e) = Some (spec_status e) /\
  forall lm' int', globalErrorHandler lm' int' Production e =
                   globalErrorHandler lib_message internals Production e.
Proof.
  intros Hop Hh. destruct (is_library_error e) eqn:Hl.
  - destruct (translate_library e Hl) as (a & Ht & Ho & Hc).
    unfold globalErrorHandler, sendErrorProd, is_operational, err_statusCode, err_message.
    rewrite Ht, Ho, Hc. split; reflexivity.
  - unfold globalErrorHandler. rewrite (translate_other e Hl).
    destruct e as [a| | | | | | |c m|n m]; try discriminate.
    + unfold sendErrorProd, is_operational. rewrite (Hop a eq_refl). split; reflexivity.
    + by destruct (Hh c m).
    + split; reflexivity.
Qed.

(** In development the errors of the libraries are not translated:
    the response status agrees with the specification's taxonomy exactly
    for [AppError]s and unknown errors, and never for a validation, cast,
    duplicate-key, upload-field or token error, which all answer 500. *)
Theorem globalErrorHandler_dev_status e :
  outcome_code (globalErrorHandler lib_message internals Development e) = Some (spec_status e) <->
  is_library_error e = false.
Proof. destruct e; cbn; split; congruence. Qed.

End ErrorProofs.

Module ErrorFixture.
Definition lm0 (e : js_error) : string := "library message".
Definition int0 (e : js_error) : json := JNull.

Lemma globalErrorHandler_prod_witness :
  operational_app (EValidation [("name", "A cabin must have a name.")]) /\
  (forall c m, EValidation [("name", "A cabin must have a name.")] <> EHttp c m) /\
  outcome_code (globalErrorHandler lm0 int0 Production (EValidation [("name", "A cabin must have a name.")])) =
    Some (spec_status (EValidation [("name", "A cabin must have a name.")])).
Proof.
  assert (operational_app (EValidation [("name", "A cabin must have a name.")])) as H
    by (intros a Ha; discriminate).
  assert (forall c m, EValidation [("name", "A cabin must have a name.")] <> EHttp c m) as H'
    by (intros c m; discriminate).
  split; [exact H | split; [exact H' | apply (globalErrorHandler_prod lm0 int0 _ H H')]].
Defined.

(** The translated message of a validation error, and the 500 of the same
    error in development. *)
Example validation_prod_dev :
  globalErrorHandler lm0 int0 Production (EValidation [("name", "A cabin must have a name.")]) =
    Respond 400 (JObj [("status", JStr "fail");
                       ("message", JStr "Invalid input data. name: A cabin must have a name.")]) /\
  outcome_code (globalErrorHandler lm0 int0 Development EJsonWebToken) = Some 500.
Proof. split; reflexivity. Qed.
End ErrorFixture.
