(* ===== verification/Routes.v ===== *)
(** * Routing and the authorization gate ([src/src/routes/v1/*.ts],
      [src/src/app.ts])

    The routers mount each resource under [/api/v1]; a route is a method,
    a path pattern and the chain of middleware before its handler.  The
    chain runs [checkApiKey] ([ApiKey]), [protect] and [restrictTo]
    ([Auth]) and multer's [upload.single] over the key and user stores;
    the first middleware that does not call [next()] ends the request.
    An unmatched path reaches the catch-all of [app.ts], a 404. *)

From S2P Require Import Prelude JsValue AppError UserModel Auth ApiKey.

Local Open Scope Z_scope.

Inductive method := GET | POST | PATCH | PUT | DELETE | OPTIONS.

#[export] Instance method_eq_dec : EqDecision method.
Proof. solve_decision. Defined.

(** The handlers the routers reach, by controller. *)
Inductive handler :=
| HGetAllCabins | HCreateCabin | HGetCabin | HUpdateCabin | HDeleteCabin | HDuplicateCabin
| HGetAllGuests | HCreateGuest | HGetGuest | HUpdateGuest | HDeleteGuest
| HGetSettings | HCreateSettings | HUpdateSettings | HDeleteSettings
| HGetAllBookings | HCreateBooking | HStaysToday | HBookedDates | HGetBooking
| HUpdateBooking | HDeleteBooking
| HSignup | HVerifyEmail | HLogin | HLogout | HForgotPassword | HResetPassword
| HGetMe | HUpdateMyPassword | HUpdateMe
| HCreateApiKey.

#[export] Instance handler_eq_dec : EqDecision handler.
Proof. solve_decision. Defined.

(** The middleware of the route chains. *)
Inductive mw :=
| MCheckApiKey                 (** [apiKeyController.checkApiKey] *)
| MProtect                     (** [authController.protect] *)
| MRestrict (roles : list Role) (** [authController.restrictTo(...roles)] *)
| MUpload (field : string).    (** [upload.single(field)] *)

(** A path segment of a route: a literal or a [:param]. *)
Inductive seg := Lit (s : string) | Param.

Record route := mkRoute {
  r_method : method;
  r_path : list seg;            (** below [/api/v1] *)
  r_chain : list mw;
  r_handler : handler
}.

Definition all_roles : list Role := [Demo; Staff; Manager; Admin].
Definition staff_up : list Role := [Staff; Manager; Admin].
Definition managers : list Role := [Manager; Admin].

Local Abbreviation KP := [MCheckApiKey; MProtect].

(** The routers, each mounted at its prefix by [routes.ts]. *)
Definition cabin_routes : list route := [
  mkRoute GET [Lit "cabins"] (KP ++ [MRestrict all_roles]) HGetAllCabins;
  mkRoute POST [Lit "cabins"] [MUpload "image"] HCreateCabin;
  mkRoute GET [Lit "cabins"; Param] (KP ++ [MRestrict all_roles]) HGetCabin;
  mkRoute PUT [Lit "cabins"; Param] [MProtect; MRestrict staff_up; MUpload "image"] HUpdateCabin;
  mkRoute DELETE [Lit "cabins"; Param] [MProtect; MRestrict managers] HDeleteCabin;
  mkRoute POST [Lit "cabins"; Param; Lit "duplicate"] [MProtect; MRestrict managers] HDuplicateCabin].

Definition guest_routes : list route := [
  mkRoute GET [Lit "guests"] (KP ++ [MRestrict all_roles]) HGetAllGuests;
  mkRoute POST [Lit "guests"] (KP ++ [MRestrict staff_up]) HCreateGuest;
  mkRoute GET [Lit "guests"; Param] [MProtect; MRestrict all_roles] HGetGuest;
  mkRoute PATCH [Lit "guests"; Param] (KP ++ [MRestrict staff_up]) HUpdateGuest;
  mkRoute DELETE [Lit "guests"; Param] [MProtect; MRestrict managers] HDeleteGuest].

Definition setting_routes : list route := [
  mkRoute GET [Lit "settings"] (KP ++ [MRestrict all_roles]) HGetSettings;
  mkRoute POST [Lit "settings"] [MProtect; MRestrict managers] HCreateSettings;
  mkRoute PATCH [Lit "settings"] [MProtect; MRestrict managers] HUpdateSettings;
  mkRoute DELETE [Lit "settings"] [MProtect; MRestrict managers] HDeleteSettings].

Definition booking_routes : list route := [
  mkRoute GET [Lit "bookings"] (KP ++ [MRestrict all_roles]) HGetAllBookings;
  mkRoute POST [Lit "bookings"] (KP ++ [MRestrict managers]) HCreateBooking;
  mkRoute GET [Lit "bookings"; Lit "stays-today-activity"] [MProtect; MRestrict all_roles] HStaysToday;
  mkRoute GET [Lit "bookings"; Lit "get-booked-dates-by-cabin-id"] (KP ++ [MRestrict all_roles]) HBookedDates;
  mkRoute GET [Lit "bookings"; Param] (KP ++ [MRestrict all_roles]) HGetBooking;
  mkRoute PATCH [Lit "bookings"; Param] (KP ++ [MRestrict staff_up]) HUpdateBooking;
  mkRoute DELETE [Lit "bookings"; Param] (KP ++ [MRestrict managers]) HDeleteBooking].

Definition user_routes : list route := [
  mkRoute POST [Lit "users"; Lit "signup"] [MProtect; MRestrict managers] HSignup;
  mkRoute PATCH [Lit "users"; Lit "verify-email"; Param] [] HVerifyEmail;
  mkRoute POST [Lit "users"; Lit "login"] [] HLogin;
  mkRoute GET [Lit "users"; Lit "logout"] [] HLogout;
  mkRoute POST [Lit "users"; Lit "forgot-password"] [] HForgotPassword;
  mkRoute PATCH [Lit "users"; Lit "reset-password"; Param] [] HResetPassword;
  mkRoute GET [Lit "users"; Lit "me"] [MProtect; MRestrict all_roles] HGetMe;
  mkRoute PATCH [Lit "users"; Lit "update-my-password"] [MProtect; MRestrict staff_up] HUpdateMyPassword;
  mkRoute PATCH [Lit "users"; Lit "update-me"] [MProtect; MRestrict staff_up; MUpload "avatar"] HUpdateMe].

Definition apikey_routes : list route := [
  mkRoute POST [Lit "api-management"; Lit "generate-api-key"] [] HCreateApiKey].

(** The route table, in registration order ([routes.ts] mounts the
    routers in this order). *)
Definition routes : list route :=
  cabin_routes ++ guest_routes ++ setting_routes ++ booking_routes ++ user_routes ++ apikey_routes.

(** Express's match of a path against a pattern: a [:param] takes one
    non-empty segment. *)
Fixpoint path_matches (pat : list seg) (p : list string) : bool :=
  match pat, p with
  | [], [] => true
  | Lit s :: pat', x :: p' => String.eqb s x && path_matches pat' p'
  | Param :: pat', x :: p' => negb (String.eqb x "") && path_matches pat' p'
  | _, _ => false
  end.

(** The first route registered for the method and path. *)
Definition dispatch (m : method) (p : list string) : option route :=
  List.find (fun r => bool_decide (r_method r = m) && path_matches (r_path r) p) routes.

(** [app.use('*', ...)]: the 404 of an unmatched URL. *)
Definition not_found_url (url : string) : js_error :=
  app_error ("Can't find " ++ url ++ " on this server!") 404.

Section Gate.
Context {CR : Crypto} {JW : Jwt} (cfg : Config).

(** The state the gate reads and writes: the users (and the cookie of
    the response) and the API keys. *)
Record GState := mkG { g_auth : AuthState; g_keys : KState }.

(** What the gate reads from a request. *)
Record Req := {
  x_api_key : option string;        (** [req.headers['x-api-key']] *)
  accessToken : option jwt_token;    (** [req.signedCookies.accessToken] *)
  file_field : option string;        (** the field name of an uploaded file *)
  now : Z
}.

(** The end of a chain: the handler is reached with [req.apiKeyValid] and
    [req.user], or a middleware answered. *)
Inductive gate_result := Reached (apiKeyValid : bool) (user : option User) | Stopped (o : outcome).

Definition reached (r : gate_result) : bool := match r with Reached _ _ => true | Stopped _ => false end.

(** The chain, middleware by middleware; each one either calls [next()]
    or ends the request. *)
Fixpoint gate (c : list mw) (q : Req) (valid : bool) (user : option User) (g : GState)
  : GState * gate_result :=
  match c with
  | [] => (g, Reached valid user)
  | MCheckApiKey :: c' =>
      let '(k', (o, v)) := checkApiKey_mw cfg (x_api_key q) (now q) (g_keys g) in
      let g' := mkG (g_auth g) k' in
      match o with Next => gate c' q (valid || v) user g' | o => (g', Stopped o) end
  | MProtect :: c' =>
      let '(a', (o, u)) := protect_mw valid (accessToken q) (now q) (g_auth g) in
      let g' := mkG a' (g_keys g) in
      match o with Next => gate c' q valid u g' | o => (g', Stopped o) end
  | MRestrict roles :: c' =>
      match restrictTo roles valid user with
      | Next => gate c' q valid user g
      | o => (g, Stopped o)
      end
  | MUpload f :: c' =>
      match file_field q with
      | Some f' => if String.eqb f f' then gate c' q valid user g
                   else (g, Stopped (NextErr (EMulter f')))
      | None => gate c' q valid user g
      end
  end.

(** A request with no credential. *)
Definition anonymous (t : Z) : Req :=
  {| x_api_key := None; accessToken := None; file_field := None; now := t |}.
End Gate.

(** The handlers a request without credential reaches. *)
Definition public_handlers : list handler :=
  [HCreateCabin; HVerifyEmail; HLogin; HLogout; HForgotPassword; HResetPassword; HCreateApiKey].

Section GateProofs.
Context {CR : Crypto} {JW : Jwt} (cfg : Config).

(** C39: the handlers a request without an API key and without a session
    cookie reaches, whatever the stores hold, are exactly the public ones:
    login, logout, e-mail verification, the two password-reset steps, and
    also [createCabin] and [createApiKey], whose routes have no
    authentication middleware. *)
Theorem anonymous_reach r :
  r ∈ routes -> forall g t,
  reached (snd (gate cfg (r_chain r) (anonymous t) false None g)) =
    bool_decide (r_handler r ∈ public_handlers).
Proof.
  intros Hr g t. apply list_elem_of_In in Hr.
  repeat (destruct Hr as [<-|Hr]; [reflexivity|]). destruct Hr.
Qed.
End GateProofs.

Module RoutesFixture.
Definition g0 : GState (JW:=AuthFixture.toy_jwt) := mkG AuthFixture.st0 (mkK [] 0).
Definition post_cabins : route := mkRoute POST [Lit "cabins"] [MUpload "image"] HCreateCabin.

Lemma anonymous_reach_witness :
  post_cabins ∈ routes /\
  reached (snd (gate (CR:=AuthFixture.toy_crypto) AuthFixture.cfg0 (r_chain post_cabins)
                     (anonymous 0) false None g0)) =
    bool_decide (r_handler post_cabins ∈ public_handlers).
Proof.
  assert (post_cabins ∈ routes) as Hr by (apply list_elem_of_In; right; left; reflexivity).
  split; [exact Hr | exact (anonymous_reach (CR:=AuthFixture.toy_crypto) AuthFixture.cfg0 _ Hr g0 0)].
Defined.

(** [POST /api/v1/cabins] dispatches to [createCabin], which an anonymous
    request reaches. *)
Example create_cabin_public :
  option_map r_handler (dispatch POST ["cabins"]) = Some HCreateCabin /\
  reached (snd (gate (CR:=AuthFixture.toy_crypto) AuthFixture.cfg0 (r_chain post_cabins)
                     (anonymous 0) false None g0)) = true.
Proof. split; reflexivity. Qed.
End RoutesFixture.
