(* ===== verification/Booking.v ===== *)
(** * Bookings ([src/src/controllers/bookingController.ts],
      [src/src/models/bookingModel.ts])

    The booking document, and the two handlers of the booking controller
    that are not the generic ones ([BookingModel] instantiates those):
    [getBookedDatesByCabinId] (an
    aggregation and date-fns' [eachDayOfInterval]) and
    [getStaysTodayActivity] (an aggregation with a [$lookup] of the
    guest).  Dates are milliseconds since the epoch; the server's time
    zone is UTC, so the start of a day is the multiple of [day] below. *)

From S2P Require Import Prelude JsValue AppError Store.
From stdpp Require Import sorting.

Local Open Scope Z_scope.

Inductive BStatus := Unconfirmed | CheckedIn | CheckedOut.

#[export] Instance bstatus_eq_dec : EqDecision BStatus.
Proof. solve_decision. Defined.

(** [IBookingBase] *)
Record BookingDoc := {
  bk_id : N;
  createdAt : option Z;        (** [null] when an update unsets it *)
  startDate : Z;
  endDate : Z;
  numNights : jsnum;
  numGuests : jsnum;
  cabinPrice : jsnum;
  extrasPrice : option jsnum;
  totalPrice : jsnum;
  bk_status : BStatus;
  hasBreakfast : option bool;
  isPaid : option bool;
  observations : option string;
  cabin : N;
  guest : N
}.

(** ** Days *)

Definition day : Z := 86400000.

(** [startOfDay(t)] in UTC. *)
Definition startOfDay (t : Z) : Z := t - t mod day.

(** The [while] loop of [eachDayOfInterval]: push the current day, move
    to the next midnight, while the current day is not after [endTime]. *)
Fixpoint days_loop (fuel : nat) (cur endTime : Z) : list Z :=
  match fuel with
  | O => []
  | S f => if cur <=? endTime then cur :: days_loop f (cur + day) endTime else []
  end.

(** The number of iterations of the loop from [cur] to [endTime]. *)
Definition days_fuel (cur endTime : Z) : nat := Z.to_nat ((endTime - cur) / day + 1).

(** date-fns' [eachDayOfInterval({start, end})] (version 3): the
    midnights from the day of the earlier date to the later date, in
    reverse order when [end] is before [start]. *)
Definition eachDayOfInterval (s e : Z) : list Z :=
  let reversed := e <? s in
  let endTime := if reversed then s else e in
  let cur := startOfDay (if reversed then e else s) in
  let ds := days_loop (days_fuel cur endTime) cur endTime in
  if reversed then rev ds else ds.

(** ** [getBookedDatesByCabinId] *)

Local Abbreviation BM := (M (list BookingDoc) js_error).

(** [isValidObjectId(req.query.cabinId)], then the id it denotes. *)
Definition cabin_oid (q : option qval) : option N :=
  match q with Some (QStr s) => parse_oid s | _ => None end.

(** The [$match] stage. *)
Definition booked_match (n : N) (now : Z) (b : BookingDoc) : bool :=
  bool_decide (cabin b = n) &&
  (bool_decide (startOfDay now <= startDate b) || bool_decide (bk_status b = CheckedIn)).

(** The [$sort: {startDate: 1}] stage, stable. *)
Definition by_start (a b : BookingDoc) : Prop := startDate a <= startDate b.

#[export] Instance by_start_dec : RelDecision by_start.
Proof. intros a b. unfold by_start. apply _. Defined.

Definition booked_body (ds : list Z) : outcome :=
  Respond 200 (JObj [("status", JStr "success");
                     ("data", JObj [("bookedDates", JArr (map JNum ds))])]).

Definition getBookedDatesByCabinId (cabinId : option qval) (now : Z) : BM outcome :=
  match cabin_oid cabinId with
  | None => fail_with "Either cabinId not found or cabinId not valid" 404
  | Some n =>
      bks ← get_st;
      let bookings := merge_sort by_start (List.filter (booked_match n now) bks) in
      mret (booked_body (flat_map (fun b => eachDayOfInterval (startDate b) (endDate b)) bookings))
  end.

(** ** [getStaysTodayActivity] *)

(** The guest fields the [$project] stage keeps ([IGuestBase]). *)
Record GuestDoc := {
  g_id : N;
  fullName : string;
  g_email : string;
  nationality : option string;
  countryFlag : option string
}.

(** [startOfToday()] and [endOfToday()]. *)
Definition endOfDay (t : Z) : Z := startOfDay t + day - 1.

(** The [$match] stage: arrivals and departures of today. *)
Definition today_match (now : Z) (b : BookingDoc) : bool :=
  let within t := bool_decide (startOfDay now <= t <= endOfDay now) in
  (bool_decide (bk_status b = Unconfirmed) && within (startDate b)) ||
  (bool_decide (bk_status b = CheckedIn) && within (endDate b)).

(** [$lookup] of the guest by id, then [$unwind]: one output per guest
    found, none when the guest is gone. *)
Definition lookup_unwind (guests : list GuestDoc) (b : BookingDoc) : list (BookingDoc * GuestDoc) :=
  map (fun g => (b, g)) (List.filter (fun g => bool_decide (g_id g = guest b)) guests).

(** [$sort: {createdAt: -1}] *)
Definition newest_first (x y : BookingDoc * GuestDoc) : Prop :=
  match createdAt y.1, createdAt x.1 with
  | None, _ => True
  | Some _, None => False
  | Some a, Some b => a <= b
  end.

#[export] Instance newest_first_dec : RelDecision newest_first.
Proof. intros x y. unfold newest_first. destruct (createdAt y.1), (createdAt x.1); apply _. Defined.

Definition opt_json (o : option string) : json := match o with Some v => JStr v | None => JNull end.

(** The [$project] stage. *)
Definition stay_json (x : BookingDoc * GuestDoc) : json :=
  JObj [("_id", JNum (Z.of_N (bk_id x.1))); ("createdAt", match createdAt x.1 with Some t => JNum t | None => JNull end);
        ("status", JStr (match bk_status x.1 with
                         | Unconfirmed => "unconfirmed" | CheckedIn => "checked-in"
                         | CheckedOut => "checked-out" end));
        ("numNights", match num_int (numNights x.1) with Some z => JNum z | None => JNull end);
        ("guest", JObj [("fullName", JStr (fullName x.2)); ("nationality", opt_json (nationality x.2));
                        ("countryFlag", opt_json (countryFlag x.2))])].

Definition getStaysTodayActivity (now : Z) (guests : list GuestDoc) : BM outcome :=
  bks ← get_st;
  let stays := merge_sort newest_first
                 (flat_map (lookup_unwind guests) (List.filter (today_match now) bks)) in
  mret (Respond 200 (JObj [("status", JStr "success"); ("results", JNum (Z.of_nat (length stays)));
                           ("data", JObj [("stays", JArr (map stay_json stays))])])).

(** ** The days of an interval *)

Lemma day_pos : 0 < day.
Proof. unfold day. lia. Qed.

(** Two midnights are a whole number of days apart. *)
Lemma midnight_step a b : a mod day = 0 -> b mod day = 0 -> a < b -> a + day <= b.
Proof.
  intros Ha Hb Hab. apply Z.mod_divide in Ha as [x ->]; [|unfold day; lia].
  apply Z.mod_divide in Hb as [y ->]; [|unfold day; lia]. pose proof day_pos.
  assert (x < y) by (apply (Z.mul_lt_mono_pos_r day); lia). nia.
Qed.

Lemma startOfDay_spec t : startOfDay t mod day = 0 /\ startOfDay t <= t < startOfDay t + day.
Proof.
  unfold startOfDay. pose proof (Z.mod_pos_bound t day day_pos).
  split; [|lia]. rewrite Zminus_mod, Z.mod_mod, Z.sub_diag by (unfold day; lia). reflexivity.
Qed.

(** The loop from a midnight visits the midnights up to [endTime] it has
    fuel for. *)
Lemma days_loop_elem f cur e d :
  cur mod day = 0 ->
  d ∈ days_loop f cur e <-> d mod day = 0 /\ cur <= d <= e /\ d < cur + Z.of_nat f * day.
Proof.
  revert cur. induction f as [|f IH]; intros cur Hc; cbn [days_loop].
  - rewrite elem_of_nil. lia.
  - pose proof day_pos. destruct (Z.leb_spec cur e).
    + assert ((cur + day) mod day = 0) as Hc'.
      { rewrite Z.add_mod, Hc, Z.mod_same by lia. reflexivity. }
      rewrite elem_of_cons, (IH _ Hc'). split.
      * intros [->|(Hd & Hlo & Hhi)]; [lia|]. lia.
      * intros (Hd & Hlo & Hhi). destruct (Z.eq_dec d cur) as [->|Hne]; [by left|right].
        pose proof (midnight_step cur d Hc Hd ltac:(lia)). lia.
    + rewrite elem_of_nil. lia.
Qed.

(** The fuel of the loop runs it to its end. *)
Lemma days_fuel_enough cur e : cur <= e -> e < cur + Z.of_nat (days_fuel cur e) * day.
Proof.
  intros H. unfold days_fuel. pose proof day_pos.
  pose proof (Z.mul_div_le (e - cur) day day_pos). pose proof (Z.mod_pos_bound (e - cur) day day_pos).
  pose proof (Z.div_mod (e - cur) day ltac:(lia)).
  rewrite Z2Nat.id; [nia|]. apply Z.add_nonneg_nonneg; [apply Z.div_pos|]; lia.
Qed.

(** A fuel above [days_fuel] gives the same days: the loop has ended. *)
Lemma days_loop_more f cur e :
  (days_fuel cur e <= f)%nat -> cur mod day = 0 ->
  days_loop f cur e = days_loop (days_fuel cur e) cur e.
Proof.
  intros Hf _. unfold days_fuel in *. remember (Z.to_nat ((e - cur) / day + 1)) as g eqn:Hg.
  revert f cur Hf Hg. induction g as [|g IH]; intros f cur Hf Hg; pose proof day_pos.
  - destruct f as [|f]; [done|]. cbn. destruct (Z.leb_spec cur e); [|done].
    exfalso. assert (0 <= (e - cur) / day) by (apply Z.div_pos; lia). lia.
  - destruct f as [|f]; [lia|]. cbn. destruct (Z.leb_spec cur e); [|done]. f_equal.
    apply IH; [lia|].
    replace (e - (cur + day)) with ((e - cur) + (-1) * day) by lia.
    rewrite Z.div_add by lia. lia.
Qed.

(** The days [eachDayOfInterval] lists are the midnights from
    the day of the earlier date to the later date. *)
Lemma eachDayOfInterval_elem s e d :
  d ∈ eachDayOfInterval s e <->
  d mod day = 0 /\ startOfDay (Z.min s e) <= d <= Z.max s e.
Proof.
  unfold eachDayOfInterval. destruct (Z.ltb_spec e s) as [Hr|Hr].
  - rewrite list_elem_of_In, <- in_rev, <- list_elem_of_In.
    destruct (startOfDay_spec e) as [Hm Hb].
    rewrite (days_loop_elem _ _ _ _ Hm). pose proof (days_fuel_enough (startOfDay e) s ltac:(lia)).
    rewrite Z.min_r, Z.max_l by lia. lia.
  - destruct (startOfDay_spec s) as [Hm Hb].
    rewrite (days_loop_elem _ _ _ _ Hm). pose proof (days_fuel_enough (startOfDay s) e ltac:(lia)).
    rewrite Z.min_l, Z.max_r by lia. lia.
Qed.

(** The [$match] stage: the cabin, and a start today or later or the
    status [checked-in]. *)
Lemma booked_match_spec n now b :
  booked_match n now b = true <->
  cabin b = n /\ (startOfDay now <= startDate b \/ bk_status b = CheckedIn).
Proof. unfold booked_match. by rewrite andb_true_iff, orb_true_iff, !bool_decide_eq_true. Qed.

(** The bookings the [$match] and [$sort] stages keep are the matching
    ones, in some order. *)
Lemma sorted_matches_elem n now bks b :
  b ∈ merge_sort by_start (List.filter (booked_match n now) bks) <->
  b ∈ bks /\ booked_match n now b = true.
Proof.
  rewrite (merge_sort_Permutation by_start _), !list_elem_of_In. apply filter_In.
Qed.

(** C24. For a valid cabin id, [getBookedDatesByCabinId] answers 200
    and leaves the bookings unchanged; a date is in [bookedDates] exactly
    when it is a midnight from the day of the earlier to the later date of
    a booking of that cabin that starts today or later or is checked in:
    an unconfirmed or checked-out booking that began before today blocks
    none of its remaining days. *)
Theorem getBookedDatesByCabinId_spec cabinId n now bks :
  cabin_oid cabinId = Some n ->
  exists ds, getBookedDatesByCabinId cabinId now bks = (bks, Ok (booked_body ds)) /\
  forall d, d ∈ ds <-> exists b, b ∈ bks /\ cabin b = n /\
            (startOfDay now <= startDate b \/ bk_status b = CheckedIn) /\
            d mod day = 0 /\ startOfDay (Z.min (startDate b) (endDate b)) <= d <= Z.max (startDate b) (endDate b).
Proof.
  intros Hn. unfold getBookedDatesByCabinId. rewrite Hn. eexists. split; [reflexivity|].
  intros d. rewrite list_elem_of_In, in_flat_map. split.
  - intros (b & Hb & Hd). apply list_elem_of_In, sorted_matches_elem in Hb as [Hb [Hc Hm]%booked_match_spec].
    apply list_elem_of_In, eachDayOfInterval_elem in Hd. eauto 6.
  - intros (b & Hb & Hc & Hm & Hd). exists b.
    rewrite <- !list_elem_of_In, sorted_matches_elem, eachDayOfInterval_elem, booked_match_spec. auto.
Qed.

Module BookingFixture.
Definition mk (id : N) (st en : Z) (stt : BStatus) (c : N) : BookingDoc :=
  {| bk_id := id; createdAt := Some 0; startDate := st; endDate := en; numNights := num_of_Z 2;
     numGuests := num_of_Z 2; cabinPrice := num_of_Z 300; extrasPrice := Some (num_of_Z 0);
     totalPrice := num_of_Z 300; bk_status := stt; hasBreakfast := Some false; isPaid := Some false;
     observations := None; cabin := c; guest := 0 |}.

(** Today is day 10; cabin 7 has a booking from day 12 to day 14, a
    checked-in stay from day 9 to day 11, and an unconfirmed booking from
    day 9 to day 11 whose guest has not arrived. *)
Definition today : Z := 10 * day + 3600000.
Definition bks0 : list BookingDoc :=
  [mk 0 (12 * day) (14 * day) Unconfirmed 7; mk 1 (9 * day) (11 * day) CheckedIn 7;
   mk 2 (9 * day + 7200000) (11 * day) Unconfirmed 7; mk 3 (12 * day) (13 * day) Unconfirmed 8].
Definition oid7 : string := "000000000000000000000007".

Lemma getBookedDatesByCabinId_spec_witness :
  cabin_oid (Some (QStr oid7)) = Some 7%N /\
  exists ds, getBookedDatesByCabinId (Some (QStr oid7)) today bks0 = (bks0, Ok (booked_body ds)) /\
  forall d, d ∈ ds <-> exists b, b ∈ bks0 /\ cabin b = 7%N /\
            (startOfDay today <= startDate b \/ bk_status b = CheckedIn) /\
            d mod day = 0 /\ startOfDay (Z.min (startDate b) (endDate b)) <= d <= Z.max (startDate b) (endDate b).
Proof.
  split; [reflexivity|]. apply getBookedDatesByCabinId_spec. reflexivity.
Defined.

(** The booked dates, in the order of the bookings' starts: the
    unconfirmed booking that began yesterday is left out, so days 9 to 11
    are listed only through the checked-in stay. *)
Example booked_dates_today :
  getBookedDatesByCabinId (Some (QStr oid7)) today bks0 =
    (bks0, Ok (booked_body [9 * day; 10 * day; 11 * day; 12 * day; 13 * day; 14 * day])).
Proof. vm_compute. reflexivity. Qed.

(** An unconfirmed booking of cabin 7 from day 9 to day 11 alone: its
    days 10 and 11 are still to come but none is reported booked. *)
Example unconfirmed_running_not_booked :
  getBookedDatesByCabinId (Some (QStr oid7)) today [mk 2 (9 * day + 7200000) (11 * day) Unconfirmed 7] =
    ([mk 2 (9 * day + 7200000) (11 * day) Unconfirmed 7], Ok (booked_body [])).
Proof. vm_compute. reflexivity. Qed.
(** A guest deleted after booking: the arrival of booking 0 today (day
    10) drops out of the activity, since [$unwind] discards a booking
    whose [$lookup] found no guest. *)
Example stays_without_guest :
  getStaysTodayActivity today [] [mk 0 (10 * day) (12 * day) Unconfirmed 7] =
    ([mk 0 (10 * day) (12 * day) Unconfirmed 7],
     Ok (Respond 200 (JObj [("status", JStr "success"); ("results", JNum 0);
                            ("data", JObj [("stays", JArr [])])]))).
Proof. vm_compute. reflexivity. Qed.
End BookingFixture.
