(* ===== verification/Users.v ===== *)
(** * The user controller ([src/src/controllers/userController.ts])

    [getMe] and [updateMe], after [protect] has put the current user on
    the request.  The state is the users of [Auth] and the [avatars]
    bucket of the object storage; the avatar's object name follows the
    template of the cabin images ([Cabin.upload_name]), on the user's
    stored full name. *)

From S2P Require Import Prelude JsValue AppError UserModel Auth Cabin.

Local Open Scope Z_scope.

Section Users.
Context {JW : Jwt} (publicUrl : string -> string).

Record UState := mkU { u_auth : AuthState; avatars : list string }.

Local Abbreviation UM := (M UState js_error).

Definition me_body (u : option User) : outcome :=
  Respond 200 (JObj [("status", JStr "success");
                     ("data", JObj [("user", match u with Some u => user_json u | None => JNull end)])]).

(** [User.findById(id)]: the [pre(/^find/)] hook hides inactive users. *)
Definition find_by_id (id : N) (s : UState) : option User :=
  find_user false (fun u => bool_decide (u_id u = id)) (users (u_auth s)).

(** [getMe]: the current user as stored now, or [null]. *)
Definition getMe (me : User) : UM outcome :=
  s ← get_st; mret (me_body (find_by_id (u_id me) s)).

(** [supabase.storage.from('avatars').upload(path, ...)] *)
Definition avatar_upload (path : string) (ok : bool) : UM unit :=
  s ← get_st;
  if ok && negb (bool_decide (path ∈ avatars s))
  then put_st (mkU (u_auth s) (avatars s ++ [path]))
  else throw (EOther "StorageError" "upload").

(** The user after [{fullName, avatar}] is set; an [undefined] field is
    left out of the update. *)
Definition set_profile (u : User) (name avatar_url : option string) : User :=
  {| u_id := u_id u; fullName := default (fullName u) (js_trim <$> name); email := email u;
     avatar := default (avatar u) (js_trim <$> avatar_url); role := role u; password := password u;
     passwordChangedAt := passwordChangedAt u; isEmailVerified := isEmailVerified u;
     isActive := isActive u; passwordResetToken := passwordResetToken u;
     passwordResetExpires := passwordResetExpires u;
     emailVerificationToken := emailVerificationToken u;
     emailVerificationExpires := emailVerificationExpires u; lastSignIn := lastSignIn u |}.

(** [User.findByIdAndUpdate(id, {fullName, avatar}, {new, runValidators})]:
    the validator of [fullName] when it is set, then the update of the
    user the find hook lets through. *)
Definition update_profile (id : N) (name avatar_url : option string) : UM (option User) :=
  s ← get_st;
  match (match name with Some _ => name_errors name | None => [] end) with
  | (_ :: _) as errs => throw (EValidation errs)
  | [] =>
      match find_by_id id s with
      | None => mret None
      | Some u =>
          let u' := set_profile u name avatar_url in
          let a := u_auth s in
          _ ← put_st (mkU (mkAuth (replace_user u' (users a)) (next_uid a) (outbox a) (cookie a))
                          (avatars s));
          mret (Some u')
      end
  end.

(** [updateMe] *)
Definition updateMe (me : User) (name : option string) (file : option Upload) (now : Z)
  (uploadOk : bool) : UM outcome :=
  let finish url := (u ← update_profile (u_id me) name url; mret (me_body u)) in
  match file with
  | None => finish None
  | Some f =>
      if negb (is_image f) then fail_with "Invalid image format." 415
      else let path := upload_name (fullName me) (mimetype f) now in
           _ ← avatar_upload path uploadOk;
           finish (Some (publicUrl path))
  end.
End Users.

(** ** What [updateMe] can change

    The fields a user cannot change through [updateMe]: everything but
    [fullName] and [avatar]. *)
Definition credentials (u : User) :=
  (u_id u, email u, role u, password u, passwordChangedAt u, isActive u, isEmailVerified u).

Lemma credentials_set_profile u n a : credentials (set_profile u n a) = credentials u.
Proof. reflexivity. Qed.

(** Replacing a stored user, ids being distinct, by one with the same
    credentials keeps the credentials of every user. *)
Lemma replace_user_credentials u u' l :
  NoDup (u_id <$> l) -> u ∈ l -> credentials u' = credentials u ->
  credentials <$> replace_user u' l = credentials <$> l.
Proof.
  intros Hnd Hu Hc. assert (u_id u' = u_id u) as Hid by (inversion Hc; reflexivity).
  unfold replace_user. change (map ?f l) with (f <$> l). rewrite <- list_fmap_compose.
  apply list_fmap_ext. intros i v Hv.
  cbn. case_bool_decide as E; [|reflexivity].
  rewrite (NoDup_fmap_key_eq u_id l v u Hnd); [done | by eapply list_elem_of_lookup_2 | done | congruence].
Qed.

Definition cred_id (c : N * string * Role * string * option Z * bool * bool) : N :=
  c.1.1.1.1.1.1.

Section UpdateMe.
Context {JW : Jwt} (publicUrl : string -> string).
(** The credentials of the stored users before the request; their ids
    are distinct. *)
Context (L : list (N * string * Role * string * option Z * bool * bool)).
Hypothesis HL : NoDup (cred_id <$> L).

Definition creds_are (s : UState) : Prop := credentials <$> users (u_auth s) = L.

Lemma find_by_id_in id s u : find_by_id id s = Some u -> u ∈ users (u_auth s).
Proof. intros (Hin & _)%find_some. by apply list_elem_of_In. Qed.

Lemma update_profile_creds id name url : preserves creds_are (update_profile id name url).
Proof.
  apply preserves_get. intros s Hs. destruct (match name with Some _ => _ | None => _ end); [|done].
  destruct (find_by_id id s) as [u|] eqn:Hf; [|done]. cbn.
  unfold creds_are. cbn. rewrite <- Hs. apply (replace_user_credentials u); [| by eapply find_by_id_in | done].
  rewrite <- Hs, <- list_fmap_compose in HL. exact HL.
Qed.

Lemma avatar_upload_creds path ok : preserves creds_are (avatar_upload path ok).
Proof. apply preserves_get. intros s Hs. by destruct (_ && _). Qed.

Lemma updateMe_creds me name file now ok :
  preserves creds_are (updateMe publicUrl me name file now ok).
Proof.
  unfold updateMe. preserve_tac; eauto using update_profile_creds, avatar_upload_creds.
Qed.
End UpdateMe.

Section UpdateMeClaim.
Context {JW : Jwt} (publicUrl : string -> string).

(** C10: [updateMe] can change the name and the avatar of the caller and
    nothing else: from users with distinct ids, whatever the body, the file
    and the storage do, every user keeps its id, email, role, password
    hash, password-change time and activation flags. *)
Theorem updateMe_keeps_credentials me name file now ok s :
  NoDup (u_id <$> users (u_auth s)) ->
  credentials <$> users (u_auth (fst (updateMe publicUrl me name file now ok s))) =
  credentials <$> users (u_auth s).
Proof.
  intros Hnd. apply (updateMe_creds publicUrl (credentials <$> users (u_auth s))); [|reflexivity].
  rewrite <- list_fmap_compose. exact Hnd.
Qed.
End UpdateMeClaim.

Module UsersFixture.
Import AuthFixture.
Definition url0 (p : string) : string := ("https://cdn.example/avatars/" ++ p)%string.
Definition us0 : UState := mkU st0 [].
Definition jpeg : Upload := {| mimetype := "image/jpeg" |}.

Lemma updateMe_keeps_credentials_witness :
  NoDup (u_id <$> users (u_auth us0)) /\
  credentials <$> users (u_auth (fst (updateMe url0 alice (Some " Alice B ") (Some jpeg) 5 true us0))) =
  credentials <$> users (u_auth us0).
Proof.
  assert (NoDup (u_id <$> users (u_auth us0))) as H by (cbn; repeat constructor; set_solver).
  split; [exact H | exact (updateMe_keeps_credentials url0 alice _ _ 5 true us0 H)].
Defined.

(** The new name is trimmed and the avatar is the upload's public URL. *)
Example updateMe_profile :
  option_map (fun u => (fullName u, avatar u))
    (find_by_id 0 (fst (updateMe url0 alice (Some " Alice B ") (Some jpeg) 5 true us0))) =
  Some ("Alice B", "https://cdn.example/avatars/Alice Oasis-5.jpeg")%string.
Proof. vm_compute. reflexivity. Qed.

(** An empty name is refused by the update validator, after the avatar was
    uploaded: the object stays in the bucket. *)
Example updateMe_empty_name_orphan :
  updateMe url0 alice (Some "") (Some jpeg) 5 true us0 =
    (mkU st0 ["Alice Oasis-5.jpeg"],
     Throw (EValidation [("fullName", "Please tell us your full name!")])).
Proof. vm_compute. reflexivity. Qed.
End UsersFixture.
