(* ===== verification/Guest.v ===== *)
(** * Guests ([src/src/models/guestModel.ts],
      [src/src/controllers/guestController.ts])

    The guest controller is the five generic handlers of [HandlerFactory]
    instantiated with the Guest model.  This file gives the instance: the
    guest document (string fields in schema order) as a [Store] with its
    order laws, and the model's create, update validators and update as a
    [Model] with its laws; then the schema's types and the unique email
    index as an invariant of every collection the handlers reach. *)

From S2P Require Import Prelude JsValue AppError APIFeatures Store HandlerFactory.
From Stdlib Require Import OrdersEx.

Local Open Scope Z_scope.

(** ** The stored guest *)
Record gdoc := { gid : N; gfields : list (string * string) }.

Fixpoint slookup (k : string) (l : list (string * string)) : option string :=
  match l with
  | [] => None
  | (k', v) :: r => if String.eqb k k' then Some v else slookup k r
  end.

(** The body of a create or an update ([req.body]); the strict schema
    drops every other key. *)
Record GuestBody := {
  gb_fullName : option string;
  gb_email : option string;
  gb_nationalID : option string;
  gb_nationality : option string;
  gb_countryFlag : option string
}.

(** ** The store of guests *)

(** MongoDB orders strings by their bytes; a missing field sorts first. *)
Definition opt_scmp (a b : option string) : comparison :=
  match a, b with
  | None, None => Eq
  | None, Some _ => Lt
  | Some _, None => Gt
  | Some x, Some y => String_as_OT.compare x y
  end.

(** A filter condition on a [String] path: equality with the cast value,
    or the comparison operators of [APIFeatures.filter]. *)
Definition scond (v : option string) (c : qval) : bool :=
  match v, c with
  | Some x, QStr s => String.eqb x s
  | Some x, QObj ops =>
      forallb (fun kv => match kv.2 with
                         | QStr s =>
                             let o := String_as_OT.compare x s in
                             if String.eqb kv.1 "$gte" then negb (bool_decide (o = Lt))
                             else if String.eqb kv.1 "$gt" then bool_decide (o = Gt)
                             else if String.eqb kv.1 "$lte" then negb (bool_decide (o = Gt))
                             else if String.eqb kv.1 "$lt" then bool_decide (o = Lt)
                             else false
                         | _ => false
                         end) ops
  | _, _ => false
  end.

Definition gdoc_project (p : list (string * proj)) (d : gdoc) : gdoc :=
  let keep k := if existsb (fun kv => match kv.2 with PInclude => true | _ => false end) p
                then existsb (fun kv => String.eqb kv.1 k &&
                                        match kv.2 with PExclude => false | _ => true end) p
                else negb (existsb (fun kv => String.eqb kv.1 k &&
                                              match kv.2 with PExclude => true | _ => false end) p) in
  {| gid := gid d; gfields := List.filter (fun kv => keep kv.1) (gfields d) |}.

#[export] Instance gdoc_store : Store gdoc := {|
  doc_id := gid;
  doc_to_json d := JObj (("_id", JNum (Z.of_N (gid d))) :: map (fun kv => (kv.1, JStr kv.2)) (gfields d));
  doc_matches conds d := forallb (fun kv => scond (slookup kv.1 (gfields d)) kv.2) conds;
  doc_cmp k a b := opt_scmp (slookup k (gfields a)) (slookup k (gfields b));
  doc_project := gdoc_project;
  cast_filter _ := None
|}.

#[export] Instance gdoc_laws : StoreLaws gdoc.
Proof.
  split; cbn.
  - intros k a b. destruct (slookup k (gfields a)), (slookup k (gfields b)); cbn;
      [apply cmp_laws_sym | reflexivity..].
  - intros k a b c. destruct (slookup k (gfields a)) as [x|], (slookup k (gfields b)) as [y|],
      (slookup k (gfields c)) as [z|]; cbn; try congruence. apply cmp_laws_trans.
Qed.

(** ** The Guest model *)

(** A [String] path with [trim: true]; the email path also lowercases. *)
Definition set_trim (v : string) : string := js_trim v.
Definition set_email (v : string) : string := js_to_lower (js_trim v).

(** [required] on a cast [String] value: present and not empty. *)
Definition required_str (path msg : string) (v : option string) : list (string * string) :=
  match v with Some x => if String.eqb x "" then [(path, msg)] else [] | None => [(path, msg)] end.

Definition fullName_msg : string := "A guest must have a fullName.".
Definition email_msg : string := "A guest must have a email.".

(** The optional paths, in schema order. *)
Definition optional_fields (b : GuestBody) : list (string * string) :=
  omap (fun kv => (fun v => (kv.1, set_trim v)) <$> kv.2)
       [("nationalID", gb_nationalID b); ("nationality", gb_nationality b);
        ("countryFlag", gb_countryFlag b)].

(** The unique index on [email]: held by a guest other than [except]? *)
Definition email_taken (e : string) (except : option N) (l : list gdoc) : bool :=
  existsb (fun d => bool_decide (slookup "email" (gfields d) = Some e) &&
                    negb (bool_decide (Some (gid d) = except))) l.

(** [Guest.create(req.body)]: setters, validators, then the unique index. *)
Definition guest_create (id : N) (b : GuestBody) (others : list gdoc) : res js_error gdoc :=
  let name := set_trim <$> gb_fullName b in
  let mail := set_email <$> gb_email b in
  match required_str "fullName" fullName_msg name ++ required_str "email" email_msg mail with
  | (_ :: _) as errs => Throw (EValidation errs)
  | [] =>
      let e := default "" mail in
      if email_taken e None others then Throw (EDuplicateKey [("email", e)])
      else Ok {| gid := id;
                 gfields := [("fullName", default "" name); ("email", e)] ++ optional_fields b |}
  end.

(** The update validators: those of the paths the body sets. *)
Definition guest_validate_update (b : GuestBody) : option js_error :=
  match (match gb_fullName b with
         | Some v => required_str "fullName" fullName_msg (Some (set_trim v)) | None => [] end) ++
        (match gb_email b with
         | Some v => required_str "email" email_msg (Some (set_email v)) | None => [] end) with
  | [] => None
  | errs => Some (EValidation errs)
  end.

(** Set a path of a stored document: replace it, or append it. *)
Fixpoint set_field (k v : string) (l : list (string * string)) : list (string * string) :=
  match l with
  | [] => [(k, v)]
  | (k', v') :: r => if String.eqb k k' then (k, v) :: r else (k', v') :: set_field k v r
  end.

Definition set_opt (k : string) (v : option string) (l : list (string * string)) :=
  match v with Some x => set_field k x l | None => l end.

(** [findByIdAndUpdate(id, req.body, {new, runValidators})] on the found
    guest [d]: the setters, then the unique index on [email]. *)
Definition guest_apply_update (b : GuestBody) (d : gdoc) (others : list gdoc) : res js_error gdoc :=
  let fs := set_opt "countryFlag" (set_trim <$> gb_countryFlag b)
           (set_opt "nationality" (set_trim <$> gb_nationality b)
           (set_opt "nationalID" (set_trim <$> gb_nationalID b)
           (set_opt "email" (set_email <$> gb_email b)
           (set_opt "fullName" (set_trim <$> gb_fullName b) (gfields d))))) in
  match gb_email b with
  | Some v => if email_taken (set_email v) (Some (gid d)) others
              then Throw (EDuplicateKey [("email", set_email v)])
              else Ok {| gid := gid d; gfields := fs |}
  | None => Ok {| gid := gid d; gfields := fs |}
  end.

Definition guest_model : Model gdoc GuestBody := {|
  modelName := "Guest";
  create_doc := guest_create;
  validate_update := guest_validate_update;
  apply_update := guest_apply_update
|}.

Lemma guest_model_laws : ModelLaws guest_model.
Proof.
  split; cbn.
  - intros id b ds d. unfold guest_create.
    repeat case_match; try discriminate; by intros [= <-].
  - intros b d ds d'. unfold guest_apply_update. repeat case_match; try discriminate; by intros [= <-].
Qed.

(** ** [guestController.ts]: the generic handlers on the Guest model *)
Definition getAllGuests := getAll guest_model.
Definition getGuest := getOne guest_model.
Definition createGuest := createOne guest_model.
Definition updateGuest := updateOne guest_model.
Definition deleteGuest := deleteOne guest_model.

(** ** The schema's types and the unique email index *)

Definition guest_email (d : gdoc) : option string := slookup "email" (gfields d).

(** A stored guest has a non-empty [fullName] and a non-empty [email]. *)
Definition guest_typed (d : gdoc) : Prop :=
  (exists n, slookup "fullName" (gfields d) = Some n /\ n <> "") /\
  (exists e, guest_email d = Some e /\ e <> "").

Definition guests_ok (l : list gdoc) : Prop := Forall guest_typed l /\ NoDup (guest_email <$> l).

Lemma slookup_set_field k k' v l :
  slookup k (set_field k' v l) = if String.eqb k k' then Some v else slookup k l.
Proof.
  induction l as [|[k1 v1] l IH]; cbn; [done|].
  destruct (String.eqb_spec k' k1) as [<-|Hne]; cbn.
  - by destruct (String.eqb k k').
  - rewrite IH. destruct (String.eqb_spec k k'), (String.eqb_spec k k1); congruence.
Qed.

Lemma slookup_set_opt k k' v l :
  slookup k (set_opt k' v l) = if String.eqb k k' then (match v with Some x => Some x | None => slookup k l end)
                               else slookup k l.
Proof. destruct v; cbn; [apply slookup_set_field|]. by destruct (String.eqb k k'). Qed.

Lemma email_taken_false e ex l :
  email_taken e ex l = false -> forall d, d ∈ l -> Some (gid d) <> ex -> guest_email d <> Some e.
Proof.
  intros H d Hd Hne He. assert (email_taken e ex l = true) as Ht; [|congruence].
  apply existsb_exists. exists d. split; [by apply list_elem_of_In|].
  unfold guest_email in He. rewrite He, bool_decide_eq_true_2 by done. cbn. by case_bool_decide.
Qed.

Lemma required_str_nil path msg v : required_str path msg v = [] -> exists x, v = Some x /\ x <> "".
Proof.
  destruct v as [x|]; cbn; [|discriminate]. destruct (String.eqb_spec x ""); [discriminate|eauto].
Qed.

Lemma guest_create_ok id b l d :
  guests_ok l -> guest_create id b l = Ok d -> guests_ok (l ++ [d]).
Proof.
  intros [Ht Hu]. unfold guest_create.
  destruct (required_str _ _ (set_trim <$> gb_fullName b)) eqn:E1; [|discriminate].
  destruct (required_str _ _ (set_email <$> gb_email b)) eqn:E2; [|discriminate].
  apply required_str_nil in E1 as (n & Hn & Hn0). apply required_str_nil in E2 as (e & He & He0).
  rewrite Hn, He. cbn. destruct (email_taken e None l) eqn:Et; [discriminate|]. intros [= <-].
  split.
  - apply Forall_app. split; [done|]. apply Forall_singleton. split; eauto.
  - apply NoDup_fmap_snoc; [done|]. intros d Hd.
    change (guest_email d <> Some e). by apply (email_taken_false _ _ _ Et).
Qed.

(** What [guest_apply_update] does to the two required paths. *)
Lemma guest_apply_update_fields b d l d' :
  guest_apply_update b d l = Ok d' ->
  gid d' = gid d /\
  slookup "fullName" (gfields d') =
    match gb_fullName b with Some v => Some (set_trim v) | None => slookup "fullName" (gfields d) end /\
  guest_email d' = match gb_email b with Some v => Some (set_email v) | None => guest_email d end /\
  (forall v, gb_email b = Some v -> email_taken (set_email v) (Some (gid d)) l = false).
Proof.
  unfold guest_apply_update, guest_email.
  destruct (gb_email b) as [v|] eqn:Hb; [destruct (email_taken _ _ _) eqn:Et; [discriminate|]|];
    intros [= <-]; cbn [gid gfields]; rewrite !slookup_set_opt; cbn;
    rewrite ?slookup_set_field, ?slookup_set_opt; cbn;
    (split; [done | split; [by destruct (gb_fullName b) | split; [done | intros ? Hv; inversion Hv; subst; done]]]).
Qed.

Lemma guest_validate_none b :
  guest_validate_update b = None ->
  (forall v, gb_fullName b = Some v -> set_trim v <> "") /\ (forall v, gb_email b = Some v -> set_email v <> "").
Proof.
  unfold guest_validate_update. intros H. split; intros v Hv E; rewrite Hv in H.
  - rewrite E in H. cbn in H. discriminate.
  - rewrite E in H. cbn in H. repeat case_match; simplify_eq.
Qed.

Lemma guest_update_ok b k n l d d' :
  ids_ok' l n -> guests_ok l -> guest_validate_update b = None -> lookup_id k l = Some d ->
  guest_apply_update b d l = Ok d' -> guests_ok (replace_id k d' l).
Proof.
  intros [Hids _] [Ht Hu] Hv Hk Ha.
  apply lookup_id_Some in Hk as [Hdk Hd]. apply list_elem_of_In in Hd. cbn in Hdk.
  destruct (guest_apply_update_fields _ _ _ _ Ha) as (Hid & Hn & He & Het).
  destruct (guest_validate_none b Hv) as [Vn Ve].
  rewrite Forall_forall in Ht. destruct (Ht d Hd) as [(n0 & Hn0 & Hn0') (e0 & He0 & He0')].
  unfold replace_id. change (map ?f ?l) with (f <$> l). split.
  - apply Forall_fmap, Forall_forall. intros x Hx. cbn. case_bool_decide; [|by apply Ht]. split.
    + rewrite Hn. destruct (gb_fullName b) as [v|]; [eexists; split; [done | by apply Vn]|eauto].
    + rewrite He. destruct (gb_email b) as [w|]; [eexists; split; [done | by apply Ve]|eauto].
  - change (map doc_id l) with (gid <$> l) in Hids.
    apply NoDup_fmap_replace; [done | done |]. intros x Hx Hne. rewrite He.
    destruct (gb_email b) as [w|] eqn:Hw.
    + apply (email_taken_false _ _ _ (Het w eq_refl)); [done | intros [= E]; apply Hne; cbn in *; congruence].
    + intros Heq. apply Hne. rewrite <- Hdk. f_equal.
      apply (NoDup_fmap_key_eq guest_email l x d Hu Hx Hd Heq).
Qed.

Lemma guest_remove_ok k l : guests_ok l -> guests_ok (remove_id k l).
Proof.
  intros [Ht Hu]. unfold remove_id. split.
  - apply Forall_forall. intros x Hx. apply list_elem_of_In, filter_In in Hx as [Hx _].
    rewrite Forall_forall in Ht. apply Ht, list_elem_of_In, Hx.
  - by apply NoDup_fmap_filter.
Qed.

(** C26: the guest collection stays well typed: in every collection a
    sequence of requests to the guest handlers reaches from the empty one,
    whichever requests fail, every guest has a non-empty [fullName] and a
    non-empty [email], and no two guests have the same email. *)
Theorem reachable_guests_typed (c : Coll gdoc) :
  rtc (coll_step guest_model) (empty_coll) c -> guests_ok (docs c).
Proof.
  apply (reachable_inv guest_model guest_model_laws guests_ok).
  - intros id b l d _. apply guest_create_ok.
  - intros b k n l d d' Hids HP Hv Hk Ha. exact (guest_update_ok b k n l d d' Hids HP Hv Hk Ha).
  - apply guest_remove_ok.
  - split; constructor.
Qed.

Module GuestFixture.
Definition ann : GuestBody :=
  {| gb_fullName := Some " Ann Lee "; gb_email := Some " Ann@Mail.TEST "; gb_nationalID := None;
     gb_nationality := Some "Portugal"; gb_countryFlag := None |}.
Definition ann_doc : gdoc :=
  {| gid := 0; gfields := [("fullName", "Ann Lee"); ("email", "ann@mail.test"); ("nationality", "Portugal")] |}.
Definition c1 : Coll gdoc := mkColl [ann_doc] [OpCreate] 1.

Lemma reachable_guests_typed_witness :
  rtc (coll_step guest_model) empty_coll c1 /\ guests_ok (docs c1).
Proof.
  assert (rtc (coll_step guest_model) empty_coll c1) as H.
  { eapply rtc_l; [exists (CCreate ann); vm_compute; reflexivity | apply rtc_refl]. }
  split; [exact H | exact (reachable_guests_typed c1 H)].
Defined.

(** A second guest with the same email, differently cased, is refused by
    the unique index, and the collection is unchanged. *)
Example duplicate_email_refused :
  catchAsync (createGuest {| gb_fullName := Some "Ann L."; gb_email := Some "ANN@mail.test";
                             gb_nationalID := None; gb_nationality := None; gb_countryFlag := None |}) c1 =
    (mkColl [ann_doc] [OpCreate; OpCreate] 1,
     NextErr (EDuplicateKey [("email", "ann@mail.test")])).
Proof. vm_compute. reflexivity. Qed.
End GuestFixture.
