(* ===== verification/BookingModel.v ===== *)
(** * The Booking model ([src/src/models/bookingModel.ts]) and the
      generic booking handlers ([src/src/controllers/bookingController.ts])

    Five of the seven booking handlers are the generic ones of
    [HandlerFactory]; this file instantiates them: the booking document as
    a [Store] (its typed paths, the casts of filter values to the path
    types, the order of each path) with its order laws, and the booking
    schema (casts, required validators, the status enum, defaults) as a
    [Model] with its laws.  Parsing a date string and printing a number
    are parameters.  The theorems: the spec's list example (C6), and that
    every stored booking can be checked out (C34). *)

From stdpp Require Import sorting.
From S2P Require Import Prelude JsValue AppError APIFeatures Store HandlerFactory Booking.
From Stdlib Require Import QArith Qabs OrdersEx.

Local Open Scope Z_scope.

(** ** Typed values of the booking paths *)
Inductive bval :=
| BNum (x : jsnum)      (** [Number] paths *)
| BDate (t : Z)         (** [Date] paths, in ms *)
| BStr (s : string)     (** [String] paths *)
| BBool (b : bool)      (** [Boolean] paths *)
| BId (n : N).          (** [ObjectId] paths *)

Definition status_string (s : BStatus) : string :=
  match s with Unconfirmed => "unconfirmed" | CheckedIn => "checked-in" | CheckedOut => "checked-out" end.

(** The value of a path of a booking ([None]: the path is not set). *)
Definition booking_field (k : string) (b : BookingDoc) : option bval :=
  if String.eqb k "_id" then Some (BId (bk_id b))
  else if String.eqb k "createdAt" then BDate <$> createdAt b
  else if String.eqb k "startDate" then Some (BDate (startDate b))
  else if String.eqb k "endDate" then Some (BDate (endDate b))
  else if String.eqb k "numNights" then Some (BNum (numNights b))
  else if String.eqb k "numGuests" then Some (BNum (numGuests b))
  else if String.eqb k "cabinPrice" then Some (BNum (cabinPrice b))
  else if String.eqb k "extrasPrice" then BNum <$> extrasPrice b
  else if String.eqb k "totalPrice" then Some (BNum (totalPrice b))
  else if String.eqb k "status" then Some (BStr (status_string (bk_status b)))
  else if String.eqb k "hasBreakfast" then BBool <$> hasBreakfast b
  else if String.eqb k "isPaid" then BBool <$> isPaid b
  else if String.eqb k "observations" then BStr <$> observations b
  else if String.eqb k "cabin" then Some (BId (cabin b))
  else if String.eqb k "guest" then Some (BId (guest b))
  else None.

(** ** The order of values

    MongoDB compares values of one type by value; a path of the booking
    schema holds one type.  Numbers: [-Infinity] below every finite
    number, [Infinity] above; [NaN] is never stored (its cast fails) and
    sorts first. *)
Definition num_rank (x : jsnum) : Z :=
  match x with NaN => 0 | Inf true => 1 | Fin _ => 2 | Inf false => 3 end.

Definition num_cmp (x y : jsnum) : comparison :=
  match x, y with
  | Fin a, Fin b => Qcompare a b
  | _, _ => Z.compare (num_rank x) (num_rank y)
  end.

Definition bval_rank (v : bval) : Z :=
  match v with BNum _ => 0 | BDate _ => 1 | BStr _ => 2 | BBool _ => 3 | BId _ => 4 end.

Definition bval_cmp (v w : bval) : comparison :=
  match v, w with
  | BNum x, BNum y => num_cmp x y
  | BDate s, BDate t => Z.compare s t
  | BStr s, BStr t => String_as_OT.compare s t
  | BBool a, BBool b => Z.compare (Z.b2z a) (Z.b2z b)
  | BId m, BId n => N.compare m n
  | _, _ => Z.compare (bval_rank v) (bval_rank w)
  end.

(** A missing path sorts first, as [null]. *)
Definition opt_bcmp (a b : option bval) : comparison :=
  match a, b with
  | None, None => Eq
  | None, Some _ => Lt
  | Some _, None => Gt
  | Some x, Some y => bval_cmp x y
  end.

#[export] Instance Q_compare_laws : CmpLaws Qcompare.
Proof.
  split; [intros a b; symmetry; apply Qcompare_antisym|].
  intros a b c Hab Hbc. rewrite <- Qle_alt in *. eapply Qle_trans; eassumption.
Qed.

(** Ranks and value orders combine into orders with the same laws. *)
#[export] Instance num_cmp_laws : CmpLaws num_cmp.
Proof.
  split.
  - intros [|a|[|]] [|b|[|]]; cbn; try reflexivity. apply cmp_laws_sym.
  - intros [|a|[|]] [|b|[|]] [|c|[|]]; cbn; try congruence; apply cmp_laws_trans.
Qed.

#[export] Instance bval_cmp_laws : CmpLaws bval_cmp.
Proof.
  split.
  - intros [] []; cbn; try reflexivity; apply cmp_laws_sym.
  - intros [] [] []; cbn; try congruence; apply cmp_laws_trans.
Qed.

#[export] Instance opt_bcmp_laws : CmpLaws opt_bcmp.
Proof.
  split.
  - intros [a|] [b|]; cbn; try reflexivity; apply cmp_laws_sym.
  - intros [a|] [b|] [c|]; cbn; try congruence; apply cmp_laws_trans.
Qed.

(** ** The store of bookings *)

(** The paths of the schema, in order ([_id] first, [__v] not shown). *)
Definition booking_paths : list string :=
  ["_id"; "createdAt"; "startDate"; "endDate"; "numNights"; "numGuests"; "cabinPrice";
   "extrasPrice"; "totalPrice"; "status"; "hasBreakfast"; "isPaid"; "observations"; "cabin"; "guest"].

(** A booking as a query returns it: the paths a projection hides. *)
Record pbooking := { pb : BookingDoc; pb_hidden : list string }.

Definition bval_json (v : bval) : json :=
  match v with
  | BNum x => match num_int x with Some z => JNum z | None => JNull end
  | BDate t => JNum t
  | BStr s => JStr s
  | BBool b => JBool b
  | BId n => JNum (Z.of_N n)
  end.

Definition pbooking_json (d : pbooking) : json :=
  JObj (omap (fun k => if bool_decide (k ∈ pb_hidden d) then None
                       else (fun v => (k, bval_json v)) <$> booking_field k (pb d)) booking_paths).

(** Does projection [p] keep path [k]?  An inclusion list keeps [_id]
    and its paths, an exclusion list all but its paths. *)
Definition proj_keep (p : list (string * proj)) (k : string) : bool :=
  if existsb (fun kv => match kv.2 with PInclude => true | _ => false end) p
  then String.eqb k "_id" ||
       existsb (fun kv => String.eqb kv.1 k && match kv.2 with PExclude => false | _ => true end) p
  else negb (existsb (fun kv => String.eqb kv.1 k && match kv.2 with PExclude => true | _ => false end) p).

Definition pbooking_project (p : list (string * proj)) (d : pbooking) : pbooking :=
  {| pb := pb d; pb_hidden := pb_hidden d ++ List.filter (fun k => negb (proj_keep p k)) booking_paths |}.

(** The type of a path, for the cast of a filter value. *)
Inductive bkind := KNum | KDate | KStr | KBool | KId.

#[export] Instance bkind_eq_dec : EqDecision bkind.
Proof. solve_decision. Defined.

Definition path_kind (k : string) : option bkind :=
  match booking_field k
          {| bk_id := 0; createdAt := Some 0; startDate := 0; endDate := 0; numNights := NaN;
             numGuests := NaN; cabinPrice := NaN; extrasPrice := Some NaN; totalPrice := NaN;
             bk_status := Unconfirmed; hasBreakfast := Some false; isPaid := Some false;
             observations := Some ""; cabin := 0; guest := 0 |} with
  | Some (BNum _) => Some KNum
  | Some (BDate _) => Some KDate
  | Some (BStr _) => Some KStr
  | Some (BBool _) => Some KBool
  | Some (BId _) => Some KId
  | None => None
  end.

Section BookingStore.
Context (parse_date : string -> option Z).

(** Mongoose's cast of a query string to a path of kind [kd]; [None] is
    a [CastError].  A path outside the schema is not cast. *)
Definition cast_as (kd : option bkind) (s : string) : option bval :=
  match kd with
  | Some KNum => match string_to_number s with NaN => None | x => Some (BNum x) end
  | Some KDate => BDate <$> parse_date s
  | Some KStr | None => Some (BStr s)
  | Some KBool =>
      if existsb (String.eqb s) ["true"; "1"; "yes"] then Some (BBool true)
      else if existsb (String.eqb s) ["false"; "0"; "no"] then Some (BBool false)
      else None
  | Some KId => BId <$> parse_oid s
  end.

(** The cast of a query string to the type of booking path [k]. *)
Definition cast_q (k : string) (s : string) : option bval := cast_as (path_kind k) s.

(** One comparison operator on the cast value. *)
Definition op_ok (op : string) (c : comparison) : bool :=
  if String.eqb op "$gte" then negb (bool_decide (c = Lt))
  else if String.eqb op "$gt" then bool_decide (c = Gt)
  else if String.eqb op "$lte" then negb (bool_decide (c = Gt))
  else if String.eqb op "$lt" then bool_decide (c = Lt)
  else false.

(** A condition on a path's value [v], its strings cast by [cast]:
    equality, [$in] for an array (mongoose turns an array on a scalar
    path into [$in]), or operators. *)
Definition vcond (cast : string -> option bval) (v : option bval) (c : qval) : bool :=
  let eq_to s := match v, cast s with
                 | Some x, Some y => bool_decide (bval_cmp x y = Eq) | _, _ => false end in
  match c with
  | QStr s => eq_to s
  | QArr l => existsb (fun e => match e with QStr s => eq_to s | _ => false end) l
  | QObj ops =>
      forallb (fun kv => match v, kv.2 with
                         | Some x, QStr s => match cast s with
                                             | Some y => op_ok kv.1 (bval_cmp x y)
                                             | None => false end
                         | _, _ => false
                         end) ops
  end.

(** A condition on booking path [k]. *)
Definition bcond (k : string) (v : option bval) (c : qval) : bool := vcond (cast_q k) v c.

(** The strings of a condition the cast reads. *)
Fixpoint cond_strings (c : qval) : list string :=
  match c with
  | QStr s => [s]
  | QArr l => flat_map cond_strings l
  | QObj kvs => flat_map (fun kv => cond_strings kv.2) kvs
  end.

(** The first filter value that does not cast. *)
Definition first_cast_error (cast : string -> string -> option bval) (conds : list (string * qval))
  : option js_error :=
  head (omap (fun kv => (fun s => ECast kv.1 s) <$>
                          List.find (fun s => negb (bool_decide (is_Some (cast kv.1 s)))) (cond_strings kv.2)) conds).

Definition booking_cast_filter (conds : list (string * qval)) : option js_error :=
  first_cast_error cast_q conds.

#[export] Instance booking_store : Store pbooking := {|
  doc_id d := bk_id (pb d);
  doc_to_json := pbooking_json;
  doc_matches conds d := forallb (fun kv => bcond kv.1 (booking_field kv.1 (pb d)) kv.2) conds;
  doc_cmp k a b := opt_bcmp (booking_field k (pb a)) (booking_field k (pb b));
  doc_project := pbooking_project;
  cast_filter := booking_cast_filter
|}.

#[export] Instance booking_store_laws : StoreLaws pbooking.
Proof. split; cbn; intros; [apply cmp_laws_sym | eapply cmp_laws_trans; eassumption]. Qed.
End BookingStore.


(** ** The booking schema *)

(** A JSON value of a request body ([JSON.parse] gives no [NaN]). *)
Inductive jraw := JRStr (s : string) | JRNum (x : jsnum) | JRBool (b : bool) | JRNull.

(** The body of a create or an update: the properties of the JSON object,
    in order. *)
Definition BookingBody := list (string * jraw).

(** The value [JSON.parse] keeps for a key: the last one. *)
Definition body_value (k : string) (b : BookingBody) : option jraw :=
  List.fold_left (fun acc kv => if String.eqb kv.1 k then Some kv.2 else acc) b None.

(** The keys of the parsed object, in the order of their first occurrence. *)
Definition body_keys (b : BookingBody) : list string :=
  List.fold_left (fun acc kv => if existsb (String.eqb kv.1) acc then acc else acc ++ [kv.1]) b [].

(** The paths a body can set: those of the schema but [_id], which the
    model assigns. *)
Definition settable (k : string) : bool := negb (String.eqb k "_id") && bool_decide (is_Some (path_kind k)).

(** [Boolean] casts: [true], ['true'], [1], ['1'], ['yes'] and their
    [false] counterparts. *)
Definition bool_of_string (s : string) : option bool :=
  if existsb (String.eqb s) ["true"; "1"; "yes"] then Some true
  else if existsb (String.eqb s) ["false"; "0"; "no"] then Some false
  else None.

(** [new Date(x)] on a number: TimeClip truncates towards zero and
    refuses a time beyond 8.64e15 ms. *)
Definition time_clip (x : jsnum) : option Z :=
  match x with
  | Fin a => if Qle_bool (Qabs a) (inject_Z 8640000000000000)
             then Some (Z.quot (Qnum a) (Zpos (Qden a))) else None
  | _ => None
  end.

Definition kind_name (t : bkind) : string :=
  match t with KNum => "Number" | KDate => "date" | KStr => "string" | KBool => "Boolean" | KId => "ObjectId" end.

Section BookingSchema.
Context (parse_date : string -> option Z) (num_string : jsnum -> string) (now : Z).

(** [String(v)] *)
Definition jraw_string (v : jraw) : string :=
  match v with
  | JRStr s => s | JRNum x => num_string x | JRBool b => if b then "true" else "false" | JRNull => "null"
  end.

(** Mongoose's cast of a body value to a path of kind [t]: [None] is a
    cast failure, [Some None] the value [null]. *)
Definition cast_kind (k : string) (t : bkind) (v : jraw) : option (option bval) :=
  let num x := match x with NaN => None | _ => Some (Some (BNum x)) end in
  match v with
  | JRNull => Some None
  | _ =>
    match t, v with
    | KNum, JRStr s => if String.eqb s "" then Some None else num (string_to_number s)
    | KNum, JRNum x => num x
    | KNum, JRBool b => Some (Some (BNum (num_of_Z (Z.b2z b))))
    | KDate, JRStr s => if String.eqb s "" then Some None else (fun t => Some (BDate t)) <$> parse_date s
    | KDate, JRNum x => (fun t => Some (BDate t)) <$> time_clip x
    | KDate, JRBool b => Some (Some (BDate (Z.b2z b)))
    | KStr, _ => Some (Some (BStr (if String.eqb k "observations" then js_trim (jraw_string v)
                                   else jraw_string v)))
    | KBool, JRBool b => Some (Some (BBool b))
    | KBool, JRStr s => (fun b => Some (BBool b)) <$> bool_of_string s
    | KBool, JRNum x => match num_int x with
                        | Some 1 => Some (Some (BBool true)) | Some 0 => Some (Some (BBool false))
                        | _ => None end
    | KId, _ => (fun n => Some (BId n)) <$> parse_oid (jraw_string v)
    | _, _ => None
    end
  end.

Definition cast_path (k : string) (v : jraw) : option (option bval) :=
  match path_kind k with Some t => cast_kind k t v | None => None end.

Definition cast_msg (k : string) (v : jraw) : string :=
  ("Cast to " ++ default "" (kind_name <$> path_kind k) ++ " failed for value " ++ jraw_string v ++
   " at path " ++ k)%string.

Definition required_msg (k : string) : option string :=
  if String.eqb k "startDate" then Some "Booking must have a startDate."
  else if String.eqb k "endDate" then Some "Booking must have a endDate."
  else if String.eqb k "numNights" then Some "Booking must have a numNights."
  else if String.eqb k "numGuests" then Some "Booking must have a numGuests."
  else if String.eqb k "cabinPrice" then Some "Booking must have a cabinPrice."
  else if String.eqb k "totalPrice" then Some "Booking must have a totalPrice."
  else if String.eqb k "status" then Some "Booking must have a status"
  else if String.eqb k "cabin" then Some "Booking must belong to a cabin."
  else if String.eqb k "guest" then Some "Booking must belong to a guest."
  else None.

Definition status_msg : string := "Status is either: checked-in, checked-out or unconfirmed.".

Definition status_of (s : string) : option BStatus :=
  if String.eqb s "checked-in" then Some CheckedIn
  else if String.eqb s "checked-out" then Some CheckedOut
  else if String.eqb s "unconfirmed" then Some Unconfirmed
  else None.

(** The validators of path [k] on its cast value: [required] (a missing
    value, [null] or an empty string), then the [enum] of [status]. *)
Definition path_errors (k : string) (v : option bval) : list (string * string) :=
  let req := match required_msg k with Some m => [(k, m)] | None => [] end in
  match v with
  | None => req
  | Some (BStr s) =>
      if String.eqb s "" && bool_decide (is_Some (required_msg k)) then req
      else if String.eqb k "status" && negb (bool_decide (is_Some (status_of s))) then [(k, status_msg)]
      else []
  | Some _ => []
  end.
End BookingSchema.

(** ** Setting a path of a booking

    A cast value of the path's kind replaces the stored one; [null]
    unsets an optional path.  The validators run before a document is
    stored, so a required path is never set to [null] or to a value of
    another kind; the setter keeps the old value there. *)
Definition as_date (v : option bval) : option Z := match v with Some (BDate t) => Some t | _ => None end.
Definition as_num (v : option bval) : option jsnum := match v with Some (BNum x) => Some x | _ => None end.
Definition as_bool (v : option bval) : option bool := match v with Some (BBool b) => Some b | _ => None end.
Definition as_str (v : option bval) : option string := match v with Some (BStr s) => Some s | _ => None end.
Definition as_id (v : option bval) : option N := match v with Some (BId n) => Some n | _ => None end.

(** An optional path: [null] unsets it. *)
Definition set_opt_path {A} (get : option bval -> option A) (v : option bval) (old : option A) : option A :=
  match v with None => None | Some _ => match get v with Some x => Some x | None => old end end.

Definition set_booking_field (k : string) (v : option bval) (d : BookingDoc) : BookingDoc :=
  let '(Build_BookingDoc i ca sd ed nn ng cp ep tp st hb ip ob cb gs) := d in
  if String.eqb k "createdAt" then Build_BookingDoc i (set_opt_path as_date v ca) sd ed nn ng cp ep tp st hb ip ob cb gs
  else if String.eqb k "startDate" then Build_BookingDoc i ca (default sd (as_date v)) ed nn ng cp ep tp st hb ip ob cb gs
  else if String.eqb k "endDate" then Build_BookingDoc i ca sd (default ed (as_date v)) nn ng cp ep tp st hb ip ob cb gs
  else if String.eqb k "numNights" then Build_BookingDoc i ca sd ed (default nn (as_num v)) ng cp ep tp st hb ip ob cb gs
  else if String.eqb k "numGuests" then Build_BookingDoc i ca sd ed nn (default ng (as_num v)) cp ep tp st hb ip ob cb gs
  else if String.eqb k "cabinPrice" then Build_BookingDoc i ca sd ed nn ng (default cp (as_num v)) ep tp st hb ip ob cb gs
  else if String.eqb k "extrasPrice" then Build_BookingDoc i ca sd ed nn ng cp (set_opt_path as_num v ep) tp st hb ip ob cb gs
  else if String.eqb k "totalPrice" then Build_BookingDoc i ca sd ed nn ng cp ep (default tp (as_num v)) st hb ip ob cb gs
  else if String.eqb k "status" then
    Build_BookingDoc i ca sd ed nn ng cp ep tp (default st (as_str v ≫= status_of)) hb ip ob cb gs
  else if String.eqb k "hasBreakfast" then Build_BookingDoc i ca sd ed nn ng cp ep tp st (set_opt_path as_bool v hb) ip ob cb gs
  else if String.eqb k "isPaid" then Build_BookingDoc i ca sd ed nn ng cp ep tp st hb (set_opt_path as_bool v ip) ob cb gs
  else if String.eqb k "observations" then Build_BookingDoc i ca sd ed nn ng cp ep tp st hb ip (set_opt_path as_str v ob) cb gs
  else if String.eqb k "cabin" then Build_BookingDoc i ca sd ed nn ng cp ep tp st hb ip ob (default cb (as_id v)) gs
  else if String.eqb k "guest" then Build_BookingDoc i ca sd ed nn ng cp ep tp st hb ip ob cb (default gs (as_id v))
  else d.

Lemma set_booking_field_id k v d : bk_id (set_booking_field k v d) = bk_id d.
Proof. destruct d; unfold set_booking_field; repeat case_match; reflexivity. Qed.

Section BookingModelDef.
Context (parse_date : string -> option Z) (num_string : jsnum -> string) (now : Z).

Local Abbreviation cast := (cast_path parse_date num_string).

(** The settable keys of a body with the value [JSON.parse] keeps. *)
Definition body_paths (b : BookingBody) : list (string * jraw) :=
  omap (fun k => if settable k then (fun v => (k, v)) <$> body_value k b else None) (body_keys b).

(** The cast value of a body value: [None] for [null] and for a failed cast. *)
Definition cast_body_value (k : string) (v : jraw) : option bval := default None (cast k v).

(** The cast errors of a body, in the order of its keys. *)
Definition cast_errors (b : BookingBody) : list (string * string) :=
  omap (fun kv => match cast kv.1 kv.2 with
                  | None => Some (kv.1, cast_msg num_string kv.1 kv.2)
                  | Some _ => None end) (body_paths b).

(** The value a created document holds at path [k] before validation. *)
Definition body_cast (k : string) (b : BookingBody) : option bval :=
  if settable k then body_value k b ≫= cast_body_value k else None.

(** [Model.create(body)]: the defaults ([createdAt: Date.now],
    [extrasPrice: 0], [hasBreakfast]/[isPaid: false]) then the body's
    paths; the validators of the paths whose cast did not fail. *)
Definition booking_defaults (id : N) : BookingDoc :=
  {| bk_id := id; createdAt := Some now; startDate := 0; endDate := 0; numNights := NaN;
     numGuests := NaN; cabinPrice := NaN; extrasPrice := Some (num_of_Z 0); totalPrice := NaN;
     bk_status := Unconfirmed; hasBreakfast := Some false; isPaid := Some false;
     observations := None; cabin := 0; guest := 0 |}.

Definition set_body (b : BookingBody) (d : BookingDoc) : BookingDoc :=
  List.fold_left (fun d kv => set_booking_field kv.1 (cast_body_value kv.1 kv.2) d) (body_paths b) d.

Definition create_errors (b : BookingBody) : list (string * string) :=
  let failed := fst <$> cast_errors b in
  cast_errors b ++
  flat_map (fun k => if bool_decide (k ∈ failed) then [] else path_errors k (body_cast k b)) booking_paths.

Definition booking_create (id : N) (b : BookingBody) (others : list pbooking) : res js_error pbooking :=
  match create_errors b with
  | (_ :: _) as errs => Throw (EValidation errs)
  | [] => Ok {| pb := set_body b (booking_defaults id); pb_hidden := [] |}
  end.

(** [findByIdAndUpdate(.., body, {runValidators: true})]: the cast of the
    update fails on its first path that does not cast; the update
    validators run on the paths the update sets. *)
Definition booking_validate_update (b : BookingBody) : option js_error :=
  match List.find (fun kv => negb (bool_decide (is_Some (cast kv.1 kv.2)))) (body_paths b) with
  | Some (k, v) => Some (ECast k (jraw_string num_string v))
  | None =>
      match flat_map (fun kv => path_errors kv.1 (cast_body_value kv.1 kv.2)) (body_paths b) with
      | [] => None
      | errs => Some (EValidation errs)
      end
  end.

Definition booking_apply_update (b : BookingBody) (d : pbooking) (others : list pbooking) :
  res js_error pbooking :=
  Ok {| pb := set_body b (pb d); pb_hidden := pb_hidden d |}.

Definition booking_model : Model pbooking BookingBody := {|
  modelName := "Booking";
  create_doc := booking_create;
  validate_update := booking_validate_update;
  apply_update := booking_apply_update
|}.

Lemma set_body_id b d : bk_id (set_body b d) = bk_id d.
Proof.
  unfold set_body. generalize d. induction (body_paths b) as [|kv l IH]; intros d'; [done|].
  cbn. by rewrite IH, set_booking_field_id.
Qed.

Lemma booking_model_laws : ModelLaws (H := booking_store parse_date) booking_model.
Proof.
  split; cbn.
  - intros id b ds d. unfold booking_create. case_match; [|discriminate].
    intros [= <-]. cbn. apply set_body_id.
  - intros b d ds d' [= <-]. cbn. apply set_body_id.
Qed.

(** ** [bookingController.ts]: the generic handlers on the Booking model *)
Definition getAllBookings := getAll (H := booking_store parse_date) booking_model.
Definition getBooking := getOne (H := booking_store parse_date) booking_model.
Definition createBooking := createOne (H := booking_store parse_date) booking_model.
Definition updateBooking := updateOne (H := booking_store parse_date) booking_model.
Definition deleteBooking := deleteOne (H := booking_store parse_date) booking_model.
End BookingModelDef.

(** ** Reading a path after it is set *)

Ltac eqb_subst :=
  repeat match goal with
  | H : String.eqb _ _ = true |- _ => apply String.eqb_eq in H; subst
  end.

(** Setting a path leaves every other path as it was. *)
Lemma field_frame k k' v d : k <> k' -> booking_field k (set_booking_field k' v d) = booking_field k d.
Proof.
  intros Hne. destruct d. unfold set_booking_field, booking_field.
  repeat case_match; eqb_subst; cbn; congruence.
Qed.

Section SetFold.
Context (parse_date : string -> option Z) (num_string : jsnum -> string).

Local Abbreviation cv := (cast_body_value parse_date num_string).

(** The fold of the setters leaves a path no key of the body names. *)
Lemma set_fold_frame (l : list (string * jraw)) d k :
  k ∉ l.*1 ->
  booking_field k (List.fold_left (fun d kv => set_booking_field kv.1 (cv kv.1 kv.2) d) l d) =
  booking_field k d.
Proof.
  revert d. induction l as [|[k' r] l IH]; intros d Hk; cbn; [done|].
  rewrite IH by set_solver. apply field_frame. set_solver.
Qed.
End SetFold.

Section BookingClaims.
Context (parse_date : string -> option Z) (num_string : jsnum -> string) (now : Z).

(** The list request of the spec's example. *)
Definition spec_list_query : list (string * qval) :=
  [("status", QStr "checked-in"); ("sort", QStr "-startDate"); ("page", QStr "2"); ("limit", QStr "10")].

Lemma status_checked_in_matches d :
  doc_matches (Store := booking_store parse_date) [("status", QStr "checked-in")] d =
  bool_decide (bk_status (pb d) = CheckedIn).
Proof. destruct d as [[? ? ? ? ? ? ? ? ? st ? ? ? ? ?] ?]; cbn; destruct st; reflexivity. Qed.

Lemma start_desc_le a b :
  lex_le (H := booking_store parse_date) [("startDate", true)] a b -> startDate (pb a) >= startDate (pb b).
Proof.
  unfold lex_le. cbn. destruct (Z.compare_spec (startDate (pb a)) (startDate (pb b))); cbn; intros Hle; [lia|congruence|lia].
Qed.

Lemma project_hide_v d : pbooking_project [("__v", PExclude)] d = d.
Proof. destruct d. unfold pbooking_project. cbn. by rewrite app_nil_r. Qed.

(** C6: the example of the spec, on the booking handlers:
    [GET /bookings?status=checked-in&sort=-startDate&page=2&limit=10]
    responds 200, whatever the collection, with the bookings whose status
    is [checked-in] in an order of non-increasing [startDate], from the
    11th to the 20th, and their number as [totalDocuments]; the store is
    read twice. *)
Theorem getAllBookings_spec_example (c : Coll pbooking) :
  exists P,
    P ≡ₚ List.filter (fun d => bool_decide (bk_status (pb d) = CheckedIn)) (docs c) /\
    Sorted Z.ge ((fun d => startDate (pb d)) <$> P) /\
    catchAsync (getAllBookings parse_date num_string now spec_list_query) c =
      (with_ops c [OpCount; OpFind],
       Respond 200 (list_body (H := booking_store parse_date) (booking_model parse_date num_string now)
                     (length P) (take 10 (drop 10 P)))).
Proof.
  assert (Hm : matching (H := booking_store parse_date)
                 {| conditions := [("status", QStr "checked-in")]; sortKeys := [("startDate", true)];
                    projection := [("__v", PExclude)]; skipN := None; limitN := None |} (docs c) =
               List.filter (fun d => bool_decide (bk_status (pb d) = CheckedIn)) (docs c)).
  { apply filter_ext. intros d. apply status_checked_in_matches. }
  exists (sort_docs (H := booking_store parse_date) [("startDate", true)]
            (List.filter (fun d => bool_decide (bk_status (pb d) = CheckedIn)) (docs c))).
  split; [apply sort_docs_perm|]. split.
  - eapply Sorted_fmap; [apply start_desc_le|apply sort_docs_sorted].
  - unfold getAllBookings.
    rewrite (getAll_page _ spec_list_query c
               {| query := {| conditions := [("status", QStr "checked-in")];
                              sortKeys := [("startDate", true)]; projection := [("__v", PExclude)];
                              skipN := None; limitN := None |};
                  queryString := spec_list_query |} 2 10); try reflexivity; try lia.
    cbn [query conditions projection sortKeys]. rewrite Hm, (map_ext _ id project_hide_v), map_id.
    rewrite (Permutation_length (sort_docs_perm _ _)). reflexivity.
Qed.

(** The update of a check-out at the front desk. *)
Definition checkout_body : BookingBody := [("status", JRStr "checked-out")].

(** C34: no booking is stuck in its lifecycle: in every collection the
    booking handlers reach, whatever the status of a stored booking, the
    request [PATCH /bookings/:id] with [{status: "checked-out"}] on its id
    succeeds (200), stores the booking as [checked-out] and changes no
    other path of it. *)
Theorem booking_checkout_always (c : Coll pbooking) d id :
  rtc (coll_step (H := booking_store parse_date) (booking_model parse_date num_string now)) empty_coll c ->
  d ∈ docs c -> parse_oid id = Some (bk_id (pb d)) ->
  exists d',
    catchAsync (updateBooking parse_date num_string now id checkout_body) c =
      (mkColl (replace_id (H := booking_store parse_date) (bk_id (pb d)) d' (docs c))
              (ops c ++ [OpUpdate]) (fresh c),
       Respond 200 (doc_body (H := booking_store parse_date) (booking_model parse_date num_string now) d')) /\
    bk_status (pb d') = CheckedOut /\
    (forall k, k <> "status" -> booking_field k (pb d') = booking_field k (pb d)).
Proof.
  intros Hr Hd Hid.
  pose proof (reachable_ids_distinct _ (booking_model_laws parse_date num_string now) c Hr) as Hnd.
  exists {| pb := set_body parse_date num_string checkout_body (pb d); pb_hidden := pb_hidden d |}.
  split; [|split].
  - apply (updateOne_found _ id (bk_id (pb d)) checkout_body d); [exact Hid | reflexivity | | reflexivity].
    apply (lookup_id_elem (H := booking_store parse_date) _ d Hnd). by apply list_elem_of_In.
  - by destruct d as [[] ?].
  - intros k Hk. cbn [pb]. unfold set_body. apply set_fold_frame.
    change (body_paths checkout_body) with [("status", JRStr "checked-out")]. set_solver.
Qed.
End BookingClaims.

Module BookingModelFixture.
(** Dates as milliseconds written in decimal; numbers printed as integers. *)
Definition pd (s : string) : option Z := num_int (string_to_number s).
Definition ns (x : jsnum) : string := match num_int x with Some z => z_to_string z | None => "NaN" end.
Definition model := booking_model pd ns 7.

Definition body1 : BookingBody :=
  [("startDate", JRStr "1000"); ("endDate", JRNum (num_of_Z 2000)); ("numNights", JRNum (num_of_Z 3));
   ("numGuests", JRStr "2"); ("cabinPrice", JRNum (num_of_Z 500)); ("totalPrice", JRNum (num_of_Z 500));
   ("status", JRStr "unconfirmed"); ("cabin", JRStr "000000000000000000000001");
   ("guest", JRStr "000000000000000000000002"); ("observations", JRStr "  late  ");
   ("numGuests", JRNum (num_of_Z 4))].

Definition d1 : pbooking :=
  match booking_create pd ns 7 0 body1 [] with Ok d => d | Throw _ => {| pb := booking_defaults 7 0; pb_hidden := [] |} end.

Definition c1 : Coll pbooking := mkColl [d1] [OpCreate] 1.

Lemma c1_reachable : rtc (coll_step (H := booking_store pd) model) empty_coll c1.
Proof. eapply rtc_l; [exists (CCreate body1); vm_compute; reflexivity | apply rtc_refl]. Qed.

Lemma booking_checkout_always_witness :
  rtc (coll_step (H := booking_store pd) model) empty_coll c1 /\ d1 ∈ docs c1 /\
  parse_oid "000000000000000000000000" = Some (bk_id (pb d1)) /\
  exists d',
    catchAsync (updateBooking pd ns 7 "000000000000000000000000" checkout_body) c1 =
      (mkColl (replace_id (H := booking_store pd) (bk_id (pb d1)) d' (docs c1)) (ops c1 ++ [OpUpdate]) (fresh c1),
       Respond 200 (doc_body (H := booking_store pd) model d')) /\
    bk_status (pb d') = CheckedOut /\
    (forall k, k <> "status" -> booking_field k (pb d') = booking_field k (pb d1)).
Proof.
  assert (d1 ∈ docs c1) as Hd by (cbn; set_solver).
  assert (parse_oid "000000000000000000000000" = Some (bk_id (pb d1))) as Hid by (vm_compute; reflexivity).
  split; [exact c1_reachable|]. split; [exact Hd|]. split; [exact Hid|].
  exact (booking_checkout_always pd ns 7 c1 d1 _ c1_reachable Hd Hid).
Defined.

(** The stored booking: the last [numGuests] wins, [observations] is
    trimmed, the defaults fill [createdAt], [extrasPrice], [hasBreakfast]
    and [isPaid]. *)
Example create_stores_body :
  pbooking_json d1 =
    JObj [("_id", JNum 0); ("createdAt", JNum 7); ("startDate", JNum 1000); ("endDate", JNum 2000);
          ("numNights", JNum 3); ("numGuests", JNum 4); ("cabinPrice", JNum 500);
          ("extrasPrice", JNum 0); ("totalPrice", JNum 500); ("status", JStr "unconfirmed");
          ("hasBreakfast", JBool false); ("isPaid", JBool false); ("observations", JStr "late");
          ("cabin", JNum 1); ("guest", JNum 2)].
Proof. vm_compute. reflexivity. Qed.

(** A create reports the cast errors first, in the order of the body,
    then the validator errors in the order of the schema; a path whose
    cast failed is not validated. *)
Example create_errors_order :
  catchAsync (createBooking pd ns 7 [("status", JRStr "bogus"); ("numNights", JRStr "x")]) empty_coll =
    (mkColl [] [OpCreate] 0,
     NextErr (EValidation
       [("numNights", "Cast to Number failed for value x at path numNights");
        ("startDate", "Booking must have a startDate."); ("endDate", "Booking must have a endDate.");
        ("numGuests", "Booking must have a numGuests."); ("cabinPrice", "Booking must have a cabinPrice.");
        ("totalPrice", "Booking must have a totalPrice.");
        ("status", "Status is either: checked-in, checked-out or unconfirmed.");
        ("cabin", "Booking must belong to a cabin."); ("guest", "Booking must belong to a guest.")])).
Proof. vm_compute. reflexivity. Qed.

(** An update whose value does not cast is a [CastError] on its path, not
    a validation error, and writes nothing. *)
Example update_cast_error :
  catchAsync (updateBooking pd ns 7 "000000000000000000000000" [("numGuests", JRStr "many")]) c1 =
    (mkColl [d1] [OpCreate; OpUpdate] 1, NextErr (ECast "numGuests" "many")).
Proof. vm_compute. reflexivity. Qed.

(** The status of a booking can go back from [checked-out] to
    [unconfirmed]: the lifecycle of the spec is not enforced. *)
Example status_goes_back :
  let c2 := fst (catchAsync (updateBooking pd ns 7 "000000000000000000000000" checkout_body) c1) in
  option_map (fun d => bk_status (pb d))
    (lookup_id (H := booking_store pd) 0
       (docs (fst (catchAsync (updateBooking pd ns 7 "000000000000000000000000"
                                 [("status", JRStr "unconfirmed")]) c2)))) = Some Unconfirmed.
Proof. vm_compute. reflexivity. Qed.

(** A booking can reference a cabin and a guest that do not exist: [ref]
    is not checked. *)
Example create_dangling_refs :
  match booking_create pd ns 7 1 (body1 ++ [("cabin", JRStr "0000000000000000000003e7")]) [d1] with
  | Ok d => cabin (pb d) = 999%N
  | Throw _ => False
  end.
Proof. vm_compute. reflexivity. Qed.
End BookingModelFixture.
