(* ===== verification/CabinStore.v ===== *)
(** * The generic cabin handlers ([src/src/controllers/cabinController.ts],
      [src/src/models/cabinModel.ts])

    [getAllCabins], [getCabin] and [deleteCabin] are [factory.getAll],
    [factory.getOne] and [factory.deleteOne] on the Cabin model.  This
    file gives the instance: the cabin document as a [Store] (its typed
    paths, the cast of filter values and the order of each type, shared
    with the booking store of [BookingModel]) and the Cabin model for the
    factory.  The controller never routes [createOne] or [updateOne] to
    Cabin, so the model's body type is empty: the factory's create and
    update cannot be called.  The generic handlers run on the collection
    view of [Cabin.CState] and write its cabins back; the image bucket is
    not touched.  [CabinDoc] does not keep the schema's [timestamps]: a
    sort or filter on [createdAt] or [updatedAt] sees them missing. *)

From S2P Require Import Prelude JsValue AppError APIFeatures Store HandlerFactory Cabin BookingModel.

Local Open Scope Z_scope.

(** ** The cabin in the store *)

(** The paths of the schema, [_id] first. *)
Definition cabin_paths : list string :=
  ["_id"; "name"; "slug"; "description"; "maxCapacity"; "regularPrice"; "discount"; "image"].

Definition cabin_field (k : string) (c : CabinDoc) : option bval :=
  if String.eqb k "_id" then Some (BId (cab_id c))
  else if String.eqb k "name" then Some (BStr (cab_name c))
  else if String.eqb k "slug" then Some (BStr (slug c))
  else if String.eqb k "description" then Some (BStr (description c))
  else if String.eqb k "maxCapacity" then Some (BNum (maxCapacity c))
  else if String.eqb k "regularPrice" then Some (BNum (regularPrice c))
  else if String.eqb k "discount" then BNum <$> discount c
  else if String.eqb k "image" then Some (BStr (image c))
  else None.

(** The schema type of a path. *)
Definition cabin_kind (k : string) : option bkind :=
  if String.eqb k "_id" then Some KId
  else if existsb (String.eqb k) ["maxCapacity"; "regularPrice"; "discount"] then Some KNum
  else if existsb (String.eqb k) ["name"; "slug"; "description"; "image"] then Some KStr
  else None.

(** The cast of a query string to a cabin path (no path is a date). *)
Definition cabin_cast_q (k s : string) : option bval := cast_as (fun _ => None) (cabin_kind k) s.

(** A cabin as a query returns it: the paths a projection hides. *)
Record pcabin := { pcab : CabinDoc; pcab_hidden : list string }.

(** [toJSON]: a [null] discount is shown as [null]. *)
Definition pcabin_json (d : pcabin) : json :=
  JObj (omap (fun k => if bool_decide (k ∈ pcab_hidden d) then None
                       else Some (k, default JNull (bval_json <$> cabin_field k (pcab d)))) cabin_paths).

Definition pcabin_project (p : list (string * proj)) (d : pcabin) : pcabin :=
  {| pcab := pcab d; pcab_hidden := pcab_hidden d ++ List.filter (fun k => negb (proj_keep p k)) cabin_paths |}.

#[export] Instance cabin_store : Store pcabin := {|
  doc_id d := cab_id (pcab d);
  doc_to_json := pcabin_json;
  doc_matches conds d := forallb (fun kv => vcond (cabin_cast_q kv.1) (cabin_field kv.1 (pcab d)) kv.2) conds;
  doc_cmp k a b := opt_bcmp (cabin_field k (pcab a)) (cabin_field k (pcab b));
  doc_project := pcabin_project;
  cast_filter := first_cast_error cabin_cast_q
|}.

#[export] Instance cabin_store_laws : StoreLaws pcabin.
Proof. split; cbn; intros; [apply cmp_laws_sym | eapply cmp_laws_trans; eassumption]. Qed.

(** [model('Cabin', cabinSchema)] as the factory sees it: no body reaches
    its create or update. *)
Definition cabin_model : Model pcabin Empty_set := {|
  modelName := "Cabin";
  create_doc _ (b : Empty_set) _ := match b with end;
  validate_update (b : Empty_set) := match b with end;
  apply_update (b : Empty_set) _ _ := match b with end
|}.

Lemma cabin_model_laws : ModelLaws cabin_model.
Proof. split; [intros ? []|intros []]. Qed.

(** ** The handlers over the cabins *)

Definition wrap_cabin (c : CabinDoc) : pcabin := {| pcab := c; pcab_hidden := [] |}.

Definition cab_coll (s : CState) : Coll pcabin := mkColl (wrap_cabin <$> cabins s) [] (next_cab s).

Definition of_coll (s : CState) (c : Coll pcabin) : CState := mkCab (pcab <$> docs c) (fresh c) (bucket s).

(** A factory handler on the cabins of the controller's state. *)
Definition on_cabins {A} (m : M (Coll pcabin) js_error A) : M CState js_error A :=
  fun s => let '(c, r) := m (cab_coll s) in (of_coll s c, r).

Definition getAllCabins (qs : list (string * qval)) : M CState js_error outcome :=
  on_cabins (getAll cabin_model qs).
Definition getCabin (id : string) : M CState js_error outcome := on_cabins (getOne cabin_model id).
Definition deleteCabin (id : string) : M CState js_error outcome := on_cabins (deleteOne cabin_model id).

(** Every request the cabin router sends to the controller. *)
Inductive cabin_request :=
| CabOwn (r : cab_req)
| CabGetAll (qs : list (string * qval))
| CabGet (id : string)
| CabDelete (id : string).

Definition handle_cabin (slugify publicUrl : string -> string) (r : cabin_request) : M CState js_error outcome :=
  match r with
  | CabOwn r => handle_cab slugify publicUrl r
  | CabGetAll qs => getAllCabins qs
  | CabGet id => getCabin id
  | CabDelete id => deleteCabin id
  end.

(** ** The collection view *)

Lemma map_doc_id_wrap (l : list CabinDoc) : map doc_id (wrap_cabin <$> l) = cab_id <$> l.
Proof. induction l as [|c l IH]; [done|]. cbn. f_equal. exact IH. Qed.

Lemma map_doc_id_pcab (l : list pcabin) : cab_id <$> (pcab <$> l) = map doc_id l.
Proof. induction l as [|d l IH]; [done|]. cbn. f_equal. exact IH. Qed.


(** What the model adds to the factory's id invariant: the unique
    indexes on [name] and [slug]. *)
Definition cab_unique (l : list pcabin) : Prop :=
  NoDup ((fun d => cab_name (pcab d)) <$> l) /\ NoDup ((fun d => slug (pcab d)) <$> l).

Lemma cab_unique_remove k l : cab_unique l -> cab_unique (remove_id k l).
Proof. intros [Hn Hs]. split; by apply NoDup_fmap_filter. Qed.

Lemma cabins_wf_coll s : cabins_wf s -> ids_ok (cab_coll s) /\ cab_unique (docs (cab_coll s)).
Proof.
  intros (Hid & Hlt & Hn & Hs). unfold ids_ok, ids_ok', cab_unique. cbn.
  rewrite map_doc_id_wrap, <- !list_fmap_compose, Forall_fmap. split_and!; assumption.
Qed.

Lemma of_coll_wf s c : ids_ok c -> cab_unique (docs c) -> cabins_wf (of_coll s c).
Proof.
  intros [Hid Hlt] [Hn Hs]. unfold cabins_wf, of_coll. cbn.
  rewrite map_doc_id_pcab, <- !list_fmap_compose, Forall_fmap. split_and!; assumption.
Qed.

(** The factory's handlers keep the unique indexes of the cabins. *)
Lemma on_cabins_wf h : preserves cabins_wf (on_cabins (run_call cabin_model h)).
Proof.
  intros s Hs. destruct (cabins_wf_coll s Hs) as [Hids Hu].
  pose proof (call_keeps_ids cabin_model cabin_model_laws h _ Hids) as Hids'.
  pose proof (call_keeps_inv cabin_model cab_unique
                (fun _ b => match b with end) (fun b => match b with end) cab_unique_remove h _ Hids Hu) as Hu'.
  rewrite catchAsync_fst in Hids', Hu'. unfold on_cabins.
  destruct (run_call cabin_model h (cab_coll s)) as [c r]. by apply of_coll_wf.
Qed.

(** C31: the unique indexes hold across the whole cabin controller: from
    a state whose cabins have distinct ids below the counter, distinct
    names and distinct slugs, every request to any of its six handlers
    ([getAllCabins], [getCabin], [createCabin], [updateCabin],
    [deleteCabin], [createDuplicateCabin]) ends, returned or thrown, in
    such a state. *)
Theorem handle_cabin_wf slugify publicUrl r : preserves cabins_wf (handle_cabin slugify publicUrl r).
Proof.
  destruct r as [r|qs|id|id]; [apply handle_cab_wf|apply (on_cabins_wf (CGetAll qs))|
                               apply (on_cabins_wf (CGetOne id))|apply (on_cabins_wf (CDelete id))].
Qed.

(** ** Reading and deleting a stored cabin *)

Lemma lookup_wrap s c :
  cabins_wf s -> c ∈ cabins s -> lookup_id (cab_id c) (wrap_cabin <$> cabins s) = Some (wrap_cabin c).
Proof.
  intros Hs Hc. destruct (cabins_wf_coll s Hs) as [[Hnd _] _].
  apply (lookup_id_elem (D:=pcabin) _ (wrap_cabin c) Hnd).
  apply list_elem_of_In, list_elem_of_fmap. by exists c.
Qed.

Lemma remove_wrap n (l : list CabinDoc) :
  pcab <$> remove_id n (wrap_cabin <$> l) = List.filter (fun e => negb (bool_decide (cab_id e = n))) l.
Proof.
  unfold remove_id. induction l as [|c l IH]; [done|]. cbn.
  destruct (decide (cab_id c = n)) as [E|E];
    [rewrite !bool_decide_eq_true_2 by exact E | rewrite !bool_decide_eq_false_2 by exact E]; cbn;
    [exact IH|f_equal; exact IH].
Qed.



(** C28. [deleteCabin] of a stored cabin answers 204 and removes the
    document, and only the document: its image stays in the bucket. *)
Theorem deleteCabin_keeps_image id s c :
  cabins_wf s -> c ∈ cabins s -> parse_oid id = Some (cab_id c) ->
  deleteCabin id s =
    (mkCab (List.filter (fun e => negb (bool_decide (cab_id e = cab_id c))) (cabins s)) (next_cab s) (bucket s),
     Ok (Respond 204 (JObj [("status", JStr "success"); ("data", JNull)]))).
Proof.
  intros Hs Hc Hid. unfold deleteCabin, on_cabins, deleteOne, db_delete, log, lift, cast_id, set_docs, modify.
  run_M. rewrite Hid. run_M. cbn [docs cab_coll]. rewrite (lookup_wrap s c Hs Hc). run_M.
  unfold of_coll. cbn [docs fresh cab_coll]. by rewrite remove_wrap.
Qed.



(** A request to the cabin controller, one at a time, from any state. *)
Inductive cabin_step (slugify publicUrl : string -> string) : CState -> CState -> Prop :=
| cabin_step_req s r : cabin_step slugify publicUrl s (fst (handle_cabin slugify publicUrl r s)).

(** The unique indexes and the id counter hold in every state the six
    cabin handlers reach, one request at a time, from a state where they
    hold. *)
Theorem reachable_cabins_wf slugify publicUrl s s' :
  cabins_wf s -> rtc (cabin_step slugify publicUrl) s s' -> cabins_wf s'.
Proof.
  intros Hs Hr. induction Hr as [s|s1 s2 s3 Hstep _ IH]; [exact Hs|].
  apply IH. destruct Hstep as [s r]. exact (handle_cabin_wf slugify publicUrl r s Hs).
Qed.

Module CabinStoreFixture.
Import CabinFixture.


(** Deleting the cabin leaves its image [path0] in the bucket. *)
Lemma deleteCabin_keeps_image_witness :
  cabins_wf s1 /\ deleteCabin oid0 s1 = (mkCab [] 1 [path0], Ok (Respond 204 (JObj [("status", JStr "success"); ("data", JNull)]))).
Proof.
  assert (H1 : cabins_wf s1) by (vm_compute; split_and!; repeat constructor; set_solver).
  split; [exact H1|].
  rewrite (deleteCabin_keeps_image oid0 s1 c0 H1 ltac:(cbn; set_solver) eq_refl).
  vm_compute. reflexivity.
Defined.

Lemma reachable_cabins_wf_witness :
  cabins_wf s0 /\
  cabins_wf (fst (handle_cabin slugify0 url0 (CabDelete oid0)
                   (fst (handle_cabin slugify0 url0 (CabOwn (CCreate forest (Some png) now0 true)) s0)))).
Proof.
  assert (H0 : cabins_wf s0) by (split_and!; constructor). split; [exact H0|].
  apply (reachable_cabins_wf slugify0 url0 s0); [exact H0|].
  eapply rtc_l; [apply cabin_step_req|]. eapply rtc_l; [apply cabin_step_req|]. apply rtc_refl.
Defined.

Lemma handle_cabin_wf_witness :
  cabins_wf s1 /\ cabins_wf (fst (handle_cabin slugify0 url0 (CabDelete oid0) s1)).
Proof.
  assert (H1 : cabins_wf s1) by (vm_compute; split_and!; repeat constructor; set_solver).
  split; [exact H1|exact (handle_cabin_wf slugify0 url0 (CabDelete oid0) s1 H1)].
Defined.

(** The list of cabins, cheapest first, through the factory. *)
Example getAllCabins_sorted :
  getAllCabins [("sort", QStr "regularPrice")] s1 =
    (s1, Ok (Respond 200 (JObj [("status", JStr "success"); ("results", JNum 1); ("totalDocuments", JNum 1);
                                ("data", JObj [("cabins", JArr [cabin_json c0])])]))).
Proof. vm_compute. reflexivity. Qed.
End CabinStoreFixture.
