(* ===== verification/Config.v ===== *)
(** * Start-up configuration ([src/src/lib/config/config.ts])

    The Joi schema of the environment, its validation of [process.env]
    (presence, defaults, the string and number types, [min], [valid], the
    first error in key order), the [Error] thrown at start-up, and the
    [config] object built from the validated values.  Joi's conversion of
    a string to a number is a parameter.  The bridge [model_config] gives
    the record [UserModel.Config] the handlers of the other files read. *)

From S2P Require Import Prelude JsValue UserModel.
From Stdlib Require Import QArith.

Local Open Scope Z_scope.

(** [process.env]: each variable once, its value a string. *)
Definition Env := list (string * string).

Definition env_get (k : string) (e : Env) : option string :=
  snd <$> List.find (fun kv => String.eqb kv.1 k) e.

(** [delete process.env[k]] *)
Definition env_remove (k : string) (e : Env) : Env :=
  List.filter (fun kv => negb (String.eqb kv.1 k)) e.

(** ** The schema ([envVarsSchema]) *)
Inductive jtype := JString | JNumber.

Inductive jval := VStr (s : string) | VNum (q : Q).

Record keyspec := mkKey {
  k_name : string;
  k_type : jtype;
  k_required : bool;
  k_default : option jval;
  k_min : option nat;          (** [.min(n)] on a string *)
  k_valid : list string        (** [.valid(...)] *)
}.

Definition envVarsSchema : list keyspec := [
  mkKey "NODE_ENV" JString true None None ["production"; "development"; "test"];
  mkKey "HOSTNAME" JString true None None [];
  mkKey "PORT" JNumber false (Some (VNum 8000)) None [];
  mkKey "CLIENT_STAFF_APP_URL" JString true None None [];
  mkKey "COOKIE_SECRET" JString true None (Some 32%nat) [];
  mkKey "MONGODB_URL" JString true None None [];
  mkKey "SUPABASE_PROJECT_URL" JString true None None [];
  mkKey "SUPABASE_ANON_KEY" JString true None None [];
  mkKey "SUPABASE_STORAGE_ADDRESS" JString true None None [];
  mkKey "JWT_SECRET" JString true None (Some 32%nat) [];
  mkKey "JWT_EXPIRES_IN" JString false (Some (VStr "90d")) None [];
  mkKey "JWT_COOKIE_EXPIRES_IN" JNumber false (Some (VNum 90)) None [];
  mkKey "RESET_PASSWORD_TOKEN_EXPIRES_IN_MINS" JNumber false (Some (VNum 10)) None [];
  mkKey "EMAIL_VERIFICATION_TOKEN_EXPIRES_IN_HRS" JNumber false (Some (VNum 24)) None [];
  mkKey "MAILTRAP_SMTP_HOST" JString false None None [];
  mkKey "MAILTRAP_SMTP_PORT" JNumber false None None [];
  mkKey "MAILTRAP_SMTP_USERNAME" JString false None None [];
  mkKey "MAILTRAP_SMTP_PASSWORD" JString false None None [];
  mkKey "EMAIL_FROM" JString false None None [];
  mkKey "APIKEY_EXPIRES_IN_DAYS" JNumber false None None [];
  mkKey "HMAC_SECRET" JString false None (Some 32%nat) []
].

(** ** Joi's validation, with [errors: {label: 'key'}] *)
Definition dq : string := String (Ascii.ascii_of_nat 34) EmptyString.

Definition label (k : string) : string := (dq ++ k ++ dq)%string.

Section Joi.
(** [Joi.number()] on a string: the converted number, or the tail of the
    error message ([must be a number], [must be a safe number], ...). *)
Context (joi_number : string -> res string Q).

(** One key: presence and default, then the allowed values, the type and
    the rules.  [Ok None]: the key is absent and has no default. *)
Definition validate_key (ks : keyspec) (v : option string) : res string (option jval) :=
  let l := label (k_name ks) in
  match v with
  | None => if k_required ks then Throw (l ++ " is required")%string else Ok (k_default ks)
  | Some s =>
      match k_type ks with
      | JString =>
          match k_valid ks with
          | _ :: _ =>
              if existsb (String.eqb s) (k_valid ks) then Ok (Some (VStr s))
              else Throw (l ++ " must be one of [" ++ js_join ", " (k_valid ks) ++ "]")%string
          | [] =>
              if String.eqb s "" then Throw (l ++ " is not allowed to be empty")%string
              else match k_min ks with
                   | Some n => if (js_length s <? n)%nat
                               then Throw (l ++ " length must be at least " ++ z_to_string (Z.of_nat n) ++
                                           " characters long")%string
                               else Ok (Some (VStr s))
                   | None => Ok (Some (VStr s))
                   end
          end
      | JNumber =>
          match joi_number s with
          | Ok q => Ok (Some (VNum q))
          | Throw m => Throw (l ++ " " ++ m)%string
          end
      end
  end.

(** [envVarsSchema.validate(process.env)] with [abortEarly]: the keys in
    the order of the schema, the first error stops; the validated values
    of the schema's keys ([.unknown()] lets the other variables through
    unchanged, and nothing reads them). *)
Fixpoint validate_keys (ks : list keyspec) (e : Env) : res string (list (string * jval)) :=
  match ks with
  | [] => Ok []
  | k :: r =>
      match validate_key k (env_get (k_name k) e) with
      | Throw m => Throw m
      | Ok v => match validate_keys r e with
                | Throw m => Throw m
                | Ok vs => Ok (match v with Some x => (k_name k, x) :: vs | None => vs end)
                end
      end
  end.

Definition validate_env (e : Env) : res string (list (string * jval)) := validate_keys envVarsSchema e.
End Joi.

(** ** The [config] object *)
Record ConfigObj := {
  c_env : string;
  c_hostname : string;
  c_port : Q;
  c_cookieSecret : string;
  c_staffAppUrl : string;
  c_mongooseUrl : string;
  c_supabaseUrl : string;
  c_supabasePublicApiKey : string;
  c_supabaseStorageUrl : string;
  c_jwtSecret : string;
  c_jwtAccessExpiration : string;
  c_jwtCookieExpiration : Q;
  c_resetExpiresInMins : Q;
  c_verifyExpiresInHrs : Q;
  c_smtpHost : option string;
  c_smtpPort : option Q;
  c_smtpUsername : option string;
  c_smtpPassword : option string;
  c_emailFrom : option string;
  c_apiKeyExpiresInDays : option Q;
  c_hmacSecret : option string
}.

Definition var_str (k : string) (vs : list (string * jval)) : option string :=
  match snd <$> List.find (fun kv => String.eqb kv.1 k) vs with Some (VStr s) => Some s | _ => None end.

Definition var_num (k : string) (vs : list (string * jval)) : option Q :=
  match snd <$> List.find (fun kv => String.eqb kv.1 k) vs with Some (VNum q) => Some q | _ => None end.

(** [envVars.X]; a required or defaulted key is always there once the
    validation passed, and the fall-backs are never read. *)
Definition config_of (vs : list (string * jval)) : ConfigObj := {|
  c_env := default "" (var_str "NODE_ENV" vs);
  c_hostname := default "" (var_str "HOSTNAME" vs);
  c_port := default 0%Q (var_num "PORT" vs);
  c_cookieSecret := default "" (var_str "COOKIE_SECRET" vs);
  c_staffAppUrl := default "" (var_str "CLIENT_STAFF_APP_URL" vs);
  c_mongooseUrl := default "" (var_str "MONGODB_URL" vs);
  c_supabaseUrl := default "" (var_str "SUPABASE_PROJECT_URL" vs);
  c_supabasePublicApiKey := default "" (var_str "SUPABASE_ANON_KEY" vs);
  c_supabaseStorageUrl := default "" (var_str "SUPABASE_STORAGE_ADDRESS" vs);
  c_jwtSecret := default "" (var_str "JWT_SECRET" vs);
  c_jwtAccessExpiration := default "" (var_str "JWT_EXPIRES_IN" vs);
  c_jwtCookieExpiration := default 0%Q (var_num "JWT_COOKIE_EXPIRES_IN" vs);
  c_resetExpiresInMins := default 0%Q (var_num "RESET_PASSWORD_TOKEN_EXPIRES_IN_MINS" vs);
  c_verifyExpiresInHrs := default 0%Q (var_num "EMAIL_VERIFICATION_TOKEN_EXPIRES_IN_HRS" vs);
  c_smtpHost := var_str "MAILTRAP_SMTP_HOST" vs;
  c_smtpPort := var_num "MAILTRAP_SMTP_PORT" vs;
  c_smtpUsername := var_str "MAILTRAP_SMTP_USERNAME" vs;
  c_smtpPassword := var_str "MAILTRAP_SMTP_PASSWORD" vs;
  c_emailFrom := var_str "EMAIL_FROM" vs;
  c_apiKeyExpiresInDays := var_num "APIKEY_EXPIRES_IN_DAYS" vs;
  c_hmacSecret := var_str "HMAC_SECRET" vs
|}.

(** The module's top level: validate, throw
    [Error('Config validation error: ' + error.message)], or export the
    [config] object. *)
Definition load_config (joi_number : string -> res string Q) (e : Env) : res string ConfigObj :=
  match validate_env joi_number e with
  | Throw m => Throw ("Config validation error: " ++ m)%string
  | Ok vs => Ok (config_of vs)
  end.

(** ** The configuration the handlers read

    [UserModel.Config] holds what the handlers of the other files read:
    the token lifetimes as integers, [jwt.sign]'s [expiresIn] in seconds
    ([expires_secs] is [jsonwebtoken]'s parse of strings such as [90d]),
    the API-key lifetime and the HMAC secret.  [None]: no such record,
    a value the model needs is missing or not an integer. *)
Definition q_int (q : Q) : option Z := num_int (Fin q).

Definition model_config (expires_secs : string -> option Z) (c : ConfigObj) : option Config :=
  match expires_secs (c_jwtAccessExpiration c), q_int (c_jwtCookieExpiration c),
        q_int (c_resetExpiresInMins c), q_int (c_verifyExpiresInHrs c),
        c_apiKeyExpiresInDays c ≫= q_int, c_hmacSecret c with
  | Some js, Some cd, Some rm, Some vh, Some ad, Some hs =>
      Some {| jwtExpiresInSecs := js; cookieExpiresDays := cd; resetExpiresMins := rm;
              verifyExpiresHrs := vh; staffAppUrl := c_staffAppUrl c; apiKeyExpiresDays := ad;
              hmacSecret := hs |}
  | _, _, _, _, _, _ => None
  end.

(** ** Properties of the validation *)

Lemma find_none_forall {A} (f : A -> bool) (l : list A) :
  (forall x, In x l -> f x = false) -> List.find f l = None.
Proof. induction l as [|a l IH]; intros H; cbn; [done|]. rewrite H by (left; done). apply IH. intros x Hx. apply H. by right. Qed.

Lemma env_get_remove_same k e : env_get k (env_remove k e) = None.
Proof.
  unfold env_get, env_remove. rewrite find_none_forall; [done|].
  intros [k' v] (_ & Hk)%filter_In. cbn in *. destruct (String.eqb k' k); [discriminate|done].
Qed.

Lemma env_get_remove_other k k' e : k <> k' -> env_get k (env_remove k' e) = env_get k e.
Proof.
  intros Hne. unfold env_get, env_remove. f_equal. induction e as [|[a v] e IH]; cbn; [done|].
  destruct (String.eqb_spec a k'); cbn.
  - rewrite IH. subst. destruct (String.eqb_spec k' k); [congruence|done].
  - by rewrite IH.
Qed.

(** Several [delete process.env[k]]. *)
Definition env_remove_all (rm : list string) (e : Env) : Env := foldr env_remove e rm.

Lemma env_get_remove_all_in k rm e : k ∈ rm -> env_get k (env_remove_all rm e) = None.
Proof.
  unfold env_remove_all. induction rm as [|a rm IH]; intros Hk; [by apply elem_of_nil in Hk|]. cbn [foldr].
  destruct (decide (k = a)) as [->|Hne]; [apply env_get_remove_same|].
  rewrite env_get_remove_other by exact Hne. apply IH. by apply elem_of_cons in Hk as [|].
Qed.

Lemma env_get_remove_all_out k rm e : k ∉ rm -> env_get k (env_remove_all rm e) = env_get k e.
Proof.
  unfold env_remove_all. induction rm as [|a rm IH]; intros Hk; [done|]. cbn [foldr].
  rewrite env_get_remove_other by (intros ->; apply Hk; left). apply IH. intros H. apply Hk. by right.
Qed.

Section Validate.
Context (joi_number : string -> res string Q).

Lemma validate_keys_keys ks e vs :
  validate_keys joi_number ks e = Ok vs -> forall x, x ∈ vs.*1 -> x ∈ k_name <$> ks.
Proof.
  revert vs. induction ks as [|k ks IH]; intros vs H x Hx; cbn in H.
  - injection H as <-. by apply elem_of_nil in Hx.
  - destruct (validate_key _ _ _) as [v|]; [|discriminate].
    destruct (validate_keys _ ks e) as [vs'|] eqn:E; [|discriminate]. injection H as <-.
    cbn. apply elem_of_cons. destruct v as [y|]; cbn in Hx.
    + apply elem_of_cons in Hx as [->|Hx]; [by left|right; by apply (IH vs')].
    + right. by apply (IH vs').
Qed.

(** The validated value of a key of the schema is what its own
    validation gives. *)
Lemma validate_keys_find ks e vs k :
  validate_keys joi_number ks e = Ok vs -> NoDup (k_name <$> ks) -> k ∈ ks ->
  exists v, validate_key joi_number k (env_get (k_name k) e) = Ok v /\
            snd <$> List.find (fun kv => String.eqb kv.1 (k_name k)) vs = v.
Proof.
  revert vs. induction ks as [|a ks IH]; intros vs H Hnd Hk; [by apply elem_of_nil in Hk|].
  cbn in H, Hnd. apply NoDup_cons in Hnd as [Ha Hnd].
  destruct (validate_key _ a _) as [va|] eqn:Ea; [|discriminate].
  destruct (validate_keys _ ks e) as [vs'|] eqn:E; [|discriminate]. injection H as <-.
  apply elem_of_cons in Hk as [<-|Hk].
  - exists va. split; [done|]. destruct va as [y|]; cbn; [by rewrite String.eqb_refl|].
    rewrite find_none_forall; [done|]. intros [x w] Hx. cbn.
    destruct (String.eqb_spec x (k_name k)) as [->|]; [|done]. exfalso. apply Ha.
    apply (validate_keys_keys ks e vs' E). change (k_name k) with (k_name k, w).1.
    apply list_elem_of_fmap_2. by apply list_elem_of_In.
  - destruct (IH vs' eq_refl Hnd Hk) as (v & Hv & Hf). exists v. split; [done|].
    destruct va as [y|]; cbn; [|done].
    destruct (String.eqb_spec (k_name a) (k_name k)) as [E'|]; [|done].
    exfalso. apply Ha. rewrite E'. by apply list_elem_of_fmap_2.
Qed.

(** The validation passes exactly when every key's validation does. *)
Lemma validate_keys_ok ks e :
  (forall k, k ∈ ks -> exists v, validate_key joi_number k (env_get (k_name k) e) = Ok v) ->
  exists vs, validate_keys joi_number ks e = Ok vs.
Proof.
  induction ks as [|k ks IH]; intros H; cbn; [by eexists|].
  destruct (H k) as [v ->]; [by left|]. destruct IH as [vs ->]; [intros; apply H; by right|].
  by eexists.
Qed.

Lemma validate_keys_throw ks e k m :
  k ∈ ks -> validate_key joi_number k (env_get (k_name k) e) = Throw m ->
  exists m', validate_keys joi_number ks e = Throw m'.
Proof.
  induction ks as [|a ks IH]; intros Hk Hm; [by apply elem_of_nil in Hk|]. cbn.
  apply elem_of_cons in Hk as [->|Hk]; [rewrite Hm; by eexists|].
  destruct (validate_key _ a _); [|by eexists]. destruct (IH Hk Hm) as [m' ->]. by eexists.
Qed.

(** A present string value that validates: not empty, or one of the
    allowed values; at least [min] long. *)
Lemma validate_key_string ks s v :
  validate_key joi_number ks (Some s) = Ok v -> k_type ks = JString ->
  v = Some (VStr s) /\ (s <> "" \/ s ∈ k_valid ks) /\ (k_valid ks <> [] -> s ∈ k_valid ks) /\
  (k_valid ks = [] -> forall n, k_min ks = Some n -> (n <= js_length s)%nat).
Proof.
  unfold validate_key. intros H Ht. rewrite Ht in H. revert H. destruct (k_valid ks) as [|a l] eqn:Ev.
  - destruct (String.eqb_spec s ""); [discriminate|]. destruct (k_min ks) as [mn|].
    + destruct (Nat.ltb_spec (js_length s) mn) as [|Hn]; [discriminate|].
      intros [= <-]. split_and!; [done|by left|done|]. intros _ m Hm. injection Hm as <-. lia.
    + intros [= <-]. split_and!; [done|by left|done|done].
  - rewrite existsb_string_eqb. case_bool_decide; [|discriminate].
    intros [= <-]. split_and!; [done|by right|done|done].
Qed.

Lemma validate_key_required ks o v :
  validate_key joi_number ks o = Ok v -> k_required ks = true -> exists s, o = Some s.
Proof. unfold validate_key. intros H Hr. rewrite Hr in H. destruct o; [by eexists|discriminate]. Qed.
End Validate.

(** ** What a successful start guarantees *)

Ltac in_schema := apply list_elem_of_In; cbn; repeat (first [left; reflexivity | right]).

Lemma schema_names_nodup : NoDup (k_name <$> envVarsSchema).
Proof. apply (bool_decide_unpack _). vm_compute. exact I. Qed.

(** The required keys are strings, and no allowed-value list holds the
    empty string. *)
Lemma schema_required_strings :
  Forall (fun ks => k_required ks = true -> k_type ks = JString /\ "" ∉ k_valid ks) envVarsSchema.
Proof.
  repeat (constructor; [cbn; intros Hr; first [discriminate | split; [reflexivity | set_solver]]|]).
  constructor.
Qed.

Section Loaded.
Context (joi_number : string -> res string Q).

Lemma key_value e vs ks :
  validate_env joi_number e = Ok vs -> ks ∈ envVarsSchema ->
  exists v, validate_key joi_number ks (env_get (k_name ks) e) = Ok v /\
            var_str (k_name ks) vs = match v with Some (VStr s) => Some s | _ => None end.
Proof.
  intros H Hks. destruct (validate_keys_find joi_number _ e vs ks H schema_names_nodup Hks) as (v & Hv & Hf).
  exists v. split; [done|]. unfold var_str. by rewrite Hf.
Qed.

(** A string key without default and without allowed values holds, once
    validated, a value at least [min] long. *)
Lemma string_key_min e vs ks n s :
  validate_env joi_number e = Ok vs -> ks ∈ envVarsSchema -> k_type ks = JString ->
  k_valid ks = [] -> k_default ks = None -> k_min ks = Some n ->
  var_str (k_name ks) vs = Some s -> (n <= js_length s)%nat.
Proof.
  intros H Hks Ht Hv Hd Hm Hs. destruct (key_value e vs ks H Hks) as (v & Hk & Hvs).
  destruct (env_get (k_name ks) e) as [s'|] eqn:E.
  - destruct (validate_key_string joi_number ks s' v Hk Ht) as (-> & _ & _ & Hmin).
    rewrite Hs in Hvs. injection Hvs as ->. by apply Hmin.
  - unfold validate_key in Hk. destruct (k_required ks); [discriminate|].
    injection Hk as <-. rewrite Hd in Hvs. congruence.
Qed.

(** A required string key holds a string once validated. *)
Lemma required_key_str e vs ks :
  validate_env joi_number e = Ok vs -> ks ∈ envVarsSchema -> k_required ks = true -> k_type ks = JString ->
  exists s, var_str (k_name ks) vs = Some s.
Proof.
  intros H Hks Hr Ht. destruct (key_value e vs ks H Hks) as (v & Hk & Hvs).
  destruct (validate_key_required joi_number _ _ v Hk Hr) as [s Hs]. rewrite Hs in Hk.
  destruct (validate_key_string joi_number _ s v Hk Ht) as (-> & _). by exists s.
Qed.

(** C7: the process starts only with a complete and well-formed
    environment: when [config.ts] loads, every required variable is set
    and not empty, [NODE_ENV] is [production], [development] or [test],
    the cookie and JWT secrets are at least 32 characters long, and so is
    the HMAC secret when it is set. *)
Theorem load_config_sound e c :
  load_config joi_number e = Ok c ->
  (forall ks, ks ∈ envVarsSchema -> k_required ks = true ->
     exists s, env_get (k_name ks) e = Some s /\ s <> "") /\
  c_env c ∈ ["production"; "development"; "test"] /\
  (32 <= js_length (c_cookieSecret c))%nat /\ (32 <= js_length (c_jwtSecret c))%nat /\
  (forall h, c_hmacSecret c = Some h -> (32 <= js_length h)%nat).
Proof.
  unfold load_config. destruct (validate_env joi_number e) as [vs|] eqn:H; [|discriminate].
  intros [= <-]. split_and!.
  - intros ks Hks Hr. destruct (key_value e vs ks H Hks) as (v & Hk & _).
    destruct (validate_key_required joi_number ks _ v Hk Hr) as [s Hs]. exists s. split; [done|].
    pose proof (proj1 (Forall_forall _ _) schema_required_strings ks Hks Hr) as [Ht Hnil].
    rewrite Hs in Hk. destruct (validate_key_string joi_number ks s v Hk Ht) as (_ & [Hne|Hin] & _); [done|].
    intros ->. contradiction.
  - assert (mkKey "NODE_ENV" JString true None None ["production"; "development"; "test"] ∈ envVarsSchema) as Hks
      by in_schema.
    destruct (key_value e vs _ H Hks) as (v & Hk & Hvs). cbn [k_name] in *.
    destruct (validate_key_required joi_number _ _ v Hk eq_refl) as [s Hs]. rewrite Hs in Hk.
    destruct (validate_key_string joi_number _ s v Hk eq_refl) as (-> & _ & Hin & _).
    cbn. rewrite Hvs. cbn. by apply Hin.
  - destruct (required_key_str e vs (mkKey "COOKIE_SECRET" JString true None (Some 32%nat) []) H
                ltac:(in_schema) eq_refl eq_refl) as [s Hs]. cbn [k_name] in Hs.
    cbn. rewrite Hs. eapply (string_key_min e vs (mkKey "COOKIE_SECRET" JString true None (Some 32%nat) []));
      first [done | in_schema].
  - destruct (required_key_str e vs (mkKey "JWT_SECRET" JString true None (Some 32%nat) []) H
                ltac:(in_schema) eq_refl eq_refl) as [s Hs]. cbn [k_name] in Hs.
    cbn. rewrite Hs. eapply (string_key_min e vs (mkKey "JWT_SECRET" JString true None (Some 32%nat) []));
      first [done | in_schema].
  - intros h Hh. eapply (string_key_min e vs (mkKey "HMAC_SECRET" JString false None (Some 32%nat) []));
      first [done | in_schema].
Qed.

(** A missing required variable stops the start. *)
Lemma load_config_missing e ks :
  ks ∈ envVarsSchema -> k_required ks = true -> env_get (k_name ks) e = None ->
  exists m, load_config joi_number e = Throw m.
Proof.
  intros Hks Hr He. unfold load_config, validate_env.
  destruct (validate_keys_throw joi_number envVarsSchema e ks (label (k_name ks) ++ " is required")%string Hks)
    as [m ->]; [by rewrite He; unfold validate_key; rewrite Hr|]. by eexists.
Qed.

(** An optional key without default that the environment does not set
    is not among the validated values. *)
Lemma optional_absent e vs ks :
  validate_env joi_number e = Ok vs -> ks ∈ envVarsSchema -> k_required ks = false ->
  k_default ks = None -> env_get (k_name ks) e = None ->
  List.find (fun kv => String.eqb kv.1 (k_name ks)) vs = None.
Proof.
  intros H Hks Hr Hd He.
  destruct (validate_keys_find joi_number _ e vs ks H schema_names_nodup Hks) as (v & Hv & Hf).
  rewrite He in Hv. unfold validate_key in Hv. rewrite Hr, Hd in Hv. injection Hv as <-.
  by destruct (List.find _ vs).
Qed.

Definition no_default (ks : keyspec) : bool := match k_default ks with None => true | Some _ => false end.

(** The names [rm] are keys of the schema, each optional and without a
    default. *)
Definition optional_keys (rm : list string) : bool :=
  forallb (fun ks => negb (bool_decide (k_name ks ∈ rm)) || (negb (k_required ks) && no_default ks))
    envVarsSchema &&
  forallb (fun k => bool_decide (k ∈ k_name <$> envVarsSchema)) rm.

(** Optional keys are not needed to start: removing any of them from an
    environment that loads still loads, and none of them is among the
    validated values. *)
Lemma load_without_optional e c rm :
  load_config joi_number e = Ok c -> optional_keys rm = true ->
  exists vs, validate_env joi_number (env_remove_all rm e) = Ok vs /\
    forall k, k ∈ rm -> List.find (fun kv => String.eqb kv.1 k) vs = None.
Proof.
  unfold load_config. destruct (validate_env joi_number e) as [vs|] eqn:H; [|discriminate].
  intros _ [Hopt Hrm]%andb_prop.
  assert (Hk : forall ks, ks ∈ envVarsSchema -> k_name ks ∈ rm ->
                 k_required ks = false /\ k_default ks = None).
  { intros ks Hks Hin. apply list_elem_of_In in Hks.
    pose proof (proj1 (forallb_forall _ _) Hopt ks Hks) as Hb. cbv beta in Hb. revert Hb.
    case_bool_decide; [|contradiction]. cbn. intros [Hr Hd]%andb_prop. apply negb_true_iff in Hr. unfold no_default in Hd.
    by destruct (k_default ks). }
  destruct (validate_keys_ok joi_number envVarsSchema (env_remove_all rm e)) as [vs' Hvs'].
  { intros ks Hks. destruct (decide (k_name ks ∈ rm)) as [Hin|Hout].
    - rewrite env_get_remove_all_in by exact Hin. destruct (Hk ks Hks Hin) as [Hr Hd].
      unfold validate_key. rewrite Hr, Hd. by eexists.
    - rewrite env_get_remove_all_out by exact Hout.
      destruct (key_value e vs ks H Hks) as (v & Hv & _). by exists v. }
  exists vs'. split; [exact Hvs'|]. intros k Hin.
  pose proof (proj1 (forallb_forall _ _) Hrm k (proj1 (list_elem_of_In _ _) Hin)) as Hs.
  apply bool_decide_eq_true_1, list_elem_of_fmap in Hs as (ks & -> & Hks).
  destruct (Hk ks Hks Hin) as [Hr Hd].
  exact (optional_absent _ vs' ks Hvs' Hks Hr Hd (env_get_remove_all_in _ _ _ Hin)).
Qed.

(** The HMAC secret and the lifetime of API keys are not required:
    whenever the process starts, it also starts with both variables
    unset, and then [config.apiKey.hmacSecret] and
    [config.apiKey.expiresInDays] are [undefined], so no configuration of
    the API-key handlers exists. *)
Theorem optional_secrets_not_required e c :
  load_config joi_number e = Ok c ->
  exists c', load_config joi_number (env_remove "HMAC_SECRET" (env_remove "APIKEY_EXPIRES_IN_DAYS" e)) = Ok c' /\
    c_hmacSecret c' = None /\ c_apiKeyExpiresInDays c' = None /\
    forall expires_secs, model_config expires_secs c' = None.
Proof.
  intros Hc.
  destruct (load_without_optional e c ["HMAC_SECRET"; "APIKEY_EXPIRES_IN_DAYS"] Hc) as (vs & Hvs & Habs);
    [vm_compute; reflexivity|].
  unfold env_remove_all in Hvs. cbn [foldr] in Hvs. unfold load_config. rewrite Hvs.
  eexists. split; [reflexivity|].
  cbn [c_hmacSecret c_apiKeyExpiresInDays config_of]. unfold var_str, var_num.
  rewrite (Habs "HMAC_SECRET"), (Habs "APIKEY_EXPIRES_IN_DAYS") by set_solver.
  split_and!; [done|done|]. intros ms. unfold model_config. cbn. unfold var_str.
  rewrite (Habs "HMAC_SECRET") by set_solver. by repeat case_match.
Qed.
End Loaded.

Module ConfigFixture.
(** Joi's number conversion on the decimal strings of the fixture. *)
Definition jn0 (s : string) : res string Q :=
  match string_to_number s with Fin q => Ok q | _ => Throw "must be a number" end.

Definition secret32 : string := "0123456789abcdef0123456789abcdef".

Definition env0 : Env := [
  ("NODE_ENV", "production"); ("HOSTNAME", "0.0.0.0"); ("PORT", "3000");
  ("CLIENT_STAFF_APP_URL", "https://staff.example"); ("COOKIE_SECRET", secret32);
  ("MONGODB_URL", "mongodb://db/oasis"); ("SUPABASE_PROJECT_URL", "https://p.supabase.co");
  ("SUPABASE_ANON_KEY", "anon"); ("SUPABASE_STORAGE_ADDRESS", "https://p.supabase.co/storage");
  ("JWT_SECRET", secret32); ("APIKEY_EXPIRES_IN_DAYS", "30"); ("HMAC_SECRET", secret32);
  ("PATH", "/usr/bin")].

Definition c0 : ConfigObj :=
  match load_config jn0 env0 with Ok c => c | Throw _ => config_of [] end.

Lemma load_config_sound_witness :
  load_config jn0 env0 = Ok c0 /\
  ((forall ks, ks ∈ envVarsSchema -> k_required ks = true ->
      exists s, env_get (k_name ks) env0 = Some s /\ s <> "") /\
   c_env c0 ∈ ["production"; "development"; "test"] /\
   (32 <= js_length (c_cookieSecret c0))%nat /\ (32 <= js_length (c_jwtSecret c0))%nat /\
   (forall h, c_hmacSecret c0 = Some h -> (32 <= js_length h)%nat)).
Proof.
  assert (load_config jn0 env0 = Ok c0) as H by (vm_compute; reflexivity).
  split; [exact H | exact (load_config_sound jn0 env0 c0 H)].
Defined.

Lemma optional_secrets_not_required_witness :
  load_config jn0 env0 = Ok c0 /\
  exists c', load_config jn0 (env_remove "HMAC_SECRET" (env_remove "APIKEY_EXPIRES_IN_DAYS" env0)) = Ok c' /\
    c_hmacSecret c' = None /\ c_apiKeyExpiresInDays c' = None /\
    forall expires_secs, model_config expires_secs c' = None.
Proof.
  assert (load_config jn0 env0 = Ok c0) as H by (vm_compute; reflexivity).
  split; [exact H | exact (optional_secrets_not_required jn0 env0 c0 H)].
Defined.

(** The defaults fill the lifetimes; with the API-key variables set, the
    handlers' configuration exists. *)
Example defaults_applied :
  (c_port c0, c_jwtAccessExpiration c0, c_jwtCookieExpiration c0, c_resetExpiresInMins c0,
   c_verifyExpiresInHrs c0) = (3000%Q, "90d", 90%Q, 10%Q, 24%Q) /\
  model_config (fun s => if String.eqb s "90d" then Some (90 * 86400) else None) c0 =
    Some {| jwtExpiresInSecs := 7776000; cookieExpiresDays := 90; resetExpiresMins := 10;
            verifyExpiresHrs := 24; staffAppUrl := "https://staff.example"; apiKeyExpiresDays := 30;
            hmacSecret := secret32 |}.
Proof. vm_compute. split; reflexivity. Qed.

(** The first error in the order of the schema stops the start: a short
    cookie secret is reported, not the missing JWT secret after it. *)
Example short_cookie_secret :
  load_config jn0 ((("COOKIE_SECRET", "short") :: env_remove "COOKIE_SECRET" (env_remove "JWT_SECRET" env0))) =
    Throw ("Config validation error: " ++ label "COOKIE_SECRET" ++ " length must be at least 32 characters long")%string.
Proof. vm_compute. reflexivity. Qed.

Example missing_jwt_secret :
  load_config jn0 (env_remove "JWT_SECRET" env0) =
    Throw ("Config validation error: " ++ label "JWT_SECRET" ++ " is required")%string.
Proof. vm_compute. reflexivity. Qed.
End ConfigFixture.
