(* ===== verification/App.v ===== *)
(** * The application ([src/src/app.ts], [src/src/utils/xssSanitize.ts])

    [createApp] stacks the middleware every request runs through before
    the routers of [routes.ts]: the rate limiter, the JSON body parser,
    the two sanitizers, the parameter-pollution filter, the routers
    mounted at [/api/v1], the catch-all 404 and the global error handler.
    This file models the stages that change the request or end it, in
    the order of [createApp], and the per-client state of the limiter:

    - [mongo_sanitize_q]/[mongo_sanitize_j]: [mongoSanitize()] deletes
      every key that begins with [$] or contains [.], at every depth;
    - [sanitizeInput_q]/[sanitizeInput_j]: [sanitizeInput] of
      [xssSanitize.ts], [xss] on every string value (the [xss] library is
      a parameter);
    - [hpp]: a repeated query parameter keeps its last value unless its
      name is on the whitelist of [app.ts];
    - [limiter]: [express-rate-limit]'s memory store, a fixed window of
      15 minutes per client address with its own reset time;
    - [json_body]: [express.json({limit: '10kb'})];
    - [app_handle]: the whole stack, the routers' work a parameter.

    Helmet, CORS, the logger of [morgan.ts], cookie-parser and
    compression change only headers or the response's encoding and are
    not modelled. *)

From S2P Require Import Prelude JsValue AppError QueryJson APIFeatures ErrorController Routes.

Local Open Scope Z_scope.

(** ** [mongoSanitize()] *)

(** The key test of express-mongo-sanitize: [/^\$|\./]. *)
Definition bad_key (k : string) : bool :=
  js_starts_with "$" k || js_includes_char "."%char k.

(** The library's [withEach] walk: an array's elements are visited, an
    object's keys are tested, a matching key is deleted (and not visited),
    any other value is visited. *)
Fixpoint mongo_sanitize_q (v : qval) : qval :=
  match v with
  | QStr s => QStr s
  | QArr l => QArr (map mongo_sanitize_q l)
  | QObj kvs => QObj (List.filter (fun kv => negb (bad_key kv.1))
                        (map (fun kv => (kv.1, mongo_sanitize_q kv.2)) kvs))
  end.

Fixpoint mongo_sanitize_j (v : json) : json :=
  match v with
  | JArr l => JArr (map mongo_sanitize_j l)
  | JObj kvs => JObj (List.filter (fun kv => negb (bad_key kv.1))
                        (map (fun kv => (kv.1, mongo_sanitize_j kv.2)) kvs))
  | v => v
  end.

(** ** [xssSanitize()] *)
Section Xss.
Context (xss : string -> string).

(** [sanitizeInput]: [xss] on a string, every property of an object or
    array replaced by its sanitized value, anything else as it is. *)
Fixpoint sanitizeInput_q (v : qval) : qval :=
  match v with
  | QStr s => QStr (xss s)
  | QArr l => QArr (map sanitizeInput_q l)
  | QObj kvs => QObj (map (fun kv => (kv.1, sanitizeInput_q kv.2)) kvs)
  end.

Fixpoint sanitizeInput_j (v : json) : json :=
  match v with
  | JStr s => JStr (xss s)
  | JArr l => JArr (map sanitizeInput_j l)
  | JObj kvs => JObj (map (fun kv => (kv.1, sanitizeInput_j kv.2)) kvs)
  | v => v
  end.
End Xss.

(** ** [hpp({whitelist})] *)

Definition hpp_whitelist : list string :=
  ["numNights"; "numGuests"; "cabinPrice"; "extrasPrice"; "totalPrice"; "status";
   "name"; "maxCapacity"; "regularPrice"; "discount"].

(** A top-level array of the query string is replaced by its last element
    ([value[value.length - 1]]); an empty one by [undefined], which no
    later stage tells apart from an absent key. *)
Definition hpp (qs : list (string * qval)) : list (string * qval) :=
  omap (fun kv =>
          match kv.2 with
          | QArr l => if bool_decide (kv.1 ∈ hpp_whitelist) then Some kv
                      else (fun v => (kv.1, v)) <$> last l
          | _ => Some kv
          end) qs.

(** The properties of an object; anything else has none that a later
    stage reads. *)
Definition as_obj (v : qval) : list (string * qval) :=
  match v with QObj kvs => kvs | _ => [] end.

(** The query string after the three stages, in the order of [createApp]. *)
Definition sanitize_query (xss : string -> string) (qs : list (string * qval))
  : list (string * qval) :=
  hpp (as_obj (sanitizeInput_q xss (mongo_sanitize_q (QObj qs)))).

(** The object [filter()] stringifies: the query string without the
    reserved keys. *)
Definition query_obj (qs : list (string * qval)) : list (string * qval) :=
  List.filter (fun kv => negb (bool_decide (kv.1 ∈ excludedFields))) qs.

(** ** Keys of a query value *)

(** Every key of [v], at every depth, satisfies [p]. *)
Fixpoint qkeys_all (p : string -> bool) (v : qval) : bool :=
  match v with
  | QStr _ => true
  | QArr l => forallb (qkeys_all p) l
  | QObj kvs => forallb (fun kv => p kv.1 && qkeys_all p kv.2) kvs
  end.

(** A key that MongoDB reads as an operator is one of the comparisons
    [filter()] writes, [$gte], [$gt], [$lte] or [$lt], followed by the end
    of the key or a character that is not a word character. *)
Definition operator_ok (l : list ascii) : bool :=
  match l with
  | "$"%char :: r => existsb (fun m => match strip_prefix m r with
                                       | Some t => boundary_after t
                                       | None => false
                                       end) ops
  | _ => true
  end.

Definition cmp_key (k : string) : bool := operator_ok (String.list_ascii_of_string k).

(** ** The keys the sanitizers leave *)

Lemma qkeys_all_impl (p p' : string -> bool) v :
  (forall k, p k = true -> p' k = true) -> qkeys_all p v = true -> qkeys_all p' v = true.
Proof.
  intros Hp. induction v as [s|l IH|kvs IH] using qval_ind'; simpl; [done| |].
  - rewrite !forallb_forall. intros H v Hv. rewrite List.Forall_forall in IH. auto.
  - rewrite !forallb_forall. intros H kv Hkv. rewrite List.Forall_forall in IH.
    pose proof (H kv Hkv) as Hb. apply andb_prop in Hb as [H1 H2].
    rewrite (Hp _ H1), (IH kv Hkv H2). done.
Qed.

Lemma qkeys_all_filter p (g : string * qval -> bool) kvs :
  qkeys_all p (QObj kvs) = true -> qkeys_all p (QObj (List.filter g kvs)) = true.
Proof.
  simpl. rewrite !forallb_forall. intros H kv Hkv. apply filter_In in Hkv as [Hkv _]. auto.
Qed.

(** [mongoSanitize()] leaves no key that begins with [$] or contains [.]. *)
Lemma mongo_sanitize_q_keys v : qkeys_all (fun k => negb (bad_key k)) (mongo_sanitize_q v) = true.
Proof.
  induction v as [s|l IH|kvs IH] using qval_ind'; simpl; [done| |].
  - apply forallb_forall. intros w Hw. apply in_map_iff in Hw as (v & <- & Hv).
    rewrite List.Forall_forall in IH. auto.
  - apply forallb_forall. intros kv' Hkv. apply filter_In in Hkv as [Hkv Hb].
    apply in_map_iff in Hkv as (kv & <- & Hkv). rewrite List.Forall_forall in IH.
    simpl in *. rewrite Hb, (IH kv Hkv). done.
Qed.

(** [sanitizeInput] changes values, never keys. *)
Lemma sanitizeInput_q_keys xss p v : qkeys_all p (sanitizeInput_q xss v) = qkeys_all p v.
Proof.
  induction v as [s|l IH|kvs IH] using qval_ind'; simpl; [done| |].
  - induction IH as [|v l Hv _ IHl]; simpl; [done|]. rewrite Hv, IHl. done.
  - induction IH as [|kv kvs Hkv _ IHk]; simpl; [done|]. rewrite Hkv, IHk. done.
Qed.

Lemma hpp_keys p qs : qkeys_all p (QObj qs) = true -> qkeys_all p (QObj (hpp qs)) = true.
Proof.
  simpl. rewrite !forallb_forall. intros H kv' Hkv. unfold hpp in Hkv.
  apply list_elem_of_In, list_elem_of_omap in Hkv as (kv & Hkv & E).
  apply list_elem_of_In, H in Hkv. apply andb_prop in Hkv as [H1 H2].
  destruct kv as [k [s|l|kvs]]; cbn [fst snd] in *; try (injection E as <-; cbn [fst snd]; rewrite H1, H2; done).
  destruct (bool_decide _); [injection E as <-; cbn [fst snd]; rewrite H1, H2; done|].
  destruct (last l) as [v|] eqn:El; [|discriminate]. injection E as <-. simpl.
  rewrite H1. simpl in H2. rewrite forallb_forall in H2. apply H2. apply last_Some_elem_of, list_elem_of_In in El.
  exact El.
Qed.

(** The keys of the rewritten value are the rewritten keys. *)
Lemma qmap_keys p f v : qkeys_all p (qmap f v) = qkeys_all (fun k => p (f k)) v.
Proof.
  induction v as [s|l IH|kvs IH] using qval_ind'; simpl; [done| |].
  - induction IH as [|v l Hv _ IHl]; simpl; [done|]. rewrite Hv, IHl. done.
  - induction IH as [|kv kvs Hkv _ IHk]; simpl; [done|]. rewrite Hkv, IHk. done.
Qed.

Lemma obj_set_keys p k v acc :
  qkeys_all p (QObj acc) = true -> p k = true -> qkeys_all p v = true ->
  qkeys_all p (QObj (obj_set k v acc)) = true.
Proof.
  induction acc as [|[k' v'] acc IH]; simpl; intros Ha Hk Hv; [rewrite Hk, Hv; done|].
  apply andb_prop in Ha as [Ha Hr]. destruct (String.eqb k k'); simpl; [rewrite Hk, Hv; done|].
  rewrite Ha. simpl. exact (IH Hr Hk Hv).
Qed.

Lemma merge_conditions_keys p old new :
  qkeys_all p (QObj old) = true -> qkeys_all p (QObj new) = true ->
  qkeys_all p (QObj (merge_conditions old new)) = true.
Proof.
  unfold merge_conditions. revert old. induction new as [|[k v] new IH]; intros old Ho Hn; [done|].
  simpl in Hn. apply andb_prop in Hn as [Hkv Hn]. apply andb_prop in Hkv as [Hk Hv].
  apply IH; [apply obj_set_keys|]; done.
Qed.

(** ** The operators of a sanitized filter *)

Lemma match_alt_boundary alts l m rest :
  match_alt alts l = Some (m, rest) -> boundary_after rest = true.
Proof.
  induction alts as [|a alts IH]; simpl; [discriminate|].
  destruct (strip_prefix a l) as [r|]; [|exact IH].
  destruct (boundary_after r) eqn:Hb; [|exact IH]. intros H. injection H as _ <-. exact Hb.
Qed.

(** The scan after a match starts at a boundary and copies the first
    character. *)
Lemma rw_true_boundary rest : boundary_after (rw true rest) = boundary_after rest.
Proof. destruct rest as [|c r]; [reflexivity|]. rewrite rw_cons. reflexivity. Qed.

(** The replace makes a [$] at the head of a text that has none only by
    prefixing a whole comparison word. *)
Lemma rw_operator_ok l : hd_error l <> Some "$"%char -> operator_ok (rw false l) = true.
Proof.
  intros Hl. destruct l as [|c r]; [reflexivity|]. rewrite rw_cons.
  destruct (match_alt ops (c :: r)) as [[m rest]|] eqn:E.
  - destruct (match_alt_some _ _ _ _ E) as [Hm _]. apply existsb_exists. exists m.
    rewrite strip_prefix_app, rw_true_boundary. split; [exact Hm|exact (match_alt_boundary _ _ _ _ E)].
  - destruct (Ascii.eqb_spec c "$") as [->|Hc]; [done|].
    unfold operator_ok. destruct c as [[] [] [] [] [] [] [] []]; done.
Qed.

Lemma cmp_key_rw k : bad_key k = false -> cmp_key (rw_string k) = true.
Proof.
  intros Hk. unfold cmp_key, rw_string. rewrite String.list_ascii_of_string_of_list_ascii.
  apply rw_operator_ok. destruct k as [|c k]; [done|]. simpl.
  apply orb_false_iff in Hk as [Hk _]. unfold js_starts_with in Hk.
  intros E. injection E as ->. destruct k; discriminate Hk.
Qed.

Lemma as_obj_keys p v : qkeys_all p v = true -> qkeys_all p (QObj (as_obj v)) = true.
Proof. destruct v; done. Qed.

(** C13: no operator reaches MongoDB through the query string but the
    comparisons [filter()] writes.  Whatever the client sends, after
    [mongoSanitize()], [xssSanitize()] and [hpp] a list request's
    [filter()] succeeds on a query string that [JSON.stringify] writes
    plainly, and every key of the conditions it builds, at every depth,
    that begins with [$] is [$gte], [$gt], [$lte] or [$lt] followed by the
    end of the key or a character that is not a word character. *)
Theorem sanitized_filter_operators xss qs :
  let qs' := sanitize_query xss qs in
  all_plain (QObj (query_obj qs')) = true -> canon (qmap rw_string (QObj (query_obj qs'))) = true ->
  exists f, filter {| query := empty_query; queryString := qs' |} = Ok f /\
            qkeys_all cmp_key (QObj (conditions (query f))) = true.
Proof.
  intros qs' Hp Hc. eexists. split; [exact (filter_spec {| query := empty_query; queryString := qs' |} Hp Hc)|].
  apply merge_conditions_keys; [done|].
  change (qkeys_all cmp_key (qmap rw_string (QObj (query_obj qs'))) = true).
  rewrite qmap_keys. apply (qkeys_all_impl (fun k => negb (bad_key k))).
  { intros k Hk. apply cmp_key_rw. by apply negb_true_iff. }
  apply qkeys_all_filter, hpp_keys, as_obj_keys. rewrite sanitizeInput_q_keys.
  apply mongo_sanitize_q_keys.
Qed.

(** ** [rateLimit({windowMs: 15 min, limit: 100})] *)

(** A client of express-rate-limit's [MemoryStore]: its hits in the
    current window and the window's end. *)
Record Client := mkClient { totalHits : nat; resetTime : Z }.

Definition windowMs : Z := 15 * 60 * 1000.
Definition limit : nat := 100.

(** The store's clients by key.  The store moves its clients between two
    maps every [windowMs] and drops the expired ones; a dropped client
    and an expired one are both reset on their next hit, so one map
    keyed by client address is the same store. *)
Abbreviation LStore := (gmap string Client).

(** [MemoryStore.increment]: [getClient] (a new client's window starts
    now), the reset of an expired window ([resetTime <= now]), the hit. *)
Definition increment (key : string) (now : Z) (st : LStore) : LStore * Client :=
  let c := match st !! key with Some c => c | None => mkClient 0 (now + windowMs) end in
  let c := if resetTime c <=? now then mkClient 0 (now + windowMs) else c in
  let c' := mkClient (S (totalHits c)) (resetTime c) in
  (<[key := c']> st, c').

Definition allowlist : list string := [].

(** [skip]: [if (!req.ip) return false; return allowlist.includes(req.ip)]. *)
Definition skip (ip : string) : bool :=
  if String.eqb ip "" then false else bool_decide (ip ∈ allowlist).

(** The middleware: a skipped request passes untouched; otherwise the
    client's hit is counted and the request passes while [totalHits]
    is at most [limit]. *)
Definition limiter (ip : string) (now : Z) (st : LStore) : LStore * bool :=
  if skip ip then (st, true)
  else let '(st', c) := increment ip now st in (st', Nat.leb (totalHits c) limit).

(** The default [handler] of a limited request. *)
Definition too_many : outcome :=
  Respond 429 (JStr "Too many requests, please try again later.").

(** The requests of [ip] a sequence of requests (client address, time)
    lets through. *)
Fixpoint passes (ip : string) (rs : list (string * Z)) (st : LStore) : nat :=
  match rs with
  | [] => 0
  | (ip', t) :: rs' =>
      let '(st', ok) := limiter ip' t st in
      (if String.eqb ip' ip && ok then 1 else 0) + passes ip rs' st'
  end.

(** The allowlist is empty: no request is skipped. *)
Lemma skip_false ip : skip ip = false.
Proof. unfold skip. destruct (String.eqb ip ""); [done|]. apply bool_decide_eq_false. set_solver. Qed.

(** A hit inside the client's window counts. *)
Lemma limiter_window ip t st c :
  st !! ip = Some c -> t < resetTime c ->
  limiter ip t st = (<[ip := mkClient (S (totalHits c)) (resetTime c)]> st,
                     Nat.leb (S (totalHits c)) limit).
Proof.
  intros Hc Ht. unfold limiter, increment. rewrite skip_false, Hc.
  destruct (Z.leb_spec (resetTime c) t); [lia|]. reflexivity.
Qed.

(** A first hit, or a hit after the window ended, opens a new window of
    [windowMs] from now and passes. *)
Lemma limiter_reset ip t st :
  match st !! ip with Some c => resetTime c <= t | None => True end ->
  limiter ip t st = (<[ip := mkClient 1 (t + windowMs)]> st, true).
Proof.
  intros Hc. unfold limiter, increment. rewrite skip_false.
  destruct (st !! ip) as [c|]; [destruct (Z.leb_spec (resetTime c) t); [reflexivity|lia]|].
  cbn. destruct (Z.leb_spec (t + windowMs) t); [unfold windowMs in *; lia|reflexivity].
Qed.

(** The clients are independent. *)
Lemma limiter_other ip' ip t st : ip' <> ip -> (limiter ip' t st).1 !! ip = st !! ip.
Proof.
  intros Hne. unfold limiter. rewrite skip_false.
  destruct (increment ip' t st) as [st' c] eqn:E. unfold increment in E. injection E as <- _.
  cbn [fst]. by apply lookup_insert_ne.
Qed.

Lemma passes_other ip ip' t rs st :
  ip' <> ip -> passes ip ((ip', t) :: rs) st = passes ip rs (limiter ip' t st).1.
Proof.
  intros Hne. cbn [passes]. destruct (limiter ip' t st) as [st' ok].
  destruct (String.eqb_spec ip' ip); [done|]. reflexivity.
Qed.

(** Inside one window a client gets at most [limit] requests through,
    less the hits it already has. *)
Lemma window_budget ip rs : forall st c,
  st !! ip = Some c -> Forall (fun r => r.1 = ip -> r.2 < resetTime c) rs ->
  (passes ip rs st <= limit - totalHits c)%nat.
Proof.
  induction rs as [|[ip' t] rs IH]; intros st c Hc Hrs; [simpl; lia|].
  apply Forall_cons in Hrs as [Ht Hrs]. destruct (decide (ip' = ip)) as [->|Hne].
  - cbn [passes]. rewrite (limiter_window ip t st c Hc (Ht eq_refl)), String.eqb_refl.
    cbn [andb]. eapply Nat.le_trans.
    { apply Nat.add_le_mono_l, (IH _ (mkClient (S (totalHits c)) (resetTime c))); [|exact Hrs].
      apply lookup_insert_eq. }
    cbn [totalHits]. destruct (Nat.leb_spec (S (totalHits c)) limit); lia.
  - rewrite passes_other by exact Hne. apply IH; [by rewrite limiter_other|exact Hrs].
Qed.

(** A new window opened inside the span lasts past its end. *)
Lemma passes_reset ip t t0 rs st :
  t0 <= t -> Forall (fun r => r.1 = ip -> t0 <= r.2 < t0 + windowMs) rs ->
  (1 + passes ip rs (<[ip := mkClient 1 (t + windowMs)]> st) <= limit)%nat.
Proof.
  intros Ht Hrs. enough (passes ip rs (<[ip := mkClient 1 (t + windowMs)]> st) <= limit - 1)%nat
    by (unfold limit in *; lia).
  apply (window_budget _ _ _ (mkClient 1 (t + windowMs))); [apply lookup_insert_eq|].
  eapply Forall_impl; [exact Hrs|]. cbn. intros r Hr E. specialize (Hr E). lia.
Qed.

(** The requests a client can still get through: the rest of its current
    window's budget and, once, a whole new window. *)
Lemma two_windows ip t0 rs : forall st,
  Forall (fun r => r.1 = ip -> t0 <= r.2 < t0 + windowMs) rs ->
  (passes ip rs st <= limit + match st !! ip with Some c => limit - totalHits c | None => limit end)%nat.
Proof.
  induction rs as [|[ip' t] rs IH]; intros st Hrs; [simpl; lia|].
  apply Forall_cons in Hrs as [Ht Hrs]. destruct (decide (ip' = ip)) as [->|Hne].
  - specialize (Ht eq_refl). cbn [fst snd] in Ht. cbn [passes].
    destruct (st !! ip) as [c|] eqn:Hc; [destruct (Z.lt_ge_cases t (resetTime c)) as [Hw|Hr]|].
    + rewrite (limiter_window ip t st c Hc Hw), String.eqb_refl. cbn [andb].
      eapply Nat.le_trans; [apply Nat.add_le_mono_l, (IH _ Hrs)|].
      rewrite lookup_insert_eq. cbn [totalHits].
      destruct (Nat.leb_spec (S (totalHits c)) limit); lia.
    + rewrite limiter_reset by (rewrite Hc; lia). rewrite String.eqb_refl.
      pose proof (passes_reset ip t t0 rs st (proj1 Ht) Hrs). cbn [andb]. lia.
    + rewrite limiter_reset by (rewrite Hc; done). rewrite String.eqb_refl.
      pose proof (passes_reset ip t t0 rs st (proj1 Ht) Hrs). cbn [andb]. lia.
  - rewrite passes_other by exact Hne. rewrite <- (limiter_other ip' ip t st Hne). apply IH, Hrs.
Qed.

(** C35: the rate limiter is a fixed window per client, not a sliding
    one: over any span of [windowMs] (15 minutes) a client address gets
    at most [2 * limit] = 200 requests through, whatever the store held
    before and whatever the other clients do (and [limit] is reached:
    see [limiter_burst]). *)
Theorem limiter_span_bound ip t0 rs st :
  Forall (fun r => r.1 = ip -> t0 <= r.2 < t0 + windowMs) rs ->
  (passes ip rs st <= 2 * limit)%nat.
Proof.
  intros Hrs. eapply Nat.le_trans; [exact (two_windows ip t0 rs st Hrs)|].
  destruct (st !! ip); lia.
Qed.

(** ** [express.json({limit: '10kb'})] *)

(** The body of a request as the parser sees it: none (or not of type
    [application/json]), or a JSON body of [length] bytes whose strict
    [JSON.parse] gave a value or failed with a message. *)
Inductive body_in :=
| NoBody
| JsonBody (length : Z) (parsed : res string json).

Definition body_limit : Z := 10 * 1024.

(** The parser: a body over the limit is refused with the [http-errors]
    413 before it is read; a text that does not parse is a 400 carrying
    the message of [JSON.parse].  No body leaves [req.body] empty. *)
Definition json_body (b : body_in) : res js_error (option json) :=
  match b with
  | NoBody => Ok None
  | JsonBody len p =>
      if body_limit <? len then Throw (EHttp 413 "request entity too large")
      else match p with
           | Ok j => Ok (Some j)
           | Throw m => Throw (EHttp 400 m)
           end
  end.

(** ** [createApp()] *)

(** A request as the stack sees it. *)
Record AppReq := {
  ip : string;                        (** [req.ip] *)
  meth : method;
  originalUrl : string;
  path : list string;                 (** the segments of the path *)
  req_query : list (string * qval);   (** [req.query] as [qs] parsed it *)
  req_body : body_in;
  at_ms : Z                           (** [Date.now()] *)
}.

(** The state of the process: the limiter's clients and the state the
    routers work on. *)
Record AppState {S : Type} := mkApp { lstore : LStore; hstate : S }.
Arguments AppState : clear implicits.
Arguments mkApp {S} lstore hstate.

Section CreateApp.
Context {S : Type} (xss : string -> string) (en : env)
        (lib_message : js_error -> string) (internals : js_error -> json).

(** The routers below [/api/v1]: the route [dispatch] found, run on the
    path, the sanitized query and the sanitized body. *)
Context (run : route -> list string -> list (string * qval) -> option json -> S -> S * outcome).

Definition error_response (e : js_error) : outcome :=
  globalErrorHandler lib_message internals en e.

(** [app.use('*', ...)]: the 404 of a request no route answered. *)
Definition catch_all (q : AppReq) : outcome := error_response (not_found_url (originalUrl q)).

(** What the error middleware makes of the end of a route's chain. *)
Definition finish (q : AppReq) (o : outcome) : outcome :=
  match o with
  | Respond c j => Respond c j
  | NextErr e => error_response e
  | Next => catch_all q
  end.

(** [app.use('/api/v1', routes)]. *)
Definition mounted (q : AppReq) (qs : list (string * qval)) (b : option json) (s : S)
  : S * outcome :=
  match path q with
  | "api" :: "v1" :: p =>
      match dispatch (meth q) p with
      | Some r => let '(s', o) := run r p qs b s in (s', finish q o)
      | None => (s, catch_all q)
      end
  | _ => (s, catch_all q)
  end.

(** [cors({origin: [...], credentials: true})] answers a preflight
    [OPTIONS] request itself: 204, an empty body, whatever the origin (the
    allowed origins only decide the response headers). *)
Definition cors_preflight : outcome := Respond 204 JNull.

(** The stack, stage by stage in the order of [createApp]: [cors]'s
    preflight, the limiter,
    the body parser, [mongoSanitize()], [xssSanitize()], [hpp], the
    routers, the catch-all 404, the error handler.  At this point of the
    stack [req.params] is empty: the sanitizers never see the route
    parameters. *)
Definition app_handle (q : AppReq) (st : AppState S) : AppState S * outcome :=
  if bool_decide (meth q = OPTIONS) then (st, cors_preflight) else
  let '(ls, ok) := limiter (ip q) (at_ms q) (lstore st) in
  if negb ok then (mkApp ls (hstate st), too_many)
  else match json_body (req_body q) with
       | Throw e => (mkApp ls (hstate st), error_response e)
       | Ok b =>
           let b' := sanitizeInput_j xss <$> (mongo_sanitize_j <$> b) in
           let '(s', o) := mounted q (sanitize_query xss (req_query q)) b' (hstate st) in
           (mkApp ls s', o)
       end.
End CreateApp.

Section AppProofs.
Context {S : Type} (xss : string -> string) (lib_message : js_error -> string)
        (internals : js_error -> json)
        (run : route -> list string -> list (string * qval) -> option json -> S -> S * outcome).

Definition something_went_wrong : outcome :=
  Respond 500 (JObj [("status", JStr "error"); ("message", JStr "Something went wrong!")]).

Lemma json_body_error b e : json_body b = Throw e -> exists c m, e = EHttp c m /\ (c = 400 \/ c = 413).
Proof.
  destruct b as [|len [j|m]]; cbn; [discriminate| |]; destruct (body_limit <? len);
    intros H; first [discriminate | injection H as <-; eauto].
Qed.

(** C36: the body parser's errors are not translated: in production a
    body over 10kb or a body that is not JSON answers the generic 500
    "Something went wrong!" (the specification classes malformed input as
    400), in development its own 413 or 400; the routers never run. *)
Theorem json_body_error_prod en q st e :
  meth q <> OPTIONS -> (limiter (ip q) (at_ms q) (lstore st)).2 = true -> json_body (req_body q) = Throw e ->
  app_handle xss Production lib_message internals run q st =
    (mkApp (limiter (ip q) (at_ms q) (lstore st)).1 (hstate st), something_went_wrong) /\
  outcome_code (app_handle xss Development lib_message internals run q st).2 = Some (spec_status e) /\
  (app_handle xss en lib_message internals run q st).1 =
    mkApp (limiter (ip q) (at_ms q) (lstore st)).1 (hstate st).
Proof.
  intros Ho Hl Hb. destruct (json_body_error _ _ Hb) as (c & m & -> & _).
  unfold app_handle. rewrite bool_decide_eq_false_2 by exact Ho. destruct (limiter (ip q) (at_ms q) (lstore st)) as [ls ok].
  cbn in Hl. subst ok. cbn [negb]. rewrite Hb. split_and!; reflexivity.
Qed.

(** C38: the limiter runs first after [cors]: a request over the limit
    that is not a preflight answers 429 whatever its body and path, and
    only the limiter's count changes. *)
Theorem limited_request en q st :
  meth q <> OPTIONS -> (limiter (ip q) (at_ms q) (lstore st)).2 = false ->
  app_handle xss en lib_message internals run q st =
    (mkApp (limiter (ip q) (at_ms q) (lstore st)).1 (hstate st), too_many).
Proof.
  intros Ho Hl. unfold app_handle. rewrite bool_decide_eq_false_2 by exact Ho.
  destruct (limiter (ip q) (at_ms q) (lstore st)) as [ls ok]. cbn in Hl. subst ok. reflexivity.
Qed.

(** [cors] answers every preflight [OPTIONS] request before the limiter:
    204, with the limiter's store and the routers' state as they were, so
    a client's preflights are neither counted nor limited. *)
Lemma preflight_unlimited en q st :
  meth q = OPTIONS -> app_handle xss en lib_message internals run q st = (st, cors_preflight).
Proof. intros Ho. unfold app_handle. by rewrite bool_decide_eq_true_2 by exact Ho. Qed.

(** A path outside [/api/v1] or one no route of the method matches goes
    to the catch-all. *)
Lemma mounted_unmatched en q qs b s :
  (forall p, path q = "api" :: "v1" :: p -> dispatch (meth q) p = None) ->
  mounted en lib_message internals run q qs b s = (s, catch_all en lib_message internals q).
Proof. intros Hp. unfold mounted. repeat case_match; subst; try reflexivity. rewrite Hp in *; congruence. Qed.

(** The mount either answers the catch-all 404 or runs the route that
    [dispatch] finds below [/api/v1]. *)
Lemma mounted_cases en q qs b s :
  mounted en lib_message internals run q qs b s = (s, catch_all en lib_message internals q) \/
  exists p r, path q = "api" :: "v1" :: p /\ dispatch (meth q) p = Some r /\
    mounted en lib_message internals run q qs b s =
      let '(s', o) := run r p qs b s in (s', finish en lib_message internals q o).
Proof.
  unfold mounted. repeat case_match; subst; try (left; reflexivity).
  right. do 2 eexists. split_and!; [reflexivity|eassumption|].
  match goal with H : run _ _ _ _ _ = _ |- _ => by rewrite H end.
Qed.

(** A property of the routers' state that every route keeps holds after
    any request: the stack only hands the state to a route. *)
Lemma app_handle_preserves (P : S -> Prop) en q st :
  (forall r p qs b s, P s -> P (run r p qs b s).1) ->
  P (hstate st) -> P (hstate (app_handle xss en lib_message internals run q st).1).
Proof.
  intros Hrun Hs. unfold app_handle. case_bool_decide; [exact Hs|]. destruct (limiter (ip q) (at_ms q) (lstore st)) as [ls []];
    [|exact Hs]. destruct (json_body (req_body q)) as [b|]; [|exact Hs].
  match goal with |- context [mounted ?en ?lm ?it ?run q ?qs ?b' (hstate st)] =>
    destruct (mounted_cases en q qs b' (hstate st)) as [Hm | (p & r & _ & _ & Hm)];
    rewrite Hm end; [exact Hs|].
  specialize (Hrun r p (sanitize_query xss (req_query q)) (sanitizeInput_j xss <$> (mongo_sanitize_j <$> b))
                (hstate st) Hs). by destruct (run r p _ _ _).
Qed.

(** C40: a request outside the routes, its body well formed, answers in
    production the operational 404 "Can't find <url> on this server!",
    and the routers' state is unchanged. *)
Theorem unmatched_404 q st b :
  meth q <> OPTIONS -> (limiter (ip q) (at_ms q) (lstore st)).2 = true -> json_body (req_body q) = Ok b ->
  (forall p, path q = "api" :: "v1" :: p -> dispatch (meth q) p = None) ->
  app_handle xss Production lib_message internals run q st =
    (mkApp (limiter (ip q) (at_ms q) (lstore st)).1 (hstate st),
     Respond 404 (JObj [("status", JStr "fail");
                        ("message", JStr ("Can't find " ++ originalUrl q ++ " on this server!"))])).
Proof.
  intros Ho Hl Hb Hp. unfold app_handle. rewrite bool_decide_eq_false_2 by exact Ho. destruct (limiter (ip q) (at_ms q) (lstore st)) as [ls ok].
  cbn in Hl. subst ok. cbn [negb]. rewrite Hb, mounted_unmatched by exact Hp. reflexivity.
Qed.
End AppProofs.

Module LimiterFixture.
Definition ip1 : string := "10.0.0.1".

(** One request opened [ip1]'s window at time 0; 99 more come in its last
    millisecond and 100 in the first millisecond of the next window. *)
Definition st1 : LStore := {[ ip1 := mkClient 1 windowMs ]}.
Definition burst : list (string * Z) :=
  repeat (ip1, windowMs - 1) 99 ++ repeat (ip1, windowMs) 100.

Lemma limiter_span_bound_witness :
  Forall (fun r => r.1 = ip1 -> windowMs - 1 <= r.2 < windowMs - 1 + windowMs) burst /\
  (passes ip1 burst st1 <= 2 * limit)%nat.
Proof.
  assert (H : Forall (fun r => r.1 = ip1 -> windowMs - 1 <= r.2 < windowMs - 1 + windowMs) burst)
    by (apply (bool_decide_unpack _); vm_compute; reflexivity).
  split; [exact H | exact (limiter_span_bound ip1 (windowMs - 1) burst st1 H)].
Defined.

(** The 199 requests of [burst], 2 milliseconds apart at most, all pass:
    a sliding window of 15 minutes would have let 99 through. *)
Example limiter_burst : passes ip1 burst st1 = 199%nat.
Proof. vm_compute. reflexivity. Qed.
End LimiterFixture.

Module AppFixture.
Import LimiterFixture.

Definition xss_id (s : string) : string := s.
Definition lm0 (e : js_error) : string := "library message".
Definition int0 (e : js_error) : json := JNull.
Definition run0 (r : route) (p : list string) (qs : list (string * qval)) (b : option json) (s : unit)
  : unit * outcome := (s, Respond 200 JNull).

(** [?price[gte]=100&price[$where]=sleep&name=a&name=b&sort=price]. *)
Definition raw_query : list (string * qval) :=
  [("price", QObj [("gte", QStr "100"); ("$where", QStr "sleep")]);
   ("name", QArr [QStr "a"; QStr "b"]); ("sort", QStr "price")].

Lemma sanitized_filter_operators_witness :
  all_plain (QObj (query_obj (sanitize_query xss_id raw_query))) = true /\
  canon (qmap rw_string (QObj (query_obj (sanitize_query xss_id raw_query)))) = true /\
  exists f, filter {| query := empty_query; queryString := sanitize_query xss_id raw_query |} = Ok f /\
            qkeys_all cmp_key (QObj (conditions (query f))) = true.
Proof.
  assert (H1 : all_plain (QObj (query_obj (sanitize_query xss_id raw_query))) = true) by reflexivity.
  assert (H2 : canon (qmap rw_string (QObj (query_obj (sanitize_query xss_id raw_query)))) = true)
    by reflexivity.
  split; [exact H1|split; [exact H2|exact (sanitized_filter_operators xss_id raw_query H1 H2)]].
Defined.

(** [$where] is gone, [gte] became [$gte], [name] is whitelisted and
    keeps both values. *)
Example sanitized_conditions :
  match filter {| query := empty_query; queryString := sanitize_query xss_id raw_query |} with
  | Ok f => conditions (query f)
  | Throw _ => []
  end = [("price", QObj [("$gte", QStr "100")]); ("name", QArr [QStr "a"; QStr "b"])].
Proof. vm_compute. reflexivity. Qed.

Definition big_post : AppReq :=
  {| ip := ip1; meth := POST; originalUrl := "/api/v1/cabins"; path := ["api"; "v1"; "cabins"];
     req_query := []; req_body := JsonBody 20000 (Ok (JObj [])); at_ms := 0 |}.
Definition app0 : AppState unit := mkApp ∅ tt.

Lemma json_body_error_prod_witness :
  meth big_post <> OPTIONS /\ (limiter (ip big_post) (at_ms big_post) (lstore app0)).2 = true /\
  json_body (req_body big_post) = Throw (EHttp 413 "request entity too large") /\
  app_handle xss_id Production lm0 int0 run0 big_post app0 =
    (mkApp (limiter (ip big_post) (at_ms big_post) (lstore app0)).1 (hstate app0), something_went_wrong).
Proof.
  assert (Hl : (limiter (ip big_post) (at_ms big_post) (lstore app0)).2 = true) by reflexivity.
  assert (Hb : json_body (req_body big_post) = Throw (EHttp 413 "request entity too large")) by reflexivity.
  assert (Ho : meth big_post <> OPTIONS) by discriminate.
  split; [exact Ho|split; [exact Hl|split; [exact Hb|]]].
  exact (proj1 (json_body_error_prod xss_id lm0 int0 run0 Production big_post app0 _ Ho Hl Hb)).
Defined.

(** [ip1] has used its 100 requests of the window that ends at 1000. *)
Definition app_full : AppState unit := mkApp {[ ip1 := mkClient 100 1000 ]} tt.

Lemma limited_request_witness :
  meth big_post <> OPTIONS /\ (limiter (ip big_post) (at_ms big_post) (lstore app_full)).2 = false /\
  app_handle xss_id Development lm0 int0 run0 big_post app_full =
    (mkApp (limiter (ip big_post) (at_ms big_post) (lstore app_full)).1 (hstate app_full), too_many).
Proof.
  assert (Hl : (limiter (ip big_post) (at_ms big_post) (lstore app_full)).2 = false) by reflexivity.
  assert (Ho : meth big_post <> OPTIONS) by discriminate.
  split; [exact Ho|split; [exact Hl|exact (limited_request xss_id lm0 int0 run0 Development big_post app_full Ho Hl)]].
Defined.

Definition get_nothing : AppReq :=
  {| ip := ip1; meth := GET; originalUrl := "/api/v1/nothing"; path := ["api"; "v1"; "nothing"];
     req_query := []; req_body := NoBody; at_ms := 0 |}.

Lemma unmatched_404_witness :
  meth get_nothing <> OPTIONS /\ (limiter (ip get_nothing) (at_ms get_nothing) (lstore app0)).2 = true /\
  json_body (req_body get_nothing) = Ok None /\
  (forall p, path get_nothing = "api" :: "v1" :: p -> dispatch (meth get_nothing) p = None) /\
  app_handle xss_id Production lm0 int0 run0 get_nothing app0 =
    (mkApp (limiter (ip get_nothing) (at_ms get_nothing) (lstore app0)).1 (hstate app0),
     Respond 404 (JObj [("status", JStr "fail");
                        ("message", JStr ("Can't find " ++ originalUrl get_nothing ++ " on this server!"))])).
Proof.
  assert (Hl : (limiter (ip get_nothing) (at_ms get_nothing) (lstore app0)).2 = true) by reflexivity.
  assert (Hb : json_body (req_body get_nothing) = Ok None) by reflexivity.
  assert (Hp : forall p, path get_nothing = "api" :: "v1" :: p -> dispatch (meth get_nothing) p = None)
    by (intros p E; injection E as <-; reflexivity).
  assert (Ho : meth get_nothing <> OPTIONS) by discriminate.
  split; [exact Ho|split; [exact Hl|split; [exact Hb|split; [exact Hp|]]]].
  exact (unmatched_404 xss_id lm0 int0 run0 get_nothing app0 None Ho Hl Hb Hp).
Defined.
End AppFixture.
