(* ===== verification/Email.v ===== *)
(** * The mail of a request ([src/src/services/Email.ts])

    [new Email(user, url)] keeps the recipient, the first word of the
    user's full name, the link and the sender; [send] reads the HTML
    template, fills [{{user_name}}] and [{{next_step_link}}] with two
    [String.prototype.replace] calls and hands the options to nodemailer.
    [Auth] records each mail as its recipient, kind and link
    ([Auth.Mail]); [mail_options] is what the transport receives for it.
    [replace] is modelled with its replacement patterns ([$$], [$&],
    [$`], [$']), since the first name is the user's own text.  The
    template files, [htmlToText] and the transport are parameters. *)

From Stdlib Require Import QArith.
From S2P Require Import Prelude JsValue QueryJson UserModel Auth Config.

Local Open Scope Z_scope.

(** ** [String.prototype.replace] with a string pattern *)

(** The text before and after the first occurrence of [pat]. *)
Fixpoint split_at_first (pat s : list ascii) : option (list ascii * list ascii) :=
  match strip_prefix pat s with
  | Some rest => Some ([], rest)
  | None => match s with
            | [] => None
            | c :: r => (fun '(b, a) => (c :: b, a)) <$> split_at_first pat r
            end
  end.

(** [GetSubstitution] without capture groups: [$$], [$&], [$`] and [$']
    are replaced, any other [$] is kept. *)
Fixpoint get_substitution (matched before after rep : list ascii) : list ascii :=
  match rep with
  | "$"%char :: "$"%char :: r => "$"%char :: get_substitution matched before after r
  | "$"%char :: "&"%char :: r => matched ++ get_substitution matched before after r
  | "$"%char :: "`"%char :: r => before ++ get_substitution matched before after r
  | "$"%char :: "'"%char :: r => after ++ get_substitution matched before after r
  | c :: r => c :: get_substitution matched before after r
  | [] => []
  end.

(** [s.replace(pat, rep)]: the first occurrence only. *)
Definition js_replace (pat rep s : string) : string :=
  let p := String.list_ascii_of_string pat in
  let l := String.list_ascii_of_string s in
  match split_at_first p l with
  | Some (b, a) => String.string_of_list_ascii
                     (b ++ get_substitution p b a (String.list_ascii_of_string rep) ++ a)
  | None => s
  end.

(** ** [class Email] *)

Record Email := mkEmail { to : string; firstName : string; url : string; from : string }.

(** [constructor(user, url)] with [config.emailFrom]. *)
Definition new_Email (emailFrom : string) (u : User) (link : string) : Email :=
  {| to := email u;
     firstName := List.hd "" (js_split " "%char (fullName u));
     url := link;
     from := "The Wild Oasis | Admin Portal <" ++ emailFrom ++ ">" |}.

(** [Mail.Options] *)
Record MailOptions := { mo_from : string; mo_to : string; mo_subject : string;
                        mo_html : string; mo_text : string }.

Section Send.
Context (readTemplate : string -> string) (htmlToText : string -> string).

(** The template read and filled: the name first, then the link. *)
Definition render (e : Email) (template : string) : string :=
  js_replace "{{next_step_link}}" (url e)
    (js_replace "{{user_name}}" (firstName e) (readTemplate template)).

(** [send(template, subject)]: the options handed to [sendMail]. *)
Definition send (e : Email) (template subject : string) : MailOptions :=
  let html := render e template in
  {| mo_from := from e; mo_to := to e; mo_subject := subject; mo_html := html;
     mo_text := htmlToText html |}.

Definition sendWelcome (cfg : Config) (e : Email) : MailOptions :=
  send e "welcome" ("Welcome to The Wild Oasis! Let's activate your account (Valid for " ++
                    z_to_string (verifyExpiresHrs cfg) ++ " hrs)").

Definition sendPasswordReset (cfg : Config) (e : Email) : MailOptions :=
  send e "resetPassword" ("Your reset password token (valid for " ++
                          z_to_string (resetExpiresMins cfg) ++ " mins)").

(** What the transport receives for a mail [Auth] sent to user [u]:
    [new Email(user, link).sendWelcome()] or [.sendPasswordReset()]. *)
Definition mail_options (cfg : Config) (emailFrom : string) (u : User) (m : Mail) : MailOptions :=
  let e := new_Email emailFrom u (mail_link m) in
  match mail_kind m with
  | Welcome => sendWelcome cfg e
  | PasswordReset => sendPasswordReset cfg e
  end.
End Send.

(** ** The transport and the sender ([newTransport], [config.emailFrom]) *)

(** The options of nodemailer's [createTransport]. *)
Record SmtpOptions := { smtp_host : option string; smtp_port : option Q;
                        smtp_user : option string; smtp_pass : option string }.

(** [newTransport()]: the Mailtrap account of [config] in every
    environment (the production branch is commented out). *)
Definition newTransport (c : ConfigObj) : SmtpOptions :=
  {| smtp_host := c_smtpHost c; smtp_port := c_smtpPort c;
     smtp_user := c_smtpUsername c; smtp_pass := c_smtpPassword c |}.

(** [`${config.emailFrom}`]: an unset variable prints as [undefined]. *)
Definition email_from (c : ConfigObj) : string := default "undefined" (c_emailFrom c).

(** ** The first occurrence of a placeholder *)

Lemma list_ascii_of_string_app (s1 s2 : string) :
  String.list_ascii_of_string (s1 ++ s2) = String.list_ascii_of_string s1 ++ String.list_ascii_of_string s2.
Proof. induction s1 as [|c s1 IH]; simpl; [done|]. by rewrite IH. Qed.

(** A pattern no longer than the text matches at its head whatever
    follows. *)
Lemma strip_prefix_app_long p l a :
  (length p <= length l)%nat ->
  strip_prefix p (l ++ a) = (fun r => r ++ a) <$> strip_prefix p l.
Proof.
  revert l. induction p as [|c p IH]; intros l Hl; [done|].
  destruct l as [|d l]; [simpl in Hl; lia|]. simpl. destruct (Ascii.eqb c d); [|done].
  apply IH. simpl in Hl. lia.
Qed.

(** [pat] occurs first at the end of [b ++ pat]. *)
Definition first_at (pat b : string) : bool :=
  bool_decide (split_at_first (String.list_ascii_of_string pat)
                 (String.list_ascii_of_string b ++ String.list_ascii_of_string pat) =
               Some (String.list_ascii_of_string b, [])).

Lemma split_at_first_strip p s r : strip_prefix p s = Some r -> split_at_first p s = Some ([], r).
Proof. destruct s; cbn [split_at_first]; intros ->; reflexivity. Qed.

Lemma split_at_first_app p b a :
  split_at_first p (b ++ p) = Some (b, []) -> split_at_first p (b ++ p ++ a) = Some (b, a).
Proof.
  induction b as [|c b IH]; intros H.
  - cbn [app]. apply split_at_first_strip, strip_prefix_app.
  - cbn [app split_at_first] in *.
    destruct (strip_prefix p (c :: b ++ p)) as [r|] eqn:E; [discriminate|].
    rewrite app_comm_cons, app_assoc, strip_prefix_app_long, <- app_comm_cons, E
      by (simpl; rewrite length_app; lia).
    cbn [fmap option_fmap option_map].
    destruct (split_at_first p (b ++ p)) as [[b' a']|] eqn:E'; [|discriminate].
    cbn in H. injection H as -> ->. by rewrite (IH eq_refl).
Qed.

Lemma get_substitution_plain m b a rep :
  Forall (fun c => c <> "$"%char) rep -> get_substitution m b a rep = rep.
Proof.
  induction 1 as [|c r Hc _ IH]; [done|].
  destruct c as [[] [] [] [] [] [] [] []]; cbn; rewrite ?IH; try done; by destruct Hc.
Qed.

Lemma js_includes_char_Forall c s :
  js_includes_char c s = false -> Forall (fun d => d <> c) (String.list_ascii_of_string s).
Proof.
  induction s as [|d s IH]; intros H; simpl in *; [constructor|].
  apply orb_false_iff in H as [H1 H2]. constructor; [|exact (IH H2)].
  intros ->. by rewrite Ascii.eqb_refl in H1.
Qed.

(** [replace] at the first occurrence, with a replacement without [$]. *)
Lemma js_replace_first_at pat rep b a :
  first_at pat b = true -> js_includes_char "$"%char rep = false ->
  js_replace pat rep (b ++ pat ++ a) = (b ++ rep ++ a)%string.
Proof.
  intros Hf Hr. unfold first_at in Hf. apply bool_decide_eq_true in Hf. unfold js_replace.
  rewrite !list_ascii_of_string_app, (split_at_first_app _ _ _ Hf),
    get_substitution_plain by exact (js_includes_char_Forall _ _ Hr).
  rewrite <- !list_ascii_of_string_app, String.string_of_list_ascii_of_string. reflexivity.
Qed.

Section Render.
Context (readTemplate : string -> string).

(** The template with the first [{{user_name}}] and then the first
    [{{next_step_link}}] filled in, when neither the name nor the link
    has a [$] and the placeholders occur first where they are filled. *)
Lemma render_fills e template pre mid post :
  readTemplate template = (pre ++ "{{user_name}}" ++ mid ++ "{{next_step_link}}" ++ post)%string ->
  first_at "{{user_name}}" pre = true ->
  first_at "{{next_step_link}}" (pre ++ firstName e ++ mid) = true ->
  js_includes_char "$"%char (firstName e) = false -> js_includes_char "$"%char (url e) = false ->
  render readTemplate e template = (pre ++ firstName e ++ mid ++ url e ++ post)%string.
Proof.
  intros Ht H1 H2 Hn Hu. unfold render. rewrite Ht, js_replace_first_at by done.
  rewrite <- (string_app_assoc (firstName e)), <- string_app_assoc.
  rewrite js_replace_first_at by done. rewrite !string_app_assoc. reflexivity.
Qed.

(** C27: the mail the transport receives for a mail [Auth] sends to a
    user goes to the user's address, greets the first word of the user's
    full name and carries the link [Auth] made: the template of the mail's
    kind with its first [{{user_name}}] and then its first
    [{{next_step_link}}] filled in, when neither the name nor the link has
    a [$] and the placeholders occur first where they are filled. *)
Theorem mail_options_link htmlToText cfg emailFrom u m pre mid post :
  let fn := List.hd "" (js_split " "%char (fullName u)) in
  readTemplate (match mail_kind m with Welcome => "welcome" | PasswordReset => "resetPassword" end) =
    (pre ++ "{{user_name}}" ++ mid ++ "{{next_step_link}}" ++ post)%string ->
  first_at "{{user_name}}" pre = true -> first_at "{{next_step_link}}" (pre ++ fn ++ mid) = true ->
  js_includes_char "$"%char fn = false -> js_includes_char "$"%char (mail_link m) = false ->
  mo_to (mail_options readTemplate htmlToText cfg emailFrom u m) = email u /\
  mo_html (mail_options readTemplate htmlToText cfg emailFrom u m) =
    (pre ++ fn ++ mid ++ mail_link m ++ post)%string.
Proof.
  intros fn Ht H1 H2 Hn Hu. unfold mail_options.
  destruct (mail_kind m); (split; [reflexivity|]); apply (render_fills (new_Email emailFrom u (mail_link m)));
    assumption.
Qed.
End Render.

(** ** No mail transport is required *)

Definition mail_keys : list string :=
  ["MAILTRAP_SMTP_HOST"; "MAILTRAP_SMTP_PORT"; "MAILTRAP_SMTP_USERNAME"; "MAILTRAP_SMTP_PASSWORD"; "EMAIL_FROM"].

(** C29. Whenever the process starts, it also starts with none of the
    Mailtrap variables and no [EMAIL_FROM]: the transport then has no
    host, port or credentials, and every mail's sender is
    [The Wild Oasis | Admin Portal <undefined>]. *)
Theorem mail_transport_not_required joi_number e c :
  load_config joi_number e = Ok c ->
  exists c', load_config joi_number (env_remove_all mail_keys e) = Ok c' /\
    newTransport c' = {| smtp_host := None; smtp_port := None; smtp_user := None; smtp_pass := None |} /\
    forall u link, from (new_Email (email_from c') u link) = "The Wild Oasis | Admin Portal <undefined>".
Proof.
  intros Hc. destruct (load_without_optional joi_number e c mail_keys Hc) as (vs & Hvs & Habs);
    [vm_compute; reflexivity|].
  unfold load_config. rewrite Hvs. eexists. split; [reflexivity|].
  unfold newTransport, email_from. cbn [config_of c_smtpHost c_smtpPort c_smtpUsername c_smtpPassword c_emailFrom].
  unfold var_str, var_num. rewrite !Habs by (unfold mail_keys; set_solver). split; reflexivity.
Qed.

Module EmailFixture.
Import AuthFixture.

Definition tpl (name : string) : string :=
  "<p>Hi {{user_name}},</p><a href='{{next_step_link}}'>Continue</a>".
Definition text0 (html : string) : string := html.

Definition bob_mail : Mail :=
  {| mail_to := email bob_created; mail_kind := Welcome;
     mail_link := "https://staff.oasis.test/verify-email/?emailVerificationToken=ab12" |}.

Lemma mail_options_link_witness :
  tpl "welcome" = ("<p>Hi " ++ "{{user_name}}" ++ ",</p><a href='" ++ "{{next_step_link}}" ++
                   "'>Continue</a>")%string /\
  first_at "{{user_name}}" "<p>Hi " = true /\
  first_at "{{next_step_link}}" ("<p>Hi " ++ "Bob" ++ ",</p><a href='") = true /\
  js_includes_char "$"%char "Bob" = false /\ js_includes_char "$"%char (mail_link bob_mail) = false /\
  mo_html (mail_options tpl text0 cfg0 "admin@oasis.test" bob_created bob_mail) =
    ("<p>Hi " ++ "Bob" ++ ",</p><a href='" ++ mail_link bob_mail ++ "'>Continue</a>")%string.
Proof.
  assert (H0 : tpl "welcome" = ("<p>Hi " ++ "{{user_name}}" ++ ",</p><a href='" ++ "{{next_step_link}}" ++
                                "'>Continue</a>")%string) by reflexivity.
  assert (H1 : first_at "{{user_name}}" "<p>Hi " = true) by (vm_compute; reflexivity).
  assert (H2 : first_at "{{next_step_link}}" ("<p>Hi " ++ "Bob" ++ ",</p><a href='") = true)
    by (vm_compute; reflexivity).
  assert (H3 : js_includes_char "$"%char "Bob" = false) by reflexivity.
  assert (H4 : js_includes_char "$"%char (mail_link bob_mail) = false) by reflexivity.
  split; [exact H0|split; [exact H1|split; [exact H2|split; [exact H3|split; [exact H4|]]]]].
  exact (proj2 (mail_options_link tpl text0 cfg0 "admin@oasis.test" bob_created bob_mail
                  "<p>Hi " ",</p><a href='" "'>Continue</a>" H0 H1 H2 H3 H4)).
Defined.

(** A user whose full name begins with [{{next_step_link}}] gets the
    link in the greeting and a button that still reads the placeholder;
    one whose name begins with [$'] gets the rest of the template copied
    into the greeting, the link in the copy, and the same broken button. *)
Definition named (n : string) : User :=
  {| u_id := 2; fullName := n; email := "eve@oasis.test"; avatar := default_avatar;
     role := Staff; password := "$2a$12$x"; passwordChangedAt := None;
     isEmailVerified := true; isActive := true; passwordResetToken := None;
     passwordResetExpires := None; emailVerificationToken := None;
     emailVerificationExpires := None; lastSignIn := None |}.

Example mail_placeholder_in_name :
  mo_html (mail_options tpl text0 cfg0 "admin@oasis.test" (named "{{next_step_link}} Eve")
             {| mail_to := "eve@oasis.test"; mail_kind := PasswordReset; mail_link := "L" |}) =
    "<p>Hi L,</p><a href='{{next_step_link}}'>Continue</a>" /\
  mo_html (mail_options tpl text0 cfg0 "admin@oasis.test" (named "$' Eve")
             {| mail_to := "eve@oasis.test"; mail_kind := PasswordReset; mail_link := "L" |}) =
    "<p>Hi ,</p><a href='L'>Continue</a>,</p><a href='{{next_step_link}}'>Continue</a>".
Proof. split; vm_compute; reflexivity. Qed.

Lemma mail_transport_not_required_witness :
  load_config ConfigFixture.jn0 ConfigFixture.env0 = Ok ConfigFixture.c0 /\
  exists c', load_config ConfigFixture.jn0 (env_remove_all mail_keys ConfigFixture.env0) = Ok c' /\
    newTransport c' = {| smtp_host := None; smtp_port := None; smtp_user := None; smtp_pass := None |} /\
    forall u link, from (new_Email (email_from c') u link) = "The Wild Oasis | Admin Portal <undefined>".
Proof.
  assert (H : load_config ConfigFixture.jn0 ConfigFixture.env0 = Ok ConfigFixture.c0) by (vm_compute; reflexivity).
  split; [exact H|exact (mail_transport_not_required _ _ _ H)].
Defined.
End EmailFixture.
