(* ===== verification/Logger.v ===== *)
(** * Request logging ([src/src/lib/logger/morgan.ts])

    [createApp] mounts two morgan loggers unless [config.env] is
    ['test']: [successHandler] writes a line for every response below 400,
    [errorHandler] one for every response from 400 on.  A format string is
    compiled by morgan into literal text and tokens ([:name] or
    [:name[arg]]); a token whose value is empty or undefined prints as
    [-]; the line is trimmed by the stream.  The winston logger the lines
    go to ([./logger], absent from the repository) is the output: a log
    line with its level. *)

From S2P Require Import Prelude JsValue QueryJson.

Local Open Scope Z_scope.

(** ** Morgan's format compiler *)

(** The characters of a token name: [[-\w]]. *)
Definition name_char (c : ascii) : bool := is_word c || Ascii.eqb c "-".

Inductive piece := Lit (c : ascii) | Tok (name : list ascii) (arg : option (list ascii)).

Fixpoint take_while (p : ascii -> bool) (l : list ascii) : list ascii * list ascii :=
  match l with
  | c :: r => if p c then let '(a, b) := take_while p r in (c :: a, b) else ([], l)
  | [] => ([], [])
  end.

(** The optional [[arg]] after a name: at least one character other than
    [\]], then [\]]. *)
Definition token_arg (l : list ascii) : option (list ascii) * list ascii :=
  match l with
  | "["%char :: r =>
      match take_while (fun c => negb (Ascii.eqb c "]")) r with
      | (c :: a, "]"%char :: rest) => (Some (c :: a), rest)
      | _ => (None, l)
      end
  | _ => (None, l)
  end.

(** [/:([-\w]{2,})(?:\[([^\]]+)\])?/g] over the format, greedily and left
    to right; the text between the matches is kept. *)
Fixpoint compile (fuel : nat) (l : list ascii) : list piece :=
  match fuel with
  | O => map Lit l
  | S f =>
      match l with
      | [] => []
      | ":"%char :: r =>
          match take_while name_char r with
          | (n1 :: n2 :: ns, rest) =>
              let '(arg, rest') := token_arg rest in
              Tok (n1 :: n2 :: ns) arg :: compile f rest'
          | _ => Lit ":" :: compile f r
          end
      | c :: r => Lit c :: compile f r
      end
  end.

(** Each step consumes a character, so the length of the format is
    enough fuel. *)
Definition compile_format (s : string) : list piece :=
  let l := String.list_ascii_of_string s in compile (length l) l.

(** ** The tokens of the two formats *)

(** What a token reads from the finished request and response. *)
Record Exchange := {
  remote_addr : string;          (** [req.ip] *)
  req_method : string;
  url : string;                  (** [req.originalUrl] *)
  res_statusCode : Z;
  response_time : string;        (** milliseconds, three decimals *)
  locals_errorMessage : option string
}.

(** The tokens morgan defines and the [message] token of [morgan.ts]:
    [res.locals.errorMessage ?? '']; an unknown name has no function, and
    calling it throws ([None]). *)
Definition token_value (x : Exchange) (name : list ascii) : option string :=
  let n := String.string_of_list_ascii name in
  if String.eqb n "remote-addr" then Some (remote_addr x)
  else if String.eqb n "method" then Some (req_method x)
  else if String.eqb n "url" then Some (url x)
  else if String.eqb n "status" then Some (z_to_string (res_statusCode x))
  else if String.eqb n "response-time" then Some (response_time x)
  else if String.eqb n "message" then Some (default "" (locals_errorMessage x))
  else None.

(** [value || "-"] *)
Definition dash (v : string) : string := if String.eqb v "" then "-" else v.

(** The compiled line: [(token(req, res, arg) || "-")] for each token. *)
Fixpoint render_line (x : Exchange) (ps : list piece) : option string :=
  match ps with
  | [] => Some ""
  | Lit c :: ps' => String c <$> render_line x ps'
  | Tok n _ :: ps' =>
      v ← token_value x n;
      r ← render_line x ps';
      Some (dash v ++ r)%string
  end.

(** ** [morgan.ts] *)

Definition getIpFormat (env : string) : string :=
  if String.eqb env "production" then ":remote-addr - " else "".

Definition successResponseFormat (env : string) : string :=
  getIpFormat env ++ ":method :url :status - :response-time ms".

Definition errorResponseFormat (env : string) : string :=
  getIpFormat env ++ ":method :url :status - :response-time ms - message: :message".

Inductive level := Info | Error.

(** [successHandler] and [errorHandler]: skipped by the response's status;
    otherwise the rendered line, [message.trim()], at [info] or [error]. *)
Definition successHandler (env : string) (x : Exchange) : option (option (level * string)) :=
  if 400 <=? res_statusCode x then Some None
  else (fun l => Some (Info, js_trim l)) <$> render_line x (compile_format (successResponseFormat env)).

Definition errorHandler (env : string) (x : Exchange) : option (option (level * string)) :=
  if res_statusCode x <? 400 then Some None
  else (fun l => Some (Error, js_trim l)) <$> render_line x (compile_format (errorResponseFormat env)).

(** [if (config.env !== 'test') { app.use(successHandler); app.use(errorHandler); }]:
    the lines written for one exchange. *)
Definition request_logs (env : string) (x : Exchange) : option (list (level * string)) :=
  if String.eqb env "test" then Some []
  else s ← successHandler env x; e ← errorHandler env x;
       Some (option_list s ++ option_list e).

(** ** What is logged *)

(** A line with the address in front of it in production. *)
Definition with_ip (env : string) (x : Exchange) (rest : string) : string :=
  if String.eqb env "production" then dash (remote_addr x) ++ " - " ++ rest else rest.

Lemma string_app_nil_r (s : string) : (s ++ "")%string = s.
Proof. induction s as [|c s IH]; [done|]. by rewrite string_app_cons, IH. Qed.

Lemma render_success env x :
  render_line x (compile_format (successResponseFormat env)) =
    Some (with_ip env x (dash (req_method x) ++ " " ++ dash (url x) ++ " " ++
          dash (z_to_string (res_statusCode x)) ++ " - " ++ dash (response_time x) ++ " ms"))%string.
Proof. unfold successResponseFormat, with_ip, getIpFormat. destruct (String.eqb env "production"); reflexivity. Qed.

Lemma render_error env x :
  render_line x (compile_format (errorResponseFormat env)) =
    Some (with_ip env x (dash (req_method x) ++ " " ++ dash (url x) ++ " " ++
          dash (z_to_string (res_statusCode x)) ++ " - " ++ dash (response_time x) ++
          " ms - message: " ++ dash (default "" (locals_errorMessage x))))%string.
Proof.
  rewrite <- (string_app_nil_r (dash (default "" (locals_errorMessage x)))).
  unfold errorResponseFormat, with_ip, getIpFormat. destruct (String.eqb env "production"); reflexivity.
Qed.

(** Outside tests every response is logged once, at [info] below 400 and
    at [error] from 400 on, with the client address in production only;
    and since nothing in the server sets [res.locals.errorMessage], an
    error line never carries the error: its message is always [-]. *)
Theorem request_logs_spec env x :
  env <> "test" -> locals_errorMessage x = None ->
  request_logs env x =
    Some [if res_statusCode x <? 400
          then (Info, js_trim (with_ip env x (dash (req_method x) ++ " " ++ dash (url x) ++ " " ++
                               dash (z_to_string (res_statusCode x)) ++ " - " ++
                               dash (response_time x) ++ " ms")))
          else (Error, js_trim (with_ip env x (dash (req_method x) ++ " " ++ dash (url x) ++ " " ++
                                dash (z_to_string (res_statusCode x)) ++ " - " ++
                                dash (response_time x) ++ " ms - message: -")))].
Proof.
  intros Henv Hm. unfold request_logs, successHandler, errorHandler.
  rewrite (proj2 (String.eqb_neq _ _) Henv), render_success, render_error, Hm.
  destruct (Z.ltb_spec (res_statusCode x) 400); [rewrite (proj2 (Z.leb_gt 400 _)) by lia|
    rewrite (proj2 (Z.leb_le 400 _)) by lia]; reflexivity.
Qed.

(** In tests nothing is logged. *)
Lemma request_logs_test x : request_logs "test" x = Some [].
Proof. reflexivity. Qed.

Module LoggerFixture.
Definition x404 : Exchange :=
  {| remote_addr := "10.0.0.1"; req_method := "GET"; url := "/api/v1/nothing"; res_statusCode := 404;
     response_time := "1.234"; locals_errorMessage := None |}.

Lemma request_logs_spec_witness :
  "production" <> "test" /\ locals_errorMessage x404 = None /\ request_logs "production" x404 =
    Some [(Error, "10.0.0.1 - GET /api/v1/nothing 404 - 1.234 ms - message: -")].
Proof.
  assert (H1 : "production" <> "test") by discriminate.
  assert (H2 : locals_errorMessage x404 = None) by reflexivity.
  split; [exact H1|split; [exact H2|]]. rewrite (request_logs_spec _ _ H1 H2). vm_compute. reflexivity.
Defined.
End LoggerFixture.
