(* ===== verification/Server.v ===== *)
(** * The server over one state ([src/src/routes/v1/*.ts], [src/src/app.ts])

    A request that [App.app_handle] mounts at [/api/v1] runs the chain of
    its route ([Routes.gate]) and then its handler.  This file builds that
    product over one [World]: the users (with the avatars bucket), the API
    keys and the setting document, the stores of the user, API-key and
    setting controllers, and the state of the cabin, guest and booking
    controllers, whose handlers are a parameter here ([rest_run]).  What a
    handler reads from the request is taken from the sanitized JSON body
    ([req.body.x] a string or a number), the route parameter and the
    request's credentials; what the environment decides (random bytes,
    salts, the mail and storage outcomes, the uploaded file) is an input
    [ReqEnv].  The theorems: who can create users (C17) and change the
    setting document, and the singleton setting under any sequence of
    requests (C25). *)

From S2P Require Import Prelude JsValue AppError UserModel Auth ApiKey Settings Cabin Users ErrorController Routes App.

Local Open Scope Z_scope.

(** ** What a handler reads *)

(** [req.body.k]: the last value [JSON.parse] gave the key. *)
Definition body_field (b : option json) (k : string) : option json :=
  match b with
  | Some (JObj kvs) => snd <$> List.find (fun kv => String.eqb kv.1 k) (rev kvs)
  | _ => None
  end.

(** A string of the body; another value is taken as absent (mongoose
    would cast a number to its decimal text, which the handlers' models,
    over [option string], do not represent). *)
Definition body_str (b : option json) (k : string) : option string :=
  match body_field b k with Some (JStr s) => Some s | _ => None end.

(** A [Number] path of the setting schema: a number of the body; a
    numeric string, which mongoose would cast, is taken as absent. *)
Definition body_num (b : option json) (k : string) : option Z :=
  match body_field b k with Some (JNum z) => Some z | _ => None end.

Definition setting_body_of (b : option json) : SettingBody :=
  {| b_min := body_num b "minBookingLength"; b_max := body_num b "maxBookingLength";
     b_guests := body_num b "maxGuestsPerBooking"; b_price := body_num b "breakfastPrice" |}.

(** [req.params.token]: the last segment of the path. *)
Definition param (p : list string) : string := default "" (last p).

(** What the environment decides for one request. *)
Record ReqEnv := {
  rnd : string;          (** [crypto.randomBytes(32).toString('hex')] *)
  salt : string;         (** bcrypt's salt *)
  delivered : bool;      (** the mail transport accepts *)
  uploadOk : bool;       (** the storage accepts the upload *)
  file : option Upload   (** [req.file] *)
}.

Section Server.
Context {CR : Crypto} {JW : Jwt} (cfg : Config) (publicUrl : string -> string) {R : Type}.

(** ** The world *)

Record World := mkW {
  w_users : UState;      (** the users, the response cookie, the mails, the avatars *)
  w_keys : KState;       (** the API keys *)
  w_settings : SState;   (** the setting document *)
  w_rest : R             (** cabins, guests and bookings *)
}.

(** The controllers of cabins, guests and bookings, over their state. *)
Context (rest_run : handler -> bool -> option User -> Req -> ReqEnv -> list string ->
                    list (string * qval) -> option json -> R -> R * outcome).

Definition with_auth (w : World) (a : AuthState) : World :=
  mkW (mkU a (avatars (w_users w))) (w_keys w) (w_settings w) (w_rest w).

(** A handler of [authController] on the users. *)
Definition on_auth (w : World) (m : M AuthState js_error outcome) : World * outcome :=
  let '(a, o) := catchAsync m (u_auth (w_users w)) in (with_auth w a, o).

Definition on_users (w : World) (m : M UState js_error outcome) : World * outcome :=
  let '(u, o) := catchAsync m (w_users w) in (mkW u (w_keys w) (w_settings w) (w_rest w), o).

Definition on_keys (w : World) (m : M KState js_error outcome) : World * outcome :=
  let '(k, o) := catchAsync m (w_keys w) in (mkW (w_users w) k (w_settings w) (w_rest w), o).

Definition on_settings (w : World) (r : sreq) : World * outcome :=
  let '(s, o) := catchAsync (handle r) (w_settings w) in (mkW (w_users w) (w_keys w) s (w_rest w), o).

(** [req.user.x] without a user. *)
Definition no_user (field : string) : outcome :=
  NextErr (EOther "TypeError" ("Cannot read properties of undefined (reading '" ++ field ++ "')")).

(** The handler a route names, with [req.apiKeyValid] and [req.user] as
    the chain left them. *)
Definition exec (h : handler) (valid : bool) (user : option User) (q : Req) (e : ReqEnv)
           (p : list string) (qs : list (string * qval)) (b : option json) (w : World)
  : World * outcome :=
  match h with
  | HSignup => on_auth w (signup cfg (body_str b "fullName") (body_str b "email")
                            (body_str b "password") (body_str b "passwordConfirm")
                            (rnd e) (salt e) (delivered e) (now q))
  | HVerifyEmail => on_auth w (verifyEmail cfg (param p) (now q))
  | HLogin => on_auth w (login cfg (body_str b "email") (body_str b "password") (now q))
  | HLogout => on_auth w logout
  | HForgotPassword => on_auth w (forgotPassword cfg (body_str b "email") (rnd e) (delivered e) (now q))
  | HResetPassword => on_auth w (resetPassword cfg (param p) (body_str b "password")
                                   (body_str b "passwordConfirm") (salt e) (now q))
  | HGetMe => match user with Some me => on_users w (getMe me) | None => (w, no_user "id") end
  | HUpdateMyPassword =>
      match user with
      | Some me => on_auth w (updatePassword cfg me (body_str b "currentPassword")
                                (body_str b "password") (body_str b "passwordConfirm") (salt e) (now q))
      | None => (w, no_user "id")
      end
  | HUpdateMe =>
      match user with
      | Some me => on_users w (updateMe publicUrl me (body_str b "fullName") (file e) (now q) (uploadOk e))
      | None => (w, no_user "fullName")
      end
  | HCreateApiKey => on_keys w (createApiKey cfg (body_str b "forWhom") (rnd e) (now q))
  | HGetSettings => on_settings w SGet
  | HCreateSettings => on_settings w (SCreate (setting_body_of b))
  | HUpdateSettings => on_settings w (SUpdate (setting_body_of b))
  | HDeleteSettings => on_settings w SDelete
  | h => let '(r, o) := rest_run h valid user q e p qs b (w_rest w) in
         (mkW (w_users w) (w_keys w) (w_settings w) r, o)
  end.

(** The route: its chain over the users and keys, then its handler. *)
Definition route_run (q : Req) (e : ReqEnv) (r : route) (p : list string)
           (qs : list (string * qval)) (b : option json) (w : World) : World * outcome :=
  let '(g, res) := gate cfg (r_chain r) q false None (mkG (u_auth (w_users w)) (w_keys w)) in
  let w' := mkW (mkU (g_auth g) (avatars (w_users w))) (g_keys g) (w_settings w) (w_rest w) in
  match res with
  | Stopped o => (w', o)
  | Reached valid user => exec (r_handler r) valid user q e p qs b w'
  end.

(** The credentials of a request: [x-api-key], the signed cookie
    [accessToken] and the field name of an uploaded file. *)
Record Creds := { c_key : option string; c_token : option jwt_token; c_field : option string }.

Definition req_of (a : AppReq) (c : Creds) : Req :=
  {| x_api_key := c_key c; accessToken := c_token c; file_field := c_field c; now := at_ms a |}.

(** One request through the whole server: the middleware stack of
    [createApp], then the route. *)
Definition server (xss : string -> string) (en : env) (lib_message : js_error -> string)
           (internals : js_error -> json) (a : AppReq) (c : Creds) (e : ReqEnv)
           (st : AppState (World)) : AppState (World) * outcome :=
  app_handle xss en lib_message internals (route_run (req_of a c) e) a st.
End Server.

Arguments World {JW} R.

(** ** Only [signup] adds a user *)
Section UsersCount.
Context {CR : Crypto} {JW : Jwt} (cfg : Config) (publicUrl : string -> string).

(** At most [n] users are stored. *)
Definition users_le (n : nat) (s : AuthState) : Prop := (length (users s) <= n)%nat.

Lemma save_user_le n u : preserves (users_le n) (save_user u).
Proof. apply preserves_modify. intros s Hs. unfold users_le in *. cbn. unfold replace_user. by rewrite length_map. Qed.

Lemma delete_user_le n id : preserves (users_le n) (delete_user id).
Proof. apply preserves_modify. intros s Hs. unfold users_le in *. cbn. pose proof (List.filter_length_le (fun v => negb (bool_decide (u_id v = id))) (users s)). lia. Qed.

Lemma set_cookie_le n c : preserves (users_le n) (set_cookie c).
Proof. by apply preserves_modify. Qed.

Lemma send_mail_le n d m : preserves (users_le n) (send_mail d m).
Proof. unfold send_mail. destruct d; [by apply preserves_modify|apply preserves_throw]. Qed.

#[local] Hint Resolve save_user_le delete_user_le set_cookie_le send_mail_le : oasis.

Lemma createSendToken_le n u code now : preserves (users_le n) (createSendToken cfg u code now).
Proof. unfold createSendToken. preserve_tac. Qed.

#[local] Hint Resolve createSendToken_le : oasis.

Lemma verifyEmail_le n t now : preserves (users_le n) (verifyEmail cfg t now).
Proof. unfold verifyEmail, fail_with. preserve_tac. Qed.

Lemma login_le n m p now : preserves (users_le n) (login cfg m p now).
Proof. unfold login, fail_with. preserve_tac. Qed.

Lemma logout_le n : preserves (users_le n) logout.
Proof. unfold logout. preserve_tac. Qed.

Lemma forgotPassword_le n m r d now : preserves (users_le n) (forgotPassword cfg m r d now).
Proof. unfold forgotPassword, fail_with. preserve_tac. Qed.

Lemma resetPassword_le n t p c salt now : preserves (users_le n) (resetPassword cfg t p c salt now).
Proof. unfold resetPassword, save_new_password, fail_with. preserve_tac. Qed.

Lemma updatePassword_le n me cur p c salt now : preserves (users_le n) (updatePassword cfg me cur p c salt now).
Proof. unfold updatePassword, save_new_password, fail_with. preserve_tac. Qed.

(** [protect] only reads the users. *)
Lemma protect_mw_state v tok now s : fst (protect_mw v tok now s) = s.
Proof.
  assert (H : preserves (eq s) (protect v tok now)) by (unfold protect; preserve_tac).
  specialize (H s eq_refl). unfold protect_mw.
  destruct (protect v tok now s) as [s' [?|?]]; cbn in *; congruence.
Qed.

(** The chain of a route writes the users only through [protect], which
    writes nothing. *)
Lemma gate_users c q v u g : g_auth (fst (gate cfg c q v u g)) = g_auth g.
Proof.
  revert v u g. induction c as [|m c IH]; intros v u g; [reflexivity|].
  destruct m; cbn [gate].
  - destruct (checkApiKey_mw cfg (x_api_key q) (now q) (g_keys g)) as [k [o b]].
    destruct o; [reflexivity| |reflexivity]; rewrite IH; reflexivity.
  - destruct (protect_mw v (accessToken q) (now q) (g_auth g)) as [a [o u']] eqn:E.
    assert (Ha : a = g_auth g) by (rewrite <- (protect_mw_state v (accessToken q) (now q) (g_auth g)), E; reflexivity).
    subst a. destruct o; [reflexivity| |reflexivity]; rewrite IH; reflexivity.
  - destruct (restrictTo roles v u); [reflexivity|apply IH|reflexivity].
  - destruct (file_field q) as [f'|]; [destruct (String.eqb field f')|]; [apply IH|reflexivity|apply IH].
Qed.

(** The users of the user controller's state. *)
Definition uusers_le (n : nat) (s : UState) : Prop := users_le n (u_auth s).

Lemma update_profile_le n id name url : preserves (uusers_le n) (update_profile id name url).
Proof.
  apply preserves_get. intros s Hs. destruct (match name with Some _ => _ | None => _ end); [|done].
  destruct (find_by_id id s); [|done]. run_M. unfold uusers_le, users_le, replace_user in *. cbn.
  by rewrite length_map.
Qed.

Lemma avatar_upload_le n path ok : preserves (uusers_le n) (avatar_upload path ok).
Proof. apply preserves_get. intros s Hs. by destruct (_ && _). Qed.

#[local] Hint Resolve update_profile_le avatar_upload_le : oasis.

Lemma updateMe_le n me name f now ok : preserves (uusers_le n) (updateMe publicUrl me name f now ok).
Proof. unfold updateMe, fail_with. preserve_tac. Qed.

Lemma getMe_le n me : preserves (uusers_le n) (getMe me).
Proof. unfold getMe. preserve_tac. Qed.
End UsersCount.

Section ServerUsers.
Context {CR : Crypto} {JW : Jwt} (cfg : Config) (publicUrl : string -> string) {R : Type}.
Context (rest_run : handler -> bool -> option User -> Req -> ReqEnv -> list string ->
                    list (string * qval) -> option json -> R -> R * outcome).

Local Abbreviation wusers w := (u_auth (w_users w)).

Lemma on_auth_le n (w : World R) m :
  preserves (users_le n) m -> users_le n (wusers w) -> users_le n (wusers (on_auth w m).1).
Proof.
  intros Hm Hw. unfold on_auth. pose proof (catchAsync_fst m (wusers w)) as E.
  destruct (catchAsync m (wusers w)) as [a o]. cbn in *. subst a. exact (Hm _ Hw).
Qed.

Lemma on_users_le n (w : World R) m :
  preserves (uusers_le n) m -> users_le n (wusers w) -> users_le n (wusers (on_users w m).1).
Proof.
  intros Hm Hw. unfold on_users. pose proof (catchAsync_fst m (w_users w)) as E.
  destruct (catchAsync m (w_users w)) as [a o]. cbn in *. subst a. exact (Hm _ Hw).
Qed.

Lemma on_keys_users (w : World R) m : w_users (on_keys w m).1 = w_users w.
Proof. unfold on_keys. by destruct (catchAsync m (w_keys w)). Qed.

Lemma on_settings_users (w : World R) r : w_users (on_settings w r).1 = w_users w.
Proof. unfold on_settings. by destruct (catchAsync (handle r) (w_settings w)). Qed.

#[local] Hint Resolve verifyEmail_le login_le logout_le forgotPassword_le resetPassword_le
  updatePassword_le getMe_le updateMe_le : oasis.

(** Every handler but [signup] leaves at most as many users as it found. *)
Lemma exec_users n h v u q e p qs b (w : World R) :
  h <> HSignup -> users_le n (wusers w) ->
  users_le n (wusers (exec cfg publicUrl rest_run h v u q e p qs b w).1).
Proof.
  intros Hh Hw. destruct h; try congruence; cbn [exec];
    try (apply on_auth_le; eauto with oasis; fail);
    try (rewrite ?on_keys_users, ?on_settings_users; exact Hw);
    try (destruct u; [apply on_users_le || apply on_auth_le|]; eauto with oasis; fail);
    destruct (rest_run _ _ _ _ _ _ _ _ _); exact Hw.
Qed.
End ServerUsers.

(** ** The setting document under every route *)

(** The handlers that write the setting document. *)
Definition settings_writes : list handler := [HCreateSettings; HUpdateSettings; HDeleteSettings].

Section ServerSettings.
Context {CR : Crypto} {JW : Jwt} (cfg : Config) (publicUrl : string -> string) {R : Type}.
Context (rest_run : handler -> bool -> option User -> Req -> ReqEnv -> list string ->
                    list (string * qval) -> option json -> R -> R * outcome).

(** At most one setting document. *)
Definition settings_le1 (s : SState) : Prop := (length (settings s) <= 1)%nat.

Lemma on_auth_settings (w : World R) m : w_settings (on_auth w m).1 = w_settings w.
Proof. unfold on_auth. by destruct (catchAsync m _). Qed.

Lemma on_users_settings (w : World R) m : w_settings (on_users w m).1 = w_settings w.
Proof. unfold on_users. by destruct (catchAsync m _). Qed.

Lemma on_keys_settings (w : World R) m : w_settings (on_keys w m).1 = w_settings w.
Proof. unfold on_keys. by destruct (catchAsync m _). Qed.

Lemma on_settings_get (w : World R) : w_settings (on_settings w SGet).1 = w_settings w.
Proof.
  unfold on_settings. cbn [handle]. pose proof (getSettings_state (w_settings w)) as H.
  destruct (catchAsync getSettings (w_settings w)). exact H.
Qed.

(** No other handler changes the setting document. *)
Lemma exec_settings_same h v u q e p qs b (w : World R) :
  h ∉ settings_writes -> w_settings (exec cfg publicUrl rest_run h v u q e p qs b w).1 = w_settings w.
Proof.
  intros Hh. destruct h; cbn [exec];
    rewrite ?on_auth_settings, ?on_keys_settings, ?on_settings_get; try reflexivity;
    try (exfalso; apply Hh, list_elem_of_In; cbn; tauto);
    try (destruct u; [rewrite ?on_users_settings, ?on_auth_settings|]; reflexivity);
    destruct (rest_run _ _ _ _ _ _ _ _ _); reflexivity.
Qed.

(** What [Settings.handle_singleton] shows of the four handlers. *)
Hypothesis handle_le1 : forall r s, settings_le1 s -> settings_le1 (catchAsync (handle r) s).1.

Lemma on_settings_le1 (w : World R) r :
  settings_le1 (w_settings w) -> settings_le1 (w_settings (on_settings w r).1).
Proof.
  intros Hw. unfold on_settings. pose proof (handle_le1 r _ Hw) as H.
  by destruct (catchAsync (handle r) (w_settings w)).
Qed.

(** Only the four settings handlers touch the setting document, and each
    keeps at most one. *)
Lemma exec_settings h v u q e p qs b (w : World R) :
  settings_le1 (w_settings w) ->
  settings_le1 (w_settings (exec cfg publicUrl rest_run h v u q e p qs b w).1).
Proof.
  intros Hw. destruct h; cbn [exec];
    rewrite ?on_auth_settings, ?on_keys_settings; try exact Hw;
    try (apply on_settings_le1; exact Hw);
    try (destruct u; [rewrite ?on_users_settings, ?on_auth_settings|]; exact Hw);
    destruct (rest_run _ _ _ _ _ _ _ _ _); exact Hw.
Qed.

Lemma route_run_settings q e r p qs b (w : World R) :
  settings_le1 (w_settings w) ->
  settings_le1 (w_settings (route_run cfg publicUrl rest_run q e r p qs b w).1).
Proof.
  intros Hw. unfold route_run.
  destruct (gate cfg (r_chain r) q false None _) as [g [v u|o]]; [apply exec_settings|]; exact Hw.
Qed.
End ServerSettings.

(** ** The state of the cabin, guest and booking controllers *)
Section ServerRest.
Context {CR : Crypto} {JW : Jwt} (cfg : Config) (publicUrl : string -> string) {R : Type}.
Context (rest_run : handler -> bool -> option User -> Req -> ReqEnv -> list string ->
                    list (string * qval) -> option json -> R -> R * outcome).
Context (P : R -> Prop).
Hypothesis rest_keeps : forall h v u q e p qs b r, P r -> P (rest_run h v u q e p qs b r).1.

Lemma exec_rest h v u q e p qs b (w : World R) :
  P (w_rest w) -> P (w_rest (exec cfg publicUrl rest_run h v u q e p qs b w).1).
Proof.
  intros Hw. destruct h; cbn [exec];
    try (unfold on_auth, on_users, on_keys, on_settings; repeat case_match; exact Hw);
    match goal with |- context [rest_run ?h] =>
      pose proof (rest_keeps h v u q e p qs b _ Hw); destruct (rest_run h _ _ _ _ _ _ _ _); assumption end.
Qed.

Lemma route_run_rest q e r p qs b (w : World R) :
  P (w_rest w) -> P (w_rest (route_run cfg publicUrl rest_run q e r p qs b w).1).
Proof.
  intros Hw. unfold route_run.
  destruct (gate cfg (r_chain r) q false None _) as [g [v u|o]]; [apply exec_rest|]; exact Hw.
Qed.
End ServerRest.

(** ** The route of [signup] *)

Lemma dispatch_some m p r :
  dispatch m p = Some r -> r ∈ routes /\ r_method r = m /\ path_matches (r_path r) p = true.
Proof.
  unfold dispatch. intros H. apply List.find_some in H as [Hin Hm].
  apply andb_prop in Hm as [Hm Hp]. apply bool_decide_eq_true in Hm.
  split_and!; [by apply list_elem_of_In|exact Hm|exact Hp].
Qed.

Definition signup_route : route :=
  mkRoute POST [Lit "users"; Lit "signup"] [MProtect; MRestrict managers] HSignup.

(** One route of the table runs [signup]. *)
Lemma signup_route_unique r : r ∈ routes -> r_handler r = HSignup -> r = signup_route.
Proof.
  intros Hr Hh. apply list_elem_of_In in Hr.
  repeat (destruct Hr as [<-|Hr]; [first [reflexivity|discriminate Hh]|]). destruct Hr.
Qed.

(** A pattern of literals matches exactly its own segments. *)
Lemma path_matches_lits ls p : path_matches (Lit <$> ls) p = true -> p = ls.
Proof.
  revert p. induction ls as [|l ls IH]; intros [|x p]; cbn; intros H; try discriminate; [done|].
  apply andb_prop in H as [Hx Hp]. apply String.eqb_eq in Hx as ->. by rewrite (IH p Hp).
Qed.

(** They are routed at [/settings] behind [protect] and
    [restrictTo('manager', 'admin')], for [POST], [PATCH] and [DELETE]. *)
Lemma settings_write_route r :
  r ∈ routes -> r_handler r ∈ settings_writes ->
  r_path r = Lit <$> ["settings"] /\ r_chain r = [MProtect; MRestrict managers] /\
  r_method r ∈ [POST; PATCH; DELETE].
Proof.
  intros Hr Hh. apply list_elem_of_In in Hr.
  assert (Hh' : r_handler r = HCreateSettings \/ r_handler r = HUpdateSettings \/ r_handler r = HDeleteSettings)
    by (apply list_elem_of_In in Hh; cbn in Hh; destruct_or! Hh; auto; contradiction).
  clear Hh.
  repeat (destruct Hr as [<-|Hr];
          [first [destruct_or! Hh'; discriminate
                 | split_and!; [reflexivity|reflexivity|apply list_elem_of_In; cbn; tauto]]|]).
  destruct Hr.
Qed.

Section ManagersGate.
Context {CR : Crypto} {JW : Jwt} (cfg : Config).

(** The chain [protect, restrictTo('manager', 'admin')] of [signup] and
    of the settings writes lets a request through only with a session of
    a manager or an administrator. *)
Lemma gate_managers q g g' v u :
  gate cfg [MProtect; MRestrict managers] q false None g = (g', Reached v u) ->
  exists a' me, protect_mw false (accessToken q) (now q) (g_auth g) = (a', (Next, Some me)) /\
                role me ∈ managers.
Proof.
  cbn [gate]. destruct (protect_mw false (accessToken q) (now q) (g_auth g)) as [a [o u']] eqn:E.
  destruct o; try discriminate. unfold restrictTo. destruct u' as [me|]; [|discriminate].
  case_bool_decide as Hr; [|discriminate]. intros _. eauto.
Qed.
End ManagersGate.

(** ** Properties of the whole server *)
Section ServerProofs.
Context {CR : Crypto} {JW : Jwt} (cfg : Config) (publicUrl : string -> string) {R : Type}.
Context (rest_run : handler -> bool -> option User -> Req -> ReqEnv -> list string ->
                    list (string * qval) -> option json -> R -> R * outcome).
Context (xss : string -> string) (lib_message : js_error -> string) (internals : js_error -> json).

Local Abbreviation nusers st := (length (users (u_auth (w_users (hstate st))))).

(** A route that does not run [signup] adds no user. *)
Lemma route_run_users q e r p qs b (w : World R) n :
  r_handler r <> HSignup -> users_le n (u_auth (w_users w)) ->
  users_le n (u_auth (w_users (route_run cfg publicUrl rest_run q e r p qs b w).1)).
Proof.
  intros Hh Hn. unfold route_run.
  pose proof (gate_users cfg (r_chain r) q false None (mkG (u_auth (w_users w)) (w_keys w))) as Hg.
  destruct (gate cfg (r_chain r) q false None _) as [g [v u|o]]; cbn in Hg |- *.
  - apply exec_users; [exact Hh|]. cbn. by rewrite Hg.
  - by rewrite Hg.
Qed.

(** A request either leaves the routers' state as it was ([cors], the
    limiter or the body parser answered, or no route matched) or runs the route
    [dispatch] found below [/api/v1] on it. *)
Lemma server_cases en a c e st :
  hstate (server cfg publicUrl rest_run xss en lib_message internals a c e st).1 = hstate st \/
  exists p r b, path a = "api" :: "v1" :: p /\ dispatch (meth a) p = Some r /\
    hstate (server cfg publicUrl rest_run xss en lib_message internals a c e st).1 =
      (route_run cfg publicUrl rest_run (req_of a c) e r p (sanitize_query xss (req_query a)) b (hstate st)).1.
Proof.
  unfold server, app_handle. case_bool_decide; [by left|].
  destruct (limiter (ip a) (at_ms a) (lstore st)) as [ls []]; [|by left].
  destruct (json_body (req_body a)) as [b|]; [|by left]. cbn [negb].
  match goal with |- context [mounted ?en ?lm ?it ?run a ?qs ?b' (hstate st)] =>
    destruct (mounted_cases lm it run en a qs b' (hstate st)) as [Hm | (p & r & Hp & Hd & Hm)];
    rewrite Hm end; [by left|].
  right. exists p, r, (sanitizeInput_j xss <$> (mongo_sanitize_j <$> b)). split_and!; [done|done|].
  by destruct (route_run _ _ _ _ _ _ _ _ _).
Qed.

(** C17: users are created only by a manager or an administrator: a
    request after which the server stores more users than before is a
    [POST /api/v1/users/signup] whose session cookie [protect] accepts
    for a user whose role is [manager] or [admin] (never self-service,
    never with an API key alone), whatever the rest of the request. *)
Theorem user_creation_privileged en a c e st :
  (nusers st < nusers (server cfg publicUrl rest_run xss en lib_message internals a c e st).1)%nat ->
  meth a = POST /\ path a = ["api"; "v1"; "users"; "signup"] /\
  exists a' me, protect_mw false (c_token c) (at_ms a) (u_auth (w_users (hstate st))) =
                  (a', (Next, Some me)) /\ role me ∈ managers.
Proof.
  destruct (server_cases en a c e st) as [-> | (p & r & b & Hp & Hd & ->)]; [lia|]. intros Hlt.
  destruct (dispatch_some _ _ _ Hd) as (Hin & Hmeth & Hpm).
  destruct (decide (r_handler r = HSignup)) as [Hs|Hs].
  2: { pose proof (route_run_users (req_of a c) e r p (sanitize_query xss (req_query a)) b (hstate st) _ Hs
                     (Nat.le_refl _)) as H. unfold users_le in H. lia. }
  pose proof (signup_route_unique r Hin Hs) as ->.
  apply (path_matches_lits ["users"; "signup"]) in Hpm as ->.
  split_and!; [by rewrite <- Hmeth|exact Hp|]. revert Hlt. unfold route_run.
  pose proof (gate_users cfg (r_chain signup_route) (req_of a c) false None
                (mkG (u_auth (w_users (hstate st))) (w_keys (hstate st)))) as Hu.
  destruct (gate cfg (r_chain signup_route) _ false None _) as [g [v u|o]] eqn:Hg; intros Hlt.
  - exact (gate_managers cfg _ _ _ _ _ Hg).
  - cbn in *. rewrite Hu in Hlt. lia.
Qed.

(** C5. The setting document is changed only by a manager or an
    administrator: a request after which it differs is a [POST], [PATCH]
    or [DELETE] of [/api/v1/settings] whose session cookie [protect]
    accepts for a user whose role is [manager] or [admin]; a demo or staff
    session, an API key or an anonymous request never changes it. *)
Theorem settings_write_privileged en a c e st :
  w_settings (hstate (server cfg publicUrl rest_run xss en lib_message internals a c e st).1) <>
    w_settings (hstate st) ->
  meth a ∈ [POST; PATCH; DELETE] /\ path a = ["api"; "v1"; "settings"] /\
  exists a' me, protect_mw false (c_token c) (at_ms a) (u_auth (w_users (hstate st))) =
                  (a', (Next, Some me)) /\ role me ∈ managers.
Proof.
  destruct (server_cases en a c e st) as [-> | (p & r & b & Hp & Hd & ->)]; [done|]. intros Hne.
  destruct (dispatch_some _ _ _ Hd) as (Hin & Hmeth & Hpm). unfold route_run in Hne.
  destruct (gate cfg (r_chain r) _ false None _) as [g [v u|o]] eqn:Hg; [|cbn in Hne; congruence].
  destruct (decide (r_handler r ∈ settings_writes)) as [Hw|Hw].
  2: { rewrite exec_settings_same in Hne by exact Hw. cbn in Hne. congruence. }
  destruct (settings_write_route r Hin Hw) as (Hpath & Hchain & Hm).
  rewrite Hpath in Hpm. apply path_matches_lits in Hpm as ->.
  split_and!; [by rewrite <- Hmeth|exact Hp|]. rewrite Hchain in Hg. exact (gate_managers cfg _ _ _ _ _ Hg).
Qed.

(** One request through the server, whatever its client, credentials
    and environment. *)
Inductive server_step (en : env) : AppState (World R) -> AppState (World R) -> Prop :=
| server_step_req a c e st :
    server_step en st (server cfg publicUrl rest_run xss en lib_message internals a c e st).1.

(** A property of the routers' state that every route keeps holds in
    every state any sequence of requests reaches. *)
Lemma server_reachable_inv (Q : World R -> Prop) en st st' :
  (forall r p qs b w q e, Q w -> Q (route_run cfg publicUrl rest_run q e r p qs b w).1) ->
  Q (hstate st) -> rtc (server_step en) st st' -> Q (hstate st').
Proof.
  intros Hq Hs Hr. induction Hr as [st|st1 st2 st3 Hstep _ IH]; [exact Hs|].
  apply IH. destruct Hstep as [a c e st]. unfold server.
  apply (app_handle_preserves xss lib_message internals _ Q); [|exact Hs]. auto.
Qed.

(** C25: the setting document is a singleton under the whole server:
    from routers' state with at most one setting document, every state
    that any sequence of requests (any route, any credentials, the rate
    limiter, the body parser and the 404 included) reaches has at most
    one. *)
Theorem server_settings_singleton en st st' :
  settings_le1 (w_settings (hstate st)) -> rtc (server_step en) st st' ->
  settings_le1 (w_settings (hstate st')).
Proof.
  apply (server_reachable_inv (fun w => settings_le1 (w_settings w))). intros r p qs b w q e.
  apply route_run_settings, handle_singleton.
Qed.

(** What the cabin, guest and booking controllers keep of their own
    state the whole server keeps: under any sequence of requests, the
    other routes, the middleware stack, the limiter and the 404 leave it
    alone. *)
Theorem server_rest_preserves (P : R -> Prop) en st st' :
  (forall h v u q e p qs b r, P r -> P (rest_run h v u q e p qs b r).1) ->
  P (w_rest (hstate st)) -> rtc (server_step en) st st' -> P (w_rest (hstate st')).
Proof.
  intros Hk. apply (server_reachable_inv (fun w => P (w_rest w))). intros r p qs b w q e.
  exact (route_run_rest cfg publicUrl rest_run P Hk q e r p qs b w).
Qed.
End ServerProofs.

Module ServerFixture.
Import AuthFixture App.AppFixture.
#[local] Existing Instance AuthFixture.toy_crypto.
#[local] Existing Instance AuthFixture.toy_jwt.

Definition url0 (p : string) : string := ("https://storage.test/" ++ p)%string.
Definition rest0 (h : handler) (v : bool) (u : option User) (q : Req) (e : ReqEnv) (p : list string)
  (qs : list (string * qval)) (b : option json) (r : unit) : unit * outcome := (r, Respond 200 JNull).

Definition world0 : World unit := mkW (mkU st0 []) (mkK [] 0) (mkS [] 0) tt.
Definition app_st0 : AppState (World unit) := mkApp ∅ world0.

(** Alice, a manager, signs Bob up with her session cookie. *)
Definition signup_req : AppReq :=
  {| ip := "10.0.0.2"; meth := POST; originalUrl := "/api/v1/users/signup";
     path := ["api"; "v1"; "users"; "signup"]; req_query := [];
     req_body := JsonBody 120 (Ok (JObj [("fullName", JStr "Bob Stone"); ("email", JStr "bob@oasis.test");
                                          ("password", JStr "password-123");
                                          ("passwordConfirm", JStr "password-123")]));
     at_ms := 1700000000000 |}.
Definition alice_session : Creds :=
  {| c_key := None; c_token := Some (signToken cfg0 (u_id alice) 1699999990000); c_field := None |}.
Definition env0 : ReqEnv := {| rnd := "rnd"; salt := "salt"; delivered := true; uploadOk := true; file := None |}.

Lemma user_creation_privileged_witness :
  (length (users (u_auth (w_users (hstate app_st0)))) <
   length (users (u_auth (w_users (hstate (server cfg0 url0 rest0 xss_id Production lm0 int0
                                             signup_req alice_session env0 app_st0).1)))))%nat /\
  meth signup_req = POST.
Proof.
  assert (H : (length (users (u_auth (w_users (hstate app_st0)))) <
               length (users (u_auth (w_users (hstate (server cfg0 url0 rest0 xss_id Production lm0 int0
                                             signup_req alice_session env0 app_st0).1)))))%nat)
    by (vm_compute; lia).
  split; [exact H|exact (proj1 (user_creation_privileged cfg0 url0 rest0 xss_id lm0 int0 Production
                                  signup_req alice_session env0 app_st0 H))].
Defined.
(** Alice creates the setting document, then creates it again. *)
Definition settings_req : AppReq :=
  {| ip := "10.0.0.2"; meth := POST; originalUrl := "/api/v1/settings";
     path := ["api"; "v1"; "settings"]; req_query := [];
     req_body := JsonBody 100 (Ok (JObj [("minBookingLength", JNum 3); ("maxBookingLength", JNum 30);
                                         ("maxGuestsPerBooking", JNum 8); ("breakfastPrice", JNum 15)]));
     at_ms := 1700000000000 |}.

Definition serve (st : AppState (World unit)) : AppState (World unit) :=
  (server cfg0 url0 rest0 xss_id Production lm0 int0 settings_req alice_session env0 st).1.

Lemma server_settings_singleton_witness :
  settings_le1 (w_settings (hstate app_st0)) /\
  settings_le1 (w_settings (hstate (serve (serve app_st0)))) /\
  length (settings (w_settings (hstate (serve app_st0)))) = 1%nat.
Proof.
  assert (H0 : settings_le1 (w_settings (hstate app_st0))) by (unfold settings_le1; vm_compute; lia).
  split_and!; [exact H0| |vm_compute; reflexivity].
  apply (server_settings_singleton cfg0 url0 rest0 xss_id lm0 int0 Production app_st0); [exact H0|].
  eapply rtc_l; [apply server_step_req|]. eapply rtc_l; [apply server_step_req|]. apply rtc_refl.
Defined.

Lemma settings_write_privileged_witness :
  w_settings (hstate (serve app_st0)) <> w_settings (hstate app_st0) /\ meth settings_req ∈ [POST; PATCH; DELETE].
Proof.
  assert (H : w_settings (hstate (serve app_st0)) <> w_settings (hstate app_st0)) by (vm_compute; congruence).
  split; [exact H|exact (proj1 (settings_write_privileged cfg0 url0 rest0 xss_id lm0 int0 Production
                                  settings_req alice_session env0 app_st0 H))].
Defined.

(** Bob, a staff member with a session, cannot create the setting
    document: 403 in production, the document unchanged. *)
Definition bob_staff : User := {|
  u_id := 1; fullName := "Bob Stone"; email := "bob@oasis.test"; avatar := default_avatar;
  role := Staff; password := password alice; passwordChangedAt := None;
  isEmailVerified := true; isActive := true; passwordResetToken := None;
  passwordResetExpires := None; emailVerificationToken := None;
  emailVerificationExpires := None; lastSignIn := None |}.

Definition staff_world : AppState (World unit) :=
  mkApp ∅ (mkW (mkU (mkAuth [alice; bob_staff] 2 [] None) []) (mkK [] 0) (mkS [] 0) tt).

Definition bob_session : Creds :=
  {| c_key := None; c_token := Some (signToken cfg0 1 1699999990000); c_field := None |}.

Example staff_settings_forbidden :
  let '(st', o) := server cfg0 url0 rest0 xss_id Production lm0 int0 settings_req bob_session env0 staff_world in
  w_settings (hstate st') = w_settings (hstate staff_world) /\
  o = Respond 403 (JObj [("status", JStr "fail");
                         ("message", JStr "You do not have permission to perform this action")]).
Proof. vm_compute. split; reflexivity. Qed.
End ServerFixture.
