(* ===== verification/Startup.v ===== *)
(** * Start-up ([src/src/server.ts], [src/src/services/mongo.ts])

    Importing [config.ts] validates the environment and throws when it
    does not pass, before [startServer] runs: the process dies with that
    error.  [startServer] logs, connects to MongoDB, builds the app and
    the HTTP server and listens on [config.hostname] and [config.port];
    its [try]/[catch] logs whatever the connection or [listen] throws
    synchronously, and the process goes on without a server.  What the
    MongoDB driver answers for a URL and whether the address can be bound
    are inputs; Node's port check of [server.listen] (an integer from 0 to
    65535, else a synchronous [RangeError] with code
    [ERR_SOCKET_BAD_PORT]) is written out.  A bind that fails is reported
    through the server's ['error'] event, for which nothing listens: the
    process crashes.  [./logger] is not in the repository, so a log line
    is kept as its level and payload. *)

From Stdlib Require Import QArith.
From S2P Require Import Prelude JsValue AppError Config.

Local Open Scope Z_scope.

(** [mongoConnect()]: [mongoose.connect(config.mongoose.url, ...)]. *)
Definition mongoConnect (connect : string -> res js_error unit) (c : ConfigObj) : res js_error unit :=
  connect (c_mongooseUrl c).

(** [logger.info(message)] and [logger.error(err)]. *)
Inductive log_entry := LogInfo (msg : string) | LogError (err : js_error).

(** After [startServer]: listening, no server, or crashed by the
    unhandled ['error'] event of the HTTP server. *)
Inductive boot := Listening (hostname : string) (port : Z) | NoServer | Crashed.

(** Node's [validatePort] for [listen]: an integral number from 0 to
    65535. *)
Definition listen_port (p : Q) : option Z :=
  match q_int p with Some z => if (0 <=? z) && (z <=? 65535) then Some z else None | None => None end.

(** The [RangeError] [listen] throws on a bad port (its code; the text of
    its message is Node's). *)
Definition bad_port : js_error := EOther "RangeError" "ERR_SOCKET_BAD_PORT".

Definition connecting : log_entry := LogInfo "Trying to establish a connection with MongoDB...".
Definition connected : log_entry := LogInfo "Connected to MongoDB!".
Definition running (h : string) (p : Z) : log_entry :=
  LogInfo ("Server running at http://" ++ h ++ ":" ++ z_to_string p)%string.

(** [startServer()]: the log lines written and the state it leaves. *)
Definition startServer (connect : string -> res js_error unit) (bind : string -> Z -> bool)
           (c : ConfigObj) : list log_entry * boot :=
  match mongoConnect connect c with
  | Throw e => ([connecting; LogError e], NoServer)
  | Ok _ =>
      match listen_port (c_port c) with
      | None => ([connecting; connected; LogError bad_port], NoServer)
      | Some p =>
          if bind (c_hostname c) p
          then ([connecting; connected; running (c_hostname c) p], Listening (c_hostname c) p)
          else ([connecting; connected], Crashed)
      end
  end.

(** The process: [config.ts] at import, then [void startServer()];
    [Throw m] is the process dying with [m]. *)
Definition main (joi_number : string -> res string Q) (e : Env) (connect : string -> res js_error unit)
           (bind : string -> Z -> bool) : res string (list log_entry * boot) :=
  match load_config joi_number e with
  | Throw m => Throw m
  | Ok c => Ok (startServer connect bind c)
  end.

(** ** What a start does *)

Section Start.
Context (joi_number : string -> res string Q) (connect : string -> res js_error unit)
        (bind : string -> Z -> bool).

Lemma listen_port_range p z : listen_port p = Some z -> 0 <= z <= 65535.
Proof.
  unfold listen_port. destruct (q_int p) as [y|]; [|discriminate].
  destruct (Z.leb_spec 0 y), (Z.leb_spec y 65535); cbn; intros Hy; try discriminate. injection Hy as <-. lia.
Qed.

(** The server listens exactly when the configuration loads, the
    database answers, the port is one Node accepts and the address can be
    bound; it then listens on [config.hostname] and [config.port], and
    the log holds the three information lines. *)
Theorem main_listening e logs h p :
  main joi_number e connect bind = Ok (logs, Listening h p) <->
  exists c, load_config joi_number e = Ok c /\ connect (c_mongooseUrl c) = Ok tt /\
    listen_port (c_port c) = Some p /\ bind h p = true /\ h = c_hostname c /\
    logs = [connecting; connected; running h p].
Proof.
  unfold main, startServer, mongoConnect. split.
  - destruct (load_config joi_number e) as [c|] eqn:Hc; [|discriminate].
    destruct (connect (c_mongooseUrl c)) as [[]|] eqn:Hd; [|discriminate].
    destruct (listen_port (c_port c)) as [z|] eqn:Hp; [|discriminate].
    destruct (bind (c_hostname c) z) eqn:Hb; [|discriminate].
    intros [= <- <- <-]. exists c. by split_and!.
  - intros (c & -> & -> & -> & Hb & -> & ->). by rewrite Hb.
Qed.

(** A database that does not answer stops nothing: the error is logged,
    no server is created, and the process neither exits nor is refused. *)
Theorem main_db_failure e c err :
  load_config joi_number e = Ok c -> connect (c_mongooseUrl c) = Throw err ->
  main joi_number e connect bind = Ok ([connecting; LogError err], NoServer).
Proof. intros Hc He. unfold main, startServer, mongoConnect. by rewrite Hc, He. Qed.

(** A port Node does not accept passes the configuration (Joi only asks
    for a number), and [listen] throws inside the [try]: the error is
    logged and no server is created. *)
Theorem main_bad_port e c :
  load_config joi_number e = Ok c -> connect (c_mongooseUrl c) = Ok tt -> listen_port (c_port c) = None ->
  main joi_number e connect bind = Ok ([connecting; connected; LogError bad_port], NoServer).
Proof. intros Hc He Hp. unfold main, startServer, mongoConnect. by rewrite Hc, He, Hp. Qed.
End Start.

Module StartupFixture.
Import ConfigFixture.

Definition db_up (url : string) : res js_error unit :=
  if String.eqb url "mongodb://db/oasis" then Ok tt else Throw (EOther "MongoServerSelectionError" "down").
Definition bind_all (h : string) (p : Z) : bool := true.

Definition config_of_env (e : Env) : ConfigObj :=
  match load_config jn0 e with Ok c => c | Throw _ => config_of [] end.

(** The environment of the configuration's fixture starts a server. *)
Example start_ok :
  main jn0 env0 db_up bind_all = Ok ([connecting; connected; running "0.0.0.0" 3000], Listening "0.0.0.0" 3000).
Proof. vm_compute. reflexivity. Qed.

(** [PORT=70000] loads and leaves the process without a server. *)
Definition env_bad_port : Env := ("PORT", "70000") :: env_remove "PORT" env0.

Lemma main_bad_port_witness :
  main jn0 env_bad_port db_up bind_all = Ok ([connecting; connected; LogError bad_port], NoServer).
Proof.
  apply (main_bad_port jn0 db_up bind_all env_bad_port (config_of_env env_bad_port));
    vm_compute; reflexivity.
Defined.

Lemma main_db_failure_witness :
  main jn0 (("MONGODB_URL", "mongodb://elsewhere") :: env_remove "MONGODB_URL" env0) db_up bind_all =
    Ok ([connecting; LogError (EOther "MongoServerSelectionError" "down")], NoServer).
Proof.
  apply (main_db_failure jn0 db_up bind_all _
           (config_of_env (("MONGODB_URL", "mongodb://elsewhere") :: env_remove "MONGODB_URL" env0)));
    vm_compute; reflexivity.
Defined.
End StartupFixture.
